(** * KPTools Expansion Airdrop Loot Builder: the document-editing core

    A shallow embedding of the two application variants
    (ExpansionAirdropLootBuilder_v1_8.py and ExpansionAirdropLootBuilder_v2_0.py)
    and the properties of their staged document-editing model.

    Python objects live in an explicit store: dicts and lists are
    addressed by location, so that aliasing, in-place mutation and the
    deep copy [json.loads(json.dumps(x))] are what they are in the source.
    Widgets are reduced to the values the handlers read from them
    (the [var_*] fields) and to the notices the handlers raise. *)

From Stdlib Require Import ZArith String Ascii List Lia Bool.
From Stdlib Require Import Floats.PrimFloat Floats.SpecFloat Floats.FloatOps.
From Stdlib Require Import Numbers.Cyclic.Int63.Uint63.
From Stdlib Require Import DecimalString.
From stdpp Require Import base option list gmap strings.

Local Open Scope string_scope.
Local Open Scope list_scope.

(** ** Python values and the object store *)

Module Py.

Abbreviation loc := nat (only parsing).

(** Scalars are immediate; dicts and lists are references into the store. *)
Inductive value : Type :=
| VNone
| VBool (b : bool)
| VInt (n : Z)
| VFloat (f : float)
| VStr (s : string)
| VRef (l : loc).

(** A dict keeps its keys in insertion order, as Python's does. *)
Inductive object : Type :=
| ODict (d : list (string * value))
| OList (xs : list value).

Abbreviation pydict := (list (string * value)) (only parsing).
Abbreviation heap := (list object) (only parsing).

(** *** dict operations, on insertion-ordered association lists *)

Section Dict.
Context {K V : Type} `{EqDecision K}.

(** [d.get(k)] with no default; [Some] exactly when [k in d]. *)
Fixpoint dict_get (d : list (K * V)) (k : K) : option V :=
  match d with
  | [] => None
  | (k', v) :: r => if decide (k' = k) then Some v else dict_get r k
  end.

(** [k in d] *)
Definition dict_mem (d : list (K * V)) (k : K) : bool :=
  bool_decide (is_Some (dict_get d k)).

(** [d.get(k, dflt)] *)
Definition dict_get_or (d : list (K * V)) (k : K) (dflt : V) : V :=
  default dflt (dict_get d k).

(** [d[k] = v]: an existing key keeps its position, a new key goes last. *)
Fixpoint dict_set (d : list (K * V)) (k : K) (v : V) : list (K * V) :=
  match d with
  | [] => [(k, v)]
  | (k', v') :: r =>
      if decide (k' = k) then (k', v) :: r else (k', v') :: dict_set r k v
  end.

(** [d.pop(k, None)], the popped value dropped. *)
Fixpoint dict_pop (d : list (K * V)) (k : K) : list (K * V) :=
  match d with
  | [] => []
  | (k', v') :: r =>
      if decide (k' = k) then r else (k', v') :: dict_pop r k
  end.

(** [d.setdefault(k, v)], returning the dict only. *)
Definition dict_setdefault (d : list (K * V)) (k : K) (v : V) : list (K * V) :=
  match dict_get d k with
  | Some _ => d
  | None => dict_set d k v
  end.
End Dict.

(** *** Store access *)

Definition alloc (h : heap) (o : object) : heap * loc := (h ++ [o], length h).

Definition as_dict (h : heap) (v : value) : option pydict :=
  match v with
  | VRef l => match h !! l with Some (ODict d) => Some d | _ => None end
  | _ => None
  end.

Definition as_list (h : heap) (v : value) : option (list value) :=
  match v with
  | VRef l => match h !! l with Some (OList xs) => Some xs | _ => None end
  | _ => None
  end.

(** [isinstance(v, dict)] and [isinstance(v, list)] *)
Definition is_dict (h : heap) (v : value) : bool := bool_decide (is_Some (as_dict h v)).
Definition is_list (h : heap) (v : value) : bool := bool_decide (is_Some (as_list h v)).

(** Python truthiness, as used by [if not x] and [x or y]. *)
Definition truthy (h : heap) (v : value) : bool :=
  match v with
  | VNone => false
  | VBool b => b
  | VInt n => negb (n =? 0)%Z
  | VFloat f => negb (PrimFloat.eqb f 0%float)
  | VStr s => negb (bool_decide (s = ""))
  | VRef l =>
      match h !! l with
      | Some (ODict d) => negb (bool_decide (d = []))
      | Some (OList xs) => negb (bool_decide (length xs = 0))
      | None => true
      end
  end.

(** [a or b] *)
Definition py_or (h : heap) (a b : value) : value := if truthy h a then a else b.

(** [xs[i]] for a Python int [i]: negative indices count from the end,
    anything else out of range raises ([None]). *)
Definition getitem {A} (xs : list A) (i : Z) : option A :=
  if bool_decide (0 ≤ i < Z.of_nat (length xs))%Z then xs !! Z.to_nat i
  else if bool_decide (- Z.of_nat (length xs) ≤ i < 0)%Z
       then xs !! Z.to_nat (Z.of_nat (length xs) + i)
       else None.

(** [xs.pop(i)] / [del xs[i]], with the same index rule. *)
Definition delitem {A} (xs : list A) (i : Z) : option (list A) :=
  if bool_decide (0 ≤ i < Z.of_nat (length xs))%Z then Some (delete (Z.to_nat i) xs)
  else if bool_decide (- Z.of_nat (length xs) ≤ i < 0)%Z
       then Some (delete (Z.to_nat (Z.of_nat (length xs) + i)) xs)
       else None.

(** Value equality as Python's [==] decides it between a string and a
    stored value: only a string equals a string. *)
Definition value_is_str (v : value) (s : string) : bool :=
  match v with
  | VStr s' => bool_decide (s' = s)
  | _ => false
  end.

(** A dict or a list is unhashable: putting one into a set raises. *)
Definition hashable (v : value) : bool :=
  match v with
  | VRef _ => false
  | _ => true
  end.

End Py.
Export Py.

(** ** JSON trees and the deep copy [json.loads(json.dumps(x))] *)

Module Json.

Unset Elimination Schemes.
Inductive json : Type :=
| JNull
| JBool (b : bool)
| JInt (n : Z)
| JFloat (f : float)
| JStr (s : string)
| JArr (xs : list json)
| JObj (kvs : list (string * json)).
Set Elimination Schemes.

(** Induction with the hypothesis available for every element of an
    array and every member of an object. *)
Section JsonInd.
Variable P : json → Prop.
Hypothesis Hnull : P JNull.
Hypothesis Hbool : ∀ b, P (JBool b).
Hypothesis Hint : ∀ n, P (JInt n).
Hypothesis Hfloat : ∀ f, P (JFloat f).
Hypothesis Hstr : ∀ s, P (JStr s).
Hypothesis Harr : ∀ xs, Forall P xs → P (JArr xs).
Hypothesis Hobj : ∀ kvs, Forall (λ kv, P kv.2) kvs → P (JObj kvs).

Fixpoint json_ind (j : json) : P j :=
  match j with
  | JNull => Hnull
  | JBool b => Hbool b
  | JInt n => Hint n
  | JFloat f => Hfloat f
  | JStr s => Hstr s
  | JArr xs =>
      Harr xs ((fix go (l : list json) : Forall P l :=
                  match l with
                  | [] => Forall_nil_2 P
                  | x :: r => Forall_cons_2 P x r (json_ind x) (go r)
                  end) xs)
  | JObj kvs =>
      Hobj kvs ((fix go (l : list (string * json)) : Forall (λ kv, P kv.2) l :=
                   match l with
                   | [] => Forall_nil_2 _
                   | kv :: r => Forall_cons_2 (λ kv, P kv.2) kv r (json_ind kv.2) (go r)
                   end) kvs)
  end.
End JsonInd.

(** [json.dumps]: read the object graph under [v] into a tree.  The
    encoder follows references; [fuel] bounds the nesting depth. *)
Fixpoint dumps_fuel (fuel : nat) (h : heap) (v : value) : option json :=
  match v with
  | VNone => Some JNull
  | VBool b => Some (JBool b)
  | VInt n => Some (JInt n)
  | VFloat f => Some (JFloat f)
  | VStr s => Some (JStr s)
  | VRef l =>
      match fuel with
      | O => None
      | S k =>
          match h !! l with
          | Some (OList xs) => JArr <$> mapM (dumps_fuel k h) xs
          | Some (ODict d) =>
              JObj <$> mapM (λ kv, pair kv.1 <$> dumps_fuel k h kv.2) d
          | None => None
          end
      end
  end.

(** An acyclic graph in a store of [n] objects nests at most [n] deep, so
    [S n] levels read all of it; a cyclic one makes Python raise
    ("Circular reference detected"), here [None]. *)
Definition json_dumps (h : heap) (v : value) : option json :=
  dumps_fuel (S (length h)) h v.

(** [json.loads]: build fresh objects from a tree, children first. *)
Fixpoint loads (j : json) (h : heap) : heap * value :=
  match j with
  | JNull => (h, VNone)
  | JBool b => (h, VBool b)
  | JInt n => (h, VInt n)
  | JFloat f => (h, VFloat f)
  | JStr s => (h, VStr s)
  | JArr xs =>
      let '(h1, vs) :=
        (fix go (l : list json) (h0 : heap) : heap * list value :=
           match l with
           | [] => (h0, [])
           | x :: r =>
               let '(h1, v) := loads x h0 in
               let '(h2, vs) := go r h1 in
               (h2, v :: vs)
           end) xs h in
      (h1 ++ [OList vs], VRef (length h1))
  | JObj kvs =>
      let '(h1, d) :=
        (fix go (l : list (string * json)) (h0 : heap) : heap * pydict :=
           match l with
           | [] => (h0, [])
           | kv :: r =>
               let '(h1, v) := loads kv.2 h0 in
               let '(h2, d) := go r h1 in
               (h2, (kv.1, v) :: d)
           end) kvs h in
      (h1 ++ [ODict d], VRef (length h1))
  end.

(** The two inner loops, named, for stating lemmas about them. *)
Fixpoint loads_list (l : list json) (h0 : heap) : heap * list value :=
  match l with
  | [] => (h0, [])
  | x :: r =>
      let '(h1, v) := loads x h0 in
      let '(h2, vs) := loads_list r h1 in
      (h2, v :: vs)
  end.

Fixpoint loads_members (l : list (string * json)) (h0 : heap) : heap * pydict :=
  match l with
  | [] => (h0, [])
  | kv :: r =>
      let '(h1, v) := loads kv.2 h0 in
      let '(h2, d) := loads_members r h1 in
      (h2, (kv.1, v) :: d)
  end.

(** [json.loads(json.dumps(v))] *)
Definition deep_copy (h : heap) (v : value) : option (heap * value) :=
  j ← json_dumps h v; Some (loads j h).

End Json.
Export Json.

(** ** What the handlers take from the Python runtime and the host

    The string and number builtins, the XML and JSON codecs and the file
    system are not code of this repository.  They are interfaces here;
    every theorem below holds for any implementation of them, and the
    [Sample] module gives one that computes, for evaluating the handlers
    on concrete inputs. *)

Module Env.

Class Builtins := {
  str_lower : string → string;            (* str.lower() *)
  str_strip : string → string;            (* str.strip() *)
  float_of_str : string → option float;   (* float(s); None when it raises *)
  int_of_float : float → option Z;        (* int(x), x a float; None on inf/nan *)
  int_of_str : string → option Z;         (* int(s); None when it raises *)
  repr : list object → value → string;    (* str(x) for x that is not a str *)
  json_text : json → string;              (* the text json.dump(.., indent=2) writes *)
  json_partial_text : list object → value → string;
                                          (* what is on disk when json.dump raises midway *)
  basename : string → string;             (* os.path.basename *)
  path_join : string → string → string;   (* os.path.join *)
}.

(** One [<type>] element of a types.xml file, as ElementTree shows it:
    the [name] attribute, the text of the first [category], [nominal]
    and [min] children, and the text of every [tag] child. *)
Record type_elem := {
  te_name : option string;
  te_category : option string;
  te_nominal : option string;
  te_min : option string;
  te_tags : list (option string);
}.

Class Host := {
  disk : Type;
  (* shutil.copy2(src, dst): the disk afterwards, and whether it returned *)
  fs_copy2 : disk → string → string → disk * bool;
  (* open(path, "w"): the file created or emptied; None when it raises *)
  fs_open_w : disk → string → option disk;
  (* f.write(text) and the close: the disk afterwards, and whether it returned *)
  fs_write : disk → string → string → disk * bool;
  (* json.load(open(path)); None when opening or parsing raises *)
  fs_read_json : disk → string → option json;
  (* os.walk(folder): every (directory, file name) under it, in walk order *)
  fs_walk : disk → string → list (string * string);
  (* ET.parse(path).getroot().findall("type"); None when parsing raises *)
  xml_types : disk → string → option (list type_elem);
}.

End Env.
Export Env.

(** ** Handlers as state-and-exception computations

    A handler runs on the application state; an exception that nothing
    catches ends it and leaves the state as it was at the raise, which is
    what the Tk event loop does with a failing callback. *)

Module Exec.

Inductive outcome (St A : Type) : Type :=
| Ret (a : A) (s : St)
| Exn (s : St).
Arguments Ret {St A} a s.
Arguments Exn {St A} s.

Definition M (St A : Type) : Type := St → outcome St A.

Definition ret {St A} (a : A) : M St A := λ s, Ret a s.
Definition raise {St A} : M St A := λ s, Exn s.
Definition bind {St A B} (m : M St A) (k : A → M St B) : M St B :=
  λ s, match m s with
       | Ret a s' => k a s'
       | Exn s' => Exn s'
       end.
Definition gets {St A} (f : St → A) : M St A := λ s, Ret (f s) s.
Definition modify {St} (f : St → St) : M St unit := λ s, Ret tt (f s).
Definition lift {St A} (o : option A) : M St A :=
  match o with
  | Some a => ret a
  | None => raise
  end.

(** [try: m  except Exception: handler] *)
Definition try_except {St A} (m : M St A) (handler : M St A) : M St A :=
  λ s, match m s with
       | Ret a s' => Ret a s'
       | Exn s' => handler s'
       end.

(** The state a handler leaves behind, however it ended. *)
Definition final {St A} (o : outcome St A) : St :=
  match o with
  | Ret _ s => s
  | Exn s => s
  end.

Definition returned {St A} (o : outcome St A) : bool :=
  match o with
  | Ret _ _ => true
  | Exn _ => false
  end.

Declare Scope exec_scope.
Delimit Scope exec_scope with exec.
Notation "'let!' x ':=' m 'in' k" := (bind m (λ x, k))
  (at level 10, x pattern, m at level 100, k at level 200) : exec_scope.
Notation "m ';;' k" := (bind m (λ _, k))
  (at level 100, k at level 200, right associativity) : exec_scope.

(** [for x in xs: body x] *)
Fixpoint for_each {St A} (xs : list A) (body : A → M St unit) : M St unit :=
  match xs with
  | [] => ret tt
  | x :: r => bind (body x) (λ _, for_each r body)
  end.

(** [[f x for x in xs]] *)
Fixpoint map_each {St A B} (xs : list A) (f : A → M St B) : M St (list B) :=
  match xs with
  | [] => ret []
  | x :: r => bind (f x) (λ y, bind (map_each r f) (λ ys, ret (y :: ys)))
  end.

End Exec.
Export Exec.
Local Open Scope exec_scope.

(** ** Shared helpers of both variants *)

Module Common.

Inductive severity := Info | Warning | Error.

(** A [messagebox.show*] call: its kind and title. *)
Record notice := Notice { n_kind : severity; n_title : string }.

(** Form variables shared by both variants. *)
Record settings_vars := {
  var_item_count : string;
  var_infected_count : string;
  var_infected_enabled : bool;
}.

Record editor_vars := {
  var_name : string;
  var_chance : string;
  var_min : string;
  var_max : string;
  var_qty : string;
}.

(** [_clear_editor] / [_clear_loot_editor] *)
Definition cleared_editor : editor_vars :=
  {| var_name := ""; var_chance := ""; var_min := ""; var_max := ""; var_qty := "" |}.

(** The double that Python reads from the literals [0.10] and [0.1]. *)
Definition float_0_1 : float := 0x1.999999999999ap-4%float.

(** [s.endswith(suffix)] *)
Definition ends_with (s suffix : string) : bool :=
  let n := String.length s in
  let m := String.length suffix in
  (m <=? n)%nat && bool_decide (String.substring (n - m) m s = suffix).

(** [q in x], for two strings *)
Fixpoint str_contains (q x : string) : bool :=
  String.prefix q x ||
  match x with
  | EmptyString => false
  | String _ r => str_contains q r
  end.

Definition is_none (v : value) : bool :=
  match v with
  | VNone => true
  | _ => false
  end.

(** [f"{n}"] for a list position *)
Definition str_of_nat (n : nat) : string := NilEmpty.string_of_uint (Nat.to_uint n).

(** A Python [set] of strings, as the list of its members in insertion
    order.  CPython iterates a set in hash order; the two orders can differ
    only in how [sorted] places names that are equal up to case. *)
Definition set_add (xs : list string) (x : string) : list string :=
  if bool_decide (x ∈ xs) then xs else xs ++ [x].

Definition set_of (xs : list string) : list string := foldl set_add [] xs.

(** The application state holds the object store. *)
Class Store (St : Type) := {
  get_heap : St → list object;
  put_heap : list object → St → St;
}.

Section Objects.
Context {St : Type} `{Store St}.

(** A dict or list display: a new object. *)
Definition py_new (o : object) : M St value :=
  λ s, let h := get_heap s in Ret (VRef (length h)) (put_heap (h ++ [o]) s).

Definition py_dict_of (c : value) : M St (list (string * value)) :=
  λ s, lift (as_dict (get_heap s) c) s.

Definition py_list_of (c : value) : M St (list value) :=
  λ s, lift (as_list (get_heap s) c) s.

Definition py_truthy (v : value) : M St bool := gets (λ s, truthy (get_heap s) v).
Definition py_is_dict (v : value) : M St bool := gets (λ s, is_dict (get_heap s) v).
Definition py_is_list (v : value) : M St bool := gets (λ s, is_list (get_heap s) v).

Definition store_at (l : nat) (o : object) : M St unit :=
  modify (λ s, put_heap (<[l := o]> (get_heap s)) s).

(** [c[k]] on a dict: KeyError when absent *)
Definition py_item (c : value) (k : string) : M St value :=
  let! d := py_dict_of c in lift (dict_get d k).

(** [c.get(k, dflt)] *)
Definition py_get (c : value) (k : string) (dflt : value) : M St value :=
  let! d := py_dict_of c in ret (dict_get_or d k dflt).

(** [k in c], for a dict [c] *)
Definition py_has (c : value) (k : string) : M St bool :=
  let! d := py_dict_of c in ret (dict_mem d k).

(** [c[k] = v] *)
Definition py_setitem (c : value) (k : string) (v : value) : M St unit :=
  match c with
  | VRef l => let! d := py_dict_of c in store_at l (ODict (dict_set d k v))
  | _ => raise
  end.

(** [c.pop(k, None)] *)
Definition py_popkey (c : value) (k : string) : M St unit :=
  match c with
  | VRef l => let! d := py_dict_of c in store_at l (ODict (dict_pop d k))
  | _ => raise
  end.

(** [c.setdefault(k, v)], its result dropped *)
Definition py_setdefault (c : value) (k : string) (v : value) : M St unit :=
  match c with
  | VRef l => let! d := py_dict_of c in store_at l (ODict (dict_setdefault d k v))
  | _ => raise
  end.

(** [len(xs)]: lists, dicts and strings have one. *)
Definition py_len (xs : value) : M St Z :=
  λ s, match xs with
       | VStr t => Ret (Z.of_nat (String.length t)) s
       | VRef l =>
           match get_heap s !! l with
           | Some (OList ys) => Ret (Z.of_nat (length ys)) s
           | Some (ODict d) => Ret (Z.of_nat (length d)) s
           | None => Exn s
           end
       | _ => Exn s
       end.

(** [xs[i]] on a list *)
Definition py_index (xs : value) (i : Z) : M St value :=
  let! ys := py_list_of xs in lift (getitem ys i).

(** [xs.append(v)] *)
Definition py_append (xs : value) (v : value) : M St unit :=
  match xs with
  | VRef l => let! ys := py_list_of xs in store_at l (OList (ys ++ [v]))
  | _ => raise
  end.

(** [xs.pop(i)] / [del xs[i]] *)
Definition py_delitem (xs : value) (i : Z) : M St unit :=
  match xs with
  | VRef l =>
      let! ys := py_list_of xs in
      let! ys' := lift (delitem ys i) in
      store_at l (OList ys')
  | _ => raise
  end.

(** [xs[i] = v] *)
Definition py_setindex (xs : value) (i : Z) (v : value) : M St unit :=
  match xs with
  | VRef l =>
      let! ys := py_list_of xs in
      if bool_decide (0 ≤ i < Z.of_nat (length ys))%Z
      then store_at l (OList (<[Z.to_nat i := v]> ys))
      else if bool_decide (- Z.of_nat (length ys) ≤ i < 0)%Z
      then store_at l (OList (<[Z.to_nat (Z.of_nat (length ys) + i) := v]> ys))
      else raise
  | _ => raise
  end.

(** [json.loads(json.dumps(v))] *)
Definition py_deep_copy (v : value) : M St value :=
  λ s, match json_dumps (get_heap s) v with
       | Some j => let '(h', v') := loads j (get_heap s) in Ret v' (put_heap h' s)
       | None => Exn s
       end.
End Objects.

Section WithBuiltins.
Context `{Builtins}.

(** [str(v)] *)
Definition py_str (h : list object) (v : value) : string :=
  match v with
  | VStr s => s
  | _ => repr h v
  end.

(** [s.lower().endswith(".xml")] *)
Definition is_xml_name (s : string) : bool := ends_with (str_lower s) ".xml".

(** [sorted(xs, key=str.lower)]: stable, the keys compared as Python
    compares strings. *)
Fixpoint insert_by_lower (x : string) (l : list string) : list string :=
  match l with
  | [] => [x]
  | y :: r =>
      if String.ltb (str_lower x) (str_lower y) then x :: y :: r
      else y :: insert_by_lower x r
  end.

Definition sorted_lower (xs : list string) : list string :=
  foldl (λ acc x, insert_by_lower x acc) [] xs.
End WithBuiltins.

End Common.
Export Common.

(** * Variant v1.8 *)

Module V18.

(** [ItemMeta], the dataclass *)
Record ItemMeta := {
  meta_category : string;
  meta_nominal : string;
  meta_min : string;
  meta_tags : list string;
  meta_source : string;
}.

Record catalog := {
  types_folders : list string;
  types_files_loaded : list string;
  all_items : list string;
  item_meta : list (string * ItemMeta);
  source_to_items : list (string * list string);
}.

Section App.
Context `{Builtins} `{Host}.

Record app := {
  heap : list object;
  files : disk;
  airdrop_path : string;
  airdrop_data : value;
  cat : catalog;
  container_names : list value;
  current_container_index : option Z;
  selected_loot_index : option Z;
  (* idx -> {"ItemCount": .., "InfectedCount": .., "Infected": ..} *)
  pending_container_settings : list (Z * list (string * value));
  var_container : string;
  settings : settings_vars;
  editor : editor_vars;
  notices : list notice;
}.

Definition set_heap (x : list object) (s : app) : app :=
  {| heap := x; files := files s; airdrop_path := airdrop_path s;
     airdrop_data := airdrop_data s; cat := cat s;
     container_names := container_names s;
     current_container_index := current_container_index s;
     selected_loot_index := selected_loot_index s;
     pending_container_settings := pending_container_settings s;
     var_container := var_container s; settings := settings s;
     editor := editor s; notices := notices s |}.

Definition set_files (x : disk) (s : app) : app :=
  {| heap := heap s; files := x; airdrop_path := airdrop_path s;
     airdrop_data := airdrop_data s; cat := cat s;
     container_names := container_names s;
     current_container_index := current_container_index s;
     selected_loot_index := selected_loot_index s;
     pending_container_settings := pending_container_settings s;
     var_container := var_container s; settings := settings s;
     editor := editor s; notices := notices s |}.

Definition set_cat (x : catalog) (s : app) : app :=
  {| heap := heap s; files := files s; airdrop_path := airdrop_path s;
     airdrop_data := airdrop_data s; cat := x;
     container_names := container_names s;
     current_container_index := current_container_index s;
     selected_loot_index := selected_loot_index s;
     pending_container_settings := pending_container_settings s;
     var_container := var_container s; settings := settings s;
     editor := editor s; notices := notices s |}.

Definition set_container_names (x : list value) (s : app) : app :=
  {| heap := heap s; files := files s; airdrop_path := airdrop_path s;
     airdrop_data := airdrop_data s; cat := cat s;
     container_names := x;
     current_container_index := current_container_index s;
     selected_loot_index := selected_loot_index s;
     pending_container_settings := pending_container_settings s;
     var_container := var_container s; settings := settings s;
     editor := editor s; notices := notices s |}.

Definition set_current_container_index (x : option Z) (s : app) : app :=
  {| heap := heap s; files := files s; airdrop_path := airdrop_path s;
     airdrop_data := airdrop_data s; cat := cat s;
     container_names := container_names s;
     current_container_index := x;
     selected_loot_index := selected_loot_index s;
     pending_container_settings := pending_container_settings s;
     var_container := var_container s; settings := settings s;
     editor := editor s; notices := notices s |}.

Definition set_selected_loot_index (x : option Z) (s : app) : app :=
  {| heap := heap s; files := files s; airdrop_path := airdrop_path s;
     airdrop_data := airdrop_data s; cat := cat s;
     container_names := container_names s;
     current_container_index := current_container_index s;
     selected_loot_index := x;
     pending_container_settings := pending_container_settings s;
     var_container := var_container s; settings := settings s;
     editor := editor s; notices := notices s |}.

Definition set_pending_container_settings
    (x : list (Z * list (string * value))) (s : app) : app :=
  {| heap := heap s; files := files s; airdrop_path := airdrop_path s;
     airdrop_data := airdrop_data s; cat := cat s;
     container_names := container_names s;
     current_container_index := current_container_index s;
     selected_loot_index := selected_loot_index s;
     pending_container_settings := x;
     var_container := var_container s; settings := settings s;
     editor := editor s; notices := notices s |}.

Definition set_var_container (x : string) (s : app) : app :=
  {| heap := heap s; files := files s; airdrop_path := airdrop_path s;
     airdrop_data := airdrop_data s; cat := cat s;
     container_names := container_names s;
     current_container_index := current_container_index s;
     selected_loot_index := selected_loot_index s;
     pending_container_settings := pending_container_settings s;
     var_container := x; settings := settings s;
     editor := editor s; notices := notices s |}.

Definition set_settings (x : settings_vars) (s : app) : app :=
  {| heap := heap s; files := files s; airdrop_path := airdrop_path s;
     airdrop_data := airdrop_data s; cat := cat s;
     container_names := container_names s;
     current_container_index := current_container_index s;
     selected_loot_index := selected_loot_index s;
     pending_container_settings := pending_container_settings s;
     var_container := var_container s; settings := x;
     editor := editor s; notices := notices s |}.

Definition set_editor (x : editor_vars) (s : app) : app :=
  {| heap := heap s; files := files s; airdrop_path := airdrop_path s;
     airdrop_data := airdrop_data s; cat := cat s;
     container_names := container_names s;
     current_container_index := current_container_index s;
     selected_loot_index := selected_loot_index s;
     pending_container_settings := pending_container_settings s;
     var_container := var_container s; settings := settings s;
     editor := x; notices := notices s |}.

Definition set_notices (x : list notice) (s : app) : app :=
  {| heap := heap s; files := files s; airdrop_path := airdrop_path s;
     airdrop_data := airdrop_data s; cat := cat s;
     container_names := container_names s;
     current_container_index := current_container_index s;
     selected_loot_index := selected_loot_index s;
     pending_container_settings := pending_container_settings s;
     var_container := var_container s; settings := settings s;
     editor := editor s; notices := x |}.

#[export] Instance app_store : Store app :=
  {| get_heap := heap; put_heap := set_heap |}.

(** [messagebox.show<kind>(title, ..)] *)
Definition notify (k : severity) (title : string) : M app unit :=
  modify (λ s, set_notices (notices s ++ [Notice k title]) s).

(** [ts_backup_name(path)]; [stamp] is [time.strftime("%Y-%m-%d_%H%M%S")]. *)
Definition ts_backup_name (path stamp : string) : string :=
  (path ++ ".bak_" ++ stamp)%string.

(** [safe_float(s, default)]: [float(s)], or the default as it was passed. *)
Definition safe_float (s : string) (dflt : value) : value :=
  match float_of_str s with
  | Some f => VFloat f
  | None => dflt
  end.

(** [safe_int(s, default)]: [int(float(s))], or the default as it was passed. *)
Definition safe_int (s : string) (dflt : value) : value :=
  match float_of_str s with
  | Some f =>
      match int_of_float f with
      | Some n => VInt n
      | None => dflt
      end
  | None => dflt
  end.

(** [default_loot_entry(classname)] *)
Definition default_loot_entry (classname : string) : M app value :=
  let! attachments := py_new (OList []) in
  let! variants := py_new (OList []) in
  py_new (ODict [
    ("Name", VStr classname);
    ("Chance", VFloat float_0_1);
    ("Attachments", attachments);
    ("QuantityPercent", VFloat (-1.0)%float);
    ("Max", VInt (-1));
    ("Min", VInt 0);
    ("Variants", variants)]).

(** [self.airdrop_data["Containers"]] *)
Definition containers : M app value :=
  let! data := gets airdrop_data in py_item data "Containers".

(** *** Pending container settings *)

Definition _stash_pending_container_settings : M app unit :=
  let! data := gets airdrop_data in
  let! cur := gets current_container_index in
  match cur with
  | None => ret tt
  | Some idx =>
      if is_none data then ret tt
      else
        let! vars := gets settings in
        let item_count_str := str_strip (var_item_count vars) in
        let infected_count_str := str_strip (var_infected_count vars) in
        let infected_enabled := var_infected_enabled vars in
        let! all_pending := gets pending_container_settings in
        let pending := dict_get_or all_pending idx [] in
        let pending :=
          if bool_decide (item_count_str ≠ "")
          then dict_set pending "ItemCount" (safe_int item_count_str (VInt 0))
          else dict_pop pending "ItemCount" in
        let pending :=
          if bool_decide (infected_count_str ≠ "")
          then dict_set pending "InfectedCount" (safe_int infected_count_str (VInt 0))
          else dict_pop pending "InfectedCount" in
        let pending := dict_set pending "Infected" (VBool infected_enabled) in
        match pending with
        | _ :: _ => modify (set_pending_container_settings (dict_set all_pending idx pending))
        | [] => modify (set_pending_container_settings (dict_pop all_pending idx))
        end
  end.

Definition get_current_container : M app value :=
  let! data := gets airdrop_data in
  let! cur := gets current_container_index in
  match cur with
  | None => ret VNone
  | Some idx =>
      if is_none data then ret VNone
      else let! cs := containers in py_index cs idx
  end.

Definition _load_container_settings_into_ui : M app unit :=
  let! c := get_current_container in
  let! live := py_truthy c in
  if negb live then
    modify (set_settings {| var_item_count := ""; var_infected_count := "";
                            var_infected_enabled := true |})
  else
    let! cur := gets current_container_index in
    let! all_pending := gets pending_container_settings in
    let pending := idx ← cur; dict_get all_pending idx in
    let! item_count := py_get c "ItemCount" (VStr "") in
    let! infected_count := py_get c "InfectedCount" (VStr "") in
    let! infected_enabled := py_get c "Infected" (VBool true) in
    let staged := match pending with Some (x :: r) => x :: r | _ => [] end in
    let item_count := dict_get_or staged "ItemCount" item_count in
    let infected_count := dict_get_or staged "InfectedCount" infected_count in
    let infected_enabled := dict_get_or staged "Infected" infected_enabled in
    let! h := gets heap in
    modify (set_settings {| var_item_count := py_str h item_count;
                            var_infected_count := py_str h infected_count;
                            var_infected_enabled := truthy h infected_enabled |}).

Definition _commit_pending_container_settings_to_json : M app unit :=
  let! data := gets airdrop_data in
  let! loaded := py_truthy data in
  if negb loaded then ret tt
  else
    let! all_pending := gets pending_container_settings in
    for_each all_pending (λ '(idx, changes),
      if bool_decide (idx < 0)%Z then ret tt
      else
        let! cs := containers in
        let! n := py_len cs in
        if bool_decide (idx >= n)%Z then ret tt
        else
          let! c := py_index cs idx in
          for_each changes (λ '(k, v), py_setitem c k v)) ;;
    modify (set_pending_container_settings []).

(** *** Containers *)

Definition _rebuild_container_dropdown (select_index : option Z) : M app unit :=
  let! data := gets airdrop_data in
  let! loaded := py_truthy data in
  if negb loaded then
    modify (set_container_names []) ;;
    modify (set_var_container "Load airdrop file first") ;;
    modify (set_current_container_index None)
  else
    let! cs := containers in
    let! elems := py_list_of cs in
    let! names := map_each (imap (λ i c, (i, c)) elems) (λ '(i, c),
                    py_get c "Container" (VStr ("Container_" ++ str_of_nat i))) in
    modify (set_container_names names) ;;
    match names with
    | [] =>
        modify (set_var_container "(No containers)") ;;
        modify (set_current_container_index None)
    | _ :: _ =>
        let! cur := gets current_container_index in
        let select_index :=
          match select_index with
          | Some i => i
          | None => Z.min (Z.max (default 0%Z cur) 0) (Z.of_nat (length names) - 1)
          end in
        modify (set_current_container_index (Some select_index)) ;;
        let! name := lift (getitem names select_index) in
        let! h := gets heap in
        modify (set_var_container (py_str h name))
    end.

(** The part of [refresh_loot_table_chunked] that touches the
    document: a [Loot] that is not a list is replaced by a new one.
    The row insertion it schedules is display only. *)
Definition refresh_loot_table_chunked : M app unit :=
  let! c := get_current_container in
  let! live := py_truthy c in
  if negb live then ret tt
  else
    let! dflt := py_new (OList []) in
    let! loot := py_get c "Loot" dflt in
    let! ok := py_is_list loot in
    if ok then ret tt
    else
      let! fresh := py_new (OList []) in
      py_setitem c "Loot" fresh.

Definition _clear_editor : M app unit := modify (set_editor cleared_editor).

Definition populate_editor_from_selected : M app unit :=
  let! c := get_current_container in
  let! live := py_truthy c in
  let! sel := gets selected_loot_index in
  match sel with
  | Some idx =>
      if negb live then _clear_editor
      else
        let! dflt := py_new (OList []) in
        let! loot := py_get c "Loot" dflt in
        let! n := py_len loot in
        if bool_decide (idx < 0 ∨ idx >= n)%Z then _clear_editor
        else
          let! entry := py_index loot idx in
          let! name := py_get entry "Name" (VStr "") in
          let! chance := py_get entry "Chance" (VFloat 0%float) in
          let! mn := py_get entry "Min" (VInt 0) in
          let! mx := py_get entry "Max" (VInt (-1)) in
          let! qty := py_get entry "QuantityPercent" (VFloat (-1.0)%float) in
          let! h := gets heap in
          modify (set_editor {| var_name := py_str h name; var_chance := py_str h chance;
                                var_min := py_str h mn; var_max := py_str h mx;
                                var_qty := py_str h qty |})
  | None => _clear_editor
  end.

(** [_on_tree_select]: [sel] is the row id of the selection as an int
    ([None]: nothing selected, or an id that is no int). *)
Definition _on_tree_select (sel : option Z) : M app unit :=
  match sel with
  | None => ret tt
  | Some idx =>
      modify (set_selected_loot_index (Some idx)) ;;
      populate_editor_from_selected
  end.

(** What every container handler does once the list has changed. *)
Definition show_selected_container : M app unit :=
  modify (set_selected_loot_index None) ;;
  _clear_editor ;;
  _load_container_settings_into_ui ;;
  refresh_loot_table_chunked.

(** [new_name] is the text the name dialog returns ([None]: cancelled),
    [clear_loot] the answer to "Clear Loot in the new container?". *)
Definition duplicate_container (new_name : option string) (clear_loot : bool) :
    M app unit :=
  let! data := gets airdrop_data in
  let! loaded := py_truthy data in
  let! cur := gets current_container_index in
  match cur with
  | Some idx =>
      if negb loaded then ret tt
      else
        let! cs := containers in
        let! src := py_index cs idx in
        let! base_name := py_get src "Container" (VStr "Container") in
        match new_name with
        | None => ret tt
        | Some new_name =>
            if bool_decide (new_name = "") then ret tt
            else
              let! elems := py_list_of cs in
              let! existing := map_each elems (λ c,
                  let! v := py_get c "Container" (VStr "") in
                  if hashable v then ret v else raise) in
              if existsb (λ v, value_is_str v new_name) existing then
                notify Warning "Name exists"
              else
                let! clone := py_deep_copy src in
                py_setitem clone "Container" (VStr new_name) ;;
                let! dflt := py_new (OList []) in
                py_setdefault clone "Loot" dflt ;;
                (if clear_loot
                 then let! empty := py_new (OList []) in py_setitem clone "Loot" empty
                 else ret tt) ;;
                let! cs := containers in
                py_append cs clone ;;
                let! n := py_len cs in
                _rebuild_container_dropdown (Some (n - 1)%Z) ;;
                show_selected_container
        end
  | None => ret tt
  end.

(** [template_name] and [new_name] are the texts of the two dialogs. *)
Definition add_container_clone (template_name new_name : option string)
    (clear_loot : bool) : M app unit :=
  let! data := gets airdrop_data in
  let! loaded := py_truthy data in
  if negb loaded then notify Warning "No template"
  else
    let! cs := containers in
    let! any := py_truthy cs in
    if negb any then notify Warning "No template"
    else match template_name with
    | None => ret tt
    | Some template_name =>
        if bool_decide (template_name = "") then ret tt
        else
          let! names := gets container_names in
          match list_find (λ v, value_is_str v template_name = true) names with
          | None => notify Warning "Template not found"
          | Some (template_idx, _) =>
              match new_name with
              | None => ret tt
              | Some new_name =>
                  if bool_decide (new_name = "") then ret tt
                  else
                    let! elems := py_list_of cs in
                    let! existing := map_each elems (λ c,
                        let! v := py_get c "Container" (VStr "") in
                        if hashable v then ret v else raise) in
                    if existsb (λ v, value_is_str v new_name) existing then
                      notify Warning "Name exists"
                    else
                      let! src := py_index cs (Z.of_nat template_idx) in
                      let! clone := py_deep_copy src in
                      py_setitem clone "Container" (VStr new_name) ;;
                      let! dflt := py_new (OList []) in
                      py_setdefault clone "Loot" dflt ;;
                      (if clear_loot
                       then let! empty := py_new (OList []) in py_setitem clone "Loot" empty
                       else ret tt) ;;
                      let! cs := containers in
                      py_append cs clone ;;
                      let! n := py_len cs in
                      _rebuild_container_dropdown (Some (n - 1)%Z) ;;
                      show_selected_container
              end
          end
    end.

(** The re-keying loop of [remove_container]:
    [new_pending[idx] = changes] below the removed position,
    [new_pending[idx - 1] = changes] above it. *)
Definition remap_pending (removed_idx : Z)
    (pending : list (Z * list (string * value))) : list (Z * list (string * value)) :=
  foldl (λ new_pending '(idx, changes),
           if bool_decide (idx < removed_idx)%Z then dict_set new_pending idx changes
           else if bool_decide (idx > removed_idx)%Z
                then dict_set new_pending (idx - 1)%Z changes
                else new_pending)
        [] pending.

(** [confirm] is the answer to "Delete container ..?". *)
Definition remove_container (confirm : bool) : M app unit :=
  let! data := gets airdrop_data in
  let! loaded := py_truthy data in
  let! cur := gets current_container_index in
  match cur with
  | Some removed_idx =>
      if negb loaded then ret tt
      else
        let! names := gets container_names in
        let! name := lift (getitem names removed_idx) in
        if negb confirm then ret tt
        else
          modify (λ s, set_pending_container_settings
                         (dict_pop (pending_container_settings s) removed_idx) s) ;;
          let! cs := containers in
          py_delitem cs removed_idx ;;
          modify (λ s, set_pending_container_settings
                         (remap_pending removed_idx (pending_container_settings s)) s) ;;
          let! cs := containers in
          let! n := py_len cs in
          if bool_decide (n = 0)%Z then
            modify (set_current_container_index None) ;;
            _rebuild_container_dropdown None ;;
            _clear_editor ;;
            _load_container_settings_into_ui
          else
            _rebuild_container_dropdown (Some (Z.min removed_idx (n - 1))) ;;
            show_selected_container
  | None => ret tt
  end.

Definition clear_current_loot (confirm : bool) : M app unit :=
  let! c := get_current_container in
  let! live := py_truthy c in
  if negb live then ret tt
  else if negb confirm then ret tt
  else
    let! empty := py_new (OList []) in
    py_setitem c "Loot" empty ;;
    modify (set_selected_loot_index None) ;;
    _clear_editor ;;
    refresh_loot_table_chunked.

(** [choice] is the entry picked in the dropdown, already in
    [var_container] when the command runs. *)
Definition on_container_change (choice : string) : M app unit :=
  modify (set_var_container choice) ;;
  let! data := gets airdrop_data in
  let! loaded := py_truthy data in
  if negb loaded then ret tt
  else
    _stash_pending_container_settings ;;
    let! selected := gets var_container in
    let! names := gets container_names in
    match list_find (λ v, value_is_str v selected = true) names with
    | Some (i, _) =>
        modify (set_current_container_index (Some (Z.of_nat i))) ;;
        show_selected_container
    | None => ret tt
    end.

(** *** Loot operations *)

Definition add_item_to_loot (classname : string) : M app unit :=
  let! c := get_current_container in
  let! live := py_truthy c in
  if negb live then notify Warning "No Container"
  else
    let! dflt := py_new (OList []) in
    py_setdefault c "Loot" dflt ;;
    let! loot := py_item c "Loot" in
    let! entry := default_loot_entry classname in
    py_append loot entry ;;
    let! loot := py_item c "Loot" in
    let! n := py_len loot in
    let idx := (n - 1)%Z in
    let! entry := py_index loot idx in
    modify (set_selected_loot_index (Some idx)) ;;
    populate_editor_from_selected.

Definition remove_selected_loot : M app unit :=
  let! c := get_current_container in
  let! live := py_truthy c in
  let! sel := gets selected_loot_index in
  match sel with
  | Some idx =>
      if negb live then ret tt
      else
        let! dflt := py_new (OList []) in
        let! loot := py_get c "Loot" dflt in
        let! n := py_len loot in
        if bool_decide (idx < 0 ∨ idx >= n)%Z then ret tt
        else
          py_delitem loot idx ;;
          modify (set_selected_loot_index None) ;;
          _clear_editor ;;
          refresh_loot_table_chunked
  | None => ret tt
  end.

Definition duplicate_selected_loot : M app unit :=
  let! c := get_current_container in
  let! live := py_truthy c in
  let! sel := gets selected_loot_index in
  match sel with
  | Some idx =>
      if negb live then ret tt
      else
        let! dflt := py_new (OList []) in
        let! loot := py_get c "Loot" dflt in
        let! n := py_len loot in
        if bool_decide (idx < 0 ∨ idx >= n)%Z then ret tt
        else
          let! orig := py_index loot idx in
          let! entry := py_deep_copy orig in
          py_append loot entry ;;
          let! n := py_len loot in
          let new_idx := (n - 1)%Z in
          let! d1 := py_new (OList []) in
          let! att := py_get entry "Attachments" d1 in
          let! att_live := py_truthy att in
          let! att := (if att_live then ret att else py_new (OList [])) in
          py_len att ;;
          let! d2 := py_new (OList []) in
          let! var := py_get entry "Variants" d2 in
          let! var_live := py_truthy var in
          let! var := (if var_live then ret var else py_new (OList [])) in
          py_len var ;;
          modify (set_selected_loot_index (Some new_idx)) ;;
          populate_editor_from_selected
  | None => ret tt
  end.

(** [confirm_unknown] is the answer to "Save anyway?", asked when the
    name is not among the loaded classnames. *)
Definition apply_editor_to_selected (confirm_unknown : bool) : M app unit :=
  let! c := get_current_container in
  let! live := py_truthy c in
  let! sel := gets selected_loot_index in
  match sel with
  | Some idx =>
      if negb live then ret tt
      else
        let! dflt := py_new (OList []) in
        let! loot := py_get c "Loot" dflt in
        let! n := py_len loot in
        if bool_decide (idx < 0 ∨ idx >= n)%Z then ret tt
        else
          let! vars := gets editor in
          let name := str_strip (var_name vars) in
          if bool_decide (name = "") then notify Warning "Invalid Name"
          else
            let! meta := gets (λ s, item_meta (cat s)) in
            let unknown :=
              match meta with
              | [] => false
              | _ :: _ => negb (dict_mem meta name)
              end in
            if unknown && negb confirm_unknown then ret tt
            else
              let! entry := py_index loot idx in
              py_setitem entry "Name" (VStr name) ;;
              let! old := py_get entry "Chance" (VFloat float_0_1) in
              py_setitem entry "Chance" (safe_float (var_chance vars) old) ;;
              let! old := py_get entry "Min" (VInt 0) in
              py_setitem entry "Min" (safe_int (var_min vars) old) ;;
              let! old := py_get entry "Max" (VInt (-1)) in
              py_setitem entry "Max" (safe_int (var_max vars) old) ;;
              let! old := py_get entry "QuantityPercent" (VFloat (-1.0)%float) in
              py_setitem entry "QuantityPercent" (safe_float (var_qty vars) old) ;;
              let! d1 := py_new (OList []) in
              let! att := py_get entry "Attachments" d1 in
              let! att_live := py_truthy att in
              let! att := (if att_live then ret att else py_new (OList [])) in
              py_len att ;;
              let! d2 := py_new (OList []) in
              let! var := py_get entry "Variants" d2 in
              let! var_live := py_truthy var in
              let! var := (if var_live then ret var else py_new (OList [])) in
              py_len var ;;
              ret tt
  | None => ret tt
  end.

(** *** File IO *)

(** [load_airdrop_json(path)] on the parsed file: the document built in
    the store, every container checked and given a [Loot] list. *)
Definition load_airdrop_json (j : json) : M app value :=
  let! data := (λ s, let '(h', v) := loads j (heap s) in Ret v (set_heap h' s)) in
  let! cs := py_item data "Containers" in
  let! elems := py_list_of cs in
  for_each elems (λ c,
    let! named := py_has c "Container" in
    if negb named then raise
    else
      let! has_loot := py_has c "Loot" in
      (if has_loot then ret tt
       else let! empty := py_new (OList []) in py_setitem c "Loot" empty) ;;
      let! loot := py_get c "Loot" VNone in
      let! ok := py_is_list loot in
      if ok then ret tt
      else let! empty := py_new (OList []) in py_setitem c "Loot" empty) ;;
  ret data.

(** [path] is what the file dialog returns. *)
Definition load_airdrop (path : option string) : M app unit :=
  match path with
  | None => ret tt
  | Some path =>
      if bool_decide (path = "") then ret tt
      else
        let! d := gets files in
        let! loaded := try_except
          (let! j := lift (fs_read_json d path) in
           let! data := load_airdrop_json j in ret (Some data))
          (notify Error "Load Error" ;; ret None) in
        match loaded with
        | None => ret tt
        | Some data =>
            modify (λ s,
              {| heap := heap s; files := files s; airdrop_path := path;
                 airdrop_data := data; cat := cat s;
                 container_names := container_names s;
                 current_container_index := current_container_index s;
                 selected_loot_index := selected_loot_index s;
                 pending_container_settings := [];
                 var_container := var_container s; settings := settings s;
                 editor := editor s; notices := notices s |}) ;;
            _rebuild_container_dropdown (Some 0%Z) ;;
            _load_container_settings_into_ui ;;
            refresh_loot_table_chunked
        end
  end.

(** [shutil.copy2(src, dst)] under [try]: whether it returned. *)
Definition copy_file (src dst : string) : M app bool :=
  λ s, let '(d, ok) := fs_copy2 (files s) src dst in Ret ok (set_files d s).

(** [with open(path, "w", ..) as f: json.dump(data, f, indent=2)] under
    [try]: whether it returned. *)
Definition write_json (path : string) (data : value) : M app bool :=
  λ s, match fs_open_w (files s) path with
       | None => Ret false s
       | Some d1 =>
           match json_dumps (heap s) data with
           | Some j =>
               let '(d2, ok) := fs_write d1 path (json_text j) in
               Ret ok (set_files d2 s)
           | None =>
               let '(d2, _) := fs_write d1 path (json_partial_text (heap s) data) in
               Ret false (set_files d2 s)
           end
       end.

(** [stamp] is the clock's [time.strftime("%Y-%m-%d_%H%M%S")]. *)
Definition save_airdrop (stamp : string) : M app unit :=
  let! data := gets airdrop_data in
  let! loaded := py_truthy data in
  let! path := gets airdrop_path in
  if negb loaded || bool_decide (path = "") then notify Warning "Nothing to Save"
  else
    _stash_pending_container_settings ;;
    _commit_pending_container_settings_to_json ;;
    let bak := ts_backup_name path stamp in
    let! copied := copy_file path bak in
    if negb copied then notify Error "Backup Error"
    else
      let! written := write_json path data in
      if negb written then notify Error "Save Error"
      else notify Info "Saved".

(** *** Types loading *)

Definition find_xml_files_in_folder (d : disk) (folder : string) : list string :=
  sorted_lower
    (omap (λ '(root, fn), if is_xml_name fn then Some (path_join root fn) else None)
          (fs_walk d folder)).

(** [(x or "").strip()] *)
Definition text_of (x : option string) : string := str_strip (default "" x).

Definition load_types_xml (d : disk) (path : string) :
    option (list string * list (string * ItemMeta)) :=
  els ← xml_types d path;
  let source_name := basename path in
  let '(classnames, meta) :=
    foldl (λ '(classnames, meta) t,
             match te_name t with
             | Some name =>
                 if bool_decide (name = "") then (classnames, meta)
                 else
                   let tags := omap (λ x, match x with
                                          | Some tx =>
                                              if bool_decide (tx ≠ "") &&
                                                 bool_decide (str_strip tx ≠ "")
                                              then Some (str_strip tx) else None
                                          | None => None
                                          end) (te_tags t) in
                   (classnames ++ [name],
                    dict_set meta name
                      {| meta_category := text_of (te_category t);
                         meta_nominal := text_of (te_nominal t);
                         meta_min := text_of (te_min t);
                         meta_tags := tags;
                         meta_source := source_name |})
             | None => (classnames, meta)
             end)
          ([], []) els in
  Some (sorted_lower (set_of classnames), meta).

(** The loop of [_merge_types_files] over one path: the catalog, the
    set of merged names and the errors so far. *)
Definition merge_one (d : disk) (acc : catalog * list string * list string)
    (p : string) : catalog * list string * list string :=
  let '(c, merged_items, errors) := acc in
  match load_types_xml d p with
  | Some (items, meta) =>
      let src := basename p in
      ({| types_folders := types_folders c;
          types_files_loaded :=
            (if bool_decide (p ∈ types_files_loaded c) then types_files_loaded c
             else types_files_loaded c ++ [p]);
          all_items := all_items c;
          item_meta :=
            foldl (λ m '(k, v), if dict_mem m k then m else dict_set m k v)
                  (item_meta c) meta;
          source_to_items := dict_set (source_to_items c) src items |},
       foldl set_add merged_items items,
       errors)
  | None => (c, merged_items, errors ++ [basename p])
  end.

Definition _merge_types_files (paths : list string) : M app unit :=
  let! d := gets files in
  let! c := gets cat in
  let '(c1, merged_items, errors) :=
    foldl (merge_one d) (c, set_of (all_items c), []) paths in
  modify (set_cat {| types_folders := types_folders c1;
                     types_files_loaded := types_files_loaded c1;
                     all_items := sorted_lower merged_items;
                     item_meta := item_meta c1;
                     source_to_items := source_to_items c1 |}) ;;
  match errors with
  | [] => ret tt
  | _ :: _ => notify Warning "Some files failed to load"
  end.

(** [folder] is what the directory dialog returns. *)
Definition add_types_folder (folder : option string) : M app unit :=
  match folder with
  | None => ret tt
  | Some folder =>
      if bool_decide (folder = "") then ret tt
      else
        modify (λ s, set_cat {| types_folders := types_folders (cat s) ++ [folder];
                                types_files_loaded := types_files_loaded (cat s);
                                all_items := all_items (cat s);
                                item_meta := item_meta (cat s);
                                source_to_items := source_to_items (cat s) |} s) ;;
        let! d := gets files in
        let xmls := find_xml_files_in_folder d folder in
        match xmls with
        | [] => notify Warning "No XML found"
        | _ :: _ => _merge_types_files xmls
        end
  end.

Definition clear_types : M app unit :=
  modify (set_cat {| types_folders := []; types_files_loaded := []; all_items := [];
                     item_meta := []; source_to_items := [] |}).

(** *** Item filter *)

(** A child of the items frame: a plain label, or the row of a
    classname with its source and the "+" button that adds it. *)
Inductive item_widget :=
| ItemLabel (text : string)
| ItemRow (name src : string).

Definition browse_hint : string := "(Add a folder with types.xml files to browse items)".

(** [s.startswith("(") and s.endswith(")")] *)
Definition in_parens (s : string) : bool := String.prefix "(" s && ends_with s ")".

(** [_render_items(items)]: the children the items frame ends with. *)
Definition _render_items (c : catalog) (items : list string) : list item_widget :=
  match items with
  | [] => [ItemLabel "No matches."]
  | _ :: _ =>
      (λ name,
         if in_parens name then ItemLabel name
         else ItemRow name (match dict_get (item_meta c) name with
                            | Some meta => meta_source meta
                            | None => ""
                            end)) <$> items
  end.

(** The list [refresh_item_filter] hands to [_render_items];
    [var_search] and [var_source] are the search text and the entry
    picked in the source dropdown. *)
Definition filtered_items (var_search var_source : string) (c : catalog) : list string :=
  let q := str_lower (str_strip var_search) in
  match all_items c with
  | [] => [browse_hint]
  | _ :: _ =>
      let base := if bool_decide (var_source = "All Types Files") then all_items c
                  else dict_get_or (source_to_items c) var_source [] in
      let filtered := if bool_decide (q = "") then base
                      else filter (λ x, str_contains q (str_lower x) = true) base in
      take 900 filtered
  end.

Definition refresh_item_filter (var_search var_source : string) (c : catalog) :
    list item_widget :=
  _render_items c (filtered_items var_search var_source c).

(** [clear_search]: the search text is emptied first. *)
Definition clear_search (var_source : string) (c : catalog) : list item_widget :=
  refresh_item_filter "" var_source c.

End App.
End V18.

(** * Variant v2.0 *)

Module V20.

Record market_vars := {
  var_m_class : string;
  var_m_minp : string;
  var_m_maxp : string;
  var_m_minst : string;
  var_m_maxst : string;
}.

(** [item_meta[name] = {"source": .., "category": ..}] *)
Record item_info := { info_source : string; info_category : string }.

Record catalog := {
  types_folders : list string;
  types_files_loaded : list string;
  all_items : list string;
  item_meta : list (string * item_info);
  source_to_items : list (string * list string);
}.

(** [container_index[label] = {"ref": c, "idx": idx, "list_ref": containers}] *)
Record cinfo := { ci_ref : value; ci_idx : nat; ci_list_ref : value }.

Section App.
Context `{Builtins} `{Host}.

Record app := {
  heap : list object;
  files : disk;
  cfg_types_folders : list string;      (* self.cfg["types_folders"] *)
  airdrop_path : string;
  airdrop_data : value;
  market_path : string;
  market_data : value;
  market_dirty : bool;
  cat : catalog;
  container_names : list string;
  container_index : list (string * cinfo);
  current_container_key : option string;
  selected_loot_index : option Z;
  var_container : string;
  settings : settings_vars;
  editor : editor_vars;
  mvars : market_vars;
  notices : list notice;
}.

Definition set_heap (x : list object) (s : app) : app :=
  {| heap := x; files := files s; cfg_types_folders := cfg_types_folders s;
     airdrop_path := airdrop_path s; airdrop_data := airdrop_data s;
     market_path := market_path s; market_data := market_data s;
     market_dirty := market_dirty s; cat := cat s;
     container_names := container_names s; container_index := container_index s;
     current_container_key := current_container_key s;
     selected_loot_index := selected_loot_index s; var_container := var_container s;
     settings := settings s; editor := editor s; mvars := mvars s;
     notices := notices s |}.

Definition set_files (x : disk) (s : app) : app :=
  {| heap := heap s; files := x; cfg_types_folders := cfg_types_folders s;
     airdrop_path := airdrop_path s; airdrop_data := airdrop_data s;
     market_path := market_path s; market_data := market_data s;
     market_dirty := market_dirty s; cat := cat s;
     container_names := container_names s; container_index := container_index s;
     current_container_key := current_container_key s;
     selected_loot_index := selected_loot_index s; var_container := var_container s;
     settings := settings s; editor := editor s; mvars := mvars s;
     notices := notices s |}.

Definition set_cfg_types_folders (x : list string) (s : app) : app :=
  {| heap := heap s; files := files s; cfg_types_folders := x;
     airdrop_path := airdrop_path s; airdrop_data := airdrop_data s;
     market_path := market_path s; market_data := market_data s;
     market_dirty := market_dirty s; cat := cat s;
     container_names := container_names s; container_index := container_index s;
     current_container_key := current_container_key s;
     selected_loot_index := selected_loot_index s; var_container := var_container s;
     settings := settings s; editor := editor s; mvars := mvars s;
     notices := notices s |}.

Definition set_market_dirty (x : bool) (s : app) : app :=
  {| heap := heap s; files := files s; cfg_types_folders := cfg_types_folders s;
     airdrop_path := airdrop_path s; airdrop_data := airdrop_data s;
     market_path := market_path s; market_data := market_data s;
     market_dirty := x; cat := cat s;
     container_names := container_names s; container_index := container_index s;
     current_container_key := current_container_key s;
     selected_loot_index := selected_loot_index s; var_container := var_container s;
     settings := settings s; editor := editor s; mvars := mvars s;
     notices := notices s |}.

Definition set_cat (x : catalog) (s : app) : app :=
  {| heap := heap s; files := files s; cfg_types_folders := cfg_types_folders s;
     airdrop_path := airdrop_path s; airdrop_data := airdrop_data s;
     market_path := market_path s; market_data := market_data s;
     market_dirty := market_dirty s; cat := x;
     container_names := container_names s; container_index := container_index s;
     current_container_key := current_container_key s;
     selected_loot_index := selected_loot_index s; var_container := var_container s;
     settings := settings s; editor := editor s; mvars := mvars s;
     notices := notices s |}.

Definition set_index (names : list string) (idx : list (string * cinfo)) (s : app) : app :=
  {| heap := heap s; files := files s; cfg_types_folders := cfg_types_folders s;
     airdrop_path := airdrop_path s; airdrop_data := airdrop_data s;
     market_path := market_path s; market_data := market_data s;
     market_dirty := market_dirty s; cat := cat s;
     container_names := names; container_index := idx;
     current_container_key := current_container_key s;
     selected_loot_index := selected_loot_index s; var_container := var_container s;
     settings := settings s; editor := editor s; mvars := mvars s;
     notices := notices s |}.

Definition set_current_container_key (x : option string) (s : app) : app :=
  {| heap := heap s; files := files s; cfg_types_folders := cfg_types_folders s;
     airdrop_path := airdrop_path s; airdrop_data := airdrop_data s;
     market_path := market_path s; market_data := market_data s;
     market_dirty := market_dirty s; cat := cat s;
     container_names := container_names s; container_index := container_index s;
     current_container_key := x;
     selected_loot_index := selected_loot_index s; var_container := var_container s;
     settings := settings s; editor := editor s; mvars := mvars s;
     notices := notices s |}.

Definition set_selected_loot_index (x : option Z) (s : app) : app :=
  {| heap := heap s; files := files s; cfg_types_folders := cfg_types_folders s;
     airdrop_path := airdrop_path s; airdrop_data := airdrop_data s;
     market_path := market_path s; market_data := market_data s;
     market_dirty := market_dirty s; cat := cat s;
     container_names := container_names s; container_index := container_index s;
     current_container_key := current_container_key s;
     selected_loot_index := x; var_container := var_container s;
     settings := settings s; editor := editor s; mvars := mvars s;
     notices := notices s |}.

Definition set_var_container (x : string) (s : app) : app :=
  {| heap := heap s; files := files s; cfg_types_folders := cfg_types_folders s;
     airdrop_path := airdrop_path s; airdrop_data := airdrop_data s;
     market_path := market_path s; market_data := market_data s;
     market_dirty := market_dirty s; cat := cat s;
     container_names := container_names s; container_index := container_index s;
     current_container_key := current_container_key s;
     selected_loot_index := selected_loot_index s; var_container := x;
     settings := settings s; editor := editor s; mvars := mvars s;
     notices := notices s |}.

Definition set_settings (x : settings_vars) (s : app) : app :=
  {| heap := heap s; files := files s; cfg_types_folders := cfg_types_folders s;
     airdrop_path := airdrop_path s; airdrop_data := airdrop_data s;
     market_path := market_path s; market_data := market_data s;
     market_dirty := market_dirty s; cat := cat s;
     container_names := container_names s; container_index := container_index s;
     current_container_key := current_container_key s;
     selected_loot_index := selected_loot_index s; var_container := var_container s;
     settings := x; editor := editor s; mvars := mvars s;
     notices := notices s |}.

Definition set_editor (x : editor_vars) (s : app) : app :=
  {| heap := heap s; files := files s; cfg_types_folders := cfg_types_folders s;
     airdrop_path := airdrop_path s; airdrop_data := airdrop_data s;
     market_path := market_path s; market_data := market_data s;
     market_dirty := market_dirty s; cat := cat s;
     container_names := container_names s; container_index := container_index s;
     current_container_key := current_container_key s;
     selected_loot_index := selected_loot_index s; var_container := var_container s;
     settings := settings s; editor := x; mvars := mvars s;
     notices := notices s |}.

Definition set_notices (x : list notice) (s : app) : app :=
  {| heap := heap s; files := files s; cfg_types_folders := cfg_types_folders s;
     airdrop_path := airdrop_path s; airdrop_data := airdrop_data s;
     market_path := market_path s; market_data := market_data s;
     market_dirty := market_dirty s; cat := cat s;
     container_names := container_names s; container_index := container_index s;
     current_container_key := current_container_key s;
     selected_loot_index := selected_loot_index s; var_container := var_container s;
     settings := settings s; editor := editor s; mvars := mvars s;
     notices := x |}.

#[export] Instance app_store : Store app :=
  {| get_heap := heap; put_heap := set_heap |}.

(** [messagebox.show<kind>(title, ..)] *)
Definition notify (k : severity) (title : string) : M app unit :=
  modify (λ s, set_notices (notices s ++ [Notice k title]) s).

(** [safe_int(val, default)] of v2.0: [int(val)] on the entry's text. *)
Definition safe_int (val : string) (dflt : Z) : Z :=
  default dflt (int_of_str val).

(** *** Types loading *)

Definition find_xml_files_in_folder (d : disk) (folder : string) : list string :=
  omap (λ '(root, f), if is_xml_name f then Some (path_join root f) else None)
       (fs_walk d folder).

Definition load_types_xml (d : disk) (path : string) :
    option (list string * list (string * item_info)) :=
  els ← xml_types d path;
  let src := basename path in
  Some (foldl (λ '(items, meta) t,
                 match te_name t with
                 | Some name =>
                     if bool_decide (name = "") then (items, meta)
                     else
                       let cat :=
                         match te_category t with
                         | Some tx => if bool_decide (tx = "") then "" else str_strip tx
                         | None => ""
                         end in
                       (items ++ [name],
                        dict_set meta name {| info_source := src; info_category := cat |})
                 | None => (items, meta)
                 end)
              ([], []) els).

Definition merge_one (d : disk) (acc : catalog * list string * list string)
    (p : string) : catalog * list string * list string :=
  let '(c, merged_items, errors) := acc in
  match load_types_xml d p with
  | Some (items, meta) =>
      let src := basename p in
      ({| types_folders := types_folders c;
          types_files_loaded :=
            (if bool_decide (p ∈ types_files_loaded c) then types_files_loaded c
             else types_files_loaded c ++ [p]);
          all_items := all_items c;
          item_meta :=
            foldl (λ m '(k, v), if dict_mem m k then m else dict_set m k v)
                  (item_meta c) meta;
          source_to_items := dict_set (source_to_items c) src items |},
       foldl set_add merged_items items,
       errors)
  | None => (c, merged_items, errors ++ [basename p])
  end.

Definition _merge_types_files (paths : list string) (show_warnings : bool) : M app unit :=
  let! d := gets files in
  let! c := gets cat in
  let '(c1, merged_items, errors) :=
    foldl (merge_one d) (c, set_of (all_items c), []) paths in
  modify (set_cat {| types_folders := types_folders c1;
                     types_files_loaded := types_files_loaded c1;
                     all_items := sorted_lower merged_items;
                     item_meta := item_meta c1;
                     source_to_items := source_to_items c1 |}) ;;
  match errors with
  | [] => ret tt
  | _ :: _ => if show_warnings then notify Warning "Some files failed to load" else ret tt
  end.

(** [_remember_types_folders(folders)]: the de-duplicated list goes to
    the settings; writing them to the config file swallows every error
    and is left out. *)
Definition _remember_types_folders (folders : list string) : M app unit :=
  let out := foldl (λ out p, if bool_decide (p ≠ "") && negb (bool_decide (p ∈ out))
                             then out ++ [p] else out) [] folders in
  modify (set_cfg_types_folders out).

Definition _load_types_folder_silent (folder : string) (show_warnings : bool) :
    M app unit :=
  let! c := gets cat in
  if bool_decide (folder ∈ types_folders c) then ret tt
  else
    let! d := gets files in
    let xmls := find_xml_files_in_folder d folder in
    match xmls with
    | [] => if show_warnings then notify Warning "No XML found" else ret tt
    | _ :: _ =>
        modify (λ s, set_cat {| types_folders := types_folders (cat s) ++ [folder];
                                types_files_loaded := types_files_loaded (cat s);
                                all_items := all_items (cat s);
                                item_meta := item_meta (cat s);
                                source_to_items := source_to_items (cat s) |} s) ;;
        _merge_types_files xmls show_warnings ;;
        let! c := gets cat in
        _remember_types_folders (types_folders c)
    end.

(** [folder] is what the directory dialog returns. *)
Definition load_types (folder : option string) : M app unit :=
  match folder with
  | None => ret tt
  | Some folder =>
      if bool_decide (folder = "") then ret tt
      else _load_types_folder_silent folder false
  end.

(** *** Containers and loot *)

(** The list of containers, by the schema keys tried in order. *)
Definition container_list_by_key (h : list object) (d : list (string * value)) :
    option (string * value) :=
  list_find (λ key, dict_mem d key = true ∧
                    is_list h (dict_get_or d key VNone) = true)
            ["AirdropContainers"; "Containers"; "m_AirdropContainers"]
  ≫= λ '(_, key), Some (key, dict_get_or d key VNone).

(** The fallback scan: the first list whose first element is a dict
    with a [Loot] or [m_Loot] key. *)
Definition container_list_by_scan (h : list object) (d : list (string * value)) :
    option value :=
  (λ r, r.2.2) <$>
    list_find (λ kv, match as_list h kv.2 with
                     | Some (v0 :: _) =>
                         match as_dict h v0 with
                         | Some d0 => dict_mem d0 "Loot" || dict_mem d0 "m_Loot"
                         | None => false
                         end
                     | _ => false
                     end = true) d.

(** [c.get(k1) or c.get(k2) or c.get(k3) or last] *)
Definition first_truthy (h : list object) (c : list (string * value))
    (k1 k2 k3 : string) (last : value) : value :=
  py_or h (dict_get_or c k1 VNone)
    (py_or h (dict_get_or c k2 VNone)
       (py_or h (dict_get_or c k3 VNone) last)).

Definition container_label (h : list object) (idx : nat) (c : list (string * value)) :
    string :=
  let name := first_truthy h c "Name" "ContainerName" "m_Name"
                (VStr ("Container_" ++ str_of_nat idx)) in
  let container_class :=
    first_truthy h c "Container" "ContainerType" "m_Container" (VStr "") in
  if truthy h container_class
  then (py_str h name ++ "  (" ++ py_str h container_class ++ ")")%string
  else py_str h name.

Definition _index_containers : M app unit :=
  modify (set_index [] []) ;;
  let! data := gets airdrop_data in
  let! h := gets heap in
  match as_dict h data with
  | None => ret tt
  | Some d =>
      let found :=
        match container_list_by_key h d with
        | Some (_, v) => Some v
        | None => container_list_by_scan h d
        end in
      match found with
      | None => ret tt
      | Some containers =>
          let! elems := py_list_of containers in
          let '(names, index) :=
            foldl (λ '(names, index) '(idx, c),
                     match as_dict h c with
                     | None => (names, index)
                     | Some cd =>
                         let label := container_label h idx cd in
                         (names ++ [label],
                          dict_set index label
                            {| ci_ref := c; ci_idx := idx; ci_list_ref := containers |})
                     end)
                  ([], []) (imap (λ i c, (i, c)) elems) in
          modify (set_index (sorted_lower names) index)
      end
  end.

Definition _clear_loot_editor : M app unit := modify (set_editor cleared_editor).

Definition _clear_loot_tree : M app unit :=
  modify (set_selected_loot_index None) ;;
  _clear_loot_editor.

(** Returns the loot list and the key it is under. *)
Definition _get_container_loot_list (container : value) : M app (value * string) :=
  let! d := py_dict_of container in
  let! h := gets heap in
  match list_find (λ key, dict_mem d key = true ∧
                          is_list h (dict_get_or d key VNone) = true)
                  ["Loot"; "m_Loot"] with
  | Some (_, key) => ret (dict_get_or d key VNone, key)
  | None =>
      let! empty := py_new (OList []) in
      py_setitem container "Loot" empty ;;
      let! loot := py_item container "Loot" in
      ret (loot, "Loot")
  end.

(** The display part (the scheduled row insertion) is left out. *)
Definition _load_loot_tree (container : value) : M app unit :=
  _clear_loot_tree ;;
  let! _ := _get_container_loot_list container in
  ret tt.

Definition on_container_change (selected : string) : M app unit :=
  let! index := gets container_index in
  match dict_get index selected with
  | Some info =>
      if bool_decide (selected = "") then
        modify (set_current_container_key None) ;; _clear_loot_tree
      else
        modify (set_current_container_key (Some selected)) ;;
        let container := ci_ref info in
        let! d1 := py_get container "m_ItemCount" (VStr "") in
        let! itemcount := py_get container "ItemCount" d1 in
        let! d2 := py_get container "m_Infected" (VBool true) in
        let! infected := py_get container "Infected" d2 in
        let! d3 := py_get container "m_InfectedCount" (VStr "") in
        let! infcount := py_get container "InfectedCount" d3 in
        let! h := gets heap in
        modify (set_settings
          {| var_item_count := if is_none itemcount then "" else py_str h itemcount;
             var_infected_count := if is_none infcount then "" else py_str h infcount;
             var_infected_enabled := truthy h infected |}) ;;
        _load_loot_tree container
  | None =>
      modify (set_current_container_key None) ;; _clear_loot_tree
  end.

Definition _refresh_container_dropdown : M app unit :=
  let! names := gets container_names in
  match names with
  | [] =>
      modify (set_var_container "Load airdrop file first") ;;
      modify (set_current_container_key None) ;;
      _clear_loot_tree
  | first :: _ =>
      let! key := gets current_container_key in
      (match key with
       | Some k =>
           if bool_decide (k ∈ names) then modify (set_var_container k)
           else modify (set_var_container first) ;;
                modify (set_current_container_key (Some first))
       | None =>
           modify (set_var_container first) ;;
           modify (set_current_container_key (Some first))
       end) ;;
      let! selected := gets var_container in
      on_container_change selected
  end.

(** [_load_airdrop_path(path, silent)].  Remembering the path in the
    config file swallows every error and is left out. *)
Definition _load_airdrop_path (path : string) (silent : bool) : M app unit :=
  try_except
    (let! d := gets files in
     let! j := lift (fs_read_json d path) in
     let! data := (λ s, let '(h', v) := loads j (heap s) in Ret v (set_heap h' s)) in
     modify (λ s,
       {| heap := heap s; files := files s; cfg_types_folders := cfg_types_folders s;
          airdrop_path := path; airdrop_data := data;
          market_path := market_path s; market_data := market_data s;
          market_dirty := market_dirty s;
          cat := cat s; container_names := container_names s;
          container_index := container_index s;
          current_container_key := current_container_key s;
          selected_loot_index := selected_loot_index s;
          var_container := var_container s; settings := settings s;
          editor := editor s; mvars := mvars s; notices := notices s |}) ;;
     _index_containers ;;
     _refresh_container_dropdown ;;
     if silent then ret tt else notify Info "Loaded")
    (if silent then ret tt else notify Error "Load Error").

(** [path] is what the file dialog returns. *)
Definition load_airdrop (path : option string) : M app unit :=
  match path with
  | None => ret tt
  | Some path => if bool_decide (path = "") then ret tt else _load_airdrop_path path false
  end.

Definition _get_current_container : M app value :=
  let! key := gets current_container_key in
  let! index := gets container_index in
  match key with
  | Some k =>
      if bool_decide (k = "") then ret VNone
      else match dict_get index k with
           | Some info => ret (ci_ref info)
           | None => ret VNone
           end
  | None => ret VNone
  end.

(** [sel] is the classname of the row selected in the Item Browser. *)
Definition add_selected_item_to_loot (sel : option string) : M app unit :=
  let! container := _get_current_container in
  let! live := py_truthy container in
  if negb live then notify Warning "No container"
  else match sel with
  | None => notify Info "Select item"
  | Some classname =>
      if bool_decide (classname = "") then ret tt
      else
        let! (loot, loot_key) := _get_container_loot_list container in
        let! row := py_new (ODict [
          ("Name", VStr classname);
          ("Chance", VFloat 1%float);
          ("Min", VInt 0);
          ("Max", VInt 1);
          ("QuantityPercent", VInt 0)]) in
        py_append loot row ;;
        py_setitem container loot_key loot ;;
        _load_loot_tree container
  end.

Definition apply_loot_edit : M app unit :=
  let! container := _get_current_container in
  let! live := py_truthy container in
  if negb live then ret tt
  else
    let! sel := gets selected_loot_index in
    match sel with
    | None => notify Info "No selection"
    | Some idx =>
        let! (loot, loot_key) := _get_container_loot_list container in
        let! n := py_len loot in
        if bool_decide (idx < 0 ∨ idx >= n)%Z then ret tt
        else
          let! row := py_index loot idx in
          let! is_row := py_is_dict row in
          if negb is_row then ret tt
          else
            let! vars := gets editor in
            py_setitem row "Name" (VStr (str_strip (var_name vars))) ;;
            py_setitem row "Chance"
              (match float_of_str (var_chance vars) with
               | Some f => VFloat f
               | None => VStr (var_chance vars)
               end) ;;
            py_setitem row "Min" (VInt (safe_int (var_min vars) 0)) ;;
            py_setitem row "Max" (VInt (safe_int (var_max vars) 1)) ;;
            py_setitem row "QuantityPercent" (VInt (safe_int (var_qty vars) 0)) ;;
            py_setindex loot idx row ;;
            py_setitem container loot_key loot ;;
            _load_loot_tree container
    end.

Definition _commit_container_settings_to_data : M app unit :=
  let! container := _get_current_container in
  let! live := py_truthy container in
  if negb live then ret tt
  else
    let! vars := gets settings in
    try_except
      (let ic := str_strip (var_item_count vars) in
       if bool_decide (ic = "") then
         let! has := py_has container "ItemCount" in
         (if has then py_popkey container "ItemCount" else ret tt) ;;
         let! has := py_has container "m_ItemCount" in
         (if has then py_popkey container "m_ItemCount" else ret tt)
       else py_setitem container "ItemCount" (VInt (safe_int ic 0)))
      (ret tt) ;;
    try_except
      (py_setitem container "Infected" (VBool (var_infected_enabled vars)))
      (ret tt) ;;
    try_except
      (let infc := str_strip (var_infected_count vars) in
       if bool_decide (infc = "") then
         let! has := py_has container "InfectedCount" in
         (if has then py_popkey container "InfectedCount" else ret tt) ;;
         let! has := py_has container "m_InfectedCount" in
         (if has then py_popkey container "m_InfectedCount" else ret tt)
       else py_setitem container "InfectedCount" (VInt (safe_int infc 0)))
      (ret tt).

(** [name] and [container_class] are the texts of the two dialogs. *)
Definition add_airdrop (name container_class : option string) : M app unit :=
  let! data := gets airdrop_data in
  let! ok := py_is_dict data in
  if negb ok then notify Warning "No file"
  else match name with
  | None => ret tt
  | Some name =>
      if bool_decide (name = "") then ret tt
      else
        let! d := py_dict_of data in
        let! h := gets heap in
        match container_list_by_key h d with
        | None => notify Error "Schema"
        | Some (any_key, containers) =>
            let! loot := py_new (OList []) in
            let! new_c := py_new (ODict [
              ("Name", VStr name);
              ("Container", VStr (default "" container_class));
              ("ItemCount", VInt 10);
              ("Infected", VBool true);
              ("InfectedCount", VInt 0);
              ("Loot", loot)]) in
            py_append containers new_c ;;
            py_setitem data any_key containers ;;
            _index_containers ;;
            _refresh_container_dropdown
        end
  end.

(** [name] is the text the name dialog returns. *)
Definition clone_airdrop (name : option string) : M app unit :=
  let! container := _get_current_container in
  let! live := py_truthy container in
  if negb live then ret tt
  else match name with
  | None => ret tt
  | Some name =>
      if bool_decide (name = "") then ret tt
      else
        let! key := gets current_container_key in
        let! index := gets container_index in
        let! info := lift (k ← key; dict_get index k) in
        let list_ref := ci_list_ref info in
        let! new_c := py_deep_copy container in
        py_setitem new_c "Name" (VStr name) ;;
        py_append list_ref new_c ;;
        _index_containers ;;
        _refresh_container_dropdown
  end.

(** *** File IO *)

Definition copy_file (src dst : string) : M app bool :=
  λ s, let '(d, ok) := fs_copy2 (files s) src dst in Ret ok (set_files d s).

Definition write_json (path : string) (data : value) : M app bool :=
  λ s, match fs_open_w (files s) path with
       | None => Ret false s
       | Some d1 =>
           match json_dumps (heap s) data with
           | Some j =>
               let '(d2, ok) := fs_write d1 path (json_text j) in
               Ret ok (set_files d2 s)
           | None =>
               let '(d2, _) := fs_write d1 path (json_partial_text (heap s) data) in
               Ret false (set_files d2 s)
           end
       end.

(** [ts] is the clock's [time.strftime("%Y%m%d_%H%M%S")]. *)
Definition save_airdrop (ts : string) : M app unit :=
  let! data := gets airdrop_data in
  let! loaded := py_truthy data in
  let! path := gets airdrop_path in
  if negb loaded || bool_decide (path = "") then notify Warning "No file"
  else
    _commit_container_settings_to_data ;;
    let bak := (path ++ ".bak_" ++ ts)%string in
    (* try: copy2  except Exception: bak = None *)
    let! backed_up := copy_file path bak in
    let! written := write_json path data in
    if written then notify Info "Saved"
    else notify Error "Save Error".

(** ** Market tab *)

(** The test of [_market_find_index_by_class]'s loop:
    [isinstance(row, dict) and str(row.get("ClassName", "")).lower() == target] *)
Definition market_row_matches (h : list object) (target : string) (row : value) : bool :=
  match as_dict h row with
  | Some rd =>
      bool_decide (str_lower (py_str h (dict_get_or rd "ClassName" (VStr ""))) = target)
  | None => false
  end.

(** [items = self.market_data.get("Items") or []], when that is a list. *)
Definition market_items (h : list object) (md : list (string * value)) :
    option (list value) :=
  let v := dict_get_or md "Items" VNone in
  if truthy h v then as_list h v else Some [].

(** [None] is Python's [None]: no row matches. *)
Definition find_index_by_class (h : list object) (market_data : value)
    (classname : string) : option nat :=
  md ← as_dict h market_data;
  items ← market_items h md;
  fst <$> list_find (λ row, market_row_matches h (str_lower classname) row = true) items.

Definition _market_find_index_by_class (classname : string) : M app (option nat) :=
  gets (λ s, find_index_by_class (heap s) (market_data s) classname).

(** [sel] is the classname of the row selected in the types list. *)
Definition market_add_selected_from_types (sel : option string) : M app unit :=
  let! data := gets market_data in
  let! ok := py_is_dict data in
  if negb ok then notify Warning "No Market"
  else match sel with
  | None => notify Info "Select Item"
  | Some classname =>
      let! found := _market_find_index_by_class classname in
      match found with
      | Some _ => notify Info "Already Exists"
      | None =>
          let! vars := gets mvars in
          let maxp := safe_int (var_m_maxp vars) 10 in
          let minp := safe_int (var_m_minp vars) (Z.max 1 (maxp `div` 2)) in
          let maxst := safe_int (var_m_maxst vars) 100 in
          let minst := safe_int (var_m_minst vars) 0 in
          let! attachments := py_new (OList []) in
          let! variants := py_new (OList []) in
          let! entry := py_new (ODict [
            ("ClassName", VStr classname);
            ("MaxPriceThreshold", VInt maxp);
            ("MinPriceThreshold", VInt minp);
            ("SellPricePercent", VInt (-1));
            ("MaxStockThreshold", VInt maxst);
            ("MinStockThreshold", VInt minst);
            ("QuantityPercent", VInt (-1));
            ("SpawnAttachments", attachments);
            ("Variants", variants)]) in
          let! items := py_item data "Items" in
          py_append items entry ;;
          modify (set_market_dirty true)
      end
  end.

Definition market_apply_edit : M app unit :=
  let! data := gets market_data in
  let! ok := py_is_dict data in
  if negb ok then ret tt
  else
    let! vars := gets mvars in
    let classname := str_strip (var_m_class vars) in
    if bool_decide (classname = "") then notify Info "No Item"
    else
      let! found := _market_find_index_by_class classname in
      match found with
      | None => notify Info "Not Found"
      | Some idx =>
          let! items := py_item data "Items" in
          let! row := py_index items (Z.of_nat idx) in
          py_setitem row "ClassName" (VStr classname) ;;
          py_setitem row "MinPriceThreshold" (VInt (safe_int (var_m_minp vars) 5)) ;;
          py_setitem row "MaxPriceThreshold" (VInt (safe_int (var_m_maxp vars) 10)) ;;
          py_setitem row "MinStockThreshold" (VInt (safe_int (var_m_minst vars) 0)) ;;
          py_setitem row "MaxStockThreshold" (VInt (safe_int (var_m_maxst vars) 100)) ;;
          py_setdefault row "SellPricePercent" (VInt (-1)) ;;
          py_setdefault row "QuantityPercent" (VInt (-1)) ;;
          let! e1 := py_new (OList []) in
          py_setdefault row "SpawnAttachments" e1 ;;
          let! e2 := py_new (OList []) in
          py_setdefault row "Variants" e2 ;;
          modify (set_market_dirty true)
      end.

(** [_load_market_path(path, silent)].  The document must be a dict
    with an [Items] key.  Remembering the path in the config file
    swallows every error and is left out, and so is the table refresh,
    which is display only. *)
Definition _load_market_path (path : string) (silent : bool) : M app unit :=
  try_except
    (let! d := gets files in
     let! j := lift (fs_read_json d path) in
     let! data := (λ s, let '(h', v) := loads j (heap s) in Ret v (set_heap h' s)) in
     let! ok := py_is_dict data in
     (if negb ok then raise
      else let! has := py_has data "Items" in if has then ret tt else raise) ;;
     modify (λ s,
       {| heap := heap s; files := files s; cfg_types_folders := cfg_types_folders s;
          airdrop_path := airdrop_path s; airdrop_data := airdrop_data s;
          market_path := path; market_data := data; market_dirty := false;
          cat := cat s; container_names := container_names s;
          container_index := container_index s;
          current_container_key := current_container_key s;
          selected_loot_index := selected_loot_index s;
          var_container := var_container s; settings := settings s;
          editor := editor s; mvars := mvars s; notices := notices s |}) ;;
     if silent then ret tt else notify Info "Market Loaded")
    (if silent then ret tt else notify Error "Market Load Error").

(** [sel] is the classname shown in the selected row of the market table. *)
Definition market_remove_selected (sel : option string) : M app unit :=
  let! data := gets market_data in
  let! ok := py_is_dict data in
  if negb ok then ret tt
  else match sel with
  | None => ret tt
  | Some classname =>
      let! found := _market_find_index_by_class classname in
      match found with
      | None => ret tt
      | Some idx =>
          let! items := py_item data "Items" in
          py_delitem items (Z.of_nat idx) ;;
          modify (set_market_dirty true)
      end
  end.

(** ** Item browser *)

(** [_get_filtered_items]; [var_search] and [var_source] are the search
    text and the entry picked in the source dropdown. *)
Definition _get_filtered_items (var_search var_source : string) (c : catalog) :
    list string :=
  let q := str_lower (str_strip var_search) in
  let src := if bool_decide (var_source = "") then "All Types Files" else var_source in
  match all_items c with
  | [] => []
  | _ :: _ =>
      let base := if bool_decide (src = "All Types Files") then all_items c
                  else dict_get_or (source_to_items c) src [] in
      if bool_decide (q = "") then base
      else filter (λ name, str_contains q (str_lower name) = true) base
  end.

(** [_item_insert_step]: the rows (classname, source) the item table
    ends with. *)
Definition _item_insert_step (var_search var_source : string) (c : catalog) :
    list (string * string) :=
  let items := _get_filtered_items var_search var_source c in
  let max_rows := if bool_decide (str_strip var_search = "") then 600%nat else 1200%nat in
  (λ name, (name, match dict_get (item_meta c) name with
                  | Some meta => info_source meta
                  | None => ""
                  end)) <$> take max_rows items.

(** [_refresh_market_types_list]: the rows of the types list on the
    Market tab, for the text of its search box. *)
Definition _refresh_market_types_list (var_market_search : string) (c : catalog) :
    list (string * string) :=
  let q := str_lower (str_strip var_market_search) in
  let max_rows := if bool_decide (q = "") then 600%nat else 1200%nat in
  (λ name, (name, match dict_get (item_meta c) name with
                  | Some meta => info_source meta
                  | None => ""
                  end)) <$>
    take max_rows
      (filter (λ name, q = "" ∨ str_contains q (str_lower name) = true) (all_items c)).

(** [clear_types]: the catalog is emptied and the remembered folders
    with it. *)
Definition clear_types : M app unit :=
  modify (set_cat {| types_folders := []; types_files_loaded := []; all_items := [];
                     item_meta := []; source_to_items := [] |}) ;;
  _remember_types_folders [].

(** ** Loot rows *)





Definition remove_loot : M app unit :=
  let! container := _get_current_container in
  let! live := py_truthy container in
  if negb live then ret tt
  else
    let! sel := gets selected_loot_index in
    match sel with
    | None => ret tt
    | Some idx =>
        let! (loot, loot_key) := _get_container_loot_list container in
        let! n := py_len loot in
        (if bool_decide (0 ≤ idx < n)%Z then py_delitem loot idx else ret tt) ;;
        py_setitem container loot_key loot ;;
        modify (set_selected_loot_index None) ;;
        _clear_loot_editor ;;
        _load_loot_tree container
    end.

(** [move_loot(direction)].  The table is emptied by [_load_loot_tree]
    and filled by a job scheduled for later, so the closing
    "reselect visually" finds no row and selects nothing. *)
Definition move_loot (direction : Z) : M app unit :=
  let! container := _get_current_container in
  let! live := py_truthy container in
  let! sel := gets selected_loot_index in
  match sel with
  | Some i =>
      if negb live then ret tt
      else
        let! (loot, loot_key) := _get_container_loot_list container in
        let j := (i + direction)%Z in
        let! n := py_len loot in
        if bool_decide (j < 0 ∨ j >= n)%Z then ret tt
        else
          let! at_j := py_index loot j in
          let! at_i := py_index loot i in
          py_setindex loot i at_j ;;
          py_setindex loot j at_i ;;
          py_setitem container loot_key loot ;;
          modify (set_selected_loot_index (Some j)) ;;
          _load_loot_tree container
  | None => ret tt
  end.

(** ** Market files *)

(** [path] is what the file dialog returns. *)
Definition load_market (path : option string) : M app unit :=
  match path with
  | None => ret tt
  | Some path => if bool_decide (path = "") then ret tt else _load_market_path path false
  end.

Definition set_market (data : value) (path : string) (dirty : bool) (s : app) : app :=
  {| heap := heap s; files := files s; cfg_types_folders := cfg_types_folders s;
     airdrop_path := airdrop_path s; airdrop_data := airdrop_data s;
     market_path := path; market_data := data; market_dirty := dirty;
     cat := cat s; container_names := container_names s;
     container_index := container_index s;
     current_container_key := current_container_key s;
     selected_loot_index := selected_loot_index s;
     var_container := var_container s; settings := settings s;
     editor := editor s; mvars := mvars s; notices := notices s |}.

(** [display] and [file_hint] are the texts of the two dialogs
    ([None]: cancelled).  The file name hint goes to the config only. *)
Definition new_market (display file_hint : option string) : M app unit :=
  match display with
  | None => ret tt
  | Some display =>
      match file_hint with
      | None => ret tt
      | Some _ =>
          let! items := py_new (OList []) in
          let! data := py_new (ODict [
            ("m_Version", VInt 3);
            ("DisplayName", VStr display);
            ("Icon", VStr "Deliver");
            ("Color", VStr "FBFCFEFF");
            ("IsExchange", VBool false);
            ("InitStockPercent", VFloat 75%float);
            ("Items", items)]) in
          modify (set_market data "" true)
      end
  end.

(** The [try] block of [save_market]: [isfile] is what
    [os.path.isfile(self.market_path)] answers, [ts] the clock's
    [time.strftime("%Y%m%d_%H%M%S")]. *)
Definition write_market (isfile : bool) (ts : string) : M app unit :=
  let! path := gets market_path in
  let! data := gets market_data in
  (if isfile then
     let! backed_up := copy_file path (path ++ ".bak_" ++ ts)%string in ret tt
   else ret tt) ;;
  let! written := write_json path data in
  if written then
    modify (set_market_dirty false) ;;
    notify Info "Market Saved"
  else notify Error "Market Save Error".

(** [save_market], with [save_as] for its call of [save_market_as]. *)
Definition save_market_with (save_as : M app unit) (isfile : bool) (ts : string) :
    M app unit :=
  let! data := gets market_data in
  let! ok := py_is_dict data in
  if negb ok then notify Warning "No Market"
  else
    let! path := gets market_path in
    if bool_decide (path = "") then save_as
    else write_market isfile ts.

(** [path] is what the "Save As" dialog returns.  The call of
    [save_market] at the end finds the path just set, so it does not
    come back here. *)
Definition save_market_as (path : option string) (isfile : bool) (ts : string) :
    M app unit :=
  let! data := gets market_data in
  let! ok := py_is_dict data in
  if negb ok then notify Warning "No Market"
  else match path with
  | None => ret tt
  | Some path =>
      if bool_decide (path = "") then ret tt
      else
        modify (λ s, set_market (market_data s) path (market_dirty s) s) ;;
        save_market_with (ret tt) isfile ts
  end.

Definition save_market (path : option string) (isfile : bool) (ts : string) : M app unit :=
  save_market_with (save_market_as path isfile ts) isfile ts.

End App.
End V20.

(** * A runtime and a host that compute

    [Sample] implements the interfaces for evaluating the handlers on
    concrete inputs: ASCII case folding and whitespace, plain decimal
    numerals, and a disk held in a table.  Nothing proved in general
    depends on it. *)

Module Sample.

Definition lower_char (c : ascii) : ascii :=
  let n := nat_of_ascii c in
  if (65 <=? n)%nat && (n <=? 90)%nat then ascii_of_nat (n + 32) else c.

Definition lower (s : string) : string :=
  string_of_list_ascii (map lower_char (list_ascii_of_string s)).

Definition is_space (c : ascii) : bool :=
  let n := nat_of_ascii c in
  (n =? 32)%nat || ((9 <=? n)%nat && (n <=? 13)%nat) || ((28 <=? n)%nat && (n <=? 31)%nat).

Fixpoint drop_space (l : list ascii) : list ascii :=
  match l with
  | c :: r => if is_space c then drop_space r else l
  | [] => []
  end.

Definition strip (s : string) : string :=
  string_of_list_ascii (rev (drop_space (rev (drop_space (list_ascii_of_string s))))).

Definition digit (c : ascii) : option Z :=
  let n := nat_of_ascii c in
  if (48 <=? n)%nat && (n <=? 57)%nat then Some (Z.of_nat (n - 48)) else None.

Fixpoint digits (acc : Z) (l : list ascii) : option Z :=
  match l with
  | [] => Some acc
  | c :: r => d ← digit c; digits (10 * acc + d)%Z r
  end.

Definition unsigned (l : list ascii) : option Z :=
  match l with
  | [] => None
  | _ :: _ => digits 0 l
  end.

Definition signed {A} (body : list ascii → option A) (neg : A → A) (l : list ascii) :
    option A :=
  match l with
  | "-"%char :: r => neg <$> body r
  | "+"%char :: r => body r
  | _ => body l
  end.

(** [int(s)] on [[+-]digits], surrounding whitespace allowed. *)
Definition parse_int (s : string) : option Z :=
  signed unsigned Z.opp (list_ascii_of_string (strip s)).

Fixpoint split_dot (l : list ascii) : list ascii * option (list ascii) :=
  match l with
  | [] => ([], None)
  | c :: r =>
      if bool_decide (c = "."%char) then ([], Some r)
      else let '(a, b) := split_dot r in (c :: a, b)
  end.

(** [m / 10^k] as a double: correctly rounded while [m] and [10^k] are
    exact doubles, the range this parser accepts. *)
Definition decimal_float (m : Z) (k : nat) : option float :=
  if (m <? 2 ^ 53)%Z && (k <=? 22)%nat
  then Some (PrimFloat.div (PrimFloat.of_uint63 (Uint63.of_Z m))
                           (PrimFloat.of_uint63 (Uint63.of_Z (10 ^ Z.of_nat k))))
  else None.

(** [float(s)] on [[+-]digits[.digits]], surrounding whitespace allowed. *)
Definition parse_float (s : string) : option float :=
  signed (λ l, let '(ip, fp) := split_dot l in
               match fp with
               | None => m ← unsigned ip; decimal_float m 0
               | Some fr => m ← unsigned (ip ++ fr); decimal_float m (length fr)
               end)
         PrimFloat.opp (list_ascii_of_string (strip s)).

(** [int(x)]: truncation toward zero, undefined on infinities and NaN. *)
Definition trunc_float (f : float) : option Z :=
  match FloatOps.Prim2SF f with
  | SpecFloat.S754_zero _ => Some 0%Z
  | SpecFloat.S754_finite sign m e =>
      let a := if (0 <=? e)%Z then (Z.pos m * 2 ^ e)%Z else (Z.pos m `div` 2 ^ (- e))%Z in
      Some (if sign then (- a)%Z else a)
  | _ => None
  end.

Definition str_of_Z (n : Z) : string := NilZero.string_of_int (Z.to_int n).

Fixpoint strip_zeros (l : list ascii) : list ascii :=
  match l with
  | "0"%char :: r => strip_zeros r
  | _ => l
  end.

(** The exact decimal value of a double.  (Python prints the shortest
    numeral that reads back to the same double.) *)
Definition str_of_float (f : float) : string :=
  match FloatOps.Prim2SF f with
  | SpecFloat.S754_zero sign => if sign then "-0.0" else "0.0"
  | SpecFloat.S754_infinity sign => if sign then "-inf" else "inf"
  | SpecFloat.S754_nan => "nan"
  | SpecFloat.S754_finite sign m e =>
      let body :=
        if (0 <=? e)%Z then (str_of_Z (Z.pos m * 2 ^ e) ++ ".0")%string
        else
          let k := Z.to_nat (- e) in
          let ds := list_ascii_of_string (str_of_Z (Z.pos m * 5 ^ (- e))) in
          let ds := replicate (S k - length ds) "0"%char ++ ds in
          let ip := take (length ds - k) ds in
          let fp := rev (strip_zeros (rev (drop (length ds - k) ds))) in
          (string_of_list_ascii ip ++ "." ++
           string_of_list_ascii (match fp with [] => ["0"%char] | _ => fp end))%string in
      if sign then ("-" ++ body)%string else body
  end.

Definition str_of_value (h : list object) (v : value) : string :=
  match v with
  | VNone => "None"
  | VBool b => if b then "True" else "False"
  | VInt n => str_of_Z n
  | VFloat f => str_of_float f
  | VStr s => s
  | VRef l =>
      match h !! l with
      | Some (ODict _) => "{..}"
      | Some (OList _) => "[..]"
      | None => ""
      end
  end.

Definition dquote : string := String (ascii_of_nat 34) EmptyString.

(** JSON text on one line; strings are written without escapes. *)
Fixpoint text_of_json (j : json) : string :=
  match j with
  | JNull => "null"
  | JBool b => if b then "true" else "false"
  | JInt n => str_of_Z n
  | JFloat f => str_of_float f
  | JStr s => (dquote ++ s ++ dquote)%string
  | JArr xs =>
      ("[" ++ String.concat ", " ((fix go (l : list json) : list string :=
                                     match l with
                                     | [] => []
                                     | x :: r => text_of_json x :: go r
                                     end) xs) ++ "]")%string
  | JObj kvs =>
      ("{" ++ String.concat ", "
                ((fix go (l : list (string * json)) : list string :=
                    match l with
                    | [] => []
                    | kv :: r =>
                        (dquote ++ kv.1 ++ dquote ++ ": " ++ text_of_json kv.2)%string :: go r
                    end) kvs) ++ "}")%string
  end.

Fixpoint after_last_slash (acc : list ascii) (l : list ascii) : list ascii :=
  match l with
  | [] => acc
  | c :: r => if bool_decide (c = "/"%char) then after_last_slash r r
              else after_last_slash acc r
  end.

Definition base_name (p : string) : string :=
  let l := list_ascii_of_string p in string_of_list_ascii (after_last_slash l l).

#[export] Instance builtins : Builtins := {|
  str_lower := lower;
  str_strip := strip;
  float_of_str := parse_float;
  int_of_float := trunc_float;
  int_of_str := parse_int;
  repr := str_of_value;
  json_text := text_of_json;
  json_partial_text := λ _ _, "";
  basename := base_name;
  path_join := λ a b, (a ++ "/" ++ b)%string;
|}.

(** A file: its text, and what the JSON and types parsers make of it. *)
Record file := {
  f_text : string;
  f_json : option json;
  f_types : option (list type_elem);
}.

(** A disk: the files by path, the listing of each folder, and the
    paths that cannot be created or written. *)
Record table := {
  t_files : list (string * file);
  t_folders : list (string * list (string * string));
  t_locked : list string;
}.

Definition put_file (p : string) (f : file) (d : table) : table :=
  {| t_files := dict_set (t_files d) p f; t_folders := t_folders d;
     t_locked := t_locked d |}.

Definition copy2 (d : table) (src dst : string) : table * bool :=
  match dict_get (t_files d) src with
  | Some f => if bool_decide (dst ∈ t_locked d) then (d, false)
              else (put_file dst f d, true)
  | None => (d, false)
  end.

Definition open_w (d : table) (p : string) : option table :=
  if bool_decide (p ∈ t_locked d) then None
  else Some (put_file p {| f_text := ""; f_json := None; f_types := None |} d).

Definition write (d : table) (p text : string) : table * bool :=
  (put_file p {| f_text := text; f_json := None; f_types := None |} d, true).

#[export] Instance host : Host := {|
  disk := table;
  fs_copy2 := copy2;
  fs_open_w := open_w;
  fs_write := write;
  fs_read_json := λ d p, f ← dict_get (t_files d) p; f_json f;
  fs_walk := λ d folder, dict_get_or (t_folders d) folder [];
  xml_types := λ d p, f ← dict_get (t_files d) p; f_types f;
|}.

End Sample.

(** * The vocabulary of the statements

    The predicates and functions the theorems are stated with, and the
    concrete documents they are evaluated on. *)

(** ** JSON trees and the store *)

Module JsonSpec.
Local Open Scope nat_scope.

(** Nesting depth: the fuel [dumps_fuel] needs. *)
Fixpoint depth (j : json) : nat :=
  match j with
  | JArr xs => S (foldr (λ x n, Nat.max (depth x) n) 0 xs)
  | JObj kvs => S (foldr (λ kv n, Nat.max (depth kv.2) n) 0 kvs)
  | _ => 0
  end.

(** A loaded value is a scalar or a reference to a new object. *)
Definition fresh_in (lo hi : nat) (v : value) : Prop :=
  match v with
  | VRef l => (lo ≤ l < hi)%nat
  | _ => True
  end.

(** The statement of the round trip for one tree: in any store that
    agrees with the loaded one on the new objects, reading the loaded
    value back gives the tree. *)
Definition reads_back (j : json) : Prop :=
  ∀ (h h2 : list object) fuel,
    (∀ l, (length h ≤ l < length (loads j h).1)%nat → h2 !! l = (loads j h).1 !! l) →
    (depth j ≤ fuel)%nat →
    dumps_fuel fuel h2 (loads j h).2 = Some j.

(** The values an object holds. *)
Definition refs_of (o : object) : list value :=
  match o with
  | ODict d => d.*2
  | OList xs => xs
  end.

(** A scalar, or a reference to an object made after the first [n0]. *)
Definition fresh_val (n0 : nat) (v : value) : Prop :=
  match v with
  | VRef l => n0 ≤ l
  | _ => True
  end.

(** No object made after the first [n0] refers to one of them. *)
Definition closed_above (n0 : nat) (h : list object) : Prop :=
  ∀ l o, n0 ≤ l → h !! l = Some o → Forall (fresh_val n0) (refs_of o).

(** The objects of [h0], the list at [cl] apart, are as they were. *)
Definition old_frame (h0 : list object) (cl : nat) (h : list object) : Prop :=
  ∀ l, l < length h0 → l ≠ cl → h !! l = h0 !! l.

(** [loads] makes objects that refer to objects it made. *)
Definition made_closed (j : json) : Prop :=
  ∀ (h : list object) l o,
    length h ≤ l → (loads j h).1 !! l = Some o → Forall (fresh_val (length h)) (refs_of o).

(** The tree a clone serialises to: the source's members with the name
    replaced and an empty loot list. *)
Definition clone_json (kvs : list (string * json)) (name : string) : json :=
  JObj (dict_set (dict_set kvs "Container" (JStr name)) "Loot" (JArr [])).

End JsonSpec.

(** ** What a handler keeps *)

Module FrameSpec.

(** [m] keeps [I], however it ends. *)
Definition preserves {St A} (I : St → Prop) (m : M St A) : Prop :=
  ∀ s, I s → I (final (m s)).

(** [m] only reads. *)
Definition readonly {St A} (m : M St A) : Prop := ∀ s, final (m s) = s.

Section ObjectRules.
Context {St : Type} `{Store St}.

(** How an invariant may depend on the store. *)
Definition extend_stable I : Prop :=
  ∀ s ext, I s → I (put_heap (get_heap s ++ ext) s).
Definition dict_write_stable I : Prop :=
  ∀ s l d d', I s → get_heap s !! l = Some (ODict d) →
              I (put_heap (<[l := ODict d']> (get_heap s)) s).
Definition list_write_stable I : Prop :=
  ∀ s l xs xs', I s → get_heap s !! l = Some (OList xs) →
                I (put_heap (<[l := OList xs']> (get_heap s)) s).

End ObjectRules.

End FrameSpec.

(** ** v1.8 *)

Module Spec18.
Import V18 JsonSpec.
Local Open Scope nat_scope.

Section S.
Context `{Builtins} `{Host}.

(** The shape [load_airdrop_json] leaves: the root dict at [r], its
    [Containers] list at [cl], the containers being dicts at [locs]. *)
Definition doc (h : list object) (data : value) (r cl : nat) (locs : list nat) : Prop :=
  data = VRef r ∧
  (as_dict h data ≫= λ d, dict_get d "Containers") = Some (VRef cl) ∧
  h !! cl = Some (OList (VRef <$> locs)) ∧
  Forall (λ l, is_dict h (VRef l) = true) locs ∧
  r ∉ locs.

(** A dict has each key once. *)
Definition valid_dict {K V} (d : list (K * V)) : Prop := NoDup d.*1.

Definition valid_pending (p : list (Z * list (string * value))) : Prop :=
  valid_dict p ∧ Forall (λ e, valid_dict e.2) p.

(** The patch [_stash_pending_container_settings] computes from the form. *)
Definition stash_patch (vars : settings_vars) (pending : list (string * value)) :
    list (string * value) :=
  let pending :=
    if bool_decide (str_strip (var_item_count vars) ≠ "")
    then dict_set pending "ItemCount" (safe_int (str_strip (var_item_count vars)) (VInt 0))
    else dict_pop pending "ItemCount" in
  let pending :=
    if bool_decide (str_strip (var_infected_count vars) ≠ "")
    then dict_set pending "InfectedCount"
           (safe_int (str_strip (var_infected_count vars)) (VInt 0))
    else dict_pop pending "InfectedCount" in
  dict_set pending "Infected" (VBool (var_infected_enabled vars)).

(** What the commit loop does to the store, as a function. *)
Definition apply_changes (d changes : list (string * value)) : list (string * value) :=
  foldl (λ d kv, dict_set d kv.1 kv.2) d changes.

Definition commit_entry (locs : list nat) (h : list object)
    (e : Z * list (string * value)) : list object :=
  if bool_decide (e.1 < 0)%Z then h
  else if bool_decide (e.1 >= Z.of_nat (length locs))%Z then h
  else match locs !! Z.to_nat e.1 with
       | Some l =>
           match h !! l with
           | Some (ODict d) => <[l := ODict (apply_changes d e.2)]> h
           | _ => h
           end
       | None => h
       end.

Definition commit_heap (locs : list nat) (pending : list (Z * list (string * value)))
    (h : list object) : list object :=
  foldl (commit_entry locs) h pending.

(** The user fills the settings form and leaves it. *)
Definition stage (item_count infected_count : string) (infected_enabled : bool) :
    M app unit :=
  bind (modify (set_settings {| var_item_count := item_count;
                                var_infected_count := infected_count;
                                var_infected_enabled := infected_enabled |}))
       (λ _, _stash_pending_container_settings).

(** The patch staged for position [idx]. *)
Definition staged (s : app) (idx : Z) : list (string * value) :=
  dict_get_or (pending_container_settings s) idx [].

(** An invariant that does not look at the form, the selection or the
    notices. *)
Definition ui_stable (I : app → Prop) : Prop :=
  ∀ s, I s →
    (∀ x, I (set_container_names x s)) ∧
    (∀ x, I (set_current_container_index x s)) ∧
    (∀ x, I (set_selected_loot_index x s)) ∧
    (∀ x, I (set_var_container x s)) ∧
    (∀ x, I (set_settings x s)) ∧
    (∀ x, I (set_editor x s)) ∧
    (∀ x, I (set_notices x s)).

(** Where the container at position [i] is after the one at [removed]
    has gone. *)
Definition shifted (removed i : Z) : Z := if bool_decide (i < removed)%Z then i else (i - 1)%Z.

(** The old position of what is at [j] afterwards. *)
Definition unshifted (removed j : Z) : Z := if bool_decide (j < removed)%Z then j else (j + 1)%Z.

(** The name [_rebuild_container_dropdown] shows for the container at
    position [i]. *)
Definition name_at (h : list object) (i : nat) (l : nat) : value :=
  match h !! l with
  | Some (ODict d) => dict_get_or d "Container" (VStr ("Container_" ++ str_of_nat i))
  | _ => VNone
  end.

(** What the handlers below keep: the store and the document root. *)
Definition same_doc (s s' : app) : Prop :=
  heap s' = heap s ∧ airdrop_data s' = airdrop_data s ∧
  pending_container_settings s' = pending_container_settings s ∧
  cat s' = cat s ∧ files s' = files s ∧ airdrop_path s' = airdrop_path s.

(** [c.get("Container", "")] for the container at [l]. *)
Definition name_or_blank (h : list object) (l : nat) : value :=
  match h !! l with
  | Some (ODict d) => dict_get_or d "Container" (VStr "")
  | _ => VNone
  end.

(** Every container name can go into a set. *)
Definition names_hashable (h : list object) (locs : list nat) : Prop :=
  Forall (λ l, hashable (name_or_blank h l) = true) locs.

(** Some container already carries the name. *)
Definition name_taken (h : list object) (locs : list nat) (name : string) : Prop :=
  Exists (λ l, value_is_str (name_or_blank h l) name = true) locs.

Definition name_free (h : list object) (locs : list nat) (name : string) : Prop :=
  Forall (λ l, value_is_str (name_or_blank h l) name = false) locs.

(** The entry [default_loot_entry] builds, its two lists at [a] and [v]. *)
Definition default_entry (classname : string) (a v : nat) : list (string * value) :=
  [("Name", VStr classname); ("Chance", VFloat float_0_1); ("Attachments", VRef a);
   ("QuantityPercent", VFloat (-1)%float); ("Max", VInt (-1)); ("Min", VInt 0);
   ("Variants", VRef v)].

(** The selected container: the dict at [l], whose [Loot] is the list
    at [ll]. *)
Definition current_loot (s : app) (locs : list nat) (idx : Z) (l : nat)
    (d : list (string * value)) (ll : nat) (loot : list value) : Prop :=
  current_container_index s = Some idx ∧ (0 ≤ idx)%Z ∧ locs !! Z.to_nat idx = Some l ∧
  heap s !! l = Some (ODict d) ∧ dict_get d "Loot" = Some (VRef ll) ∧
  heap s !! ll = Some (OList loot).

(** The dict [apply_editor_to_selected] leaves in place of the entry
    [ed]: every field is written, a numeric one with the parsed input or
    else with what the entry held (the literal default if it held
    nothing). *)
Definition edited (ed : list (string * value)) (name : string) (vars : editor_vars) :
    list (string * value) :=
  let d1 := dict_set ed "Name" (VStr name) in
  let d2 := dict_set d1 "Chance"
              (safe_float (var_chance vars) (dict_get_or d1 "Chance" (VFloat float_0_1))) in
  let d3 := dict_set d2 "Min" (safe_int (var_min vars) (dict_get_or d2 "Min" (VInt 0))) in
  let d4 := dict_set d3 "Max" (safe_int (var_max vars) (dict_get_or d3 "Max" (VInt (-1)))) in
  dict_set d4 "QuantityPercent"
    (safe_float (var_qty vars) (dict_get_or d4 "QuantityPercent" (VFloat (-1)%float))).

(** [k] is absent from [ed], or holds a list. *)
Definition list_or_absent (h : list object) (ed : list (string * value)) (k : string) : Prop :=
  match dict_get ed k with
  | None => True
  | Some (VRef a) => ∃ xs, h !! a = Some (OList xs)
  | Some _ => False
  end.

(** What holds while the container at [c], made after the objects of
    [h0], is the selected one: the older objects are untouched, the newer
    ones refer to newer ones only. *)
Definition inv (h0 : list object) (r cl : nat) (locs : list nat) (c : nat) (x : app) : Prop :=
  old_frame h0 cl (heap x) ∧ closed_above (length h0) (heap x) ∧
  length h0 ≤ length (heap x) ∧
  heap x !! cl = Some (OList (VRef <$> (locs ++ [c]))) ∧
  airdrop_data x = VRef r ∧
  current_container_index x = Some (Z.of_nat (length locs)).

(** [m] keeps [inv], and what it returns satisfies [post]. *)
Definition safe (h0 : list object) (r cl : nat) (locs : list nat) (c : nat)
    {A} (m : M app A) (post : A → Prop) : Prop :=
  ∀ x, inv h0 r cl locs c x →
       inv h0 r cl locs c (final (m x)) ∧ ∀ a x', m x = Ret a x' → post a.

(** What the user can do to the loot of the selected container. *)
Inductive loot_op :=
  | AddItem (classname : string)
  | SelectRow (sel : option Z)
  | TypeEditor (vars : editor_vars)
  | ApplyEditor (confirm_unknown : bool)
  | RemoveSelected
  | DuplicateSelected
  | ClearLoot (confirm : bool).

Definition run_op (o : loot_op) : M app unit :=
  match o with
  | AddItem classname => add_item_to_loot classname
  | SelectRow sel => _on_tree_select sel
  | TypeEditor vars => modify (set_editor vars)
  | ApplyEditor confirm_unknown => apply_editor_to_selected confirm_unknown
  | RemoveSelected => remove_selected_loot
  | DuplicateSelected => duplicate_selected_loot
  | ClearLoot confirm => clear_current_loot confirm
  end.

(** The handlers run one after the other; one that raises leaves the
    state it had reached. *)
Definition run_ops (ops : list loot_op) (x : app) : app :=
  foldl (λ x o, final (run_op o x)) x ops.

End S.

End Spec18.

(** ** v2.0 *)

Module Spec20.
Import V20.

Section S.
Context `{Builtins} `{Host}.

(** A market document as the handlers expect it: a dict whose [Items]
    is a list. *)
Definition market_doc (h : list object) (data : value) (il : nat) (items : list value) : Prop :=
  ∃ md, as_dict h data = Some md ∧ dict_get md "Items" = Some (VRef il) ∧
        h !! il = Some (OList items).

(** The container picked in the dropdown: the index entry of the
    current key refers to a non-empty dict [d] at [c]. *)
Definition selected (s : app) (c : nat) (d : list (string * value)) : Prop :=
  ∃ key info, current_container_key s = Some key ∧ key ≠ "" ∧
              dict_get (container_index s) key = Some info ∧ ci_ref info = VRef c ∧
              heap s !! c = Some (ODict d) ∧ d ≠ [].

(** The row v2.0 adds for a classname. *)
Definition new_row (classname : string) : list (string * value) :=
  [("Name", VStr classname); ("Chance", VFloat 1%float); ("Min", VInt 0);
   ("Max", VInt 1); ("QuantityPercent", VInt 0)].

(** The row [apply_loot_edit] leaves in place of [ed]: a numeric field
    whose text is no integer gets the constant of the call. *)
Definition edited (ed : list (string * value)) (vars : editor_vars) : list (string * value) :=
  let d1 := dict_set ed "Name" (VStr (str_strip (var_name vars))) in
  let d2 := dict_set d1 "Chance"
              (match float_of_str (var_chance vars) with
               | Some f => VFloat f
               | None => VStr (var_chance vars)
               end) in
  let d3 := dict_set d2 "Min" (VInt (safe_int (var_min vars) 0)) in
  let d4 := dict_set d3 "Max" (VInt (safe_int (var_max vars) 1)) in
  dict_set d4 "QuantityPercent" (VInt (safe_int (var_qty vars) 0)).

(** [m] returns from every state: it raises nothing. *)
Definition total {A} (m : M app A) : Prop := ∀ s, ∃ a s', m s = Ret a s'.

(** What does not depend on the heap. *)
Definition heap_blind (I : app → Prop) : Prop := ∀ s h, I s → I (set_heap h s).

(** What the form and index setters of v2.0 do not disturb. *)
Definition ui_stable (I : app → Prop) : Prop :=
  ∀ s, I s →
    (∀ x y, I (set_index x y s)) ∧
    (∀ x, I (set_current_container_key x s)) ∧
    (∀ x, I (set_selected_loot_index x s)) ∧
    (∀ x, I (set_var_container x s)) ∧
    (∀ x, I (set_settings x s)) ∧
    (∀ x, I (set_editor x s)) ∧
    (∀ x, I (set_notices x s)).

End S.

End Spec20.

(** ** The documents of the examples *)

Module Cases.
Import Sample.

(** An airdrop settings file with two containers. *)
Definition heli : json :=
  JObj [("Containers", JArr [
    JObj [("Container", JStr "Heli_Crash"); ("ItemCount", JInt 10);
          ("Loot", JArr [
             JObj [("Name", JStr "AKM"); ("Chance", JFloat 0.5%float); ("Min", JInt 5);
                   ("Max", JInt (-1)); ("QuantityPercent", JFloat (-1)%float);
                   ("Attachments", JArr []); ("Variants", JArr [])];
             JObj [("Name", JStr "Mag_AKM_30Rnd"); ("Chance", JFloat 0.25%float)]])];
    JObj [("Container", JStr "Drop_B"); ("Loot", JArr [])]])].

(** A market category file; two rows differ in case only. *)
Definition ammo : json :=
  JObj [("m_Version", JInt 3); ("DisplayName", JStr "Ammo");
        ("Items", JArr [
           JObj [("ClassName", JStr "Ammo_762x39"); ("MaxPriceThreshold", JInt 40)];
           JObj [("ClassName", JStr "AKM"); ("MaxPriceThreshold", JInt 900)];
           JObj [("ClassName", JStr "akm"); ("MaxPriceThreshold", JInt 1)]])].

(** The same for v2.0, whose containers carry a [Name]. *)
Definition heli20 : json :=
  JObj [("Containers", JArr [
    JObj [("Name", JStr "Heli_Crash"); ("Container", JStr "Military");
          ("ItemCount", JInt 10);
          ("Loot", JArr [
             JObj [("Name", JStr "AKM"); ("Chance", JFloat 0.5%float); ("Min", JInt 5);
                   ("Max", JInt (-1)); ("QuantityPercent", JFloat (-1)%float)]])];
    JObj [("Name", JStr "Drop_B"); ("Container", JStr "Military");
          ("Loot", JArr [])]])].

Definition settings_path : string := "missions/AirdropSettings.json".
Definition settings20_path : string := "missions/Airdrops20.json".
Definition market_file : string := "market/Ammo.json".

Definition json_file (j : json) : file :=
  {| f_text := "(as last saved)"; f_json := Some j; f_types := None |}.

Definition types_file : file :=
  {| f_text := "<types>...</types>"; f_json := None;
     f_types := Some [ {| te_name := Some "AKM"; te_category := Some "weapons";
                          te_nominal := Some "10"; te_min := Some "5";
                          te_tags := [Some "Military"] |} ] |}.

(** The disk: both documents and one types folder.  The backup names
    of the settings file for the two clock readings used below cannot
    be created. *)
Definition disk0 : table :=
  {| t_files := [(settings_path, json_file heli); (settings20_path, json_file heli20);
                 (market_file, json_file ammo);
                 ("types/types.xml", types_file)];
     t_folders := [("types", [("types", "types.xml"); ("types", "readme.txt")])];
     t_locked := ["missions/AirdropSettings.json.bak_2026-01-01_120000";
                  "missions/Airdrops20.json.bak_20260101_120000"] |}.

Definition blank18 : V18.app :=
  {| V18.heap := []; V18.files := disk0; V18.airdrop_path := ""; V18.airdrop_data := VNone;
     V18.cat := {| V18.types_folders := []; V18.types_files_loaded := []; V18.all_items := [];
                   V18.item_meta := []; V18.source_to_items := [] |};
     V18.container_names := []; V18.current_container_index := None;
     V18.selected_loot_index := None; V18.pending_container_settings := [];
     V18.var_container := "Load airdrop file first";
     V18.settings := {| var_item_count := ""; var_infected_count := "";
                        var_infected_enabled := true |};
     V18.editor := cleared_editor; V18.notices := [] |}.

Definition loaded18 : V18.app := final (V18.load_airdrop (Some settings_path) blank18).

Definition blank20 : V20.app :=
  {| V20.heap := []; V20.files := disk0; V20.cfg_types_folders := [];
     V20.airdrop_path := ""; V20.airdrop_data := VNone;
     V20.market_path := ""; V20.market_data := VNone; V20.market_dirty := false;
     V20.cat := {| V20.types_folders := []; V20.types_files_loaded := [];
                   V20.all_items := []; V20.item_meta := []; V20.source_to_items := [] |};
     V20.container_names := []; V20.container_index := [];
     V20.current_container_key := None; V20.selected_loot_index := None;
     V20.var_container := "Load airdrop file first";
     V20.settings := {| var_item_count := ""; var_infected_count := "";
                        var_infected_enabled := true |};
     V20.editor := cleared_editor;
     V20.mvars := {| V20.var_m_class := ""; V20.var_m_minp := ""; V20.var_m_maxp := "";
                     V20.var_m_minst := ""; V20.var_m_maxst := "" |};
     V20.notices := [] |}.

Definition loaded20 : V20.app := final (V20.load_airdrop (Some settings20_path) blank20).

Definition market20 : V20.app := final (V20._load_market_path market_file true loaded20).

(** v1.8: the form of "Drop_B" staged, then "Heli_Crash" selected again. *)
Definition staged18 : V18.app :=
  final (V18.on_container_change "Heli_Crash"
    (final (Spec18.stage "7" "3" true
      (final (V18.on_container_change "Drop_B" loaded18))))).

Definition typed : editor_vars :=
  {| var_name := " AKM "; var_chance := "lots"; var_min := "five"; var_max := "";
     var_qty := "-" |}.

(** The first loot row selected and the editor filled with text that
    is no number. *)
Definition edit18 : V18.app :=
  final (modify (V18.set_editor typed) (final (V18._on_tree_select (Some 0%Z) loaded18))).

(** v2.0 with "Heli_Crash" picked in the dropdown. *)
Definition heli_selected20 : V20.app :=
  final (V20.on_container_change "Heli_Crash  (Military)" loaded20).

Definition edit20 : V20.app :=
  V20.set_editor typed (V20.set_selected_loot_index (Some 0%Z) heli_selected20).

(** The market form holding a classname in another case. *)
Definition market_edit20 : V20.app :=
  {| V20.heap := V20.heap market20; V20.files := V20.files market20;
     V20.cfg_types_folders := V20.cfg_types_folders market20;
     V20.airdrop_path := V20.airdrop_path market20;
     V20.airdrop_data := V20.airdrop_data market20;
     V20.market_path := V20.market_path market20;
     V20.market_data := V20.market_data market20;
     V20.market_dirty := V20.market_dirty market20; V20.cat := V20.cat market20;
     V20.container_names := V20.container_names market20;
     V20.container_index := V20.container_index market20;
     V20.current_container_key := V20.current_container_key market20;
     V20.selected_loot_index := V20.selected_loot_index market20;
     V20.var_container := V20.var_container market20;
     V20.settings := V20.settings market20; V20.editor := V20.editor market20;
     V20.mvars := {| V20.var_m_class := " Akm"; V20.var_m_minp := "7";
                     V20.var_m_maxp := ""; V20.var_m_minst := "";
                     V20.var_m_maxst := "" |};
     V20.notices := V20.notices market20 |}.

(** v1.8 with the types folder added once. *)
Definition typed18 : V18.app := final (V18.add_types_folder (Some "types") blank18).

End Cases.

(** ** Lists of names *)

Module NamesSpec.

Section S.
Context `{Builtins}.

(** [x] does not come after [y] when the two are compared without case. *)
Definition lower_le (x y : string) : Prop :=
  String.ltb (str_lower y) (str_lower x) = false.

(** Sorted as [sorted(.., key=str.lower)] leaves a list. *)
Definition sorted_by_lower (l : list string) : Prop :=
  ∀ i j x y, (i < j)%nat → l !! i = Some x → l !! j = Some y → lower_le x y.

(** The classnames of the [<type>] elements that carry a name. *)
Definition named_types (els : list type_elem) : list string :=
  omap (λ t, match te_name t with
             | Some name => if bool_decide (name = "") then None else Some name
             | None => None
             end) els.

End S.

End NamesSpec.

(** ** Market rows *)

Module MarketSpec.
Import V20.

Section S.
Context `{Builtins} `{Host}.

(** Every row is an object of the store, and one that is a dict has a
    string for its [ClassName], or none. *)
Definition named_rows (h : list object) (items : list value) : Prop :=
  Forall (λ row, match row with
                 | VRef l =>
                     match h !! l with
                     | Some (ODict rd) => ∃ c, dict_get_or rd "ClassName" (VStr "") = VStr c
                     | Some (OList _) => True
                     | None => False
                     end
                 | _ => True
                 end) items.

(** The row [market_add_selected_from_types] builds for a classname
    from the form, its two lists at [a] and [v]. *)
Definition market_entry (classname : string) (vars : market_vars) (a v : nat) :
    list (string * value) :=
  let maxp := safe_int (var_m_maxp vars) 10 in
  [("ClassName", VStr classname);
   ("MaxPriceThreshold", VInt maxp);
   ("MinPriceThreshold", VInt (safe_int (var_m_minp vars) (Z.max 1 (maxp `div` 2))));
   ("SellPricePercent", VInt (-1));
   ("MaxStockThreshold", VInt (safe_int (var_m_maxst vars) 100));
   ("MinStockThreshold", VInt (safe_int (var_m_minst vars) 0));
   ("QuantityPercent", VInt (-1));
   ("SpawnAttachments", VRef a);
   ("Variants", VRef v)].

(** A market category file [_load_market_path] accepts: an object
    with an [Items] member. *)
Definition market_file_ok (j : json) : Prop :=
  ∃ kvs, j = JObj kvs ∧ is_Some (dict_get kvs "Items").

(** The tree of the category [new_market] makes. *)
Definition new_category (display : string) : json :=
  JObj [("m_Version", JInt 3); ("DisplayName", JStr display); ("Icon", JStr "Deliver");
        ("Color", JStr "FBFCFEFF"); ("IsExchange", JBool false);
        ("InitStockPercent", JFloat 75%float); ("Items", JArr [])].

End S.

End MarketSpec.

(** ** What Save commits *)

Module SaveSpec.
Import V18 Spec18.

Section S.
Context `{Builtins} `{Host}.

(** The staged settings once the form of the container shown has been
    staged too, which is the first thing [save_airdrop] does. *)
Definition staged_with_form (s : app) : list (Z * list (string * value)) :=
  match current_container_index s with
  | Some idx =>
      dict_set (pending_container_settings s) idx
        (stash_patch (settings s) (dict_get_or (pending_container_settings s) idx []))
  | None => pending_container_settings s
  end.

End S.

End SaveSpec.

(** ** Entries as trees *)

Module EntrySpec.

(** The member [k] of an object is absent, or is an array. *)
Definition arr_or_absent (kvs : list (string * json)) (k : string) : Prop :=
  match dict_get kvs k with
  | None => True
  | Some (JArr _) => True
  | Some _ => False
  end.

End EntrySpec.

(** ** What Load accepts *)

Module LoadSpec.

(** A container entry [load_airdrop_json] lets through: an object
    with a [Container] member. *)
Definition container_ok (c : json) : bool :=
  match c with
  | JObj m => dict_mem m "Container"
  | _ => false
  end.

(** The [Containers] array of a file, if it has one. *)
Definition file_containers (j : json) : option (list json) :=
  match j with
  | JObj kvs =>
      match dict_get kvs "Containers" with
      | Some (JArr cs) => Some cs
      | _ => None
      end
  | _ => None
  end.

(** A file [load_airdrop_json] returns a document for. *)
Definition airdrop_file_ok (j : json) : bool :=
  match file_containers j with
  | Some cs => forallb container_ok cs
  | None => false
  end.

(** A container entry whose [Loot] is an array already. *)
Definition loot_ready (c : json) : bool :=
  match c with
  | JObj m =>
      match dict_get m "Loot" with
      | Some (JArr _) => true
      | _ => false
      end
  | _ => false
  end.

(** The same on the store: a dict with a [Container] key, *)
Definition accepts (h : list object) (v : value) : bool :=
  match as_dict h v with
  | Some d => dict_mem d "Container"
  | None => false
  end.

(** a dict whose [Loot] is a list, *)
Definition loot_in_place (h : list object) (v : value) : Prop :=
  ∃ d, as_dict h v = Some d ∧ is_list h (dict_get_or d "Loot" VNone) = true.

(** the dict at [l] with its [Loot] list at hand. *)
Definition has_loot_list (h : list object) (l : nat) : Prop :=
  ∃ d ll loot, h !! l = Some (ODict d) ∧ dict_get d "Loot" = Some (VRef ll) ∧
               h !! ll = Some (OList loot).

(** What the check of the containers [W] may do to a store: give a
    container a new empty [Loot] list, and nothing else. *)
Definition grown (W : list value) (h h' : list object) : Prop :=
  (∀ v, accepts h' v = accepts h v) ∧
  (∀ l xs, h !! l = Some (OList xs) → h' !! l = Some (OList xs)) ∧
  (∀ l, has_loot_list h l → has_loot_list h' l) ∧
  (∀ l o, h !! l = Some o → VRef l ∉ W → h' !! l = Some o).

(** The locations a list of values refers to. *)
Definition ref_locs (vs : list value) : list nat :=
  omap (λ v, match v with VRef l => Some l | _ => None end) vs.

End LoadSpec.

(** ** The dropdown of v2.0 *)

Module IndexSpec.
Import V20.

Section S.
Context `{Builtins} `{Host}.

(** The list of containers [_index_containers] settles on: by the
    schema keys, or else by the scan. *)
Definition found_containers (h : list object) (d : list (string * value)) : option value :=
  match container_list_by_key h d with
  | Some (_, v) => Some v
  | None => container_list_by_scan h d
  end.

(** The labels of the elements that are dicts, in the order of the list. *)
Definition labels (h : list object) (elems : list value) : list string :=
  omap (λ '(i, c), container_label h i <$> as_dict h c) (imap (λ i c, (i, c)) elems).

(** The key under which [_get_container_loot_list] finds a list. *)
Definition loot_list_key (h : list object) (d : list (string * value)) : option string :=
  snd <$> list_find (λ key, dict_mem d key = true ∧
                            is_list h (dict_get_or d key VNone) = true)
                    ["Loot"; "m_Loot"].

(** The settings [on_container_change] shows for the container [d]. *)
Definition shown_settings (h : list object) (d : list (string * value)) : settings_vars :=
  let itemcount := dict_get_or d "ItemCount" (dict_get_or d "m_ItemCount" (VStr "")) in
  let infected := dict_get_or d "Infected" (dict_get_or d "m_Infected" (VBool true)) in
  let infcount := dict_get_or d "InfectedCount" (dict_get_or d "m_InfectedCount" (VStr "")) in
  {| var_item_count := if is_none itemcount then "" else py_str h itemcount;
     var_infected_count := if is_none infcount then "" else py_str h infcount;
     var_infected_enabled := truthy h infected |}.

End S.

End IndexSpec.

(** ** Further examples *)

Module MoreCases.
Import Sample Cases.

(** The [<type>] elements of the types file of the examples. *)
Definition types_elems : list type_elem :=
  [ {| te_name := Some "AKM"; te_category := Some "weapons";
       te_nominal := Some "10"; te_min := Some "5";
       te_tags := [Some "Military"] |} ].

(** v2.0 with the types folder loaded. *)
Definition typed20 : V20.app := final (V20.load_types (Some "types") blank20).

(** A market category whose [Items] is [null], and a settings file
    that holds an array. *)
Definition bare : json := JObj [("Items", JNull)].
Definition array_file : json := JArr [JInt 1; JInt 2].

Definition disk1 : table :=
  put_file "missions/Array.json" (json_file array_file)
    (put_file "market/Bare.json" (json_file bare) disk0).

Definition bare20 : V20.app :=
  final (V20._load_market_path "market/Bare.json" true (V20.set_files disk1 blank20)).

(** [edit18] with a blank name in the editor, and with a name that
    the loaded catalog does not have. *)
Definition blank_name18 : V18.app :=
  V18.set_editor {| var_name := "  "; var_chance := "0.5"; var_min := "5";
                    var_max := "-1"; var_qty := "-1" |} edit18.

Definition unknown_name18 : V18.app :=
  V18.set_editor {| var_name := "Mosin"; var_chance := "0.5"; var_min := "5";
                    var_max := "-1"; var_qty := "-1" |}
    (V18.set_cat (V18.cat typed18) edit18).

(** The containers of the settings file of the examples. *)
Definition heli_containers : list json :=
  default [] (LoadSpec.file_containers heli).

(** The text Save writes for the document of [loaded18]: the form of
    the first container has been staged, which adds [Infected]. *)
Definition heli_saved : json :=
  JObj [("Containers", JArr [
    JObj [("Container", JStr "Heli_Crash"); ("ItemCount", JInt 10);
          ("Loot", JArr [
             JObj [("Name", JStr "AKM"); ("Chance", JFloat 0.5%float); ("Min", JInt 5);
                   ("Max", JInt (-1)); ("QuantityPercent", JFloat (-1)%float);
                   ("Attachments", JArr []); ("Variants", JArr [])];
             JObj [("Name", JStr "Mag_AKM_30Rnd"); ("Chance", JFloat 0.25%float)]]);
          ("Infected", JBool true)];
    JObj [("Container", JStr "Drop_B"); ("Loot", JArr [])]])].

End MoreCases.

(** * Proofs *)

Module DictFacts.
Section Dict.
Context {K V : Type} `{EqDecision K}.
Implicit Types (d : list (K * V)) (k : K) (v : V).

Lemma dict_get_set_eq d k v : dict_get (dict_set d k v) k = Some v.
Proof.
  induction d as [|[k' v'] r IH]; simpl.
  - by rewrite decide_True.
  - destruct (decide (k' = k)) as [->|Hne]; simpl.
    + by rewrite decide_True.
    + by rewrite decide_False.
Qed.

Lemma dict_get_set_ne d k k' v : k ≠ k' → dict_get (dict_set d k v) k' = dict_get d k'.
Proof.
  intros Hne. induction d as [|[k0 v0] r IH]; simpl.
  - by rewrite decide_False.
  - destruct (decide (k0 = k)) as [->|Hk]; simpl.
    + by rewrite !decide_False.
    + destruct (decide (k0 = k')); auto.
Qed.

Lemma dict_get_None d k : dict_get d k = None ↔ k ∉ d.*1.
Proof.
  induction d as [|[k0 v0] r IH]; [split; [intros _; apply not_elem_of_nil | done]|].
  rewrite fmap_cons, not_elem_of_cons. simpl.
  destruct (decide (k0 = k)) as [->|Hk]; [(intuition congruence)|].
  rewrite IH. (intuition congruence).
Qed.

Lemma dict_get_pop_eq d k : NoDup d.*1 → dict_get (dict_pop d k) k = None.
Proof.
  induction d as [|[k0 v0] r IH]; [done|].
  rewrite fmap_cons. intros [Hnin Hnd]%NoDup_cons. simpl in *.
  destruct (decide (k0 = k)) as [->|Hk]; simpl.
  - by apply dict_get_None.
  - rewrite decide_False; auto.
Qed.

Lemma dict_get_pop_ne d k k' : k ≠ k' → dict_get (dict_pop d k) k' = dict_get d k'.
Proof.
  intros Hne. induction d as [|[k0 v0] r IH]; simpl; [done|].
  destruct (decide (k0 = k)) as [->|Hk]; simpl.
  - by rewrite decide_False.
  - destruct (decide (k0 = k')); auto.
Qed.

Lemma dict_set_keys d k v :
  (dict_set d k v).*1 = if bool_decide (k ∈ d.*1) then d.*1 else d.*1 ++ [k].
Proof.
  induction d as [|[k0 v0] r IH]; [done|].
  cbn [dict_set]. destruct (decide (k0 = k)) as [->|Hk]; rewrite !fmap_cons; cbn [fst].
  - rewrite bool_decide_true; [done | left].
  - rewrite IH. destruct (bool_decide_reflect (k ∈ r.*1)) as [Hin|Hnin].
    + rewrite bool_decide_true; [done | by right].
    + rewrite bool_decide_false; [done|]. rewrite elem_of_cons. (intuition congruence).
Qed.

Lemma dict_set_NoDup d k v : NoDup d.*1 → NoDup (dict_set d k v).*1.
Proof.
  intros Hnd. rewrite dict_set_keys. case_bool_decide; [done|].
  apply NoDup_app. split_and!; [done| |apply NoDup_singleton].
  intros x Hx ->%list_elem_of_singleton. done.
Qed.

Lemma dict_pop_keys_sub d k x : x ∈ (dict_pop d k).*1 → x ∈ d.*1.
Proof.
  induction d as [|[k0 v0] r IH]; [done|].
  cbn [dict_pop]. destruct (decide (k0 = k)) as [->|Hk]; rewrite ?fmap_cons.
  - by right.
  - rewrite !elem_of_cons. (intuition congruence).
Qed.

Lemma dict_pop_NoDup d k : NoDup d.*1 → NoDup (dict_pop d k).*1.
Proof.
  induction d as [|[k0 v0] r IH]; [done|].
  rewrite fmap_cons. intros [Hnin Hnd]%NoDup_cons.
  cbn [dict_pop]. destruct (decide (k0 = k)) as [->|Hk]; [done|].
  rewrite fmap_cons. apply NoDup_cons. split; [|auto]. intros Hin. by apply Hnin, (dict_pop_keys_sub _ k).
Qed.
End Dict.
End DictFacts.

Module ExecFacts.
Import DictFacts.
Section Objects.
Context {St : Type} `{Store St}.

Lemma py_dict_of_ok (s : St) l d :
  get_heap s !! l = Some (ODict d) → py_dict_of (VRef l) s = Ret d s.
Proof. intros Hl. unfold py_dict_of, as_dict. by rewrite Hl. Qed.

Lemma py_list_of_ok (s : St) l xs :
  get_heap s !! l = Some (OList xs) → py_list_of (VRef l) s = Ret xs s.
Proof. intros Hl. unfold py_list_of, as_list. by rewrite Hl. Qed.

Lemma py_setitem_ok (s : St) l d k v :
  get_heap s !! l = Some (ODict d) →
  py_setitem (VRef l) k v s
  = Ret tt (put_heap (<[l := ODict (dict_set d k v)]> (get_heap s)) s).
Proof. intros Hl. unfold py_setitem, bind. by rewrite (py_dict_of_ok _ _ _ Hl). Qed.

Lemma py_setdefault_ok (s : St) l d k v :
  get_heap s !! l = Some (ODict d) →
  py_setdefault (VRef l) k v s
  = Ret tt (put_heap (<[l := ODict (dict_setdefault d k v)]> (get_heap s)) s).
Proof. intros Hl. unfold py_setdefault, bind. by rewrite (py_dict_of_ok _ _ _ Hl). Qed.

Lemma py_popkey_ok (s : St) l d k :
  get_heap s !! l = Some (ODict d) →
  py_popkey (VRef l) k s
  = Ret tt (put_heap (<[l := ODict (dict_pop d k)]> (get_heap s)) s).
Proof. intros Hl. unfold py_popkey, bind. by rewrite (py_dict_of_ok _ _ _ Hl). Qed.

Lemma py_get_ok (s : St) l d k dflt :
  get_heap s !! l = Some (ODict d) →
  py_get (VRef l) k dflt s = Ret (dict_get_or d k dflt) s.
Proof. intros Hl. unfold py_get, bind. by rewrite (py_dict_of_ok _ _ _ Hl). Qed.

Lemma py_has_ok (s : St) l d k :
  get_heap s !! l = Some (ODict d) →
  py_has (VRef l) k s = Ret (dict_mem d k) s.
Proof. intros Hl. unfold py_has, bind. by rewrite (py_dict_of_ok _ _ _ Hl). Qed.

Lemma py_item_ok (s : St) l d k v :
  get_heap s !! l = Some (ODict d) → dict_get d k = Some v →
  py_item (VRef l) k s = Ret v s.
Proof. intros Hl Hk. unfold py_item, bind. rewrite (py_dict_of_ok _ _ _ Hl). by rewrite Hk. Qed.

Lemma py_index_ok (s : St) l xs i x :
  get_heap s !! l = Some (OList xs) → getitem xs i = Some x →
  py_index (VRef l) i s = Ret x s.
Proof. intros Hl Hi. unfold py_index, bind. rewrite (py_list_of_ok _ _ _ Hl). by rewrite Hi. Qed.

Lemma py_len_list (s : St) l xs :
  get_heap s !! l = Some (OList xs) → py_len (VRef l) s = Ret (Z.of_nat (length xs)) s.
Proof. intros Hl. unfold py_len. by rewrite Hl. Qed.

Lemma py_append_ok (s : St) l xs v :
  get_heap s !! l = Some (OList xs) →
  py_append (VRef l) v s
  = Ret tt (put_heap (<[l := OList (xs ++ [v])]> (get_heap s)) s).
Proof. intros Hl. unfold py_append, bind. by rewrite (py_list_of_ok _ _ _ Hl). Qed.

Lemma py_delitem_ok (s : St) l xs i ys :
  get_heap s !! l = Some (OList xs) → delitem xs i = Some ys →
  py_delitem (VRef l) i s
  = Ret tt (put_heap (<[l := OList ys]> (get_heap s)) s).
Proof.
  intros Hl Hd. unfold py_delitem, bind. rewrite (py_list_of_ok _ _ _ Hl).
  by rewrite Hd.
Qed.

Lemma py_new_ok (s : St) o :
  py_new o s = Ret (VRef (length (get_heap s))) (put_heap (get_heap s ++ [o]) s).
Proof. done. Qed.
End Objects.
End ExecFacts.

Module Steps.

Lemma bind_step {St A B} (m : M St A) (k : A → M St B) s a s' :
  m s = Ret a s' → bind m k s = k a s'.
Proof. intros Hm. unfold bind. by rewrite Hm. Qed.

Lemma bind_gets {St A B} (f : St → A) (k : A → M St B) s :
  bind (gets f) k s = k (f s) s.
Proof. done. Qed.

Lemma bind_modify {St B} (f : St → St) (k : unit → M St B) s :
  bind (modify f) k s = k tt (f s).
Proof. done. Qed.

Lemma bind_ret {St A B} (a : A) (k : A → M St B) s :
  bind (ret a) k s = k a s.
Proof. done. Qed.

Lemma bind_bind {St A B C} (m : M St A) (k : A → M St B) (k' : B → M St C) s :
  bind (bind m k) k' s = bind m (λ a, bind (k a) k') s.
Proof. unfold bind. by destruct (m s). Qed.

Ltac len_tac :=
  repeat (rewrite ?length_insert, ?length_app, ?length_cons, ?length_nil in * );
  simpl; lia.

Ltac lookup_tac :=
  repeat first
    [ rewrite list_lookup_insert_eq by len_tac
    | rewrite list_lookup_insert_ne by (first [lia | congruence | len_tac])
    | rewrite lookup_app_l by len_tac
    | rewrite list_lookup_middle by len_tac ];
  try eassumption; try reflexivity.

End Steps.

Module JsonFacts.
Import JsonSpec.

Lemma loads_arr xs h :
  loads (JArr xs) h
  = let '(h1, vs) := loads_list xs h in (h1 ++ [OList vs], VRef (length h1)).
Proof.
  simpl.
  assert (∀ h0, (fix go (l : list json) (h0 : list object) : list object * list value :=
           match l with
           | [] => (h0, [])
           | x :: r =>
               let '(h1, v) := loads x h0 in
               let '(h2, vs) := go r h1 in (h2, v :: vs)
           end) xs h0 = loads_list xs h0) as ->; [|done].
  induction xs as [|x r IH]; intros h0; [done|].
  simpl. destruct (loads x h0) as [h1 v]. by rewrite IH.
Qed.

Lemma loads_obj kvs h :
  loads (JObj kvs) h
  = let '(h1, d) := loads_members kvs h in (h1 ++ [ODict d], VRef (length h1)).
Proof.
  simpl.
  assert (∀ h0, (fix go (l : list (string * json)) (h0 : list object) :
             list object * list (string * value) :=
           match l with
           | [] => (h0, [])
           | kv :: r =>
               let '(h1, v) := loads kv.2 h0 in
               let '(h2, d) := go r h1 in (h2, (kv.1, v) :: d)
           end) kvs h0 = loads_members kvs h0) as ->; [|done].
  induction kvs as [|x r IH]; intros h0; [done|].
  simpl. destruct (loads x.2 h0) as [h1 v]. by rewrite IH.
Qed.

(** [loads] only appends to the store. *)
Lemma loads_extends j : ∀ h, ∃ ext, (loads j h).1 = h ++ ext.
Proof.
  induction j as [| | | | |xs IH|kvs IH] using json_ind; intros h;
    try (exists []; by rewrite app_nil_r).
  - rewrite loads_arr.
    assert (∀ h0, ∃ ext, (loads_list xs h0).1 = h0 ++ ext) as Hl.
    { induction IH as [|x r Hx _ IHr]; intros h0; [exists []; by rewrite app_nil_r|].
      simpl. destruct (Hx h0) as [e1 He1]. destruct (loads x h0) as [h1 v].
      simpl in He1. subst h1. destruct (IHr (h0 ++ e1)) as [e2 He2].
      destruct (loads_list r (h0 ++ e1)) as [h2 vs]. simpl in *. subst h2.
      exists (e1 ++ e2). by rewrite app_assoc. }
    destruct (Hl h) as [e He]. destruct (loads_list xs h) as [h1 vs].
    simpl in *. subst h1. exists (e ++ [OList vs]). by rewrite app_assoc.
  - rewrite loads_obj.
    assert (∀ h0, ∃ ext, (loads_members kvs h0).1 = h0 ++ ext) as Hl.
    { induction IH as [|x r Hx _ IHr]; intros h0; [exists []; by rewrite app_nil_r|].
      simpl. destruct (Hx h0) as [e1 He1]. destruct (loads x.2 h0) as [h1 v].
      simpl in He1. subst h1. destruct (IHr (h0 ++ e1)) as [e2 He2].
      destruct (loads_members r (h0 ++ e1)) as [h2 vs]. simpl in *. subst h2.
      exists (e1 ++ e2). by rewrite app_assoc. }
    destruct (Hl h) as [e He]. destruct (loads_members kvs h) as [h1 vs].
    simpl in *. subst h1. exists (e ++ [ODict vs]). by rewrite app_assoc.
Qed.

Lemma loads_list_extends xs : ∀ h, ∃ ext, (loads_list xs h).1 = h ++ ext.
Proof.
  induction xs as [|x r IH]; intros h; [exists []; by rewrite app_nil_r|].
  simpl. destruct (loads_extends x h) as [e1 He1]. destruct (loads x h) as [h1 v].
  simpl in He1. subst h1. destruct (IH (h ++ e1)) as [e2 He2].
  destruct (loads_list r (h ++ e1)) as [h2 vs]. simpl in *. subst h2.
  exists (e1 ++ e2). by rewrite app_assoc.
Qed.

Lemma loads_members_extends kvs : ∀ h, ∃ ext, (loads_members kvs h).1 = h ++ ext.
Proof.
  induction kvs as [|x r IH]; intros h; [exists []; by rewrite app_nil_r|].
  simpl. destruct (loads_extends x.2 h) as [e1 He1]. destruct (loads x.2 h) as [h1 v].
  simpl in He1. subst h1. destruct (IH (h ++ e1)) as [e2 He2].
  destruct (loads_members r (h ++ e1)) as [h2 vs]. simpl in *. subst h2.
  exists (e1 ++ e2). by rewrite app_assoc.
Qed.

Lemma loads_length_le j (h : list object) : (length h ≤ length (loads j h).1)%nat.
Proof. destruct (loads_extends j h) as [e ->]. rewrite length_app. lia. Qed.

Lemma loads_fresh j (h : list object) : fresh_in (length h) (length (loads j h).1) (loads j h).2.
Proof.
  destruct j; try done.
  - rewrite loads_arr. destruct (loads_list_extends xs h) as [e He].
    destruct (loads_list xs h) as [h1 vs]. simpl in *. subst.
    rewrite !length_app. simpl. lia.
  - rewrite loads_obj. destruct (loads_members_extends kvs h) as [e He].
    destruct (loads_members kvs h) as [h1 vs]. simpl in *. subst.
    rewrite !length_app. simpl. lia.
Qed.

Lemma depth_arr_elem xs x : x ∈ xs → (depth x < depth (JArr xs))%nat.
Proof.
  simpl. induction xs as [|y r IH]; [by intros ?%elem_of_nil|].
  intros [->|Hin]%elem_of_cons; simpl; [lia|]. specialize (IH Hin). lia.
Qed.

Lemma depth_obj_member kvs kv : kv ∈ kvs → (depth kv.2 < depth (JObj kvs))%nat.
Proof.
  simpl. induction kvs as [|y r IH]; [by intros ?%elem_of_nil|].
  intros [->|Hin]%elem_of_cons; simpl; [lia|]. specialize (IH Hin). lia.
Qed.

Lemma loads_list_reads_back xs :
  Forall reads_back xs →
  ∀ (h h2 : list object) fuel,
    (∀ l, (length h ≤ l < length (loads_list xs h).1)%nat →
          h2 !! l = (loads_list xs h).1 !! l) →
    (∀ x, x ∈ xs → (depth x ≤ fuel)%nat) →
    Forall2 (λ v x, dumps_fuel fuel h2 v = Some x) (loads_list xs h).2 xs.
Proof.
  induction 1 as [|x r Hx _ IH]; intros h h2 fuel Hag Hd; [constructor|].
  simpl in *.
  pose proof (Hx h h2 fuel) as Hx'.
  pose proof (loads_length_le x h) as Hle.
  destruct (loads x h) as [h1 v] eqn:Hl1. simpl in *.
  pose proof (IH h1 h2 fuel) as IH'.
  destruct (loads_list_extends r h1) as [e He].
  destruct (loads_list r h1) as [h3 vs] eqn:Hl2. simpl in *. subst h3.
  constructor.
  - apply Hx'; [|apply Hd; left]. intros l Hl. rewrite Hag.
    + by rewrite lookup_app_l by lia.
    + rewrite length_app. lia.
  - apply IH'; [|intros y Hy; apply Hd; by right].
    intros l Hl. apply Hag. lia.
Qed.

Lemma loads_members_reads_back kvs :
  Forall (λ kv, reads_back kv.2) kvs →
  ∀ (h h2 : list object) fuel,
    (∀ l, (length h ≤ l < length (loads_members kvs h).1)%nat →
          h2 !! l = (loads_members kvs h).1 !! l) →
    (∀ kv, kv ∈ kvs → (depth kv.2 ≤ fuel)%nat) →
    Forall2 (λ kv kj, kv.1 = kj.1 ∧ dumps_fuel fuel h2 kv.2 = Some kj.2)
            (loads_members kvs h).2 kvs.
Proof.
  induction 1 as [|x r Hx _ IH]; intros h h2 fuel Hag Hd; [constructor|].
  simpl in *.
  pose proof (Hx h h2 fuel) as Hx'.
  pose proof (loads_length_le x.2 h) as Hle.
  destruct (loads x.2 h) as [h1 v] eqn:Hl1. simpl in *.
  pose proof (IH h1 h2 fuel) as IH'.
  destruct (loads_members_extends r h1) as [e He].
  destruct (loads_members r h1) as [h3 vs] eqn:Hl2. simpl in *. subst h3.
  constructor.
  - split; [done|]. apply Hx'; [|apply Hd; left]. intros l Hl. rewrite Hag.
    + by rewrite lookup_app_l by lia.
    + rewrite length_app. lia.
  - apply IH'; [|intros y Hy; apply Hd; by right].
    intros l Hl. apply Hag. lia.
Qed.

Lemma mapM_members_Some fuel h2 (d : list (string * value)) kvs :
  Forall2 (λ kv kj, kv.1 = kj.1 ∧ dumps_fuel fuel h2 kv.2 = Some kj.2) d kvs →
  mapM (λ kv, pair kv.1 <$> dumps_fuel fuel h2 kv.2) d = Some kvs.
Proof.
  intros Hf. apply mapM_Some. eapply Forall2_impl; [exact Hf|].
  intros [k v] [k' j] [Hk Hv]. simpl in *. subst. by rewrite Hv.
Qed.

Theorem loads_reads_back j : reads_back j.
Proof.
  induction j as [| | | | |xs IH|kvs IH] using json_ind; intros h h2 fuel Hag Hd;
    try (by destruct fuel).
  - rewrite loads_arr in Hag |- *.
    pose proof (loads_list_reads_back xs IH h h2) as Hl.
    pose proof (loads_list_extends xs h) as [e He].
    destruct (loads_list xs h) as [h1 vs]. simpl in Hag, Hl, He |- *. subst h1.
    destruct fuel as [|k]; [simpl in Hd; lia|]. cbn [dumps_fuel].
    rewrite Hag by (rewrite !length_app; simpl; lia).
    rewrite list_lookup_middle by done.
    assert (mapM (dumps_fuel k h2) vs = Some xs) as ->; [|done].
    apply mapM_Some, Hl.
    + intros l Hl'. rewrite Hag by (rewrite !length_app in *; simpl; lia).
      by rewrite lookup_app_l by lia.
    + intros x Hx. apply depth_arr_elem in Hx. simpl in *. lia.
  - rewrite loads_obj in Hag |- *.
    pose proof (loads_members_reads_back kvs IH h h2) as Hl.
    pose proof (loads_members_extends kvs h) as [e He].
    destruct (loads_members kvs h) as [h1 d]. simpl in Hag, Hl, He |- *. subst h1.
    destruct fuel as [|k]; [simpl in Hd; lia|]. cbn [dumps_fuel].
    rewrite Hag by (rewrite !length_app; simpl; lia).
    rewrite list_lookup_middle by done.
    erewrite mapM_members_Some; [done|].
    apply Hl.
    + intros l Hl'. rewrite Hag by (rewrite !length_app in *; simpl; lia).
      by rewrite lookup_app_l by lia.
    + intros x Hx. apply depth_obj_member in Hx. simpl in *. lia.
Qed.

(** [loads] allocates at least as many objects as the tree is deep. *)
Lemma loads_depth j : ∀ h : list object, (length h + depth j ≤ length (loads j h).1)%nat.
Proof.
  induction j as [| | | | |xs IH|kvs IH] using json_ind; intros h; try (simpl; lia).
  - rewrite loads_arr.
    assert (∀ h0 : list object,
              (length h0 + foldr (λ x n, depth x `max` n) 0 xs
               ≤ length (loads_list xs h0).1)%nat) as Hl.
    { induction IH as [|x r Hx _ IHr]; intros h0; [simpl; lia|].
      simpl. specialize (Hx h0). pose proof (loads_length_le x h0).
      destruct (loads x h0) as [h1 v]. simpl in *.
      specialize (IHr h1). pose proof (loads_list_extends r h1) as [e He].
      destruct (loads_list r h1) as [h2 vs]. simpl in *. subst. rewrite length_app in *. lia. }
    specialize (Hl h). destruct (loads_list xs h) as [h1 vs]. simpl in *.
    rewrite length_app. simpl. lia.
  - rewrite loads_obj.
    assert (∀ h0 : list object,
              (length h0 + foldr (λ kv n, depth kv.2 `max` n) 0 kvs
               ≤ length (loads_members kvs h0).1)%nat) as Hl.
    { induction IH as [|x r Hx _ IHr]; intros h0; [simpl; lia|].
      simpl. specialize (Hx h0). pose proof (loads_length_le x.2 h0).
      destruct (loads x.2 h0) as [h1 v]. simpl in *.
      specialize (IHr h1). pose proof (loads_members_extends r h1) as [e He].
      destruct (loads_members r h1) as [h2 vs]. simpl in *. subst. rewrite length_app in *. lia. }
    specialize (Hl h). destruct (loads_members kvs h) as [h1 vs]. simpl in *.
    rewrite length_app. simpl. lia.
Qed.

(** The round trip: a loaded document serializes back to the tree it
    was loaded from. *)
Corollary dumps_loads j (h : list object) :
  json_dumps (loads j h).1 (loads j h).2 = Some j.
Proof.
  unfold json_dumps. apply loads_reads_back; [done|].
  pose proof (loads_depth j h). lia.
Qed.

Section Copy.
Context {St : Type} `{Store St}.

(** Copying a dict through JSON: its members are loaded first, the copy
    is the last object made. *)
Lemma py_deep_copy_dict (s : St) v kvs :
  json_dumps (get_heap s) v = Some (JObj kvs) →
  py_deep_copy v s
  = Ret (VRef (length (loads_members kvs (get_heap s)).1))
        (put_heap ((loads_members kvs (get_heap s)).1
                   ++ [ODict (loads_members kvs (get_heap s)).2]) s).
Proof.
  intros Hd. unfold py_deep_copy. rewrite Hd, loads_obj.
  by destruct (loads_members kvs (get_heap s)).
Qed.
End Copy.

End JsonFacts.

Module JsonFrame.
Import JsonSpec JsonFacts.
Local Open Scope nat_scope.

Lemma dumps_ref fuel (h : list object) l :
  dumps_fuel (S fuel) h (VRef l)
  = match h !! l with
    | Some (OList xs) => JArr <$> mapM (dumps_fuel fuel h) xs
    | Some (ODict d) => JObj <$> mapM (λ kv, pair kv.1 <$> dumps_fuel fuel h kv.2) d
    | None => None
    end.
Proof. done. Qed.

Lemma dumps_scalar fuel fuel' (h h' : list object) v :
  (∀ l, v ≠ VRef l) → dumps_fuel fuel h v = dumps_fuel fuel' h' v.
Proof. intros Hv. destruct v; try by destruct fuel, fuel'. by destruct (Hv l). Qed.

(** More fuel reads the same tree. *)
Lemma dumps_fuel_mono fuel : ∀ fuel' (h : list object) v j,
  fuel ≤ fuel' → dumps_fuel fuel h v = Some j → dumps_fuel fuel' h v = Some j.
Proof.
  induction fuel as [|k IH]; intros fuel' h v j Hle Hd.
  - destruct v; by destruct fuel'.
  - destruct v as [| | | | |l]; try (by destruct fuel').
    destruct fuel' as [|k']; [lia|]. rewrite dumps_ref in Hd |- *.
    destruct (h !! l) as [[d|xs]|]; [| |done].
    + destruct (mapM _ d) as [kvs|] eqn:E; [|done]. simpl in Hd.
      apply mapM_Some in E.
      erewrite (proj2 (mapM_Some _ _ _)); [exact Hd|].
      eapply Forall2_impl; [exact E|]. intros [k1 v1] kj. simpl.
      destruct (dumps_fuel k h v1) as [j1|] eqn:E1; [|done].
      by rewrite (IH k' h v1 j1) by (lia || done).
    + destruct (mapM _ xs) as [ys|] eqn:E; [|done]. simpl in Hd.
      apply mapM_Some in E.
      erewrite (proj2 (mapM_Some _ _ _)); [exact Hd|].
      eapply Forall2_impl; [exact E|]. intros v1 j1 E1.
      apply (IH k' h v1 j1); [lia|done].
Qed.

Lemma dumps_fuel_det fuel fuel' (h : list object) v j j' :
  dumps_fuel fuel h v = Some j → dumps_fuel fuel' h v = Some j' → j = j'.
Proof.
  intros H1 H2.
  apply (dumps_fuel_mono _ (fuel `max` fuel')) in H1; [|lia].
  apply (dumps_fuel_mono _ (fuel `max` fuel')) in H2; [|lia]. congruence.
Qed.

(** A tree read from the store while the object at [cl] serialises to
    a deeper tree does not pass through [cl]: it reads the same in a
    store that differs at [cl] and in what was added. *)
Lemma dumps_avoid cl (h h' : list object) fuel : ∀ v j,
  (∀ l, l < length h → l ≠ cl → h' !! l = h !! l) →
  dumps_fuel fuel h v = Some j →
  (∀ fuel' j', dumps_fuel fuel' h (VRef cl) = Some j' → depth j < depth j') →
  dumps_fuel fuel h' v = Some j.
Proof.
  induction fuel as [|k IH]; intros v j Hag Hd Hcl.
  - destruct v; done.
  - destruct v as [| | | | |l]; try done.
    destruct (decide (l = cl)) as [->|Hne].
    { specialize (Hcl _ _ Hd). lia. }
    rewrite dumps_ref in Hd |- *.
    destruct (h !! l) as [o|] eqn:Hl; [|done].
    rewrite Hag, Hl by (by eapply lookup_lt_Some || done).
    destruct o as [d|xs].
    + destruct (mapM _ d) as [kvs|] eqn:E; [|done]. simpl in Hd.
      injection Hd as <-. apply mapM_Some in E.
      assert (Forall2 (λ kv kj, pair kv.1 <$> dumps_fuel k h' kv.2 = Some kj) d kvs) as E'.
      { apply Forall2_same_length_lookup. split; [by eapply Forall2_length|].
        intros i [k1 v1] kj Hi Hkj. pose proof (Forall2_lookup_lr _ _ _ _ _ _ E Hi Hkj) as Hx.
        simpl in *. destruct (dumps_fuel k h v1) as [j1|] eqn:E1; [|done].
        simpl in Hx. injection Hx as <-.
        rewrite (IH v1 j1 Hag E1); [done|].
        intros fuel' j' Hj'. specialize (Hcl _ _ Hj').
        pose proof (depth_obj_member kvs (k1, j1) (list_elem_of_lookup_2 _ _ _ Hkj)).
        simpl in *. lia. }
      apply mapM_Some in E'. by rewrite E'.
    + destruct (mapM _ xs) as [ys|] eqn:E; [|done]. simpl in Hd.
      injection Hd as <-. apply mapM_Some in E.
      assert (Forall2 (λ v y, dumps_fuel k h' v = Some y) xs ys) as E'.
      { apply Forall2_same_length_lookup. split; [by eapply Forall2_length|].
        intros i v1 j1 Hi Hj1. pose proof (Forall2_lookup_lr _ _ _ _ _ _ E Hi Hj1) as Hx.
        simpl in *. apply (IH v1 j1 Hag Hx).
        intros fuel' j' Hj'. specialize (Hcl _ _ Hj').
        pose proof (depth_arr_elem ys j1 (list_elem_of_lookup_2 _ _ _ Hj1)).
        simpl in *. lia. }
      apply mapM_Some in E'. by rewrite E'.
Qed.

(** An element of a list that serialises is shallower than the list. *)
Lemma element_shallower (h : list object) cl xs v fuel j fuel' j' :
  h !! cl = Some (OList xs) → v ∈ xs →
  dumps_fuel fuel h v = Some j → dumps_fuel fuel' h (VRef cl) = Some j' →
  depth j < depth j'.
Proof.
  intros Hcl Hin Hv Hd. destruct fuel' as [|k]; [done|].
  rewrite dumps_ref, Hcl in Hd.
  destruct (mapM _ xs) as [ys|] eqn:E; [|done]. simpl in Hd. injection Hd as <-.
  apply mapM_Some in E. apply list_elem_of_lookup in Hin as [i Hi].
  destruct (Forall2_lookup_l _ _ _ _ _ E Hi) as (y & Hy & Hvy).
  rewrite (dumps_fuel_det _ _ _ _ _ _ Hv Hvy).
  apply depth_arr_elem. by eapply list_elem_of_lookup_2.
Qed.

(** An element of a list: it serialises the same once the list, and
    nothing else that was there, has changed. *)
Theorem element_dumps_frame (h h' : list object) cl xs v j :
  h !! cl = Some (OList xs) → v ∈ xs →
  (∀ l, l < length h → l ≠ cl → h' !! l = h !! l) → length h ≤ length h' →
  json_dumps h v = Some j → json_dumps h' v = Some j.
Proof.
  intros Hcl Hin Hag Hlen Hd. unfold json_dumps in *.
  apply (dumps_fuel_mono (S (length h))); [lia|].
  apply (dumps_avoid cl h); [done|done|].
  intros fuel' j' Hj'. by eapply element_shallower.
Qed.

End JsonFrame.

Create HintDb frame.

Module Frame.
Import DictFacts ExecFacts FrameSpec.

Section Rules.
Context {St : Type}.
Implicit Types (I : St → Prop).

Lemma final_bind {A B} (m : M St A) (k : A → M St B) s :
  final (bind m k s) = match m s with
                       | Ret a s' => final (k a s')
                       | Exn s' => s'
                       end.
Proof. unfold bind. by destruct (m s). Qed.

Lemma preserves_bind {A B} I (m : M St A) (k : A → M St B) :
  preserves I m → (∀ a, preserves I (k a)) → preserves I (bind m k).
Proof.
  intros Hm Hk s Hs. rewrite final_bind. specialize (Hm s Hs).
  destruct (m s) as [a s'|s']; simpl in Hm; [by apply Hk | done].
Qed.

Lemma preserves_readonly {A} I (m : M St A) : readonly m → preserves I m.
Proof. intros Hm s Hs. by rewrite Hm. Qed.

Lemma readonly_ret {A} (a : A) : readonly (ret a : M St A).
Proof. done. Qed.
Lemma readonly_raise {A} : readonly (raise : M St A).
Proof. done. Qed.
Lemma readonly_gets {A} (f : St → A) : readonly (gets f).
Proof. done. Qed.
Lemma readonly_lift {A} (o : option A) : readonly (lift o : M St A).
Proof. by destruct o. Qed.

Lemma readonly_bind {A B} (m : M St A) (k : A → M St B) :
  readonly m → (∀ a, readonly (k a)) → readonly (bind m k).
Proof.
  intros Hm Hk s. rewrite final_bind. specialize (Hm s).
  destruct (m s) as [a s'|s']; simpl in Hm; subst; [apply Hk | done].
Qed.

Lemma preserves_modify I (f : St → St) : (∀ s, I s → I (f s)) → preserves I (modify f).
Proof. intros Hf s Hs. by apply Hf. Qed.

Lemma preserves_for_each {A} I (xs : list A) (body : A → M St unit) :
  (∀ x, preserves I (body x)) → preserves I (for_each xs body).
Proof.
  intros Hb. induction xs as [|x r IH]; [by apply preserves_readonly|].
  apply preserves_bind; [apply Hb | by intros _].
Qed.

Lemma preserves_map_each {A B} I (xs : list A) (f : A → M St B) :
  (∀ x, preserves I (f x)) → preserves I (map_each xs f).
Proof.
  intros Hb. induction xs as [|x r IH]; [by apply preserves_readonly|].
  simpl. apply preserves_bind; [apply Hb|]. intros y.
  apply preserves_bind; [apply IH|]. intros ys. by apply preserves_readonly.
Qed.

Lemma preserves_try_except {A} I (m h : M St A) :
  preserves I m → preserves I h → preserves I (try_except m h).
Proof.
  intros Hm Hh s Hs. unfold try_except. specialize (Hm s Hs).
  destruct (m s) as [a s'|s']; simpl in *; [done | by apply Hh].
Qed.
End Rules.

Section ObjectRules.
Context {St : Type} `{Store St}.
Implicit Types (I : St → Prop).

Lemma readonly_py_dict_of c : readonly (py_dict_of c).
Proof. intros s. unfold py_dict_of. by destruct (as_dict _ _). Qed.
Lemma readonly_py_list_of c : readonly (py_list_of c).
Proof. intros s. unfold py_list_of. by destruct (as_list _ _). Qed.
Lemma readonly_py_truthy v : readonly (py_truthy v).
Proof. done. Qed.
Lemma readonly_py_is_dict v : readonly (py_is_dict v).
Proof. done. Qed.
Lemma readonly_py_is_list v : readonly (py_is_list v).
Proof. done. Qed.
Lemma readonly_py_item c k : readonly (py_item c k).
Proof. apply readonly_bind; [apply readonly_py_dict_of | intros; apply readonly_lift]. Qed.
Lemma readonly_py_get c k d : readonly (py_get c k d).
Proof. apply readonly_bind; [apply readonly_py_dict_of | intros; apply readonly_ret]. Qed.
Lemma readonly_py_has c k : readonly (py_has c k).
Proof. apply readonly_bind; [apply readonly_py_dict_of | intros; apply readonly_ret]. Qed.
Lemma readonly_py_len xs : readonly (py_len xs).
Proof.
  intros s. unfold py_len. destruct xs; try done.
  by destruct (get_heap s !! l) as [[]|].
Qed.
Lemma readonly_py_index xs i : readonly (py_index xs i).
Proof. apply readonly_bind; [apply readonly_py_list_of | intros; apply readonly_lift]. Qed.

Lemma preserves_py_new I o : extend_stable I → preserves I (py_new o).
Proof. intros HI s Hs. by apply HI. Qed.

Lemma dict_op_preserves I c (f : list (string * value) → list (string * value)) :
  dict_write_stable I →
  preserves I (match c with
               | VRef l => bind (py_dict_of c) (λ d, store_at l (ODict (f d)))
               | _ => raise
               end).
Proof.
  intros HI s Hs. destruct c as [| | | | |l]; try done.
  unfold bind, py_dict_of, as_dict.
  destruct (get_heap s !! l) as [[d|]|] eqn:Hl; try done.
  simpl. by eapply HI.
Qed.

Lemma preserves_py_setitem I c k v : dict_write_stable I → preserves I (py_setitem c k v).
Proof. intros HI. by apply (dict_op_preserves I c (λ d, dict_set d k v)). Qed.
Lemma preserves_py_popkey I c k : dict_write_stable I → preserves I (py_popkey c k).
Proof. intros HI. by apply (dict_op_preserves I c (λ d, dict_pop d k)). Qed.
Lemma preserves_py_setdefault I c k v :
  dict_write_stable I → preserves I (py_setdefault c k v).
Proof. intros HI. by apply (dict_op_preserves I c (λ d, dict_setdefault d k v)). Qed.

Lemma preserves_py_append I xs v : list_write_stable I → preserves I (py_append xs v).
Proof.
  intros HI s Hs. destruct xs as [| | | | |l]; try done.
  unfold py_append, bind, py_list_of, as_list.
  destruct (get_heap s !! l) as [[|ys]|] eqn:Hl; try done.
  simpl. by eapply HI.
Qed.

Lemma preserves_py_delitem I xs i : list_write_stable I → preserves I (py_delitem xs i).
Proof.
  intros HI s Hs. destruct xs as [| | | | |l]; try done.
  unfold py_delitem, bind, py_list_of, as_list.
  destruct (get_heap s !! l) as [[|ys]|] eqn:Hl; try done.
  simpl. destruct (delitem ys i); simpl; [by eapply HI | done].
Qed.

Lemma preserves_py_setindex I xs i v : list_write_stable I → preserves I (py_setindex xs i v).
Proof.
  intros HI s Hs. destruct xs as [| | | | |l]; try done.
  unfold py_setindex, bind, py_list_of, as_list.
  destruct (get_heap s !! l) as [[|ys]|] eqn:Hl; try done.
  simpl. repeat case_bool_decide; simpl; try done; by eapply HI.
Qed.
End ObjectRules.

#[export] Hint Resolve readonly_ret readonly_raise readonly_gets readonly_lift
  readonly_py_dict_of readonly_py_list_of readonly_py_truthy readonly_py_is_dict
  readonly_py_is_list readonly_py_item readonly_py_get readonly_py_has readonly_py_len
  readonly_py_index : frame.

(** One step of a preservation proof, by the shape of the computation. *)
Ltac frame_step :=
  lazymatch goal with
  | |- preserves _ (bind _ _) => apply preserves_bind; [|intros ?]
  | |- preserves _ (for_each _ _) => apply preserves_for_each; intros ?
  | |- preserves _ (map_each _ _) => apply preserves_map_each; intros ?
  | |- preserves _ (try_except _ _) => apply preserves_try_except
  | |- preserves _ (py_new _) => apply preserves_py_new; assumption
  | |- preserves _ (py_setitem _ _ _) => apply preserves_py_setitem; assumption
  | |- preserves _ (py_popkey _ _) => apply preserves_py_popkey; assumption
  | |- preserves _ (py_setdefault _ _ _) => apply preserves_py_setdefault; assumption
  | |- preserves _ (py_append _ _) => apply preserves_py_append; assumption
  | |- preserves _ (py_delitem _ _) => apply preserves_py_delitem; assumption
  | |- preserves _ (py_setindex _ _ _) => apply preserves_py_setindex; assumption
  | |- preserves _ (if ?b then _ else _) => destruct b
  | |- preserves _ (match ?x with _ => _ end) => destruct x
  | |- preserves _ _ => apply preserves_readonly; solve [auto with frame]
  end.

End Frame.

Module MarketLookup.
Import DictFacts.
Import V20 Spec20.
Section Market.
Context `{Builtins} `{Host}.

Lemma getitem_of_nat {A} (xs : list A) (i : nat) x :
  xs !! i = Some x → getitem xs (Z.of_nat i) = Some x.
Proof.
  intros Hx. unfold getitem. pose proof (lookup_lt_Some _ _ _ Hx).
  rewrite bool_decide_true by lia. by rewrite Nat2Z.id.
Qed.

Lemma market_items_doc h data il items md :
  as_dict h data = Some md → dict_get md "Items" = Some (VRef il) →
  h !! il = Some (OList items) → items ≠ [] →
  market_items h md = Some items.
Proof.
  intros Hd Hi Hl Hne. unfold market_items, dict_get_or. rewrite Hi.
  simpl. rewrite Hl.
  rewrite bool_decide_false; [done|].
  destruct items; simpl; [done | lia].
Qed.

Lemma find_index_unfold h data il items n :
  market_doc h data il items →
  find_index_by_class h data n
  = fst <$> list_find (λ row, market_row_matches h (str_lower n) row = true) items.
Proof.
  intros (md & Hd & Hi & Hl). unfold find_index_by_class. rewrite Hd.
  cbn [mbind option_bind].
  destruct (decide (items = [])) as [->|Hne].
  - unfold market_items, dict_get_or. rewrite Hi. simpl. by rewrite Hl.
  - by erewrite market_items_doc by eauto.
Qed.

Lemma find_index_first h data il items n i :
  market_doc h data il items →
  find_index_by_class h data n = Some i ↔
    (∃ row, items !! i = Some row ∧ market_row_matches h (str_lower n) row = true) ∧
    (∀ j row, items !! j = Some row → (j < i)%nat →
              market_row_matches h (str_lower n) row = false).
Proof.
  intros Hdoc. rewrite (find_index_unfold _ _ _ _ _ Hdoc).
  destruct (list_find (λ row, market_row_matches h (str_lower n) row = true) items)
    as [[k y]|] eqn:Hf; simpl.
  - apply list_find_Some in Hf as (Hk & Hy & Hmin). split.
    + intros [= <-]. split; [eauto|]. intros j row Hj Hlt.
      specialize (Hmin j row Hj Hlt). by destruct (market_row_matches _ _ row).
    + intros [(row & Hrow & Hm) Hfirst]. f_equal.
      destruct (Nat.lt_trichotomy k i) as [Hlt|[->|Hgt]]; [|done|].
      * rewrite (Hfirst k y Hk Hlt) in Hy. done.
      * exfalso. by apply (Hmin i row Hrow Hgt).
  - split; [done|]. intros [(row & Hrow & Hm) _].
    apply list_find_None in Hf. rewrite Forall_forall in Hf.
    exfalso. eapply Hf; [|exact Hm]. by eapply list_elem_of_lookup_2.
Qed.

Lemma row_matches_string h n row rd c :
  as_dict h row = Some rd → dict_get rd "ClassName" = Some (VStr c) →
  str_lower c = str_lower n → market_row_matches h (str_lower n) row = true.
Proof.
  intros Hr Hc Hl. unfold market_row_matches, dict_get_or. rewrite Hr, Hc. simpl.
  by apply bool_decide_eq_true.
Qed.

Lemma find_index_is_Some h data il items n k row :
  market_doc h data il items →
  items !! k = Some row → market_row_matches h (str_lower n) row = true →
  is_Some (find_index_by_class h data n).
Proof.
  intros Hdoc Hk Hm. rewrite (find_index_unfold _ _ _ _ _ Hdoc).
  destruct (list_find_elem_of (λ r, market_row_matches h (str_lower n) r = true)
              items row) as [[j y] ->]; [by eapply list_elem_of_lookup_2 | done | by eexists].
Qed.

Lemma add_existing_rejected (s : app) il items n :
  market_doc (heap s) (market_data s) il items →
  is_Some (find_index_by_class (heap s) (market_data s) n) →
  market_add_selected_from_types (Some n) s
  = Ret tt (set_notices (notices s ++ [Notice Info "Already Exists"]) s).
Proof.
  intros (md & Hd & Hi & Hl) [i Hf].
  unfold market_add_selected_from_types, bind, gets, py_is_dict, _market_find_index_by_class.
  simpl. unfold is_dict. rewrite Hd. rewrite bool_decide_true by eauto. simpl.
  rewrite Hf. done.
Qed.

End Market.
End MarketLookup.

Module MarketEdit.
Import DictFacts ExecFacts Steps MarketLookup.
Import V20 Spec20.
Section S.
Context `{Builtins} `{Host}.

Ltac norm :=
  cbn [get_heap put_heap app_store heap files cfg_types_folders airdrop_path airdrop_data
       market_path market_data market_dirty cat container_names container_index
       current_container_key selected_loot_index var_container settings editor mvars notices
       set_heap set_files set_cfg_types_folders set_market_dirty set_cat set_index
       set_current_container_key set_selected_loot_index set_var_container set_settings
       set_editor set_notices].

End S.
End MarketEdit.

Module Pending.
Import DictFacts ExecFacts Steps.
Import V18 Spec18.

Section S.
Context `{Builtins} `{Host}.

Ltac norm :=
  cbn [get_heap put_heap app_store heap files airdrop_path airdrop_data cat
       container_names current_container_index selected_loot_index
       pending_container_settings var_container settings editor notices
       set_heap set_files set_cat set_container_names set_current_container_index
       set_selected_loot_index set_pending_container_settings set_var_container
       set_settings set_editor set_notices].

Lemma dict_set_not_nil {K V} `{EqDecision K} (d : list (K * V)) k v : dict_set d k v ≠ [].
Proof. destruct d as [|[k' v'] r]; simpl; [done|]. by destruct (decide (k' = k)). Qed.

Lemma stash_spec (s : app) idx :
  is_none (airdrop_data s) = false → current_container_index s = Some idx →
  _stash_pending_container_settings s
  = Ret tt (set_pending_container_settings
              (dict_set (pending_container_settings s) idx
                 (stash_patch (settings s)
                    (dict_get_or (pending_container_settings s) idx [])))
              s).
Proof.
  intros Hdata Hcur. unfold _stash_pending_container_settings.
  rewrite !bind_gets, Hcur, Hdata. rewrite !bind_gets.
  fold (stash_patch (settings s) (dict_get_or (pending_container_settings s) idx [])).
  destruct (stash_patch _ _) as [|kv r] eqn:Hp; [|done].
  exfalso. unfold stash_patch in Hp. by apply dict_set_not_nil in Hp.
Qed.

Lemma set_heap_id (s : app) : set_heap (heap s) s = s.
Proof. by destruct s. Qed.

Lemma store_changes (s : app) l d changes :
  heap s !! l = Some (ODict d) →
  for_each changes (λ '(k, v), py_setitem (VRef l) k v) s
  = Ret tt (set_heap (<[l := ODict (apply_changes d changes)]> (heap s)) s).
Proof.
  revert s d. induction changes as [|[k v] r IH]; intros s d Hl.
  - simpl. unfold ret. by rewrite list_insert_id, set_heap_id.
  - cbn [for_each]. erewrite bind_step by (by apply py_setitem_ok).
    norm. erewrite IH by (norm; apply list_lookup_insert_eq; by eapply lookup_lt_Some).
    norm. by rewrite list_insert_insert_eq.
Qed.

Lemma doc_truthy h data r cl locs : doc h data r cl locs → truthy h data = true.
Proof.
  intros (-> & Hroot & _). simpl in *.
  destruct (h !! r) as [[d|]|]; try done. simpl in Hroot.
  destruct d; [done|]. by rewrite bool_decide_false.
Qed.

Lemma doc_not_none h data r cl locs : doc h data r cl locs → is_none data = false.
Proof. by intros (-> & _). Qed.

Lemma doc_containers (s : app) r cl locs :
  doc (heap s) (airdrop_data s) r cl locs → containers s = Ret (VRef cl) s.
Proof.
  intros (Hdata & Hroot & _). unfold containers. rewrite bind_gets, Hdata.
  rewrite Hdata in Hroot. simpl in Hroot.
  destruct (heap s !! r) as [[d|]|] eqn:Hr; try done. simpl in Hroot.
  by eapply py_item_ok.
Qed.

Lemma doc_container_dict h data r cl locs i l :
  doc h data r cl locs → locs !! i = Some l → ∃ d, h !! l = Some (ODict d).
Proof.
  intros (_ & _ & _ & Hd & _) Hi. rewrite Forall_forall in Hd.
  specialize (Hd l (list_elem_of_lookup_2 _ _ _ Hi)).
  unfold is_dict in Hd. apply bool_decide_eq_true in Hd as [d Hd].
  simpl in Hd. destruct (h !! l) as [[d'|]|]; try done. eauto.
Qed.

(** Writing a container dict keeps the shape, as long as the root's
    [Containers] entry is not what is written. *)
Lemma doc_update h data r cl locs l d' :
  doc h data r cl locs → l ∈ locs → doc (<[l := ODict d']> h) data r cl locs.
Proof.
  intros (Hdata & Hroot & Hcl & Hd & Hr) Hl.
  assert (l ≠ r) by (intros ->; done).
  assert (l ≠ cl).
  { intros ->. rewrite Forall_forall in Hd. specialize (Hd _ Hl).
    unfold is_dict in Hd. apply bool_decide_eq_true in Hd as [d Hd].
    simpl in Hd. by rewrite Hcl in Hd. }
  split_and!; [done| | | |done].
  - subst data. simpl in *. by rewrite list_lookup_insert_ne.
  - by rewrite list_lookup_insert_ne.
  - rewrite Forall_forall in Hd |- *. intros l' Hl'. specialize (Hd _ Hl').
    unfold is_dict in *. apply bool_decide_eq_true in Hd as [d Hd].
    apply bool_decide_eq_true. simpl in *.
    destruct (decide (l' = l)) as [->|Hne].
    + destruct (h !! l) as [[d0|]|] eqn:Hl0; try done.
      rewrite list_lookup_insert_eq by (by eapply lookup_lt_Some). eauto.
    + rewrite list_lookup_insert_ne by done. eauto.
Qed.

Lemma doc_commit_entry h data r cl locs e :
  doc h data r cl locs → doc (commit_entry locs h e) data r cl locs.
Proof.
  intros Hdoc. unfold commit_entry. repeat case_bool_decide; try done.
  destruct (locs !! Z.to_nat e.1) as [l|] eqn:Hl; [|done].
  destruct (h !! l) as [[d|]|]; try done.
  apply doc_update; [done|]. by eapply list_elem_of_lookup_2.
Qed.

Lemma commit_loop (s : app) r cl locs pending :
  doc (heap s) (airdrop_data s) r cl locs →
  for_each pending (λ '(idx, changes),
    if bool_decide (idx < 0)%Z then ret tt
    else
      bind containers (λ cs,
      bind (py_len cs) (λ n,
      if bool_decide (idx >= n)%Z then ret tt
      else bind (py_index cs idx) (λ c,
           for_each changes (λ '(k, v), py_setitem c k v))))) s
  = Ret tt (set_heap (commit_heap locs pending (heap s)) s).
Proof.
  revert s. induction pending as [|[idx changes] rest IH]; intros s Hdoc.
  - simpl. unfold ret. by rewrite set_heap_id.
  - cbn [for_each commit_heap foldl].
    assert (∃ s1, (if bool_decide (idx < 0)%Z then ret tt
      else
        bind containers (λ cs,
        bind (py_len cs) (λ n,
        if bool_decide (idx >= n)%Z then ret tt
        else bind (py_index cs idx) (λ c,
             for_each changes (λ '(k, v), py_setitem c k v))))) s = Ret tt s1 ∧
      s1 = set_heap (commit_entry locs (heap s) (idx, changes)) s) as (s1 & Hs1 & ->).
    { unfold commit_entry. cbn [fst snd].
      destruct Hdoc as (Hdata & Hroot & Hcl & Hd & Hr).
      case_bool_decide as Hneg.
      { eexists. split; [done|]. by rewrite set_heap_id. }
      erewrite bind_step by (by eapply doc_containers).
      erewrite bind_step by (by eapply py_len_list).
      rewrite length_fmap.
      case_bool_decide as Hge.
      { eexists. split; [done|]. by rewrite set_heap_id. }
      destruct (lookup_lt_is_Some_2 locs (Z.to_nat idx)) as [l Hl]; [lia|].
      rewrite Hl.
      destruct (doc_container_dict _ _ _ _ _ _ _
                  (conj Hdata (conj Hroot (conj Hcl (conj Hd Hr)))) Hl) as [d Hld].
      rewrite Hld.
      erewrite bind_step; last first.
      { eapply py_index_ok; [exact Hcl|]. unfold getitem.
        rewrite length_fmap. rewrite bool_decide_true by lia.
        by rewrite list_lookup_fmap, Hl. }
      eexists. split; [by apply store_changes|done]. }
    unfold bind at 1. rewrite Hs1.
    rewrite IH by (norm; by apply doc_commit_entry). by norm.
Qed.

Lemma commit_spec (s : app) r cl locs :
  doc (heap s) (airdrop_data s) r cl locs →
  _commit_pending_container_settings_to_json s
  = Ret tt (set_pending_container_settings []
              (set_heap (commit_heap locs (pending_container_settings s) (heap s)) s)).
Proof.
  intros Hdoc. unfold _commit_pending_container_settings_to_json.
  rewrite bind_gets. unfold py_truthy at 1. rewrite bind_gets. norm.
  rewrite (doc_truthy _ _ _ _ _ Hdoc). cbn [negb]. rewrite bind_gets.
  erewrite bind_step by (by eapply commit_loop). done.
Qed.













End S.
End Pending.

Module Removal.
Import DictFacts ExecFacts Steps FrameSpec Frame.
Import V18 Spec18 Pending.
Section S.
Context `{Builtins} `{Host}.

Ltac norm :=
  cbn [get_heap put_heap app_store heap files airdrop_path airdrop_data cat
       container_names current_container_index selected_loot_index
       pending_container_settings var_container settings editor notices
       set_heap set_files set_cat set_container_names set_current_container_index
       set_selected_loot_index set_pending_container_settings set_var_container
       set_settings set_editor set_notices].

Lemma readonly_containers : readonly containers.
Proof. unfold containers. apply readonly_bind; auto with frame. Qed.

Lemma readonly_get_current_container : readonly get_current_container.
Proof.
  unfold get_current_container.
  apply readonly_bind; [auto with frame|]. intros data.
  apply readonly_bind; [auto with frame|]. intros [idx|]; [|auto with frame].
  destruct (is_none data); [auto with frame|].
  apply readonly_bind; [apply readonly_containers | auto with frame].
Qed.

Hint Resolve readonly_containers readonly_get_current_container : frame.

Section Invariant.
Variable I : app → Prop.
Hypothesis Hext : extend_stable I.
Hypothesis Hdict : dict_write_stable I.
Hypothesis Hui : ui_stable I.

Ltac ui := apply preserves_modify; intros ? ?; by apply Hui.

Ltac frame :=
  repeat first
    [ assumption
    | lazymatch goal with
      | |- preserves _ (modify _) => ui
      end
    | frame_step ].

Lemma preserves_notify k t : preserves I (notify k t).
Proof using Hext Hdict Hui. unfold notify. frame. Qed.

Lemma preserves_clear_editor : preserves I _clear_editor.
Proof using Hext Hdict Hui. unfold _clear_editor. frame. Qed.

Lemma preserves_load_settings : preserves I _load_container_settings_into_ui.
Proof using Hext Hdict Hui. unfold _load_container_settings_into_ui. frame. Qed.

Lemma preserves_rebuild sel : preserves I (_rebuild_container_dropdown sel).
Proof using Hext Hdict Hui. unfold _rebuild_container_dropdown. frame. Qed.

Lemma preserves_refresh : preserves I refresh_loot_table_chunked.
Proof using Hext Hdict Hui. unfold refresh_loot_table_chunked. frame. Qed.

Lemma preserves_populate : preserves I populate_editor_from_selected.
Proof using Hext Hdict Hui.
  unfold populate_editor_from_selected. pose proof preserves_clear_editor. frame.
Qed.

Lemma preserves_show_selected : preserves I show_selected_container.
Proof using Hext Hdict Hui.
  unfold show_selected_container.
  pose proof preserves_clear_editor. pose proof preserves_load_settings.
  pose proof preserves_refresh. frame.
Qed.
End Invariant.

(** *** Removing a container re-keys the staged patches *)

Lemma remap_step_get removed (q acc : list (Z * list (string * value))) j :
  NoDup q.*1 → removed ∉ q.*1 →
  dict_get (foldl (λ (new_pending : list (Z * list (string * value))) '(idx, changes),
                     if bool_decide (idx < removed)%Z then dict_set new_pending idx changes
                     else if bool_decide (idx > removed)%Z
                          then dict_set new_pending (idx - 1)%Z changes
                          else new_pending) acc q) j
  = match dict_get q (unshifted removed j) with
    | Some v => Some v
    | None => dict_get acc j
    end.
Proof.
  revert acc. induction q as [|[k v] rest IH]; intros acc Hnd Hr; [done|].
  rewrite fmap_cons in Hnd, Hr. cbn [fst] in Hnd, Hr.
  apply NoDup_cons in Hnd as [Hk Hnd]. apply not_elem_of_cons in Hr as [Hrk Hr].
  cbn [foldl dict_get]. rewrite IH by done.
  unfold unshifted.
  destruct (decide (k = if bool_decide (j < removed)%Z then j else (j + 1)%Z)) as [Heq|Hne].
  - rewrite <- Heq. apply dict_get_None in Hk. rewrite Hk.
    repeat case_bool_decide; try lia.
    + assert (k = j) as -> by lia. apply dict_get_set_eq.
    + assert (k - 1 = j)%Z as -> by lia. apply dict_get_set_eq.
  - destruct (dict_get rest _); [done|].
    repeat case_bool_decide; try lia; apply dict_get_set_ne; lia.
Qed.

Lemma remap_get removed p j :
  valid_dict p →
  dict_get (remap_pending removed (dict_pop p removed)) j
  = if bool_decide (unshifted removed j = removed) then None
    else dict_get p (unshifted removed j).
Proof.
  intros Hp. unfold remap_pending. rewrite remap_step_get.
  - case_bool_decide as Hu.
    + rewrite Hu. by rewrite dict_get_pop_eq by exact Hp.
    + rewrite dict_get_pop_ne by (intros E; by apply Hu).
      by destruct (dict_get p _).
  - by apply dict_pop_NoDup.
  - apply dict_get_None. by apply dict_get_pop_eq.
Qed.

Lemma unshifted_shifted removed i : i ≠ removed → unshifted removed (shifted removed i) = i.
Proof. intros Hne. unfold unshifted, shifted. repeat case_bool_decide; lia. Qed.

Lemma fmap_list_delete {A B} (f : A → B) (l : list A) i :
  f <$> delete i l = delete i (f <$> l).
Proof. by rewrite !delete_take_drop, fmap_app, fmap_take, fmap_drop. Qed.

(** [remove_container], once confirmed, drops the position from the
    list and re-keys the patches; what follows only redraws. *)
Lemma remove_container_keeps (I : app → Prop) (s : app) r cl locs removed :
  extend_stable I → dict_write_stable I → ui_stable I →
  doc (heap s) (airdrop_data s) r cl locs →
  current_container_index s = Some removed →
  (0 ≤ removed < Z.of_nat (length locs))%Z →
  is_Some (getitem (container_names s) removed) →
  I (set_pending_container_settings
       (remap_pending removed (dict_pop (pending_container_settings s) removed))
       (set_heap (<[cl := OList (VRef <$> delete (Z.to_nat removed) locs)]> (heap s)) s)) →
  I (final (remove_container true s)).
Proof.
  intros Hext Hdw Hui Hdoc Hcur Hrange [name Hname] Hs2.
  pose proof Hdoc as (Hdata & Hroot & Hcl & Hd & Hr).
  unfold remove_container.
  rewrite bind_gets. unfold py_truthy at 1. rewrite bind_gets. norm.
  rewrite (doc_truthy _ _ _ _ _ Hdoc), bind_gets, Hcur. cbn [negb].
  rewrite bind_gets, Hname. unfold lift at 1. rewrite bind_ret. cbn [negb].
  rewrite bind_modify.
  erewrite bind_step by (by eapply doc_containers).
  erewrite bind_step; last first.
  { eapply py_delitem_ok; [exact Hcl|]. unfold delitem. rewrite length_fmap.
    by rewrite bool_decide_true by lia. }
  norm. rewrite bind_modify. norm. rewrite <- fmap_list_delete.
  match goal with |- I (final (?m ?st)) =>
    change st with (set_pending_container_settings
       (remap_pending removed (dict_pop (pending_container_settings s) removed))
       (set_heap (<[cl := OList (VRef <$> delete (Z.to_nat removed) locs)]> (heap s)) s));
    cut (preserves I m); [intros Hm; by apply Hm|]
  end.
  pose proof (preserves_rebuild I Hext Hdw Hui).
  pose proof (preserves_clear_editor I Hext Hdw Hui).
  pose proof (preserves_load_settings I Hext Hdw Hui).
  pose proof (preserves_show_selected I Hext Hdw Hui).
  repeat first
    [ assumption
    | match goal with Hx : ∀ sel, preserves I _ |- _ => apply Hx end
    | lazymatch goal with
      | |- preserves _ (modify _) => apply preserves_modify; intros ? ?; by apply Hui
      end
    | frame_step ].
Qed.

(** C2.  The pending edits of v1.8 are keyed by the position of the
    container in the list, and [remove_container] moves the keys with
    the containers.  It drops the patch of the removed position and
    takes every patch of a later position one down: a container other
    than the removed one, at position [i] before, is at position
    [shifted removed i] afterwards and has there the patch it had; and
    every patch afterwards is the patch of such a container. *)
Theorem remove_container_rekeys (s : app) r cl locs removed :
  doc (heap s) (airdrop_data s) r cl locs →
  valid_pending (pending_container_settings s) →
  current_container_index s = Some removed →
  (0 ≤ removed < Z.of_nat (length locs))%Z →
  is_Some (getitem (container_names s) removed) →
  let s' := final (remove_container true s) in
  heap s' !! cl = Some (OList (VRef <$> delete (Z.to_nat removed) locs)) ∧
  (∀ i l, locs !! i = Some l → Z.of_nat i ≠ removed →
     delete (Z.to_nat removed) locs !! Z.to_nat (shifted removed (Z.of_nat i)) = Some l ∧
     dict_get (pending_container_settings s') (shifted removed (Z.of_nat i))
     = dict_get (pending_container_settings s) (Z.of_nat i)) ∧
  (∀ j p, dict_get (pending_container_settings s') j = Some p →
     unshifted removed j ≠ removed ∧
     dict_get (pending_container_settings s) (unshifted removed j) = Some p).
Proof.
  intros Hdoc [Hvalid _] Hcur Hrange Hname s'.
  pose proof Hdoc as (Hdata & Hroot & Hcl & Hd & Hr).
  assert (heap s' !! cl = Some (OList (VRef <$> delete (Z.to_nat removed) locs)) ∧
          pending_container_settings s'
          = remap_pending removed (dict_pop (pending_container_settings s) removed))
    as [Hlist Hpend].
  { subst s'.
    apply (remove_container_keeps
             (λ x, heap x !! cl = Some (OList (VRef <$> delete (Z.to_nat removed) locs)) ∧
                   pending_container_settings x
                   = remap_pending removed (dict_pop (pending_container_settings s) removed))
             s r cl locs removed); [| | |done|done|done|done|].
    - intros x ext [Hx Hp]. norm. split; [|done].
      rewrite lookup_app_l; [done | by eapply lookup_lt_Some].
    - intros x l d d' [Hx Hp] Hl. norm. split; [|done].
      rewrite list_lookup_insert_ne; [done|]. intros ->. simpl in *. congruence.
    - intros x [Hx Hp]. by repeat split.
    - norm. split; [|done]. apply list_lookup_insert_eq. by eapply lookup_lt_Some. }
  split; [done|]. rewrite Hpend. split.
  - intros i l Hi Hne. split.
    + unfold shifted. case_bool_decide.
      * rewrite Nat2Z.id. rewrite list_lookup_delete_lt by lia. done.
      * replace (Z.to_nat (Z.of_nat i - 1)) with (i - 1)%nat by lia.
        rewrite list_lookup_delete_ge by lia. rewrite <- Hi. f_equal. lia.
    + rewrite remap_get by done. rewrite unshifted_shifted by done.
      by rewrite bool_decide_false.
  - intros j p. rewrite remap_get by done. case_bool_decide; [done|]. by intros ->.
Qed.

End S.
End Removal.

Module Dropdown.
Import DictFacts ExecFacts Steps FrameSpec Frame JsonSpec JsonFacts.
Import V18 Spec18 Pending Removal.
Section S.
Context `{Builtins} `{Host}.

Ltac norm :=
  cbn [get_heap put_heap app_store heap files airdrop_path airdrop_data cat
       container_names current_container_index selected_loot_index
       pending_container_settings var_container settings editor notices
       set_heap set_files set_cat set_container_names set_current_container_index
       set_selected_loot_index set_pending_container_settings set_var_container
       set_settings set_editor set_notices].

Lemma names_spec (s : app) (locs : list nat) k :
  Forall (λ l, is_dict (heap s) (VRef l) = true) locs →
  map_each (imap (λ i c, ((k + i)%nat, c)) (VRef <$> locs))
           (λ '(i, c), py_get c "Container" (VStr ("Container_" ++ str_of_nat i))) s
  = Ret (imap (λ i l, name_at (heap s) (k + i) l) locs) s.
Proof.
  revert k. induction locs as [|l rest IH]; intros k Hd; [done|].
  apply Forall_cons in Hd as [Hl Hd].
  unfold is_dict in Hl. apply bool_decide_eq_true in Hl as [d Hl]. simpl in Hl.
  destruct (heap s !! l) as [[d'|]|] eqn:Hhl; try done.
  rewrite fmap_cons, !imap_cons. cbn [map_each].
  erewrite bind_step by (by eapply py_get_ok).
  assert (∀ xs : list value, imap ((λ i c, ((k + i)%nat, c)) ∘ S) xs
                             = imap (λ i c, ((S k + i)%nat, c)) xs) as ->.
  { intros xs. apply imap_ext. intros i x _. simpl. f_equal. lia. }
  erewrite bind_step by (by apply IH).
  unfold ret. f_equal. f_equal.
  - unfold name_at. rewrite Hhl. by rewrite Nat.add_0_r.
  - apply imap_ext. intros i x _. simpl. f_equal. lia.
Qed.

Lemma rebuild_spec (s : app) r cl locs i :
  doc (heap s) (airdrop_data s) r cl locs →
  (0 ≤ i < Z.of_nat (length locs))%Z →
  ∃ s', _rebuild_container_dropdown (Some i) s = Ret tt s' ∧
        same_doc s s' ∧ current_container_index s' = Some i ∧
        length (container_names s') = length locs ∧
        selected_loot_index s' = selected_loot_index s ∧
        editor s' = editor s ∧ notices s' = notices s.
Proof.
  intros Hdoc Hi. pose proof Hdoc as (Hdata & Hroot & Hcl & Hd & Hr).
  unfold _rebuild_container_dropdown.
  rewrite bind_gets. unfold py_truthy at 1. rewrite bind_gets. norm.
  rewrite (doc_truthy _ _ _ _ _ Hdoc). cbn [negb].
  erewrite bind_step by (by eapply doc_containers).
  erewrite bind_step by (by eapply py_list_of_ok).
  erewrite bind_step by (by apply (names_spec s locs 0)).
  rewrite bind_modify.
  destruct (imap (λ i l, name_at (heap s) (0 + i) l) locs) as [|n0 ns] eqn:Hnames.
  { apply (f_equal length) in Hnames. rewrite length_imap in Hnames. simpl in *. lia. }
  rewrite bind_gets. norm. rewrite bind_modify.
  destruct (lookup_lt_is_Some_2 (n0 :: ns) (Z.to_nat i)) as [nm Hnm].
  { rewrite <- Hnames, length_imap. lia. }
  assert (getitem (n0 :: ns) i = Some nm) as Hget.
  { unfold getitem. rewrite bool_decide_true; [done|].
    rewrite <- Hnames, length_imap. lia. }
  norm. rewrite Hget. unfold lift at 1. rewrite bind_ret, bind_gets. norm.
  eexists. split; [reflexivity|]. norm. unfold same_doc. norm.
  split_and!; try done. by rewrite <- Hnames, length_imap.
Qed.

Lemma getitem_nat {A} (xs : list A) (i : Z) x :
  (0 ≤ i)%Z → xs !! Z.to_nat i = Some x → getitem xs i = Some x.
Proof.
  intros Hi Hx. unfold getitem. pose proof (lookup_lt_Some _ _ _ Hx).
  by rewrite bool_decide_true by lia.
Qed.

Lemma current_container_spec (s : app) r cl locs idx l :
  doc (heap s) (airdrop_data s) r cl locs →
  current_container_index s = Some idx → (0 ≤ idx)%Z → locs !! Z.to_nat idx = Some l →
  get_current_container s = Ret (VRef l) s.
Proof.
  intros Hdoc Hcur Hidx Hl. pose proof Hdoc as (Hdata & Hroot & Hcl & Hd & Hr).
  unfold get_current_container. rewrite !bind_gets, Hcur.
  rewrite (doc_not_none _ _ _ _ _ Hdoc).
  erewrite bind_step by (by eapply doc_containers).
  eapply py_index_ok; [done|]. apply getitem_nat; [done|].
  by rewrite list_lookup_fmap, Hl.
Qed.

Lemma load_settings_spec (s : app) r cl locs idx l :
  doc (heap s) (airdrop_data s) r cl locs →
  current_container_index s = Some idx → (0 ≤ idx)%Z → locs !! Z.to_nat idx = Some l →
  ∃ vars, _load_container_settings_into_ui s = Ret tt (set_settings vars s).
Proof.
  intros Hdoc Hcur Hidx Hl.
  destruct (doc_container_dict _ _ _ _ _ _ _ Hdoc Hl) as [d Hd].
  unfold _load_container_settings_into_ui.
  erewrite bind_step by (by eapply current_container_spec).
  unfold py_truthy at 1. rewrite bind_gets. norm.
  destruct (truthy (heap s) (VRef l)); cbn [negb]; [|by eexists].
  rewrite !bind_gets.
  erewrite bind_step by (by eapply py_get_ok).
  erewrite bind_step by (by eapply py_get_ok).
  erewrite bind_step by (by eapply py_get_ok).
  rewrite bind_gets. by eexists.
Qed.

(** [refresh_loot_table_chunked] on a container whose [Loot] is a list
    leaves one unused list behind and nothing else. *)
Lemma refresh_spec (s : app) r cl locs idx l d ll loot :
  doc (heap s) (airdrop_data s) r cl locs →
  current_container_index s = Some idx → (0 ≤ idx)%Z → locs !! Z.to_nat idx = Some l →
  heap s !! l = Some (ODict d) → dict_get d "Loot" = Some (VRef ll) →
  heap s !! ll = Some (OList loot) →
  refresh_loot_table_chunked s = Ret tt (set_heap (heap s ++ [OList []]) s).
Proof.
  intros Hdoc Hcur Hidx Hl Hd Hloot Hll.
  pose proof (lookup_lt_Some _ _ _ Hd). pose proof (lookup_lt_Some _ _ _ Hll).
  unfold refresh_loot_table_chunked.
  erewrite bind_step by (by eapply current_container_spec).
  unfold py_truthy at 1. rewrite bind_gets. norm.
  assert (truthy (heap s) (VRef l) = true) as ->.
  { simpl. rewrite Hd. destruct d; [done|]. by rewrite bool_decide_false. }
  cbn [negb]. erewrite bind_step by apply py_new_ok. norm.
  erewrite bind_step by (eapply py_get_ok; norm; by rewrite lookup_app_l).
  unfold dict_get_or. rewrite Hloot. cbn [default from_option id].
  unfold py_is_list at 1. rewrite bind_gets. norm.
  unfold is_list, as_list. rewrite lookup_app_l by done. rewrite Hll.
  by rewrite bool_decide_true by eauto.
Qed.

End S.
End Dropdown.

Module Loot20.
Import DictFacts ExecFacts Steps FrameSpec Frame JsonSpec JsonFacts.
Import V20 Spec20.
Section S.
Context `{Builtins} `{Host}.

Ltac norm :=
  cbn [get_heap put_heap app_store heap files cfg_types_folders airdrop_path airdrop_data
       market_path market_data market_dirty cat container_names container_index
       current_container_key selected_loot_index var_container settings editor mvars notices
       set_heap set_files set_cfg_types_folders set_market_dirty set_cat set_index
       set_current_container_key set_selected_loot_index set_var_container set_settings
       set_editor set_notices].

Lemma current_container_selected (s : app) c d :
  selected s c d → _get_current_container s = Ret (VRef c) s.
Proof.
  intros (key & info & Hk & Hne & Hi & Hr & _).
  unfold _get_current_container. rewrite !bind_gets, Hk.
  rewrite bool_decide_false by done. by rewrite Hi, Hr.
Qed.

Lemma selected_truthy (s : app) c d : selected s c d → truthy (heap s) (VRef c) = true.
Proof.
  intros (key & info & _ & _ & _ & _ & Hc & Hd). simpl. rewrite Hc.
  by rewrite bool_decide_false.
Qed.

Lemma loot_list_spec (s : app) c d ll loot :
  heap s !! c = Some (ODict d) → dict_get d "Loot" = Some (VRef ll) →
  heap s !! ll = Some (OList loot) →
  _get_container_loot_list (VRef c) s = Ret (VRef ll, "Loot") s.
Proof.
  intros Hc Hl Hll. unfold _get_container_loot_list.
  erewrite bind_step by (by eapply py_dict_of_ok). rewrite bind_gets.
  cbn [list_find]. rewrite decide_True.
  - cbn [fmap option_fmap option_map]. unfold dict_get_or. by rewrite Hl.
  - split.
    + unfold dict_mem. rewrite Hl. by apply bool_decide_eq_true.
    + unfold dict_get_or, is_list, as_list. rewrite Hl. simpl. rewrite Hll.
      apply bool_decide_eq_true. eauto.
Qed.

Lemma load_loot_tree_spec (s : app) c d ll loot :
  heap s !! c = Some (ODict d) → dict_get d "Loot" = Some (VRef ll) →
  heap s !! ll = Some (OList loot) →
  _load_loot_tree (VRef c) s
  = Ret tt (set_editor cleared_editor (set_selected_loot_index None s)).
Proof.
  intros Hc Hl Hll. unfold _load_loot_tree, _clear_loot_tree, _clear_loot_editor.
  rewrite bind_bind, bind_modify, bind_modify.
  erewrite bind_step by (eapply loot_list_spec; norm; eauto). done.
Qed.

Lemma add_selected_item_spec (s : app) c d ll loot classname :
  selected s c d → dict_get d "Loot" = Some (VRef ll) →
  heap s !! ll = Some (OList loot) → classname ≠ "" →
  ∃ s', add_selected_item_to_loot (Some classname) s = Ret tt s' ∧
        heap s' !! ll = Some (OList (loot ++ [VRef (length (heap s))])) ∧
        heap s' !! length (heap s) = Some (ODict (new_row classname)).
Proof.
  intros Hsel Hl Hll Hne.
  pose proof Hsel as (key & info & Hk & Hkne & Hi & Hr & Hc & Hd).
  pose proof (lookup_lt_Some _ _ _ Hc). pose proof (lookup_lt_Some _ _ _ Hll).
  assert (c ≠ ll) by (intros ->; congruence).
  unfold add_selected_item_to_loot.
  erewrite bind_step by (by eapply current_container_selected).
  unfold py_truthy at 1. rewrite bind_gets. norm.
  rewrite (selected_truthy _ _ _ Hsel). cbn [negb].
  rewrite bool_decide_false by done.
  erewrite bind_step by (by eapply loot_list_spec). cbv beta iota.
  erewrite bind_step by apply py_new_ok. norm.
  erewrite bind_step by (eapply py_append_ok; norm; lookup_tac).
  erewrite bind_step by (eapply py_setitem_ok; norm; lookup_tac).
  norm.
  erewrite load_loot_tree_spec; norm.
  - eexists. split; [reflexivity|]. norm. split; lookup_tac.
  - lookup_tac.
  - rewrite dict_get_set_eq. reflexivity.
  - lookup_tac.
Qed.

End S.
End Loot20.

Module Handlers18.
Import DictFacts ExecFacts Steps FrameSpec Frame JsonSpec JsonFacts.
Import V18 Spec18 Pending Removal Dropdown.

Section S.
Context `{Builtins} `{Host}.

Ltac norm :=
  cbn [get_heap put_heap app_store heap files airdrop_path airdrop_data cat
       container_names current_container_index selected_loot_index
       pending_container_settings var_container settings editor notices
       set_heap set_files set_cat set_container_names set_current_container_index
       set_selected_loot_index set_pending_container_settings set_var_container
       set_settings set_editor set_notices].

Lemma existing_spec (s : app) (locs : list nat) :
  Forall (λ l, is_dict (heap s) (VRef l) = true) locs →
  names_hashable (heap s) locs →
  map_each (VRef <$> locs) (λ c,
    bind (py_get c "Container" (VStr "")) (λ v, if hashable v then ret v else raise)) s
  = Ret (name_or_blank (heap s) <$> locs) s.
Proof.
  induction locs as [|l rest IH]; intros Hd Hh; [done|].
  apply Forall_cons in Hd as [Hl Hd]. apply Forall_cons in Hh as [Hhl Hh].
  unfold is_dict in Hl. apply bool_decide_eq_true in Hl as [d Hl]. simpl in Hl.
  destruct (heap s !! l) as [[d'|]|] eqn:Hhl'; try done.
  rewrite !fmap_cons. cbn [map_each].
  rewrite bind_bind. erewrite bind_step by (by eapply py_get_ok).
  unfold name_or_blank in Hhl |- *. rewrite Hhl' in Hhl |- *. rewrite Hhl.
  rewrite bind_ret. erewrite bind_step by (by apply IH). done.
Qed.

Lemma existsb_taken h locs name :
  name_taken h locs name →
  existsb (λ v, value_is_str v name) (name_or_blank h <$> locs) = true.
Proof.
  intros Ht. apply existsb_exists. apply Exists_exists in Ht as (l & Hl & Hv).
  exists (name_or_blank h l). split; [|done].
  apply list_elem_of_In. by apply list_elem_of_fmap_2.
Qed.

Lemma existsb_free h locs name :
  name_free h locs name →
  existsb (λ v, value_is_str v name) (name_or_blank h <$> locs) = false.
Proof.
  intros Hf. apply not_true_is_false. intros (v & Hin & Hv)%existsb_exists.
  apply list_elem_of_In, list_elem_of_fmap in Hin as (l & -> & Hl).
  unfold name_free in Hf. rewrite Forall_forall in Hf. by rewrite (Hf l Hl) in Hv.
Qed.

(** Duplicating under a name that is taken only raises the warning. *)
Lemma duplicate_name_conflict (s : app) r cl locs idx name clear_loot :
  doc (heap s) (airdrop_data s) r cl locs →
  current_container_index s = Some idx → (0 ≤ idx < Z.of_nat (length locs))%Z →
  names_hashable (heap s) locs → name_taken (heap s) locs name → name ≠ "" →
  duplicate_container (Some name) clear_loot s
  = Ret tt (set_notices (notices s ++ [Notice Warning "Name exists"]) s).
Proof.
  intros Hdoc Hcur Hidx Hh Ht Hne. pose proof Hdoc as (Hdata & Hroot & Hcl & Hd & Hr).
  destruct (lookup_lt_is_Some_2 locs (Z.to_nat idx)) as [l Hl]; [lia|].
  destruct (doc_container_dict _ _ _ _ _ _ _ Hdoc Hl) as [d Hld].
  unfold duplicate_container.
  rewrite bind_gets. unfold py_truthy at 1. rewrite bind_gets. norm.
  rewrite (doc_truthy _ _ _ _ _ Hdoc), bind_gets, Hcur. cbn [negb].
  erewrite bind_step by (by eapply doc_containers).
  erewrite bind_step.
  2: { eapply py_index_ok; [done|]. apply getitem_nat; [lia|].
       by rewrite list_lookup_fmap, Hl. }
  erewrite bind_step by (by eapply py_get_ok).
  rewrite bool_decide_false by done.
  erewrite bind_step by (by eapply py_list_of_ok).
  erewrite bind_step by (by apply existing_spec).
  by rewrite existsb_taken.
Qed.

Lemma add_clone_name_conflict (s : app) r cl locs template i tv name clear_loot :
  doc (heap s) (airdrop_data s) r cl locs → locs ≠ [] →
  template ≠ "" →
  list_find (λ v, value_is_str v template = true) (container_names s) = Some (i, tv) →
  names_hashable (heap s) locs → name_taken (heap s) locs name → name ≠ "" →
  add_container_clone (Some template) (Some name) clear_loot s
  = Ret tt (set_notices (notices s ++ [Notice Warning "Name exists"]) s).
Proof.
  intros Hdoc Hlocs Htn Hfind Hh Ht Hne.
  pose proof Hdoc as (Hdata & Hroot & Hcl & Hd & Hr).
  unfold add_container_clone.
  rewrite bind_gets. unfold py_truthy at 1. rewrite bind_gets. norm.
  rewrite (doc_truthy _ _ _ _ _ Hdoc). cbn [negb].
  erewrite bind_step by (by eapply doc_containers).
  unfold py_truthy at 1. rewrite bind_gets. norm.
  assert (truthy (heap s) (VRef cl) = true) as ->.
  { simpl. rewrite Hcl. rewrite bool_decide_false; [done|].
    rewrite length_fmap. destruct locs; simpl; [done | lia]. }
  cbn [negb]. rewrite bool_decide_false by done.
  rewrite bind_gets, Hfind. rewrite bool_decide_false by done.
  erewrite bind_step by (by eapply py_list_of_ok).
  erewrite bind_step by (by apply existing_spec).
  by rewrite existsb_taken.
Qed.

(** *** Saving *)

Lemma stash_keeps_files (s : app) :
  let s' := final (_stash_pending_container_settings s) in
  files s' = files s ∧ airdrop_path s' = airdrop_path s ∧ airdrop_data s' = airdrop_data s.
Proof.
  cbv zeta. unfold _stash_pending_container_settings.
  rewrite !bind_gets. destruct (current_container_index s); [|done].
  destruct (is_none _); [done|]. rewrite !bind_gets.
  by destruct (dict_set _ "Infected" _).
Qed.

Lemma commit_keeps_files (s : app) :
  let s' := final (_commit_pending_container_settings_to_json s) in
  files s' = files s ∧ airdrop_path s' = airdrop_path s ∧ airdrop_data s' = airdrop_data s.
Proof.
  cbv zeta.
  cut (preserves (λ x, files x = files s ∧ airdrop_path x = airdrop_path s ∧
                       airdrop_data x = airdrop_data s)
                 _commit_pending_container_settings_to_json);
    [intros Hp; exact (Hp s (conj eq_refl (conj eq_refl eq_refl)))|].
  assert (dict_write_stable (λ x : app, files x = files s ∧ airdrop_path x = airdrop_path s ∧
                    airdrop_data x = airdrop_data s)) by (by intros x l d d' Hx Hl).
  unfold _commit_pending_container_settings_to_json.
  repeat first
    [ lazymatch goal with
      | |- preserves _ (modify _) => apply preserves_modify; by intros ? ?
      | |- preserves _ containers => apply preserves_readonly, readonly_containers
      | |- preserves _ (let '(_, _) := ?x in _) => destruct x
      end
    | frame_step ].
Qed.

(** v1.8.  When the backup copy fails, Save stops there: the disk is
    as the failed copy left it (or untouched, had the staging before it
    raised), and nothing is opened for writing. *)
Lemma save_aborts_on_backup_failure (s : app) stamp d1 :
  fs_copy2 (files s) (airdrop_path s) (ts_backup_name (airdrop_path s) stamp) = (d1, false) →
  let s' := final (save_airdrop stamp s) in
  files s' = d1 ∨ files s' = files s.
Proof.
  intros Hcopy. cbv zeta.
  set (P := λ x : app, files x = d1 ∨ files x = files s).
  change (P (final (save_airdrop stamp s))). unfold save_airdrop.
  rewrite bind_gets. unfold py_truthy at 1. rewrite !bind_gets.
  destruct (negb _ || _); [by right|].
  pose proof (stash_keeps_files s) as Hst.
  rewrite final_bind. destruct (_stash_pending_container_settings s) as [[] s1|s1];
    simpl in Hst; [|right; apply Hst].
  destruct Hst as (Hf1 & Hp1 & Hd1).
  pose proof (commit_keeps_files s1) as Hcm.
  rewrite final_bind. destruct (_commit_pending_container_settings_to_json s1) as [[] s2|s2];
    simpl in Hcm; [|right; destruct Hcm as [-> _]; done].
  destruct Hcm as (Hf2 & Hp2 & Hd2).
  unfold bind, copy_file. rewrite Hf2, Hf1, Hcopy. cbn [negb]. by left.
Qed.

(** Under a well-formed document the staging cannot raise, and the
    outcome is exactly the failed copy and the "Backup Error" notice. *)
Lemma save_backup_failure_notice (s : app) r cl locs stamp d1 :
  doc (heap s) (airdrop_data s) r cl locs → airdrop_path s ≠ "" →
  fs_copy2 (files s) (airdrop_path s) (ts_backup_name (airdrop_path s) stamp) = (d1, false) →
  ∃ s', save_airdrop stamp s = Ret tt s' ∧ files s' = d1 ∧
        notices s' = notices s ++ [Notice Error "Backup Error"].
Proof.
  intros Hdoc Hpath Hcopy. unfold save_airdrop.
  rewrite bind_gets. unfold py_truthy at 1. rewrite !bind_gets. norm.
  rewrite (doc_truthy _ _ _ _ _ Hdoc). rewrite bool_decide_false by done. cbn [negb orb].
  destruct (current_container_index s) as [idx|] eqn:Hcur.
  - erewrite bind_step by (apply stash_spec; [by eapply doc_not_none | done]).
    erewrite bind_step by (eapply commit_spec; norm; done).
    unfold bind, copy_file. norm. rewrite Hcopy. cbn [negb]. norm.
    eexists. split; [reflexivity|]. by norm.
  - assert (_stash_pending_container_settings s = Ret tt s) as Hst.
    { unfold _stash_pending_container_settings. by rewrite !bind_gets, Hcur. }
    erewrite bind_step by exact Hst.
    erewrite bind_step by (eapply commit_spec; norm; done).
    unfold bind, copy_file. norm. rewrite Hcopy. cbn [negb]. norm.
    eexists. split; [reflexivity|]. by norm.
Qed.

(** *** Types folders *)

Lemma merge_one_folders d acc p :
  types_folders (merge_one d acc p).1.1 = types_folders acc.1.1.
Proof.
  destruct acc as [[c m] e]. unfold merge_one.
  destruct (load_types_xml d p) as [[items meta]|]; done.
Qed.

Lemma merge_keeps_folders (s : app) paths :
  types_folders (cat (final (_merge_types_files paths s))) = types_folders (cat s).
Proof.
  unfold _merge_types_files. rewrite !bind_gets.
  assert (∀ acc, types_folders (foldl (merge_one (files s)) acc paths).1.1
                 = types_folders acc.1.1) as Hf.
  { induction paths as [|p rest IH]; intros acc; [done|].
    simpl. by rewrite IH, merge_one_folders. }
  specialize (Hf (cat s, set_of (all_items (cat s)), [])).
  destruct (foldl _ _ paths) as [[c1 m1] e1]. simpl in Hf.
  rewrite bind_modify. by destruct e1.
Qed.

(** C9.  v1.8 does not behave so.  [add_types_folder] appends the
    folder to [types_folders] every time it is given, also when it is
    already listed.  v2.0 returns at once on a folder it knows
    ([load_known_folder_noop]). *)
Theorem add_types_folder_appends (s : app) folder :
  folder ≠ "" →
  types_folders (cat (final (add_types_folder (Some folder) s)))
  = types_folders (cat s) ++ [folder].
Proof.
  intros Hne. unfold add_types_folder. rewrite bool_decide_false by done.
  rewrite bind_modify, bind_gets. norm.
  destruct (find_xml_files_in_folder _ folder) as [|x xs]; [done|].
  by rewrite merge_keeps_folders.
Qed.

End S.
End Handlers18.

Module Loot18.
Import DictFacts ExecFacts Steps FrameSpec Frame JsonSpec JsonFacts.
Import V18 Spec18 Pending Removal Dropdown Handlers18.

Section S.
Context `{Builtins} `{Host}.

Ltac norm :=
  cbn [get_heap put_heap app_store heap files airdrop_path airdrop_data cat
       container_names current_container_index selected_loot_index
       pending_container_settings var_container settings editor notices
       set_heap set_files set_cat set_container_names set_current_container_index
       set_selected_loot_index set_pending_container_settings set_var_container
       set_settings set_editor set_notices].

Lemma doc_extend h data r cl locs ext :
  doc h data r cl locs → doc (h ++ ext) data r cl locs.
Proof.
  intros (Hdata & Hroot & Hcl & Hd & Hr). subst data. simpl in Hroot.
  destruct (h !! r) as [[d|]|] eqn:Hhr; try done.
  split_and!; [done| | | |done].
  - simpl. by rewrite (lookup_app_l_Some _ _ _ _ Hhr).
  - by apply lookup_app_l_Some.
  - eapply Forall_impl; [exact Hd|]. intros l Hl. unfold is_dict in *.
    apply bool_decide_eq_true in Hl as [d' Hl]. apply bool_decide_eq_true.
    simpl in *. destruct (h !! l) as [[d''|]|] eqn:Hhl; try done.
    rewrite (lookup_app_l_Some _ _ _ _ Hhl). eauto.
Qed.

Lemma doc_list_write h data r cl locs ll xs xs' :
  doc h data r cl locs → ll ≠ cl → h !! ll = Some (OList xs) →
  doc (<[ll := OList xs']> h) data r cl locs.
Proof.
  intros (Hdata & Hroot & Hcl & Hd & Hr) Hne Hll. subst data. simpl in Hroot.
  destruct (h !! r) as [[d|]|] eqn:Hhr; try done.
  assert (ll ≠ r) by (intros ->; congruence).
  split_and!; [done| | | |done].
  - simpl. by rewrite list_lookup_insert_ne, Hhr.
  - by rewrite list_lookup_insert_ne.
  - eapply Forall_impl; [exact Hd|]. intros l Hl. unfold is_dict in *.
    apply bool_decide_eq_true in Hl as [d' Hl]. apply bool_decide_eq_true.
    simpl in *. destruct (h !! l) as [[d''|]|] eqn:Hhl; try done.
    rewrite list_lookup_insert_ne by (intros ->; congruence). rewrite Hhl. eauto.
Qed.

Lemma dict_truthy (h : list object) l d k v :
  h !! l = Some (ODict d) → dict_get d k = Some v → truthy h (VRef l) = true.
Proof. intros Hl Hk. simpl. rewrite Hl. destruct d; [done|]. by rewrite bool_decide_false. Qed.

Lemma populate_spec (s : app) r cl locs idx l d ll loot i e ed :
  doc (heap s) (airdrop_data s) r cl locs →
  current_loot s locs idx l d ll loot →
  selected_loot_index s = Some i → (0 ≤ i)%Z → loot !! Z.to_nat i = Some (VRef e) →
  heap s !! e = Some (ODict ed) →
  ∃ vars, populate_editor_from_selected s
          = Ret tt (set_editor vars (set_heap (heap s ++ [OList []]) s)).
Proof.
  intros Hdoc (Hcur & Hidx & Hl & Hd & Hloot & Hll) Hsel Hi He Hed.
  pose proof (lookup_lt_Some _ _ _ Hd). pose proof (lookup_lt_Some _ _ _ Hll).
  pose proof (lookup_lt_Some _ _ _ Hed). pose proof (lookup_lt_Some _ _ _ He).
  unfold populate_editor_from_selected.
  erewrite bind_step by (by eapply current_container_spec).
  unfold py_truthy at 1. rewrite !bind_gets, Hsel. norm.
  rewrite (dict_truthy _ _ _ _ _ Hd Hloot). cbn [negb].
  erewrite bind_step by apply py_new_ok. norm.
  erewrite bind_step by (eapply py_get_ok; norm; by rewrite lookup_app_l).
  assert (∀ x, dict_get_or d "Loot" x = VRef ll) as Hgo
    by (intros x; unfold dict_get_or; by rewrite Hloot).
  rewrite !Hgo.
  erewrite bind_step by (eapply py_len_list; norm; by rewrite lookup_app_l).
  rewrite bool_decide_false by lia.
  erewrite bind_step.
  2: { eapply py_index_ok; [norm; by rewrite lookup_app_l|]. by apply getitem_nat. }
  do 5 (erewrite bind_step by (eapply py_get_ok; norm; by rewrite lookup_app_l)).
  rewrite bind_gets. unfold modify. norm. by eexists.
Qed.

(** v1.8.  The entry added for a classname. *)
Lemma add_item_spec (s : app) r cl locs idx l d ll loot classname :
  doc (heap s) (airdrop_data s) r cl locs →
  current_loot s locs idx l d ll loot → ll ≠ cl →
  let n := length (heap s) in
  ∃ s', add_item_to_loot classname s = Ret tt s' ∧
        heap s' !! ll = Some (OList (loot ++ [VRef (n + 3)])) ∧
        heap s' !! (n + 3) = Some (ODict (default_entry classname (n + 1) (n + 2))) ∧
        heap s' !! (n + 1) = Some (OList []) ∧
        heap s' !! (n + 2) = Some (OList []).
Proof.
  intros Hdoc Hcl0 Hne n. pose proof Hcl0 as (Hcur & Hidx & Hl & Hd & Hloot & Hll).
  pose proof (lookup_lt_Some _ _ _ Hd). pose proof (lookup_lt_Some _ _ _ Hll).
  assert (l ≠ ll) by (intros ->; congruence).
  unfold add_item_to_loot.
  erewrite bind_step by (by eapply current_container_spec).
  unfold py_truthy at 1. rewrite !bind_gets. norm.
  rewrite (dict_truthy _ _ _ _ _ Hd Hloot). cbn [negb].
  erewrite bind_step by apply py_new_ok. norm.
  erewrite bind_step by (eapply py_setdefault_ok; norm; by rewrite lookup_app_l).
  norm. unfold dict_setdefault. rewrite Hloot.
  rewrite list_insert_id by (by rewrite lookup_app_l).
  erewrite bind_step by (eapply py_item_ok; norm; [by rewrite lookup_app_l | done]).
  unfold default_loot_entry. rewrite !bind_bind.
  repeat (rewrite ?bind_bind; erewrite bind_step by apply py_new_ok; norm).
  erewrite bind_step by (eapply py_append_ok; norm; by rewrite !lookup_app_l
                           by (rewrite ?length_app; simpl; lia)).
  norm.
  rewrite !length_app. cbn [length]. fold n.
  replace (n + 1 + 1) with (n + 2) by lia. replace (n + 2 + 1) with (n + 3) by lia.
  set (h1 := <[ll := _]> _).
  assert (length h1 = n + 4) as Hlen1.
  { unfold h1. rewrite length_insert, !length_app. simpl. fold n. lia. }
  assert (h1 !! l = Some (ODict d)) as Hd1.
  { unfold h1. rewrite list_lookup_insert_ne by done.
    by rewrite !lookup_app_l by (rewrite ?length_app; simpl; lia). }
  assert (h1 !! ll = Some (OList (loot ++ [VRef (n + 3)]))) as Hll1.
  { unfold h1. rewrite list_lookup_insert_eq; [done|].
    rewrite !length_app. simpl. lia. }
  assert (h1 !! (n + 3) = Some (ODict (default_entry classname (n + 1) (n + 2)))) as He1.
  { unfold h1. rewrite list_lookup_insert_ne by (fold n; lia).
    replace (n + 3) with (length (((heap s ++ [OList []]) ++ [OList []]) ++ [OList []]))
      by (rewrite !length_app; simpl; fold n; lia).
    by rewrite list_lookup_middle. }
  erewrite bind_step by (eapply py_item_ok; norm; eauto).
  erewrite bind_step by (eapply py_len_list; norm; eauto).
  rewrite length_app. cbn [length].
  erewrite bind_step.
  2: { eapply py_index_ok; [norm; eauto|]. apply getitem_nat; [lia|].
       replace (Z.to_nat _) with (length loot) by lia. by rewrite list_lookup_middle. }
  rewrite bind_modify. norm.
  match goal with |- context [populate_editor_from_selected ?st] =>
    edestruct (populate_spec st r cl locs idx l d ll (loot ++ [VRef (n + 3)]))
      as [vars Hpop] end; norm; eauto.
  - unfold h1. eapply doc_list_write; [|done|].
    + do 4 apply doc_extend. done.
    + by rewrite !lookup_app_l by (rewrite ?length_app; simpl; lia).
  - by split_and!.
  - lia.
  - replace (Z.to_nat _) with (length loot) by lia. by rewrite list_lookup_middle.
  - rewrite Hpop. eexists. split; [reflexivity|]. norm.
    rewrite !lookup_app_l by lia. split_and!; [done|done| |].
    + unfold h1. rewrite list_lookup_insert_ne by (fold n; lia).
      rewrite lookup_app_l by (rewrite !length_app; simpl; fold n; lia).
      rewrite lookup_app_l by (rewrite !length_app; simpl; fold n; lia).
      replace (n + 1) with (length (heap s ++ [OList []]))
        by (rewrite !length_app; simpl; fold n; lia).
      by rewrite list_lookup_middle.
    + unfold h1. rewrite list_lookup_insert_ne by (fold n; lia).
      rewrite lookup_app_l by (rewrite !length_app; simpl; fold n; lia).
      replace (n + 2) with (length ((heap s ++ [OList []]) ++ [OList []]))
        by (rewrite !length_app; simpl; fold n; lia).
      by rewrite list_lookup_middle.
Qed.

Lemma dict_get_or_set_ne (d : list (string * value)) k k' v x :
  k ≠ k' → dict_get_or (dict_set d k v) k' x = dict_get_or d k' x.
Proof. intros Hne. unfold dict_get_or. by rewrite dict_get_set_ne. Qed.

Lemma dict_get_or_set_eq (d : list (string * value)) k v x :
  dict_get_or (dict_set d k v) k x = v.
Proof. unfold dict_get_or. by rewrite dict_get_set_eq. Qed.

Lemma edited_other ed name vars k :
  k ≠ "Name" → k ≠ "Chance" → k ≠ "Min" → k ≠ "Max" → k ≠ "QuantityPercent" →
  dict_get (edited ed name vars) k = dict_get ed k.
Proof. intros. unfold edited. cbv zeta. by rewrite !dict_get_set_ne. Qed.

Lemma len_or_empty (s : app) e ed k :
  heap s !! e = Some (ODict ed) → list_or_absent (heap s) ed k →
  ∃ ext, ∀ K : M app unit,
    (let! d1 := py_new (OList []) in
     let! att := py_get (VRef e) k d1 in
     let! att_live := py_truthy att in
     let! att := (if att_live then ret att else py_new (OList [])) in
     py_len att ;; K) s = K (set_heap (heap s ++ ext) s).
Proof.
  intros He Hk. pose proof (lookup_lt_Some _ _ _ He). unfold list_or_absent in Hk.
  destruct (dict_get ed k) as [v|] eqn:Hget.
  - destruct v as [| | | | |a]; try done. destruct Hk as [xs Ha].
    pose proof (lookup_lt_Some _ _ _ Ha).
    destruct (decide (xs = [])) as [->|Hxs].
    + exists [OList []; OList []]. intros K.
      erewrite bind_step by apply py_new_ok. norm.
      erewrite bind_step by (eapply py_get_ok; norm; by rewrite lookup_app_l).
      unfold dict_get_or. rewrite Hget. cbn [default from_option id].
      unfold py_truthy at 1. rewrite bind_gets. norm. cbn [truthy].
      rewrite lookup_app_l, Ha by done. cbn [length]. rewrite bool_decide_true by done.
      cbn [negb]. erewrite bind_step by apply py_new_ok. norm.
      erewrite bind_step by (eapply py_len_list; norm; apply list_lookup_middle; done).
      by rewrite <- app_assoc.
    + exists [OList []]. intros K.
      erewrite bind_step by apply py_new_ok. norm.
      erewrite bind_step by (eapply py_get_ok; norm; by rewrite lookup_app_l).
      unfold dict_get_or. rewrite Hget. cbn [default from_option id].
      unfold py_truthy at 1. rewrite bind_gets. norm. cbn [truthy].
      rewrite lookup_app_l, Ha by done.
      rewrite bool_decide_false by (by destruct xs).
      cbn [negb]. rewrite bind_ret.
      by erewrite bind_step by (eapply py_len_list; norm; by rewrite lookup_app_l).
  - exists [OList []; OList []]. intros K.
    erewrite bind_step by apply py_new_ok. norm.
    erewrite bind_step by (eapply py_get_ok; norm; by rewrite lookup_app_l).
    unfold dict_get_or. rewrite Hget. cbn [default from_option id].
    unfold py_truthy at 1. rewrite bind_gets. norm. cbn [truthy].
    rewrite list_lookup_middle by done. cbn [length]. rewrite bool_decide_true by done.
    cbn [negb]. erewrite bind_step by apply py_new_ok. norm.
    erewrite bind_step by (eapply py_len_list; norm; apply list_lookup_middle; done).
    by rewrite <- app_assoc.
Qed.

(** v1.8.  What [apply_editor_to_selected] writes onto the
    selected entry. *)
Lemma apply_editor_spec (s : app) r cl locs idx l d ll loot i e ed confirm :
  doc (heap s) (airdrop_data s) r cl locs →
  current_loot s locs idx l d ll loot →
  selected_loot_index s = Some i → (0 ≤ i)%Z → loot !! Z.to_nat i = Some (VRef e) →
  heap s !! e = Some (ODict ed) →
  list_or_absent (heap s) ed "Attachments" → list_or_absent (heap s) ed "Variants" →
  let name := str_strip (var_name (editor s)) in
  name ≠ "" →
  item_meta (cat s) = [] ∨ dict_mem (item_meta (cat s)) name = true ∨ confirm = true →
  ∃ s', apply_editor_to_selected confirm s = Ret tt s' ∧
        heap s' !! e = Some (ODict (edited ed name (editor s))) ∧
        ∀ j, j < length (heap s) → j ≠ e → heap s' !! j = heap s !! j.
Proof.
  intros Hdoc (Hcur & Hidx & Hl & Hd & Hloot & Hll) Hsel Hi He Hed Hatt Hvar name Hname Hmeta.
  pose proof (lookup_lt_Some _ _ _ Hd). pose proof (lookup_lt_Some _ _ _ Hll).
  pose proof (lookup_lt_Some _ _ _ Hed). pose proof (lookup_lt_Some _ _ _ He).
  unfold apply_editor_to_selected.
  erewrite bind_step by (by eapply current_container_spec).
  unfold py_truthy at 1. rewrite !bind_gets, Hsel. norm.
  rewrite (dict_truthy _ _ _ _ _ Hd Hloot). cbn [negb].
  erewrite bind_step by apply py_new_ok. norm.
  erewrite bind_step by (eapply py_get_ok; norm; by rewrite lookup_app_l).
  assert (∀ x, dict_get_or d "Loot" x = VRef ll) as Hgo
    by (intros x; unfold dict_get_or; by rewrite Hloot).
  rewrite !Hgo.
  erewrite bind_step by (eapply py_len_list; norm; by rewrite lookup_app_l).
  rewrite bool_decide_false by lia.
  rewrite bind_gets. norm. fold name. rewrite bool_decide_false by done.
  rewrite bind_gets. norm.
  assert (match item_meta (cat s) with
          | [] => false
          | _ :: _ => negb (dict_mem (item_meta (cat s)) name)
          end && negb confirm = false) as ->.
  { destruct Hmeta as [->|[Hm| ->]]; [done| |].
    - rewrite Hm. by destruct (item_meta (cat s)).
    - apply andb_false_r. }
  erewrite bind_step.
  2: { eapply py_index_ok; [norm; by rewrite lookup_app_l|]. by apply getitem_nat. }
  erewrite bind_step by (eapply py_setitem_ok; norm; by rewrite lookup_app_l).
  norm.
  do 4 (erewrite bind_step by (eapply py_get_ok; norm; lookup_tac);
        erewrite bind_step by (eapply py_setitem_ok; norm; lookup_tac);
        norm; rewrite list_insert_insert_eq).
  fold (edited ed name (editor s)).
  set (h1 := <[e := _]> _).
  assert (h1 !! e = Some (ODict (edited ed name (editor s)))) as He1
    by (unfold h1; lookup_tac).
  assert (∀ k, list_or_absent (heap s) ed k →
               k ≠ "Name" → k ≠ "Chance" → k ≠ "Min" → k ≠ "Max" → k ≠ "QuantityPercent" →
               ∀ ext, list_or_absent (h1 ++ ext) (edited ed name (editor s)) k) as Hkeep.
  { intros k Hk ????? ext. unfold list_or_absent in *. rewrite edited_other by done.
    destruct (dict_get ed k) as [[| | | | |a]|]; try done. destruct Hk as [xs Ha].
    exists xs. apply lookup_app_l_Some. unfold h1.
    rewrite list_lookup_insert_ne by (intros ->; congruence).
    by apply lookup_app_l_Some. }
  match goal with |- context [?m ?st = _] =>
    match m with bind (py_new _) _ =>
      destruct (len_or_empty st e (edited ed name (editor s)) "Attachments")
        as [ext1 Hstep1] end end.
  { done. }
  { norm. rewrite <- (app_nil_r h1). by apply Hkeep. }
  rewrite Hstep1. clear Hstep1.
  match goal with |- context [?m ?st = _] =>
    match m with bind (py_new _) _ =>
      destruct (len_or_empty st e (edited ed name (editor s)) "Variants")
        as [ext2 Hstep2] end end.
  { norm. by apply lookup_app_l_Some. }
  { norm. by apply Hkeep. }
  rewrite Hstep2. clear Hstep2.
  eexists. split; [reflexivity|]. norm. split.
  - by do 2 apply lookup_app_l_Some.
  - intros j Hj Hje. rewrite !lookup_app_l by (unfold h1; len_tac).
    unfold h1. rewrite list_lookup_insert_ne by done. by rewrite lookup_app_l.
Qed.

(** v1.8.  A numeric input that does not parse leaves the field as
    the entry had it. *)
Lemma safe_int_fails t v : (float_of_str t ≫= int_of_float) = None → safe_int t v = v.
Proof.
  unfold safe_int. destruct (float_of_str t) as [f|]; [|done]. simpl.
  by intros ->.
Qed.

Lemma edited_keeps ed name vars :
  (float_of_str (var_chance vars) = None →
   dict_get_or (edited ed name vars) "Chance" (VFloat float_0_1)
   = dict_get_or ed "Chance" (VFloat float_0_1)) ∧
  ((float_of_str (var_min vars) ≫= int_of_float) = None →
   dict_get_or (edited ed name vars) "Min" (VInt 0) = dict_get_or ed "Min" (VInt 0)) ∧
  ((float_of_str (var_max vars) ≫= int_of_float) = None →
   dict_get_or (edited ed name vars) "Max" (VInt (-1)) = dict_get_or ed "Max" (VInt (-1))) ∧
  (float_of_str (var_qty vars) = None →
   dict_get_or (edited ed name vars) "QuantityPercent" (VFloat (-1)%float)
   = dict_get_or ed "QuantityPercent" (VFloat (-1)%float)).
Proof.
  unfold edited. cbv zeta. split_and!; intros Hf;
    rewrite ?(safe_int_fails _ _ Hf); unfold safe_float; rewrite ?Hf;
    repeat first [ rewrite dict_get_or_set_eq | rewrite dict_get_or_set_ne by done ]; done.
Qed.

Lemma dict_get_set_None (d : list (string * value)) k k' v :
  dict_get (dict_set d k' v) k = None → dict_get d k = None.
Proof.
  destruct (decide (k' = k)) as [->|Hne].
  - by rewrite dict_get_set_eq.
  - by rewrite dict_get_set_ne.
Qed.

(** A field the entry holds is read back as it was. *)
Lemma edited_keeps_present ed name vars k v x :
  dict_get ed k = Some v →
  dict_get_or (edited ed name vars) k x = dict_get_or ed k x →
  dict_get (edited ed name vars) k = Some v.
Proof.
  intros Hk. unfold dict_get_or at 2. rewrite Hk. cbn [default from_option id].
  unfold dict_get_or. destruct (dict_get (edited ed name vars) k) eqn:Hg.
  - cbn [default from_option id]. by intros ->.
  - exfalso. unfold edited in Hg. cbv zeta in Hg.
    do 5 apply dict_get_set_None in Hg. congruence.
Qed.

End S.
End Loot18.

Module Handlers20.
Import DictFacts ExecFacts Steps FrameSpec Frame JsonSpec JsonFacts MarketLookup.
Import V20 Spec20 Loot20.
Section S.
Context `{Builtins} `{Host}.

Ltac norm :=
  cbn [get_heap put_heap app_store heap files cfg_types_folders airdrop_path airdrop_data
       market_path market_data market_dirty cat container_names container_index
       current_container_key selected_loot_index var_container settings editor mvars notices
       set_heap set_files set_cfg_types_folders set_market_dirty set_cat set_index
       set_current_container_key set_selected_loot_index set_var_container set_settings
       set_editor set_notices].

(** v2.0.  A folder already among [types_folders] is skipped. *)
Lemma load_known_folder_noop (s : app) folder show_warnings :
  folder ∈ types_folders (cat s) →
  _load_types_folder_silent folder show_warnings s = Ret tt s.
Proof.
  intros Hin. unfold _load_types_folder_silent. rewrite bind_gets.
  by rewrite bool_decide_true.
Qed.

Lemma py_setindex_ok (s : app) l xs i v :
  heap s !! l = Some (OList xs) → (0 ≤ i < Z.of_nat (length xs))%Z →
  py_setindex (VRef l) i v s
  = Ret tt (set_heap (<[l := OList (<[Z.to_nat i := v]> xs)]> (heap s)) s).
Proof.
  intros Hl Hi. unfold py_setindex.
  erewrite bind_step by (by eapply py_list_of_ok).
  by rewrite bool_decide_true.
Qed.

Lemma apply_loot_edit_spec (s : app) c d ll loot i e ed :
  selected s c d → dict_get d "Loot" = Some (VRef ll) →
  heap s !! ll = Some (OList loot) →
  selected_loot_index s = Some i → (0 ≤ i)%Z → loot !! Z.to_nat i = Some (VRef e) →
  heap s !! e = Some (ODict ed) → e ≠ c →
  ∃ s', apply_loot_edit s = Ret tt s' ∧
        heap s' !! e = Some (ODict (edited ed (editor s))) ∧
        heap s' !! ll = Some (OList loot).
Proof.
  intros Hsel Hl Hll Hi Hi0 He Hed Hec.
  pose proof Hsel as (key & info & Hk & Hkne & Hix & Hr & Hc & Hd).
  pose proof (lookup_lt_Some _ _ _ Hc). pose proof (lookup_lt_Some _ _ _ Hll).
  pose proof (lookup_lt_Some _ _ _ Hed). pose proof (lookup_lt_Some _ _ _ He).
  assert (c ≠ ll) by (intros ->; congruence).
  assert (e ≠ ll) by (intros ->; congruence).
  unfold apply_loot_edit.
  erewrite bind_step by (by eapply current_container_selected).
  unfold py_truthy at 1. rewrite bind_gets. norm.
  rewrite (selected_truthy _ _ _ Hsel). cbn [negb].
  rewrite bind_gets, Hi.
  erewrite bind_step by (by eapply loot_list_spec). cbv beta iota.
  erewrite bind_step by (by eapply py_len_list).
  rewrite bool_decide_false by lia.
  erewrite bind_step by (eapply py_index_ok; [done|by apply Dropdown.getitem_nat]).
  unfold py_is_dict at 1. rewrite bind_gets. unfold is_dict, as_dict. norm.
  rewrite Hed. rewrite bool_decide_true by eauto. cbn [negb].
  rewrite bind_gets.
  erewrite bind_step by (eapply py_setitem_ok; norm; lookup_tac).
  do 4 (erewrite bind_step by (eapply py_setitem_ok; norm; lookup_tac);
        norm; rewrite list_insert_insert_eq).
  fold (edited ed (editor s)).
  erewrite bind_step by (eapply py_setindex_ok; norm; [lookup_tac | lia]).
  norm. rewrite (list_insert_id loot) by done.
  erewrite bind_step by (eapply py_setitem_ok; norm; lookup_tac).
  norm.
  erewrite load_loot_tree_spec; norm.
  - eexists. split; [reflexivity|]. norm. split; lookup_tac.
  - lookup_tac.
  - rewrite dict_get_set_eq. reflexivity.
  - lookup_tac.
Qed.

(** v2.0.  Text that is no number: [Min], [Max] and
    [QuantityPercent] take the constants 0, 1 and 0, and [Chance] the
    text itself. *)
Lemma edited_fallback ed vars :
  (float_of_str (var_chance vars) = None →
   dict_get (edited ed vars) "Chance" = Some (VStr (var_chance vars))) ∧
  (int_of_str (var_min vars) = None → dict_get (edited ed vars) "Min" = Some (VInt 0)) ∧
  (int_of_str (var_max vars) = None → dict_get (edited ed vars) "Max" = Some (VInt 1)) ∧
  (int_of_str (var_qty vars) = None →
   dict_get (edited ed vars) "QuantityPercent" = Some (VInt 0)).
Proof.
  unfold edited, safe_int. cbv zeta. split_and!; intros ->; cbn [default from_option id];
    repeat first [ rewrite dict_get_set_eq | rewrite dict_get_set_ne by done ]; done.
Qed.

(** *** Saving *)

Lemma total_ret {A} (a : A) : total (ret a).
Proof. intros s. by eexists _, _. Qed.

Lemma total_gets {A} (f : app → A) : total (gets f).
Proof. intros s. by eexists _, _. Qed.

Lemma total_bind {A B} (m : M app A) (k : A → M app B) :
  total m → (∀ a, total (k a)) → total (bind m k).
Proof.
  intros Hm Hk s. destruct (Hm s) as (a & s' & E). unfold bind. rewrite E. apply Hk.
Qed.

Lemma total_try_except {A} (m h : M app A) : total h → total (try_except m h).
Proof.
  intros Hh s. unfold try_except. destruct (m s) as [a s'|s']; [by eexists _, _|apply Hh].
Qed.

Lemma total_get_current : total _get_current_container.
Proof.
  intros s. unfold _get_current_container. rewrite !bind_gets.
  destruct (current_container_key s); [|by eexists _, _].
  case_bool_decide; [by eexists _, _|]. destruct (dict_get _ _); by eexists _, _.
Qed.

Lemma total_commit : total _commit_container_settings_to_data.
Proof.
  unfold _commit_container_settings_to_data.
  apply total_bind; [apply total_get_current|intros c].
  apply total_bind; [apply total_gets|intros live].
  destruct (negb live); [apply total_ret|].
  apply total_bind; [apply total_gets|intros vars].
  repeat (apply total_bind; [apply total_try_except, total_ret|intros _]).
  apply total_try_except, total_ret.
Qed.

Lemma commit_returns (s : app) :
  _commit_container_settings_to_data s
  = Ret tt (final (_commit_container_settings_to_data s)).
Proof. destruct (total_commit s) as ([] & s' & ->). done. Qed.

Lemma heap_blind_extend I : heap_blind I → extend_stable I.
Proof. intros HI s o Hs. apply (HI s _ Hs). Qed.

Lemma heap_blind_dict I : heap_blind I → dict_write_stable I.
Proof. intros HI s l d d' Hs _. apply (HI s _ Hs). Qed.

Lemma readonly_get_current : readonly _get_current_container.
Proof.
  intros s. unfold _get_current_container. rewrite !bind_gets.
  destruct (current_container_key s); [|done].
  case_bool_decide; [done|]. by destruct (dict_get _ _).
Qed.

Lemma commit_keeps I : heap_blind I → preserves I _commit_container_settings_to_data.
Proof.
  intros HI. pose proof (heap_blind_extend _ HI). pose proof (heap_blind_dict _ HI).
  pose proof readonly_get_current.
  unfold _commit_container_settings_to_data. repeat frame_step.
Qed.

(** C1.  v2.0 does not behave so.  When the copy to the backup name
    fails, [save_airdrop] forgets the backup and goes on: if the file
    can be opened for writing, the document is written over it and the
    handler ends with the notice "Saved".  v1.8 stops at the failed copy
    ([save_aborts_on_backup_failure], [save_backup_failure_notice]). *)
Theorem save_without_backup (s : app) ts d1 d2 d3 j :
  truthy (heap s) (airdrop_data s) = true → airdrop_path s ≠ "" →
  let s1 := final (_commit_container_settings_to_data s) in
  let path := airdrop_path s in
  fs_copy2 (files s) path (path ++ ".bak_" ++ ts) = (d1, false) →
  fs_open_w d1 path = Some d2 →
  json_dumps (heap s1) (airdrop_data s) = Some j →
  fs_write d2 path (json_text j) = (d3, true) →
  save_airdrop ts s
  = Ret tt (set_notices (notices s ++ [Notice Info "Saved"]) (set_files d3 s1)).
Proof.
  intros Hdata Hpath s1 path Hcopy Hopen Hdump Hwrite.
  assert (files s1 = files s ∧ notices s1 = notices s) as [Hf Hn].
  { apply (commit_keeps (λ x, files x = files s ∧ notices x = notices s)); [|done].
    by intros x h. }
  unfold save_airdrop. rewrite bind_gets. unfold py_truthy at 1. rewrite !bind_gets.
  norm. rewrite Hdata, bool_decide_false by done. cbn [negb orb].
  erewrite bind_step by apply commit_returns. fold s1.
  unfold bind at 1, copy_file. rewrite Hf. fold path. rewrite Hcopy.
  unfold bind at 1, write_json. norm. rewrite Hopen, Hdump, Hwrite.
  unfold notify, modify. norm. rewrite Hn. by destruct s1.
Qed.

(** *** Market rows *)

Lemma delitem_of_nat {A} (xs : list A) (i : nat) :
  i < length xs → delitem xs (Z.of_nat i) = Some (delete i xs).
Proof. intros Hi. unfold delitem. rewrite bool_decide_true by lia. by rewrite Nat2Z.id. Qed.

(** [market_remove_selected] deletes the row the lookup finds. *)
Lemma remove_first_match (s : app) il items n i :
  market_doc (heap s) (market_data s) il items →
  find_index_by_class (heap s) (market_data s) n = Some i →
  market_remove_selected (Some n) s
  = Ret tt (set_market_dirty true
              (set_heap (<[il := OList (delete i items)]> (heap s)) s)).
Proof.
  intros Hdoc Hf. pose proof Hdoc as (md & Hd & Hi & Hl).
  apply (find_index_first _ _ _ _ _ _ Hdoc) in Hf as Hfirst.
  destruct Hfirst as [(row & Hrow & _) _]. pose proof (lookup_lt_Some _ _ _ Hrow).
  destruct (market_data s) as [| | | | |dl] eqn:Hmd; try done.
  simpl in Hd. destruct (heap s !! dl) as [[d0|]|] eqn:Hdl; try done.
  injection Hd as ->.
  unfold market_remove_selected.
  rewrite bind_gets, Hmd. unfold py_is_dict at 1. rewrite bind_gets.
  unfold is_dict, as_dict. norm. rewrite Hdl. rewrite bool_decide_true by eauto.
  cbn [negb]. unfold _market_find_index_by_class. rewrite bind_gets, Hmd, Hf.
  erewrite bind_step by (eapply py_item_ok; norm; eauto).
  erewrite bind_step by (eapply py_delitem_ok; norm; eauto using delitem_of_nat).
  done.
Qed.

End S.
End Handlers20.

Module Region.
Import DictFacts ExecFacts Steps FrameSpec Frame JsonSpec JsonFacts.
Local Open Scope nat_scope.
Import V18 Spec18 Pending Removal Dropdown Handlers18 Loot18.

Lemma dict_get_values {V} (d : list (string * V)) k v : dict_get d k = Some v → v ∈ d.*2.
Proof.
  induction d as [|[k' v'] rest IH]; [done|]. rewrite fmap_cons. cbn [dict_get snd].
  destruct (decide (k' = k)).
  - intros [= ->]. apply elem_of_cons. by left.
  - intros Hg. apply elem_of_cons. right. by apply IH.
Qed.

Lemma Forall_dict_set {V} (P : V → Prop) (d : list (string * V)) k v :
  Forall P d.*2 → P v → Forall P (dict_set d k v).*2.
Proof.
  intros Hd Hv. induction d as [|[k' v'] rest IH]; cbn [dict_set].
  - by apply Forall_cons.
  - rewrite fmap_cons in Hd. apply Forall_cons in Hd as [Hv' Hr].
    destruct (decide (k' = k)); rewrite fmap_cons; apply Forall_cons; auto.
Qed.

Lemma Forall_dict_pop {V} (P : V → Prop) (d : list (string * V)) k :
  Forall P d.*2 → Forall P (dict_pop d k).*2.
Proof.
  intros Hd. induction d as [|[k' v'] rest IH]; cbn [dict_pop]; [done|].
  rewrite fmap_cons in Hd. apply Forall_cons in Hd as [Hv' Hr].
  destruct (decide (k' = k)); [done|]. rewrite fmap_cons. apply Forall_cons; auto.
Qed.

Lemma Forall_dict_setdefault {V} (P : V → Prop) (d : list (string * V)) k v :
  Forall P d.*2 → P v → Forall P (dict_setdefault d k v).*2.
Proof.
  intros Hd Hv. unfold dict_setdefault. destruct (dict_get d k); [done|].
  by apply Forall_dict_set.
Qed.

Lemma getitem_elem {A} (xs : list A) i x : getitem xs i = Some x → x ∈ xs.
Proof.
  unfold getitem. repeat case_bool_decide; try done; by apply list_elem_of_lookup_2.
Qed.

Lemma Forall_delitem {A} (P : A → Prop) (xs ys : list A) i :
  delitem xs i = Some ys → Forall P xs → Forall P ys.
Proof.
  unfold delitem. repeat case_bool_decide; try done; intros [= <-]; apply Forall_delete.
Qed.

Lemma closed_app n0 h o :
  closed_above n0 h → Forall (fresh_val n0) (refs_of o) → closed_above n0 (h ++ [o]).
Proof.
  intros Hc Ho l o' Hl Hlk. apply lookup_app_Some in Hlk as [Hlk|[_ Hlk]].
  - by eapply Hc.
  - apply list_lookup_singleton_Some in Hlk as [_ <-]. done.
Qed.

Lemma closed_insert n0 h l o :
  closed_above n0 h → (n0 ≤ l → Forall (fresh_val n0) (refs_of o)) →
  closed_above n0 (<[l := o]> h).
Proof.
  intros Hc Ho l' o' Hl Hlk. apply list_lookup_insert_Some in Hlk as [(-> & <- & _)|[_ Hlk]].
  - by apply Ho.
  - by eapply Hc.
Qed.

Lemma old_frame_app h0 cl h o :
  old_frame h0 cl h → length h0 ≤ length h → old_frame h0 cl (h ++ [o]).
Proof. intros Hf Hlen l Hl Hne. rewrite lookup_app_l by lia. by apply Hf. Qed.

Lemma old_frame_insert h0 cl h l o :
  old_frame h0 cl h → length h0 ≤ l ∨ l = cl → old_frame h0 cl (<[l := o]> h).
Proof.
  intros Hf Hl l' Hl' Hne. rewrite list_lookup_insert_ne by (destruct Hl; [lia|congruence]).
  by apply Hf.
Qed.

Lemma fresh_val_mono n m v : n ≤ m → fresh_val m v → fresh_val n v.
Proof. destruct v; simpl; try done. lia. Qed.

Lemma fresh_in_val lo hi v : fresh_in lo hi v → fresh_val lo v.
Proof. destruct v; simpl; try done. lia. Qed.

Lemma loads_list_closed xs :
  Forall made_closed xs →
  ∀ h : list object,
    (∀ l o, length h ≤ l → (loads_list xs h).1 !! l = Some o →
            Forall (fresh_val (length h)) (refs_of o)) ∧
    Forall (fresh_val (length h)) (loads_list xs h).2.
Proof.
  induction 1 as [|x r Hx _ IH]; intros h.
  - simpl. split; [|constructor]. intros l o Hl Hlk. apply lookup_lt_Some in Hlk. lia.
  - simpl. pose proof (Hx h) as Hx'. pose proof (loads_fresh x h) as Hfr.
    pose proof (loads_length_le x h) as Hle.
    destruct (loads x h) as [h1 v] eqn:E1. simpl in *.
    destruct (IH h1) as [IHo IHv]. destruct (loads_list_extends r h1) as [e He].
    destruct (loads_list r h1) as [h2 vs] eqn:E2. simpl in *. subst h2. split.
    + intros l o Hl Hlk. destruct (decide (l < length h1)).
      * rewrite lookup_app_l in Hlk by done. by eapply Hx'.
      * eapply Forall_impl; [eapply IHo; [|exact Hlk]; lia|].
        intros v'. apply fresh_val_mono. lia.
    + constructor; [by eapply fresh_in_val|].
      eapply Forall_impl; [exact IHv|]. intros v'. apply fresh_val_mono. lia.
Qed.

Lemma loads_members_closed kvs :
  Forall (λ kv, made_closed kv.2) kvs →
  ∀ h : list object,
    (∀ l o, length h ≤ l → (loads_members kvs h).1 !! l = Some o →
            Forall (fresh_val (length h)) (refs_of o)) ∧
    Forall (fresh_val (length h)) (loads_members kvs h).2.*2.
Proof.
  induction 1 as [|x r Hx _ IH]; intros h.
  - simpl. split; [|constructor]. intros l o Hl Hlk. apply lookup_lt_Some in Hlk. lia.
  - simpl. pose proof (Hx h) as Hx'. pose proof (loads_fresh x.2 h) as Hfr.
    pose proof (loads_length_le x.2 h) as Hle.
    destruct (loads x.2 h) as [h1 v] eqn:E1. simpl in *.
    destruct (IH h1) as [IHo IHv]. destruct (loads_members_extends r h1) as [e He].
    destruct (loads_members r h1) as [h2 vs] eqn:E2. simpl in *. subst h2. split.
    + intros l o Hl Hlk. destruct (decide (l < length h1)).
      * rewrite lookup_app_l in Hlk by done. by eapply Hx'.
      * eapply Forall_impl; [eapply IHo; [|exact Hlk]; lia|].
        intros v'. apply fresh_val_mono. lia.
    + constructor; [by eapply fresh_in_val|].
      eapply Forall_impl; [exact IHv|]. intros v'. apply fresh_val_mono. lia.
Qed.

Theorem loads_closed j : made_closed j.
Proof.
  induction j as [| | | | |xs IH|kvs IH] using json_ind; intros h l o Hl Hlk;
    try (simpl in Hlk; apply lookup_lt_Some in Hlk; lia).
  - rewrite loads_arr in Hlk. destruct (loads_list_closed xs IH h) as [Ho Hv].
    destruct (loads_list xs h) as [h1 vs]. simpl in *.
    apply lookup_app_Some in Hlk as [Hlk|[_ Hlk]]; [by eapply Ho|].
    apply list_lookup_singleton_Some in Hlk as [_ <-]. done.
  - rewrite loads_obj in Hlk. destruct (loads_members_closed kvs IH h) as [Ho Hv].
    destruct (loads_members kvs h) as [h1 vs]. simpl in *.
    apply lookup_app_Some in Hlk as [Hlk|[_ Hlk]]; [by eapply Ho|].
    apply list_lookup_singleton_Some in Hlk as [_ <-]. done.
Qed.

Section Region.
Context `{Builtins} `{Host}.

Ltac norm :=
  cbn [get_heap put_heap app_store heap files airdrop_path airdrop_data cat
       container_names current_container_index selected_loot_index
       pending_container_settings var_container settings editor notices
       set_heap set_files set_cat set_container_names set_current_container_index
       set_selected_loot_index set_pending_container_settings set_var_container
       set_settings set_editor set_notices].

Variables (h0 : list object) (r cl : nat) (locs : list nat) (c : nat).
Hypothesis Hdoc0 : doc h0 (VRef r) r cl locs.
Hypothesis Hc : length h0 ≤ c.

Abbreviation n0 := (length h0).
Abbreviation fresh := (fresh_val (length h0)).
Abbreviation Inv := (inv h0 r cl locs c).
Abbreviation Safe := (safe h0 r cl locs c).

Lemma cl_old : cl < n0.
Proof. destruct Hdoc0 as (_ & _ & Hcl & _). by eapply lookup_lt_Some. Qed.

Lemma safe_bind {A B} (m : M app A) (k : A → M app B) P Q :
  Safe m P → (∀ a, P a → Safe (k a) Q) → Safe (bind m k) Q.
Proof.
  intros Hm Hk x Hx. destruct (Hm x Hx) as [Hi Hp]. unfold bind.
  destruct (m x) as [a x1|x1] eqn:E; simpl in *.
  - apply Hk; eauto.
  - split; [done|]. intros ? ? [=].
Qed.

Lemma safe_weaken {A} (m : M app A) (P Q : A → Prop) :
  Safe m P → (∀ a, P a → Q a) → Safe m Q.
Proof. intros Hm HPQ x Hx. destruct (Hm x Hx) as [Hi Hp]. split; eauto. Qed.

Lemma safe_ret {A} (a : A) (P : A → Prop) : P a → Safe (ret a) P.
Proof. intros Ha x Hx. split; [done|]. by intros ? ? [= <- <-]. Qed.

Lemma safe_raise {A} (P : A → Prop) : Safe (raise : M app A) P.
Proof. intros x Hx. split; [done|]. intros ? ? [=]. Qed.

Lemma safe_gets {A} (f : app → A) (P : A → Prop) :
  (∀ x, Inv x → P (f x)) → Safe (gets f) P.
Proof. intros Hf x Hx. split; [done|]. intros ? ? [= <- <-]. by apply Hf. Qed.

Lemma safe_gets_any {A} (f : app → A) : Safe (gets f) (λ _, True).
Proof. by apply safe_gets. Qed.

Lemma safe_lift {A} (o : option A) (P : A → Prop) :
  (∀ a, o = Some a → P a) → Safe (lift o) P.
Proof.
  intros Ho x Hx. unfold lift. destruct o as [a|]; simpl.
  - split; [done|]. intros ? ? [= <- <-]. by apply Ho.
  - split; [done|]. intros ? ? [=].
Qed.

Lemma safe_modify (f : app → app) :
  (∀ x, Inv x → Inv (f x)) → Safe (modify f) (λ _, True).
Proof. intros Hf x Hx. split; [by apply Hf|done]. Qed.

Lemma inv_store x l o :
  Inv x → n0 ≤ l → Forall fresh (refs_of o) → Inv (set_heap (<[l := o]> (heap x)) x).
Proof.
  intros (Hf & Hcl & Hlen & Hl & Hd & Hi) Hlo Ho. pose proof cl_old.
  unfold inv. norm. split_and!; try done.
  - apply old_frame_insert; auto.
  - by apply closed_insert.
  - by rewrite length_insert.
  - rewrite list_lookup_insert_ne by lia. done.
Qed.

Lemma inv_alloc x o :
  Inv x → Forall fresh (refs_of o) → Inv (set_heap (heap x ++ [o]) x).
Proof.
  intros (Hf & Hcl & Hlen & Hl & Hd & Hi) Ho.
  unfold inv. norm. split_and!; try done.
  - by apply old_frame_app.
  - by apply closed_app.
  - rewrite length_app. lia.
  - by apply lookup_app_l_Some.
Qed.

Lemma safe_new o : Forall fresh (refs_of o) → Safe (py_new o) fresh.
Proof.
  intros Ho x Hx. split.
  - by apply inv_alloc.
  - intros a x' [= <- <-]. destruct Hx as (_ & _ & Hlen & _). simpl. exact Hlen.
Qed.

Lemma safe_dict_of v : fresh v → Safe (py_dict_of v) (λ d, Forall fresh d.*2).
Proof.
  intros Hv x Hx. unfold py_dict_of, lift. norm.
  destruct (as_dict (heap x) v) as [d|] eqn:E; simpl; (split; [done|]); [|intros ? ? [=]].
  intros ? ? [= <- <-]. destruct v as [| | | | |l]; try done. simpl in E, Hv.
  destruct (heap x !! l) as [[d'|]|] eqn:El; try done. injection E as ->.
  destruct Hx as (_ & Hcl & _). apply (Hcl l (ODict d) Hv El).
Qed.

Lemma safe_list_of v : fresh v → Safe (py_list_of v) (Forall fresh).
Proof.
  intros Hv x Hx. unfold py_list_of, lift. norm.
  destruct (as_list (heap x) v) as [d|] eqn:E; simpl; (split; [done|]); [|intros ? ? [=]].
  intros ? ? [= <- <-]. destruct v as [| | | | |l]; try done. simpl in E, Hv.
  destruct (heap x !! l) as [[|xs]|] eqn:El; try done. injection E as ->.
  destruct Hx as (_ & Hcl & _). apply (Hcl l (OList d) Hv El).
Qed.

Lemma safe_item v k : fresh v → Safe (py_item v k) fresh.
Proof.
  intros Hv. unfold py_item. eapply safe_bind; [by apply safe_dict_of|].
  intros d Hd. apply safe_lift. intros a Ha. rewrite Forall_forall in Hd.
  by eapply Hd, dict_get_values.
Qed.

Lemma safe_get v k dflt : fresh v → fresh dflt → Safe (py_get v k dflt) fresh.
Proof.
  intros Hv Hdf. unfold py_get. eapply safe_bind; [by apply safe_dict_of|].
  intros d Hd. apply safe_ret. unfold dict_get_or.
  destruct (dict_get d k) eqn:E; simpl; [|done]. rewrite Forall_forall in Hd.
  by eapply Hd, dict_get_values.
Qed.

Lemma safe_read {A} (m : M app A) : readonly m → Safe m (λ _, True).
Proof. intros Hm x Hx. rewrite Hm. done. Qed.

Lemma safe_store l o : n0 ≤ l → Forall fresh (refs_of o) → Safe (store_at l o) (λ _, True).
Proof. intros Hl Ho. apply safe_modify. intros x Hx. by apply inv_store. Qed.

Lemma safe_setitem v k w : fresh v → fresh w → Safe (py_setitem v k w) (λ _, True).
Proof.
  intros Hv Hw. unfold py_setitem. destruct v; try apply safe_raise.
  eapply safe_bind; [by apply safe_dict_of|]. intros d Hd.
  apply safe_store; [done|]. by apply Forall_dict_set.
Qed.

Lemma safe_popkey v k : fresh v → Safe (py_popkey v k) (λ _, True).
Proof.
  intros Hv. unfold py_popkey. destruct v; try apply safe_raise.
  eapply safe_bind; [by apply safe_dict_of|]. intros d Hd.
  apply safe_store; [done|]. by apply Forall_dict_pop.
Qed.

Lemma safe_setdefault v k w : fresh v → fresh w → Safe (py_setdefault v k w) (λ _, True).
Proof.
  intros Hv Hw. unfold py_setdefault. destruct v; try apply safe_raise.
  eapply safe_bind; [by apply safe_dict_of|]. intros d Hd.
  apply safe_store; [done|]. by apply Forall_dict_setdefault.
Qed.

Lemma safe_index v i : fresh v → Safe (py_index v i) fresh.
Proof.
  intros Hv. unfold py_index. eapply safe_bind; [by apply safe_list_of|].
  intros xs Hxs. apply safe_lift. intros a Ha. rewrite Forall_forall in Hxs.
  by eapply Hxs, getitem_elem.
Qed.

Lemma safe_append v w : fresh v → fresh w → Safe (py_append v w) (λ _, True).
Proof.
  intros Hv Hw. unfold py_append. destruct v; try apply safe_raise.
  eapply safe_bind; [by apply safe_list_of|]. intros xs Hxs.
  apply safe_store; [done|]. simpl. apply Forall_app. split; [done|by constructor].
Qed.

Lemma safe_delitem v i : fresh v → Safe (py_delitem v i) (λ _, True).
Proof.
  intros Hv. unfold py_delitem. destruct v; try apply safe_raise.
  eapply safe_bind; [by apply safe_list_of|]. intros xs Hxs.
  eapply safe_bind; [apply safe_lift; intros ys Hys; exact (Forall_delitem _ _ _ _ Hys Hxs)|].
  intros ys Hys. by apply safe_store.
Qed.

Lemma safe_setindex v i w : fresh v → fresh w → Safe (py_setindex v i w) (λ _, True).
Proof.
  intros Hv Hw. unfold py_setindex. destruct v; try apply safe_raise.
  eapply safe_bind; [by apply safe_list_of|]. intros xs Hxs.
  repeat case_bool_decide; try apply safe_raise;
    (apply safe_store; [done|]); simpl; by apply Forall_insert.
Qed.

Lemma safe_deep_copy v : Safe (py_deep_copy v) fresh.
Proof.
  intros x Hx. unfold py_deep_copy. norm.
  destruct (json_dumps (heap x) v) as [j|]; [|split; [done|intros ? ? [=]]].
  pose proof (loads_extends j (heap x)) as [ext He].
  pose proof (loads_fresh j (heap x)) as Hfr.
  pose proof (loads_closed j (heap x)) as Hcl.
  destruct (loads j (heap x)) as [h' v'] eqn:E. simpl in *. subst h'.
  destruct Hx as (Hf & Hc0 & Hlen & Hl & Hd & Hi).
  split.
  - unfold inv. norm. split_and!; try done.
    + intros l Hl0 Hne. rewrite lookup_app_l by lia. by apply Hf.
    + intros l o Hl0 Hlk. destruct (decide (l < length (heap x))).
      * rewrite lookup_app_l in Hlk by done. by eapply Hc0.
      * eapply Forall_impl; [eapply Hcl; [|exact Hlk]; lia|].
        intros w. apply fresh_val_mono. lia.
    + rewrite length_app. lia.
    + by apply lookup_app_l_Some.
  - intros a x' [= <- <-]. eapply fresh_val_mono; [exact Hlen|]. by eapply fresh_in_val.
Qed.

(** The selected container is the one at [c]. *)
Lemma current_is_clone x : Inv x → get_current_container x = Ret (VRef c) x.
Proof.
  intros (Hf & Hc0 & Hlen & Hl & Hd & Hi). pose proof cl_old.
  destruct Hdoc0 as (_ & Hroot & Hcl & Hdicts & Hr). simpl in Hroot.
  destruct (h0 !! r) as [[rd|]|] eqn:Hrd; try done. simpl in Hroot.
  assert (r ≠ cl) by (intros ->; congruence).
  assert (heap x !! r = Some (ODict rd)) as Hxr.
  { rewrite Hf; [done| |done]. by eapply lookup_lt_Some. }
  unfold get_current_container. rewrite !bind_gets, Hd, Hi. cbn [is_none].
  unfold containers. rewrite bind_bind, bind_gets, Hd.
  erewrite bind_step by (by eapply py_item_ok).
  eapply py_index_ok; [done|]. apply MarketLookup.getitem_of_nat.
  rewrite list_lookup_fmap, lookup_app_r by done. by rewrite Nat.sub_diag.
Qed.

Lemma safe_current : Safe get_current_container fresh.
Proof.
  intros x Hx. rewrite (current_is_clone x Hx). split; [done|].
  intros ? ? [= <- <-]. exact Hc.
Qed.

Lemma fresh_safe_float t v : fresh v → fresh (safe_float t v).
Proof. intros Hv. unfold safe_float. by destruct (float_of_str t). Qed.

Lemma fresh_safe_int t v : fresh v → fresh (safe_int t v).
Proof.
  intros Hv. unfold safe_int. destruct (float_of_str t); [|done].
  by destruct (int_of_float _).
Qed.

Ltac fresh_tac :=
  first [ assumption | exact I
        | apply fresh_safe_float; fresh_tac | apply fresh_safe_int; fresh_tac ].

Ltac refs_tac :=
  simpl; repeat (apply Forall_cons; split; [fresh_tac|]); apply Forall_nil; exact I.

Ltac safe_prim :=
  first
    [ assumption
    | apply safe_current
    | apply safe_new; refs_tac
    | apply safe_item; fresh_tac
    | apply safe_get; fresh_tac
    | apply safe_index; fresh_tac
    | apply safe_setitem; fresh_tac
    | apply safe_setdefault; fresh_tac
    | apply safe_popkey; fresh_tac
    | apply safe_append; fresh_tac
    | apply safe_delitem; fresh_tac
    | apply safe_setindex; fresh_tac
    | apply safe_deep_copy
    | apply safe_raise
    | apply safe_modify; intros ? Hi; exact Hi
    | apply safe_read; solve [auto with frame] ].

Ltac safe_step :=
  lazymatch goal with
  | |- safe _ _ _ _ _ (bind _ _) _ => eapply safe_bind; [|intros ? ?]
  | |- safe _ _ _ _ _ (if ?b then _ else _) _ => destruct b
  | |- safe _ _ _ _ _ (match ?x with _ => _ end) _ => destruct x
  | |- safe _ _ _ _ _ (ret ?a) _ =>
      first [ apply (safe_ret a fresh); fresh_tac | apply safe_ret; exact I ]
  | |- safe _ _ _ _ _ _ _ => first [ safe_prim | eapply safe_weaken; [safe_prim|done] ]
  end.

Ltac safe_tac := repeat safe_step.

Lemma safe_notify k t : Safe (notify k t) (λ _, True).
Proof. unfold notify. safe_tac. Qed.

Lemma safe_clear_editor : Safe _clear_editor (λ _, True).
Proof. unfold _clear_editor. safe_tac. Qed.

Lemma safe_refresh : Safe refresh_loot_table_chunked (λ _, True).
Proof. unfold refresh_loot_table_chunked. safe_tac. Qed.

Lemma safe_populate : Safe populate_editor_from_selected (λ _, True).
Proof.
  pose proof safe_clear_editor. unfold populate_editor_from_selected. safe_tac.
Qed.

Lemma safe_on_tree_select sel : Safe (_on_tree_select sel) (λ _, True).
Proof. pose proof safe_populate. unfold _on_tree_select. safe_tac. Qed.

Lemma safe_add_item classname : Safe (add_item_to_loot classname) (λ _, True).
Proof.
  pose proof safe_populate. pose proof (safe_notify Warning "No Container").
  unfold add_item_to_loot, default_loot_entry. safe_tac.
Qed.

Lemma safe_remove_selected : Safe remove_selected_loot (λ _, True).
Proof.
  pose proof safe_clear_editor. pose proof safe_refresh.
  unfold remove_selected_loot. safe_tac.
Qed.

Lemma safe_duplicate_selected : Safe duplicate_selected_loot (λ _, True).
Proof. pose proof safe_populate. unfold duplicate_selected_loot. safe_tac. Qed.

Lemma safe_apply_editor confirm : Safe (apply_editor_to_selected confirm) (λ _, True).
Proof.
  pose proof (safe_notify Warning "Invalid Name").
  unfold apply_editor_to_selected. safe_tac.
Qed.

Lemma safe_clear_loot confirm : Safe (clear_current_loot confirm) (λ _, True).
Proof.
  pose proof safe_clear_editor. pose proof safe_refresh.
  unfold clear_current_loot. safe_tac.
Qed.

End Region.
End Region.

Module Clone18.
Import DictFacts ExecFacts Steps FrameSpec Frame JsonSpec JsonFacts JsonFrame.
Local Open Scope nat_scope.
Import V18 Spec18 Pending Removal Dropdown Handlers18 Loot18 Region.

Lemma dict_set_set {V} (d : list (string * V)) k x y :
  dict_set (dict_set d k x) k y = dict_set d k y.
Proof.
  induction d as [|[k' v'] rest IH]; cbn [dict_set].
  - by rewrite decide_True.
  - destruct (decide (k' = k)) as [->|Hne]; cbn [dict_set].
    + by rewrite decide_True.
    + rewrite decide_False by done. by rewrite IH.
Qed.

Lemma dict_set_setdefault {V} (d : list (string * V)) k x y :
  dict_set (dict_setdefault d k x) k y = dict_set d k y.
Proof. unfold dict_setdefault. destruct (dict_get d k); [done|apply dict_set_set]. Qed.

Lemma Forall2_dict_set {V W} (Q : V → W → Prop) (d : list (string * V))
    (kvs : list (string * W)) k v w :
  Forall2 (λ kv kj, kv.1 = kj.1 ∧ Q kv.2 kj.2) d kvs → Q v w →
  Forall2 (λ kv kj, kv.1 = kj.1 ∧ Q kv.2 kj.2) (dict_set d k v) (dict_set kvs k w).
Proof.
  intros Hf Hq. induction Hf as [|[k1 v1] [k2 w2] d' kvs' [Hk Hv] Hf' IH]; cbn [dict_set].
  - constructor; [by split|constructor].
  - simpl in Hk, Hv. subst k2.
    destruct (decide (k1 = k)); (constructor; [by split|done]).
Qed.

Lemma old_frame_refl h0 cl : old_frame h0 cl h0.
Proof. by intros l _ _. Qed.

Lemma old_frame_extend h0 cl h ext :
  old_frame h0 cl h → length h0 ≤ length h → old_frame h0 cl (h ++ ext).
Proof. intros Hf Hlen l Hl Hne. rewrite lookup_app_l by lia. by apply Hf. Qed.

Lemma frame_doc h0 h' data r cl locs locs' :
  doc h0 data r cl locs → old_frame h0 cl h' →
  h' !! cl = Some (OList (VRef <$> locs')) →
  Forall (λ l, is_dict h' (VRef l) = true) locs' → r ∉ locs' →
  doc h' data r cl locs'.
Proof.
  intros (Hdata & Hroot & Hcl & Hd & Hr) Hf Hcl' Hd' Hr'. subst data. simpl in Hroot.
  destruct (h0 !! r) as [[rd|]|] eqn:Hrd; try done.
  assert (r ≠ cl) by (intros ->; congruence).
  split_and!; try done. simpl. rewrite Hf; [by rewrite Hrd| |done].
  by eapply lookup_lt_Some.
Qed.

Lemma old_dicts h0 h' data r cl locs :
  doc h0 data r cl locs → old_frame h0 cl h' →
  Forall (λ l, is_dict h' (VRef l) = true) locs.
Proof.
  intros (Hdata & Hroot & Hcl & Hd & Hr) Hf. eapply Forall_impl; [exact Hd|].
  intros l Hl. unfold is_dict in *. apply bool_decide_eq_true in Hl as [d Hl].
  apply bool_decide_eq_true. simpl in *.
  destruct (h0 !! l) as [[d'|]|] eqn:Hhl; try done.
  rewrite Hf; [rewrite Hhl; eauto | by eapply lookup_lt_Some | intros ->; congruence].
Qed.

Lemma members_depth kvs (h : list object) kv :
  kv ∈ kvs → depth kv.2 ≤ length (loads_members kvs h).1.
Proof.
  intros Hin. pose proof (loads_depth (JObj kvs) h) as Hd. rewrite loads_obj in Hd.
  pose proof (depth_obj_member kvs kv Hin).
  destruct (loads_members kvs h) as [hm cd]. simpl in *. rewrite length_app in Hd.
  simpl in Hd. lia.
Qed.

Lemma clone_dumps kvs (h h2 : list object) c e name :
  let lm := loads_members kvs h in
  (∀ l, length h ≤ l < length lm.1 → h2 !! l = lm.1 !! l) →
  length lm.1 ≤ length h2 →
  h2 !! c = Some (ODict (dict_set (dict_set lm.2 "Container" (VStr name)) "Loot" (VRef e))) →
  h2 !! e = Some (OList []) →
  json_dumps h2 (VRef c) = Some (clone_json kvs name).
Proof.
  intros lm Hag Hlen Hc He. unfold json_dumps. cbn [dumps_fuel]. rewrite Hc.
  pose proof (lookup_lt_Some _ _ _ He) as Hlt.
  assert (Forall2 (λ kv kj, kv.1 = kj.1 ∧ dumps_fuel (length h2) h2 kv.2 = Some kj.2)
            lm.2 kvs) as Hf.
  { apply loads_members_reads_back.
    - apply Forall_forall. intros kv _. apply loads_reads_back.
    - exact Hag.
    - intros kv Hin. pose proof (members_depth kvs h kv Hin) as Hdp.
      unfold lm in *. lia. }
  unfold clone_json.
  erewrite mapM_members_Some; [done|].
  apply (Forall2_dict_set (λ v j, dumps_fuel (length h2) h2 v = Some j)).
  - apply (Forall2_dict_set (λ v j, dumps_fuel (length h2) h2 v = Some j)); [done|].
    by destruct (length h2).
  - destruct (length h2) as [|n] eqn:E; [lia|]. cbn [dumps_fuel]. rewrite He. done.
Qed.

Section S.
Context `{Builtins} `{Host}.

Ltac norm :=
  cbn [get_heap put_heap app_store heap files airdrop_path airdrop_data cat
       container_names current_container_index selected_loot_index
       pending_container_settings var_container settings editor notices
       set_heap set_files set_cat set_container_names set_current_container_index
       set_selected_loot_index set_pending_container_settings set_var_container
       set_settings set_editor set_notices].

Lemma set_heap_twice (s : app) a b : set_heap a (set_heap b s) = set_heap a s.
Proof. done. Qed.

Lemma insert_middle {A} (l : list A) x y rest :
  <[length l := x]> (l ++ y :: rest) = l ++ x :: rest.
Proof.
  rewrite insert_app_r_alt by lia. by rewrite Nat.sub_diag.
Qed.

Lemma lookup_after {A} (l rest : list A) k : (l ++ rest) !! (length l + k) = rest !! k.
Proof. rewrite lookup_app_r by lia. f_equal. lia. Qed.

Ltac hnorm :=
  norm; rewrite ?set_heap_twice, ?insert_middle, <- ?app_assoc, ?length_app;
  cbn [List.app List.length]; rewrite <- ?Nat.add_assoc; cbn [Nat.add].

(** What [duplicate_container] returns for a free name when "Clear
    Loot" is answered yes, and the shape of the store it leaves. *)
Lemma duplicate_clone_spec (s : app) r cl locs idx src kvs name :
  doc (heap s) (airdrop_data s) r cl locs →
  current_container_index s = Some idx → (0 ≤ idx)%Z → locs !! Z.to_nat idx = Some src →
  json_dumps (heap s) (VRef src) = Some (JObj kvs) →
  names_hashable (heap s) locs → name_free (heap s) locs name → name ≠ "" →
  ∃ s' c,
    duplicate_container (Some name) true s = Ret tt s' ∧
    inv (heap s) r cl locs c s' ∧ length (heap s) ≤ c ∧
    json_dumps (heap s') (VRef c) = Some (clone_json kvs name) ∧
    notices s' = notices s.
Proof.
  intros Hdoc Hcur Hidx Hsrc Hdump Hh Hfree Hne.
  pose proof Hdoc as (Hdata & Hroot & Hcl & Hd & Hr).
  destruct (doc_container_dict _ _ _ _ _ _ _ Hdoc Hsrc) as [sd Hsd].
  rewrite Hdata in Hroot. simpl in Hroot.
  destruct (heap s !! r) as [[rd|]|] eqn:Hrd; try done. simpl in Hroot.
  pose proof (lookup_lt_Some _ _ _ Hrd) as Hrlt.
  pose proof (lookup_lt_Some _ _ _ Hcl) as Hcllt.
  assert (r ≠ cl) as Hrcl by (intros ->; congruence).
  pose proof (loads_members_extends kvs (heap s)) as [e He].
  assert (Forall (λ kv : string * json, made_closed kv.2) kvs) as Hmc
    by (apply Forall_forall; intros kv _; apply loads_closed).
  pose proof (loads_members_closed kvs Hmc (heap s)) as [Hmo Hmv].
  pose proof (py_deep_copy_dict s (VRef src) kvs Hdump) as Hdc.
  cbn [get_heap put_heap app_store] in Hdc.
  pose proof (clone_dumps kvs (heap s)) as Hcd. cbv zeta in Hcd.
  destruct (loads_members kvs (heap s)) as [hm cd0] eqn:Elm. simpl in *.
  assert (length (heap s) ≤ length hm) as Hlen by (subst hm; rewrite length_app; lia).
  assert (∀ l o, heap s !! l = Some o → hm !! l = Some o) as Hold
    by (intros l o Hl; subst hm; by apply lookup_app_l_Some).
  assert (old_frame (heap s) cl hm) as Hfr0.
  { subst hm. apply old_frame_extend; [apply old_frame_refl|done]. }
  clear He e.
  set (n0 := length (heap s)) in *.
  unfold duplicate_container.
  rewrite bind_gets. unfold py_truthy at 1. rewrite bind_gets. norm.
  rewrite (doc_truthy _ _ _ _ _ Hdoc), bind_gets, Hcur. cbn [negb].
  erewrite bind_step by (by eapply doc_containers).
  erewrite bind_step.
  2: { eapply py_index_ok; [done|]. apply getitem_nat; [lia|].
       by rewrite list_lookup_fmap, Hsrc. }
  erewrite bind_step by (by eapply py_get_ok).
  rewrite bool_decide_false by done.
  erewrite bind_step by (by eapply py_list_of_ok).
  erewrite bind_step by (by apply existing_spec).
  rewrite existsb_free by done.
  erewrite bind_step by exact Hdc.
  erewrite bind_step by (eapply py_setitem_ok; norm; apply list_lookup_middle; done).
  hnorm. erewrite bind_step by apply py_new_ok. hnorm.
  erewrite bind_step by (eapply py_setdefault_ok; norm; apply list_lookup_middle; done).
  hnorm. rewrite bind_bind. erewrite bind_step by apply py_new_ok. hnorm.
  erewrite bind_step by (eapply py_setitem_ok; norm; apply list_lookup_middle; done).
  hnorm. rewrite dict_set_setdefault.
  set (cdf := dict_set (dict_set cd0 "Container" (VStr name)) "Loot"
                (VRef (length hm + 2))).
  erewrite bind_step.
  2: { unfold containers. rewrite bind_gets. norm. rewrite Hdata.
       eapply py_item_ok; [norm; rewrite lookup_app_l by lia; by apply Hold|done]. }
  erewrite bind_step
    by (eapply py_append_ok; norm; rewrite lookup_app_l by lia; by apply Hold).
  norm. rewrite set_heap_twice.
  match goal with |- context [set_heap ?h s] => set (h7 := h) end.
  assert (length h7 = length hm + 3) as Hlen7
    by (unfold h7; rewrite length_insert, length_app; simpl; lia).
  assert (h7 !! cl = Some (OList (VRef <$> (locs ++ [length hm])))) as Hcl7.
  { unfold h7. rewrite list_lookup_insert_eq by (rewrite length_app; lia).
    by rewrite fmap_app. }
  assert (h7 !! length hm = Some (ODict cdf)) as Hc7.
  { unfold h7. rewrite list_lookup_insert_ne by lia. by apply list_lookup_middle. }
  assert (h7 !! (length hm + 2) = Some (OList [])) as He7.
  { unfold h7. rewrite list_lookup_insert_ne by lia. by rewrite lookup_after. }
  assert (old_frame (heap s) cl h7) as Hfr7.
  { unfold h7. apply old_frame_insert; [|by right]. by apply old_frame_extend. }
  assert (closed_above n0 h7) as Hcl07.
  { unfold h7. apply closed_insert; [|intros; lia].
    change (hm ++ [ODict cdf; OList []; OList []])
      with (hm ++ ([ODict cdf] ++ [OList []] ++ [OList []])).
    rewrite !app_assoc. repeat apply closed_app; try done.
    simpl. unfold cdf. repeat apply Forall_dict_set; try done. simpl. lia. }
  assert (∀ l, n0 ≤ l < length hm → h7 !! l = hm !! l) as Hag7.
  { intros l Hl. unfold h7. rewrite list_lookup_insert_ne by lia.
    by rewrite lookup_app_l by lia. }
  assert (doc h7 (VRef r) r cl (locs ++ [length hm])) as Hdoc7.
  { rewrite Hdata in Hdoc. eapply frame_doc; [exact Hdoc|done|done| |].
    - apply Forall_app. split; [by eapply old_dicts|].
      apply Forall_singleton. unfold is_dict. simpl. rewrite Hc7.
      apply bool_decide_eq_true. eauto.
    - intros [Hin| ->%list_elem_of_singleton]%elem_of_app; [done|lia]. }
  clearbody h7.
  erewrite bind_step by (eapply py_len_list; norm; exact Hcl7).
  rewrite length_fmap, length_app. cbn [length].
  replace (Z.of_nat (length locs + 1) - 1)%Z with (Z.of_nat (length locs)) by lia.
  destruct (rebuild_spec (set_heap h7 s) r cl (locs ++ [length hm])
              (Z.of_nat (length locs)))
    as (s8 & Hrb & Hsame & Hcur8 & Hnames8 & Hsel8 & Hed8 & Hnot8).
  { norm. by rewrite Hdata. }
  { rewrite length_app. simpl. lia. }
  erewrite bind_step by exact Hrb.
  destruct Hsame as (Hh8 & Hd8 & Hp8 & Hcat8 & Hf8 & Hpath8).
  cbn [heap airdrop_data notices set_heap] in Hh8, Hd8, Hnot8.
  assert ((locs ++ [length hm]) !! Z.to_nat (Z.of_nat (length locs)) = Some (length hm))
    as Hlast by (rewrite Nat2Z.id, lookup_app_r by done; by rewrite Nat.sub_diag).
  unfold show_selected_container, _clear_editor. rewrite !bind_modify.
  set (s9 := set_editor cleared_editor (set_selected_loot_index None s8)).
  assert (doc (heap s9) (airdrop_data s9) r cl (locs ++ [length hm])) as Hdoc9
    by (unfold s9; norm; by rewrite Hh8, Hd8, Hdata).
  destruct (load_settings_spec s9 r cl (locs ++ [length hm]) (Z.of_nat (length locs))
              (length hm)) as [vars Hls]; [done|done|lia|done|].
  erewrite bind_step by exact Hls.
  assert (heap (set_settings vars s9) = h7) as Hh9 by (unfold s9; norm; exact Hh8).
  rewrite (refresh_spec (set_settings vars s9) r cl (locs ++ [length hm])
             (Z.of_nat (length locs)) (length hm) cdf (length hm + 2) []);
    [|done|done|lia|done|by rewrite Hh9|apply dict_get_set_eq|by rewrite Hh9].
  eexists _, (length hm). split; [reflexivity|]. unfold s9. norm. rewrite Hh8.
  split_and!.
  - unfold inv. norm. rewrite ?Hh8, ?Hd8. split_and!; try done.
    + apply old_frame_extend; [done|lia].
    + by apply closed_app.
    + rewrite length_app. lia.
    + by apply lookup_app_l_Some.
  - done.
  - apply (Hcd _ (length hm) (length hm + 2)).
    + intros l Hl. rewrite lookup_app_l by lia. by apply Hag7.
    + rewrite length_app. lia.
    + by apply lookup_app_l_Some.
    + by apply lookup_app_l_Some.
  - done.
Qed.

Lemma inv_run_op h0 r cl locs c o x :
  doc h0 (VRef r) r cl locs → length h0 ≤ c →
  inv h0 r cl locs c x → inv h0 r cl locs c (final (run_op o x)).
Proof.
  intros Hdoc Hc Hx.
  assert (safe h0 r cl locs c (run_op o) (λ _, True)) as Hs.
  { destruct o; simpl.
    - by apply safe_add_item.
    - by apply safe_on_tree_select.
    - apply safe_modify. by intros ? ?.
    - by apply safe_apply_editor.
    - by apply safe_remove_selected.
    - by apply safe_duplicate_selected.
    - by apply safe_clear_loot. }
  by apply Hs.
Qed.

Lemma inv_run_ops h0 r cl locs c ops x :
  doc h0 (VRef r) r cl locs → length h0 ≤ c →
  inv h0 r cl locs c x → inv h0 r cl locs c (run_ops ops x).
Proof.
  intros Hdoc Hc. revert x. induction ops as [|o ops IH]; intros x Hx; [done|].
  simpl. apply IH. by apply inv_run_op.
Qed.

(** C7.  Duplicating the selected container under a free name with
    "Clear Loot" answered yes makes a container of new objects: it
    serialises to the source's members with the new name and an empty
    loot list, it is the last of the list and the selected one, and
    whatever is then done to its loot leaves every object the document
    had before as it was, the containers list apart. *)
Theorem clone_without_loot_is_independent (s : app) r cl locs idx src kvs name :
  doc (heap s) (airdrop_data s) r cl locs →
  current_container_index s = Some idx → (0 ≤ idx)%Z → locs !! Z.to_nat idx = Some src →
  json_dumps (heap s) (VRef src) = Some (JObj kvs) →
  names_hashable (heap s) locs → name_free (heap s) locs name → name ≠ "" →
  ∃ s' c,
    duplicate_container (Some name) true s = Ret tt s' ∧
    length (heap s) ≤ c ∧
    heap s' !! cl = Some (OList (VRef <$> (locs ++ [c]))) ∧
    current_container_index s' = Some (Z.of_nat (length locs)) ∧
    json_dumps (heap s') (VRef c) = Some (clone_json kvs name) ∧
    ∀ ops,
      (∀ l, l < length (heap s) → l ≠ cl → heap (run_ops ops s') !! l = heap s !! l) ∧
      json_dumps (heap (run_ops ops s')) (VRef src) = Some (JObj kvs) ∧
      heap (run_ops ops s') !! cl = Some (OList (VRef <$> (locs ++ [c]))).
Proof.
  intros Hdoc Hcur Hidx Hsrc Hdump Hh Hfree Hne.
  destruct (duplicate_clone_spec s r cl locs idx src kvs name)
    as (s' & c & Hrun & Hinv & Hc & Hjson & _); try done.
  exists s', c. pose proof Hinv as (_ & _ & _ & Hcl & _ & Hi).
  split_and!; try done. intros ops.
  pose proof Hdoc as (Hdata & _). rewrite Hdata in Hdoc.
  destruct (inv_run_ops _ _ _ _ _ ops s' Hdoc Hc Hinv) as (Hf & _ & Hlen & Hcl' & _).
  split_and!; [exact Hf| |exact Hcl'].
  destruct Hdoc as (_ & _ & Hcl0 & _).
  eapply element_dumps_frame; [exact Hcl0| |exact Hf|exact Hlen|exact Hdump].
  apply list_elem_of_fmap_2. by eapply list_elem_of_lookup_2.
Qed.

End S.
End Clone18.

Module Clone20.
Import DictFacts ExecFacts Steps FrameSpec Frame JsonSpec JsonFacts MarketLookup.
Import V20 Spec20 Loot20 Handlers20.
Section S.
Context `{Builtins} `{Host}.

Ltac norm :=
  cbn [get_heap put_heap app_store heap files cfg_types_folders airdrop_path airdrop_data
       market_path market_data market_dirty cat container_names container_index
       current_container_key selected_loot_index var_container settings editor mvars notices
       set_heap set_files set_cfg_types_folders set_market_dirty set_cat set_index
       set_current_container_key set_selected_loot_index set_var_container set_settings
       set_editor set_notices].

Section Invariant.
Variable I : app → Prop.
Hypothesis Hext : extend_stable I.
Hypothesis Hdict : dict_write_stable I.
Hypothesis Hui : ui_stable I.

Ltac ui := apply preserves_modify; intros ? ?; by apply Hui.

Ltac frame :=
  repeat first [ assumption | ui | frame_step ].

Lemma preserves_clear_loot_tree : preserves I _clear_loot_tree.
Proof using Hext Hdict Hui. unfold _clear_loot_tree, _clear_loot_editor. frame. Qed.

Lemma preserves_loot_list c : preserves I (_get_container_loot_list c).
Proof using Hext Hdict Hui. unfold _get_container_loot_list. frame. Qed.

Lemma preserves_load_loot_tree c : preserves I (_load_loot_tree c).
Proof using Hext Hdict Hui.
  pose proof preserves_clear_loot_tree. pose proof (preserves_loot_list c).
  unfold _load_loot_tree. frame.
Qed.

Lemma preserves_on_container_change sel : preserves I (on_container_change sel).
Proof using Hext Hdict Hui.
  pose proof preserves_clear_loot_tree.
  unfold on_container_change. frame; apply preserves_load_loot_tree.
Qed.

Lemma preserves_refresh_dropdown : preserves I _refresh_container_dropdown.
Proof using Hext Hdict Hui.
  pose proof preserves_clear_loot_tree.
  unfold _refresh_container_dropdown. frame; apply preserves_on_container_change.
Qed.

Lemma preserves_index_containers : preserves I _index_containers.
Proof using Hext Hdict Hui. unfold _index_containers. frame. Qed.

End Invariant.

(** C3.  v2.0 does not behave so.  [clone_airdrop] compares the name
    the dialog returns with nothing: for every non-empty name, one that
    a container already carries included, the copy of the selected
    container is appended to the containers list.  v1.8 refuses a name
    that is taken ([duplicate_name_conflict], [add_clone_name_conflict]). *)
Theorem clone_appends (s : app) c d key info ll xs kvs name :
  current_container_key s = Some key → key ≠ "" →
  dict_get (container_index s) key = Some info → ci_ref info = VRef c →
  heap s !! c = Some (ODict d) → d ≠ [] →
  ci_list_ref info = VRef ll → heap s !! ll = Some (OList xs) →
  json_dumps (heap s) (VRef c) = Some (JObj kvs) →
  name ≠ "" →
  let s' := final (clone_airdrop (Some name) s) in
  ∃ c', (length (heap s) ≤ c')%nat ∧
        heap s' !! ll = Some (OList (xs ++ [VRef c'])).
Proof.
  intros Hk Hkne Hi Hr Hc Hd Hlr Hll Hdump Hne.
  assert (selected s c d) as Hsel by (by exists key, info).
  pose proof (lookup_lt_Some _ _ _ Hc). pose proof (lookup_lt_Some _ _ _ Hll).
  pose proof (loads_members_extends kvs (heap s)) as [e He].
  pose proof (py_deep_copy_dict s (VRef c) kvs Hdump) as Hdc.
  cbn [get_heap put_heap app_store] in Hdc.
  destruct (loads_members kvs (heap s)) as [hm cd0] eqn:Elm. simpl in *. subst hm.
  cbv zeta. unfold clone_airdrop.
  erewrite bind_step by (by eapply current_container_selected).
  unfold py_truthy at 1. rewrite bind_gets. norm.
  rewrite (selected_truthy _ _ _ Hsel). cbn [negb].
  rewrite bool_decide_false by done.
  rewrite !bind_gets, Hk. cbn [mbind option_bind]. rewrite Hi. unfold lift at 1.
  rewrite bind_ret, Hlr.
  erewrite bind_step by exact Hdc.
  erewrite bind_step by (eapply py_setitem_ok; norm; apply list_lookup_middle; done).
  norm. rewrite insert_app_r_alt, Nat.sub_diag by lia. cbn [insert list_insert].
  erewrite bind_step
    by (eapply py_append_ok; norm; rewrite <- app_assoc; by apply lookup_app_l_Some).
  norm.
  set (s1 := set_heap _ _).
  set (P := λ x : app, heap x !! ll = Some (OList (xs ++ [VRef (length (heap s ++ e))]))).
  assert (P s1) as Hs1.
  { unfold P, s1. norm. apply list_lookup_insert_eq. rewrite !length_app. simpl. lia. }
  assert (extend_stable P) as Hext.
  { intros x o Hx. unfold P. cbn. by apply lookup_app_l_Some. }
  assert (dict_write_stable P) as Hdw.
  { intros x l d0 d1 Hx Hl. unfold P. cbn.
    rewrite list_lookup_insert_ne by (intros ->; cbn in Hl; congruence). done. }
  assert (ui_stable P) as Hui by (intros x Hx; by split_and!).
  exists (length (heap s ++ e)). rewrite length_app. split; [lia|].
  rewrite <- length_app.
  change (P (final ((_index_containers ;; _refresh_container_dropdown) s1))).
  apply (preserves_bind P); [by apply preserves_index_containers| |done].
  intros _. by apply preserves_refresh_dropdown.
Qed.

Lemma try_ok {A} (m h : M app A) s a s' : m s = Ret a s' → try_except m h s = Ret a s'.
Proof. intros Hm. unfold try_except. by rewrite Hm. Qed.

(** v2.0.  There is no staged patch: the form is read when the
    settings are committed.  Text that is an integer is written. *)
Lemma commit_writes (s : app) c d n m :
  selected s c d →
  str_strip (var_item_count (settings s)) ≠ "" →
  int_of_str (str_strip (var_item_count (settings s))) = Some n →
  str_strip (var_infected_count (settings s)) ≠ "" →
  int_of_str (str_strip (var_infected_count (settings s))) = Some m →
  ∃ s' d', _commit_container_settings_to_data s = Ret tt s' ∧
           heap s' !! c = Some (ODict d') ∧
           dict_get d' "ItemCount" = Some (VInt n) ∧
           dict_get d' "InfectedCount" = Some (VInt m).
Proof.
  intros Hsel Hic Hn Hinf Hm.
  pose proof Hsel as (key & info & Hk & Hkne & Hi & Hr & Hc & Hd).
  pose proof (lookup_lt_Some _ _ _ Hc).
  unfold _commit_container_settings_to_data.
  erewrite bind_step by (by eapply current_container_selected).
  unfold py_truthy at 1. rewrite bind_gets. norm.
  rewrite (selected_truthy _ _ _ Hsel). cbn [negb]. rewrite bind_gets.
  rewrite !bool_decide_false by done.
  erewrite bind_step by (apply try_ok; by eapply py_setitem_ok).
  erewrite bind_step by (apply try_ok; eapply py_setitem_ok; norm; lookup_tac).
  erewrite try_ok by (eapply py_setitem_ok; norm; lookup_tac).
  eexists _, _. split; [reflexivity|]. norm. split; [lookup_tac|].
  unfold safe_int. rewrite Hn, Hm. cbn [default from_option id]. split.
  - rewrite 2!dict_get_set_ne by done. by rewrite dict_get_set_eq.
  - by rewrite dict_get_set_eq.
Qed.

(** A blank field takes the key off the container; no zero is written. *)
Lemma commit_blank_removes (s : app) c d :
  selected s c d → Spec18.valid_dict d →
  str_strip (var_item_count (settings s)) = "" →
  str_strip (var_infected_count (settings s)) = "" →
  ∃ s' d', _commit_container_settings_to_data s = Ret tt s' ∧
           heap s' !! c = Some (ODict d') ∧
           dict_get d' "ItemCount" = None ∧
           dict_get d' "InfectedCount" = None.
Proof.
  intros Hsel Hv Hic Hinf.
  pose proof Hsel as (key & info & Hk & Hkne & Hi & Hr & Hc & Hd).
  pose proof (lookup_lt_Some _ _ _ Hc).
  assert (∀ (dx : list (string * value)) k, dict_mem dx k = false → dict_pop dx k = dx)
    as Hnop.
  { intros dx k Hmem. apply bool_decide_eq_false in Hmem.
    induction dx as [|[k' v'] rest IH]; [done|]. simpl in *.
    destruct (decide (k' = k)); [by destruct Hmem|]. by rewrite IH. }
  assert (∀ (x : app) (dx : list (string * value)) k,
            heap x !! c = Some (ODict dx) →
            (let! has := py_has (VRef c) k in
             if has then py_popkey (VRef c) k else ret tt) x
            = Ret tt (set_heap (<[c := ODict (dict_pop dx k)]> (heap x)) x)) as Hpop.
  { intros x dx k Hx. erewrite bind_step by (by eapply py_has_ok).
    destruct (dict_mem dx k) eqn:Hmem.
    - exact (py_popkey_ok x c dx k Hx).
    - unfold ret. rewrite Hnop by done. rewrite list_insert_id by done. by destruct x. }
  assert (∀ (x : app) (dx : list (string * value)) k (K : M app unit),
            heap x !! c = Some (ODict dx) →
            (let! has := py_has (VRef c) k in
             (if has then py_popkey (VRef c) k else ret tt) ;; K) x
            = K (set_heap (<[c := ODict (dict_pop dx k)]> (heap x)) x)) as Hpopk.
  { intros x dx k K Hx. erewrite bind_step by (by eapply py_has_ok).
    destruct (dict_mem dx k) eqn:Hmem.
    - by erewrite bind_step by (exact (py_popkey_ok x c dx k Hx)).
    - rewrite bind_ret. rewrite Hnop by done. rewrite list_insert_id by done.
      by destruct x. }
  unfold _commit_container_settings_to_data.
  erewrite bind_step by (by eapply current_container_selected).
  unfold py_truthy at 1. rewrite bind_gets. norm.
  rewrite (selected_truthy _ _ _ Hsel). cbn [negb]. rewrite bind_gets.
  rewrite Hic, Hinf. rewrite !bool_decide_true by done.
  erewrite bind_step.
  2: { apply try_ok. erewrite Hpopk by done. eapply Hpop. norm. lookup_tac. }
  norm.
  erewrite bind_step by (apply try_ok; eapply py_setitem_ok; norm; lookup_tac).
  norm.
  erewrite try_ok.
  2: { erewrite Hpopk by (norm; lookup_tac). eapply Hpop. norm. lookup_tac. }
  eexists _, _. split; [reflexivity|]. norm. split; [lookup_tac|].
  unfold Spec18.valid_dict in Hv.
  assert (NoDup (dict_pop (dict_pop d "ItemCount") "m_ItemCount").*1) as Hv1
    by (by do 2 apply dict_pop_NoDup).
  split.
  - rewrite !dict_get_pop_ne, dict_get_set_ne, dict_get_pop_ne by done.
    by apply dict_get_pop_eq.
  - rewrite dict_get_pop_ne by done. apply dict_get_pop_eq. by apply dict_set_NoDup.
Qed.

End S.
End Clone20.

Module MarketClaims.
Import DictFacts ExecFacts Steps FrameSpec Frame JsonSpec JsonFacts MarketLookup.
Import V20 Spec20 Loot20 Handlers20 MarketEdit.
Section S.
Context `{Builtins} `{Host}.

(** C8.  Adding a classname that a row of [Items] already carries is
    refused: the handler reports "Already Exists" and returns the state
    it was given, so the [Items] list, its rows and the dirty flag are
    what they were. *)
Theorem market_duplicate_rejected (s : app) il items k row rd n :
  market_doc (heap s) (market_data s) il items →
  items !! k = Some (VRef row) → heap s !! row = Some (ODict rd) →
  dict_get rd "ClassName" = Some (VStr n) →
  market_add_selected_from_types (Some n) s
  = Ret tt (set_notices (notices s ++ [Notice Info "Already Exists"]) s).
Proof.
  intros Hdoc Hk Hrow Hn. eapply add_existing_rejected; [done|].
  eapply find_index_is_Some; [done|exact Hk|].
  eapply row_matches_string; [|exact Hn|done]. simpl. by rewrite Hrow.
Qed.


End S.
End MarketClaims.

Module LootClaims.
Import DictFacts ExecFacts Steps FrameSpec Frame JsonSpec JsonFacts MarketLookup.
Section S.
Context `{Builtins} `{Host}.

(** v1.8 adds the entry the specification gives: [add_item_to_loot] appends
    [default_loot_entry], with Chance 0.10, Min 0, Max -1,
    QuantityPercent -1 and, for Attachments and Variants, two empty
    lists that are new objects, distinct from each other and from the
    entry. *)
Lemma v18_new_entry_is_default (s : V18.app) r cl locs idx l d ll loot classname :
  Spec18.doc (V18.heap s) (V18.airdrop_data s) r cl locs →
  Spec18.current_loot s locs idx l d ll loot → ll ≠ cl →
  ∃ s' e a v,
    V18.add_item_to_loot classname s = Ret tt s' ∧
    V18.heap s' !! ll = Some (OList (loot ++ [VRef e])) ∧
    V18.heap s' !! e = Some (ODict (Spec18.default_entry classname a v)) ∧
    V18.heap s' !! a = Some (OList []) ∧ V18.heap s' !! v = Some (OList []) ∧
    (length (V18.heap s) ≤ a)%nat ∧ (length (V18.heap s) ≤ v)%nat ∧
    (length (V18.heap s) ≤ e)%nat ∧ a ≠ v ∧ a ≠ e ∧ v ≠ e.
Proof.
  intros Hdoc Hcur Hne.
  destruct (Loot18.add_item_spec s r cl locs idx l d ll loot classname Hdoc Hcur Hne)
    as (s' & Hrun & Hll & He & Ha & Hv).
  exists s', (length (V18.heap s) + 3)%nat, (length (V18.heap s) + 1)%nat,
         (length (V18.heap s) + 2)%nat.
  split_and!; try done; lia.
Qed.

(** C4.  In v2.0 the entry created for a classname added from the
    catalog is not the default entry: [add_selected_item_to_loot]
    appends a row whose Chance is 1.0, not 0.10, whose Max is 1, not -1,
    whose QuantityPercent is the integer 0, not -1, and which has
    neither Attachments nor Variants.  (Min is 0, as stated.) *)
Theorem v20_new_row_departs (s : V20.app) c d ll loot classname :
  Spec20.selected s c d → dict_get d "Loot" = Some (VRef ll) →
  V20.heap s !! ll = Some (OList loot) → classname ≠ "" →
  ∃ s' e row,
    V20.add_selected_item_to_loot (Some classname) s = Ret tt s' ∧
    V20.heap s' !! ll = Some (OList (loot ++ [VRef e])) ∧
    V20.heap s' !! e = Some (ODict row) ∧
    dict_get row "Name" = Some (VStr classname) ∧
    dict_get row "Chance" = Some (VFloat 1%float) ∧
    dict_get row "Min" = Some (VInt 0) ∧
    dict_get row "Max" = Some (VInt 1) ∧
    dict_get row "QuantityPercent" = Some (VInt 0) ∧
    dict_get row "Attachments" = None ∧ dict_get row "Variants" = None ∧
    ∀ a v, row ≠ Spec18.default_entry classname a v.
Proof.
  intros Hsel Hl Hll Hne.
  destruct (Loot20.add_selected_item_spec s c d ll loot classname Hsel Hl Hll Hne)
    as (s' & Hrun & Hll' & He).
  exists s', (length (V20.heap s)), (Spec20.new_row classname).
  split_and!; try done.
Qed.

(** The field [k] of an edited entry of v1.8 when its text is no
    number: what the entry held, or the literal default of the call. *)
Lemma v18_edited_field ed name vars :
  (float_of_str (var_chance vars) = None →
   dict_get (Spec18.edited ed name vars) "Chance"
   = Some (dict_get_or ed "Chance" (VFloat float_0_1))) ∧
  ((float_of_str (var_min vars) ≫= int_of_float) = None →
   dict_get (Spec18.edited ed name vars) "Min" = Some (dict_get_or ed "Min" (VInt 0))) ∧
  ((float_of_str (var_max vars) ≫= int_of_float) = None →
   dict_get (Spec18.edited ed name vars) "Max" = Some (dict_get_or ed "Max" (VInt (-1)))) ∧
  (float_of_str (var_qty vars) = None →
   dict_get (Spec18.edited ed name vars) "QuantityPercent"
   = Some (dict_get_or ed "QuantityPercent" (VFloat (-1)%float))).
Proof.
  unfold Spec18.edited. cbv zeta. split_and!; intros Hf;
    rewrite ?(Loot18.safe_int_fails _ _ Hf); unfold V18.safe_float; rewrite ?Hf;
    rewrite ?dict_get_set_ne by done; rewrite dict_get_set_eq;
    by rewrite ?Loot18.dict_get_or_set_ne by done.
Qed.

(** v1.8 falls back to the previous value: [apply_editor_to_selected] on an entry
    whose Attachments and Variants are lists or absent, with a name that
    is accepted, returns, and each numeric field whose text is no
    number is written with the value the entry held for it (the
    literal default 0.1 / 0 / -1 / -1.0 of the call if the entry had no
    such field). *)
Lemma v18_edit_keeps_previous (s : V18.app) r cl locs idx l d ll loot i e ed confirm :
  Spec18.doc (V18.heap s) (V18.airdrop_data s) r cl locs →
  Spec18.current_loot s locs idx l d ll loot →
  V18.selected_loot_index s = Some i → (0 ≤ i)%Z →
  loot !! Z.to_nat i = Some (VRef e) → V18.heap s !! e = Some (ODict ed) →
  Spec18.list_or_absent (V18.heap s) ed "Attachments" →
  Spec18.list_or_absent (V18.heap s) ed "Variants" →
  str_strip (var_name (V18.editor s)) ≠ "" →
  V18.item_meta (V18.cat s) = [] ∨
    dict_mem (V18.item_meta (V18.cat s)) (str_strip (var_name (V18.editor s))) = true ∨
    confirm = true →
  ∃ s' ed',
    V18.apply_editor_to_selected confirm s = Ret tt s' ∧
    V18.heap s' !! e = Some (ODict ed') ∧
    (float_of_str (var_chance (V18.editor s)) = None →
     dict_get ed' "Chance" = Some (dict_get_or ed "Chance" (VFloat float_0_1))) ∧
    ((float_of_str (var_min (V18.editor s)) ≫= int_of_float) = None →
     dict_get ed' "Min" = Some (dict_get_or ed "Min" (VInt 0))) ∧
    ((float_of_str (var_max (V18.editor s)) ≫= int_of_float) = None →
     dict_get ed' "Max" = Some (dict_get_or ed "Max" (VInt (-1)))) ∧
    (float_of_str (var_qty (V18.editor s)) = None →
     dict_get ed' "QuantityPercent"
     = Some (dict_get_or ed "QuantityPercent" (VFloat (-1)%float))).
Proof.
  intros Hdoc Hcur Hsel Hi He Hed Ha Hv Hn Hm.
  destruct (Loot18.apply_editor_spec s r cl locs idx l d ll loot i e ed confirm)
    as (s' & Hrun & He' & _); try done.
  exists s', (Spec18.edited ed (str_strip (var_name (V18.editor s))) (V18.editor s)).
  split; [done|]. split; [done|]. apply v18_edited_field.
Qed.

(** C5.  In v2.0 a numeric field whose text fails coercion does not
    keep its previous value: [apply_loot_edit] returns, having written
    the constants 0, 1 and 0 into Min, Max and QuantityPercent when
    their text is no integer, and the text itself, a string, into Chance
    when it is no float, whatever the row held before. *)
Theorem v20_edit_writes_constants (s : V20.app) c d ll loot i e ed :
  Spec20.selected s c d → dict_get d "Loot" = Some (VRef ll) →
  V20.heap s !! ll = Some (OList loot) →
  V20.selected_loot_index s = Some i → (0 ≤ i)%Z →
  loot !! Z.to_nat i = Some (VRef e) → V20.heap s !! e = Some (ODict ed) → e ≠ c →
  ∃ s' ed',
    V20.apply_loot_edit s = Ret tt s' ∧
    V20.heap s' !! e = Some (ODict ed') ∧
    (float_of_str (var_chance (V20.editor s)) = None →
     dict_get ed' "Chance" = Some (VStr (var_chance (V20.editor s)))) ∧
    (int_of_str (var_min (V20.editor s)) = None → dict_get ed' "Min" = Some (VInt 0)) ∧
    (int_of_str (var_max (V20.editor s)) = None → dict_get ed' "Max" = Some (VInt 1)) ∧
    (int_of_str (var_qty (V20.editor s)) = None →
     dict_get ed' "QuantityPercent" = Some (VInt 0)).
Proof.
  intros Hsel Hl Hll Hi Hi0 He Hed Hec.
  destruct (Handlers20.apply_loot_edit_spec s c d ll loot i e ed) as (s' & Hrun & He' & _);
    try done.
  exists s', (Spec20.edited ed (V20.editor s)).
  split; [done|]. split; [done|]. apply Handlers20.edited_fallback.
Qed.

End S.
End LootClaims.

(** * The theorems on the documents of the examples *)

Module Checks.
Import Sample Cases.

Ltac by_eval :=
  solve [ vm_compute; reflexivity
        | compute_done
        | vm_compute; lia ].

Ltac doc_eval :=
  unfold Spec18.doc; split_and!;
  [ by_eval | by_eval | by_eval
  | repeat (apply Forall_cons_2; [by_eval|]); apply Forall_nil_2
  | by_eval ].


(** C2 on [staged18]: "Heli_Crash" at position 0 is removed while a
    patch is staged for "Drop_B" at position 1. *)
Lemma remove_container_rekeys_witness :
  let s' := final (V18.remove_container true staged18) in
  V18.heap s' !! 8%nat = Some (OList (VRef <$> delete (Z.to_nat 0) [5; 7]%nat)) ∧
  (∀ i l, [5; 7]%nat !! i = Some l → Z.of_nat i ≠ 0%Z →
     delete (Z.to_nat 0) [5; 7]%nat !! Z.to_nat (Spec18.shifted 0 (Z.of_nat i)) = Some l ∧
     dict_get (V18.pending_container_settings s') (Spec18.shifted 0 (Z.of_nat i))
     = dict_get (V18.pending_container_settings staged18) (Z.of_nat i)) ∧
  (∀ j p, dict_get (V18.pending_container_settings s') j = Some p →
     Spec18.unshifted 0 j ≠ 0%Z ∧
     dict_get (V18.pending_container_settings staged18) (Spec18.unshifted 0 j) = Some p).
Proof.
  apply (Removal.remove_container_rekeys staged18 9 8 [5; 7]%nat 0).
  - doc_eval.
  - split; [by_eval|]. repeat (apply Forall_cons_2; [by_eval|]). apply Forall_nil_2.
  - by_eval.
  - by_eval.
  - by_eval.
Defined.

(** The patch of "Drop_B" is under key 1 before the removal and under
    key 0 after it; "Drop_B" is the same object, at 7, throughout. *)
Lemma pending_key_is_a_position :
  let s' := final (V18.remove_container true staged18) in
  V18.heap staged18 !! 8%nat = Some (OList [VRef 5; VRef 7]) ∧
  Spec18.staged staged18 1
    = [("ItemCount", VInt 7); ("InfectedCount", VInt 3); ("Infected", VBool true)] ∧
  V18.heap s' !! 8%nat = Some (OList [VRef 7]) ∧
  Spec18.staged s' 0
    = [("ItemCount", VInt 7); ("InfectedCount", VInt 3); ("Infected", VBool true)] ∧
  Spec18.staged s' 1 = [].
Proof. vm_compute. repeat split. Qed.

(** C7 on the loaded document: "Heli_Crash" duplicated as "Drop_A"
    with the loot cleared. *)
Lemma clone_without_loot_witness :
  ∃ s' c,
    V18.duplicate_container (Some "Drop_A") true loaded18 = Ret tt s' ∧
    (length (V18.heap loaded18) ≤ c)%nat ∧
    V18.heap s' !! 8%nat = Some (OList (VRef <$> ([5; 7]%nat ++ [c]))) ∧
    V18.current_container_index s' = Some (Z.of_nat (length [5; 7]%nat)) ∧
    json_dumps (V18.heap s') (VRef c)
      = Some (JsonSpec.clone_json
                [("Container", JStr "Heli_Crash"); ("ItemCount", JInt 10);
                 ("Loot", JArr [
                    JObj [("Name", JStr "AKM"); ("Chance", JFloat 0.5%float);
                          ("Min", JInt 5); ("Max", JInt (-1));
                          ("QuantityPercent", JFloat (-1)%float);
                          ("Attachments", JArr []); ("Variants", JArr [])];
                    JObj [("Name", JStr "Mag_AKM_30Rnd");
                          ("Chance", JFloat 0.25%float)]])] "Drop_A") ∧
    ∀ ops,
      (∀ l, (l < length (V18.heap loaded18))%nat → l ≠ 8%nat →
            V18.heap (Spec18.run_ops ops s') !! l = V18.heap loaded18 !! l) ∧
      json_dumps (V18.heap (Spec18.run_ops ops s')) (VRef 5)
        = Some (JObj
                [("Container", JStr "Heli_Crash"); ("ItemCount", JInt 10);
                 ("Loot", JArr [
                    JObj [("Name", JStr "AKM"); ("Chance", JFloat 0.5%float);
                          ("Min", JInt 5); ("Max", JInt (-1));
                          ("QuantityPercent", JFloat (-1)%float);
                          ("Attachments", JArr []); ("Variants", JArr [])];
                    JObj [("Name", JStr "Mag_AKM_30Rnd");
                          ("Chance", JFloat 0.25%float)]])]) ∧
      V18.heap (Spec18.run_ops ops s') !! 8%nat = Some (OList (VRef <$> ([5; 7]%nat ++ [c]))).
Proof.
  apply (Clone18.clone_without_loot_is_independent loaded18 9 8 [5; 7]%nat 0 5).
  - doc_eval.
  - by_eval.
  - by_eval.
  - by_eval.
  - by_eval.
  - repeat (apply Forall_cons_2; [by_eval|]). apply Forall_nil_2.
  - repeat (apply Forall_cons_2; [by_eval|]). apply Forall_nil_2.
  - by_eval.
Defined.

(** What is then done to the clone shows on the clone and not on the
    source: two items added to "Drop_A", one of them edited. *)
Lemma clone_loot_is_its_own :
  let s' := final (V18.duplicate_container (Some "Drop_A") true loaded18) in
  let s'' := Spec18.run_ops [Spec18.AddItem "M4A1"; Spec18.AddItem "Rag";
                          Spec18.TypeEditor typed; Spec18.ApplyEditor true] s' in
  (json_dumps (V18.heap s'') (VRef 5) ≫= λ j,
     match j with JObj kvs => dict_get kvs "Loot" | _ => None end)
  = (json_dumps (V18.heap loaded18) (VRef 5) ≫= λ j,
     match j with JObj kvs => dict_get kvs "Loot" | _ => None end) ∧
  (json_dumps (V18.heap s'') (VRef 16) ≫= λ j,
     match j with JObj kvs => dict_get kvs "Loot" | _ => None end)
  = Some (JArr [
      JObj [("Name", JStr "M4A1"); ("Chance", JFloat float_0_1);
            ("Attachments", JArr []); ("QuantityPercent", JFloat (-1)%float);
            ("Max", JInt (-1)); ("Min", JInt 0); ("Variants", JArr [])];
      JObj [("Name", JStr "AKM"); ("Chance", JFloat float_0_1);
            ("Attachments", JArr []); ("QuantityPercent", JFloat (-1)%float);
            ("Max", JInt (-1)); ("Min", JInt 0); ("Variants", JArr [])]]).
Proof. vm_compute. split; reflexivity. Qed.

(** v1.8 on the loaded document: "M4A1" is added as the default entry. *)
Lemma v18_new_entry_example :
  ∃ s' e a v,
    V18.add_item_to_loot "M4A1" loaded18 = Ret tt s' ∧
    V18.heap s' !! 4%nat = Some (OList ([VRef 2; VRef 3] ++ [VRef e])) ∧
    V18.heap s' !! e = Some (ODict (Spec18.default_entry "M4A1" a v)) ∧
    V18.heap s' !! a = Some (OList []) ∧ V18.heap s' !! v = Some (OList []) ∧
    (length (V18.heap loaded18) ≤ a)%nat ∧ (length (V18.heap loaded18) ≤ v)%nat ∧
    (length (V18.heap loaded18) ≤ e)%nat ∧ a ≠ v ∧ a ≠ e ∧ v ≠ e.
Proof.
  eapply (LootClaims.v18_new_entry_is_default loaded18 9 8 [5; 7]%nat 0%Z 5 _ 4 _ "M4A1").
  - doc_eval.
  - unfold Spec18.current_loot. split_and!; by_eval.
  - by_eval.
Qed.

(** C4 on the loaded document of v2.0: "M4A1" added to "Heli_Crash". *)
Lemma v20_new_row_departs_witness :
  ∃ s' e row,
    V20.add_selected_item_to_loot (Some "M4A1") heli_selected20 = Ret tt s' ∧
    V20.heap s' !! 1%nat = Some (OList ([VRef 0] ++ [VRef e])) ∧
    V20.heap s' !! e = Some (ODict row) ∧
    dict_get row "Name" = Some (VStr "M4A1") ∧
    dict_get row "Chance" = Some (VFloat 1%float) ∧
    dict_get row "Min" = Some (VInt 0) ∧
    dict_get row "Max" = Some (VInt 1) ∧
    dict_get row "QuantityPercent" = Some (VInt 0) ∧
    dict_get row "Attachments" = None ∧ dict_get row "Variants" = None ∧
    ∀ a v, row ≠ Spec18.default_entry "M4A1" a v.
Proof.
  eapply (LootClaims.v20_new_row_departs heli_selected20 2 _ 1 _ "M4A1").
  - exists "Heli_Crash  (Military)",
      {| V20.ci_ref := VRef 2; V20.ci_idx := 0; V20.ci_list_ref := VRef 5 |}.
    split_and!; by_eval.
  - by_eval.
  - by_eval.
  - by_eval.
Defined.

(** The row v2.0 adds: Chance 1.0, Max 1, QuantityPercent 0, and no
    Attachments or Variants. *)
Lemma v20_new_row_is_not_the_default :
  let s' := final (V20.add_selected_item_to_loot (Some "M4A1") heli_selected20) in
  V20.heap s' !! 1%nat = Some (OList [VRef 0; VRef 7]) ∧
  V20.heap s' !! 7%nat
  = Some (ODict [("Name", VStr "M4A1"); ("Chance", VFloat 1%float); ("Min", VInt 0);
                 ("Max", VInt 1); ("QuantityPercent", VInt 0)]).
Proof. vm_compute. split; reflexivity. Qed.

(** v1.8 on the first loot row, the editor holding [typed]: the
    fields are written with what the row held. *)
Lemma v18_edit_keeps_previous_example :
  ∃ s' ed',
    V18.apply_editor_to_selected true edit18 = Ret tt s' ∧
    V18.heap s' !! 2%nat = Some (ODict ed') ∧
    dict_get ed' "Chance" = Some (VFloat 0.5%float) ∧
    dict_get ed' "Min" = Some (VInt 5) ∧
    dict_get ed' "Max" = Some (VInt (-1)) ∧
    dict_get ed' "QuantityPercent" = Some (VFloat (-1)%float).
Proof.
  destruct (LootClaims.v18_edit_keeps_previous edit18 9 8 [5; 7]%nat 0%Z 5
              [("Container", VStr "Heli_Crash"); ("ItemCount", VInt 10); ("Loot", VRef 4)]
              4 [VRef 2; VRef 3] 0%Z 2
              [("Name", VStr "AKM"); ("Chance", VFloat 0.5%float); ("Min", VInt 5);
               ("Max", VInt (-1)); ("QuantityPercent", VFloat (-1)%float);
               ("Attachments", VRef 0); ("Variants", VRef 1)] true)
    as (s' & ed' & Hrun & Hed & Hc & Hmin & Hmax & Hq).
  - doc_eval.
  - unfold Spec18.current_loot. split_and!; by_eval.
  - by_eval.
  - by_eval.
  - by_eval.
  - by_eval.
  - unfold Spec18.list_or_absent. vm_compute. by exists [].
  - unfold Spec18.list_or_absent. vm_compute. by exists [].
  - by_eval.
  - left. by_eval.
  - exists s', ed'. split; [exact Hrun|]. split; [exact Hed|].
    split; [exact (Hc eq_refl)|]. split; [exact (Hmin eq_refl)|].
    split; [exact (Hmax eq_refl)|exact (Hq eq_refl)].
Qed.

(** C5 on the first loot row of v2.0, the editor holding [typed]. *)
Lemma v20_edit_writes_constants_witness :
  ∃ s' ed',
    V20.apply_loot_edit edit20 = Ret tt s' ∧
    V20.heap s' !! 0%nat = Some (ODict ed') ∧
    dict_get ed' "Chance" = Some (VStr "lots") ∧
    dict_get ed' "Min" = Some (VInt 0) ∧
    dict_get ed' "Max" = Some (VInt 1) ∧
    dict_get ed' "QuantityPercent" = Some (VInt 0).
Proof.
  destruct (LootClaims.v20_edit_writes_constants edit20 2
              [("Name", VStr "Heli_Crash"); ("Container", VStr "Military");
               ("ItemCount", VInt 10); ("Loot", VRef 1)]
              1 [VRef 0] 0%Z 0
              [("Name", VStr "AKM"); ("Chance", VFloat 0.5%float); ("Min", VInt 5);
               ("Max", VInt (-1)); ("QuantityPercent", VFloat (-1)%float)])
    as (s' & ed' & Hrun & Hed & Hc & Hmin & Hmax & Hq).
  - exists "Heli_Crash  (Military)",
      {| V20.ci_ref := VRef 2; V20.ci_idx := 0; V20.ci_list_ref := VRef 5 |}.
    split_and!; by_eval.
  - by_eval.
  - by_eval.
  - by_eval.
  - by_eval.
  - by_eval.
  - by_eval.
  - by_eval.
  - exists s', ed'. split; [exact Hrun|]. split; [exact Hed|].
    split; [exact (Hc eq_refl)|]. split; [exact (Hmin eq_refl)|].
    split; [exact (Hmax eq_refl)|exact (Hq eq_refl)].
Defined.

(** In v2.0 the row held Min 5 and Chance 0.5; after the edit with text
    that is no number it holds Min 0 and the text as Chance. *)
Lemma v20_edit_falls_back_to_constants :
  let s' := final (V20.apply_loot_edit edit20) in
  V20.heap edit20 !! 0%nat
  = Some (ODict [("Name", VStr "AKM"); ("Chance", VFloat 0.5%float); ("Min", VInt 5);
                 ("Max", VInt (-1)); ("QuantityPercent", VFloat (-1)%float)]) ∧
  V20.heap s' !! 0%nat
  = Some (ODict [("Name", VStr "AKM"); ("Chance", VStr "lots"); ("Min", VInt 0);
                 ("Max", VInt 1); ("QuantityPercent", VInt 0)]).
Proof. vm_compute. split; reflexivity. Qed.

Ltac market_eval :=
  unfold Spec20.market_doc;
  exists [("m_Version", VInt 3); ("DisplayName", VStr "Ammo"); ("Items", VRef 10)];
  split_and!; by_eval.

(** C8 on the market document: "AKM" is the second row. *)
Lemma market_duplicate_rejected_witness :
  V20.market_add_selected_from_types (Some "AKM") market20
  = Ret tt (V20.set_notices (V20.notices market20 ++ [Notice Info "Already Exists"])
              market20).
Proof.
  apply (MarketClaims.market_duplicate_rejected market20 10 [VRef 7; VRef 8; VRef 9] 1 8
           [("ClassName", VStr "AKM"); ("MaxPriceThreshold", VInt 900)] "AKM").
  - market_eval.
  - by_eval.
  - by_eval.
  - by_eval.
Defined.


(** What the three handlers do with "Akm" on that document. *)
Lemma market_first_match_is_second_row :
  V20.find_index_by_class (V20.heap market_edit20) (V20.market_data market_edit20) "Akm"
    = Some 1%nat ∧
  V20.heap (final (V20.market_remove_selected (Some "Akm") market_edit20)) !! 10%nat
    = Some (OList [VRef 7; VRef 9]) ∧
  V20.heap (final (V20.market_apply_edit market_edit20)) !! 8%nat
    = Some (ODict [("ClassName", VStr "Akm"); ("MaxPriceThreshold", VInt 10);
                   ("MinPriceThreshold", VInt 7); ("MinStockThreshold", VInt 0);
                   ("MaxStockThreshold", VInt 100); ("SellPricePercent", VInt (-1));
                   ("QuantityPercent", VInt (-1)); ("SpawnAttachments", VRef 12);
                   ("Variants", VRef 13)]) ∧
  V20.heap (final (V20.market_apply_edit market_edit20)) !! 9%nat
    = V20.heap market_edit20 !! 9%nat.
Proof. vm_compute. repeat split. Qed.

(** C1 on the v2.0 document: the backup name for this clock reading
    cannot be created. *)
Lemma save_without_backup_witness :
  ∃ d3,
    V20.save_airdrop "20260101_120000" loaded20
    = Ret tt (V20.set_notices (V20.notices loaded20 ++ [Notice Info "Saved"])
                (V20.set_files d3
                   (final (V20._commit_container_settings_to_data loaded20)))) ∧
    dict_get (t_files disk0) "missions/Airdrops20.json.bak_20260101_120000" = None ∧
    dict_get (t_files d3) "missions/Airdrops20.json.bak_20260101_120000" = None ∧
    f_text <$> dict_get (t_files disk0) settings20_path = Some "(as last saved)" ∧
    f_text <$> dict_get (t_files d3) settings20_path
    = Some (text_of_json
              (JObj [("Containers", JArr [
                 JObj [("Name", JStr "Heli_Crash"); ("Container", JStr "Military");
                       ("ItemCount", JInt 10);
                       ("Loot", JArr [
                          JObj [("Name", JStr "AKM"); ("Chance", JFloat 0.5%float);
                                ("Min", JInt 5); ("Max", JInt (-1));
                                ("QuantityPercent", JFloat (-1)%float)]])];
                 JObj [("Name", JStr "Drop_B"); ("Container", JStr "Military");
                       ("Loot", JArr []); ("Infected", JBool true)]])])).
Proof.
  eexists. split.
  - eapply (Handlers20.save_without_backup loaded20 "20260101_120000").
    + by_eval.
    + by_eval.
    + vm_compute. reflexivity.
    + vm_compute. reflexivity.
    + vm_compute. reflexivity.
    + vm_compute. reflexivity.
  - vm_compute. repeat split.
Defined.

(** The same failure in v1.8: nothing is written. *)
Lemma v18_save_stops_without_backup :
  let s' := final (V18.save_airdrop "2026-01-01_120000" loaded18) in
  V18.files s' = disk0 ∧
  V18.notices s' = V18.notices loaded18 ++ [Notice Error "Backup Error"].
Proof. vm_compute. split; reflexivity. Qed.

(** C3 on the v2.0 document: "Drop_B" is selected and cloned under the
    name of the other container. *)
Lemma clone_appends_witness :
  let s' := final (V20.clone_airdrop (Some "Heli_Crash") loaded20) in
  ∃ c', (length (V20.heap loaded20) ≤ c')%nat ∧
        V20.heap s' !! 5%nat = Some (OList ([VRef 2; VRef 4] ++ [VRef c'])).
Proof.
  apply (Clone20.clone_appends loaded20 4
           [("Name", VStr "Drop_B"); ("Container", VStr "Military"); ("Loot", VRef 3)]
           "Drop_B  (Military)"
           {| V20.ci_ref := VRef 4; V20.ci_idx := 1; V20.ci_list_ref := VRef 5 |}
           5 [VRef 2; VRef 4]
           [("Name", JStr "Drop_B"); ("Container", JStr "Military"); ("Loot", JArr [])]
           "Heli_Crash").
  - by_eval.
  - by_eval.
  - by_eval.
  - by_eval.
  - by_eval.
  - by_eval.
  - by_eval.
  - by_eval.
  - by_eval.
  - by_eval.
Defined.

(** Two containers named "Heli_Crash" afterwards, and one label for
    both in the index. *)
Lemma v20_clone_duplicates_a_name :
  let s' := final (V20.clone_airdrop (Some "Heli_Crash") loaded20) in
  V20.clone_airdrop (Some "Heli_Crash") loaded20 = Ret tt s' ∧
  V20.notices s' = V20.notices loaded20 ∧
  V20.heap s' !! 5%nat = Some (OList [VRef 2; VRef 4; VRef 8]) ∧
  (V20.heap s' !! 2%nat ≫= λ o, match o with ODict d => dict_get d "Name" | _ => None end)
    = Some (VStr "Heli_Crash") ∧
  (V20.heap s' !! 8%nat ≫= λ o, match o with ODict d => dict_get d "Name" | _ => None end)
    = Some (VStr "Heli_Crash") ∧
  V20.container_names s'
    = ["Drop_B  (Military)"; "Heli_Crash  (Military)"; "Heli_Crash  (Military)"] ∧
  V20.ci_ref <$> dict_get (V20.container_index s') "Heli_Crash  (Military)"
    = Some (VRef 8).
Proof. vm_compute. repeat split. Qed.

(** v2.0 has no "Clear Loot" question: the clone of "Heli_Crash" holds
    a copy of its loot, in objects of its own. *)
Lemma v20_clone_copies_the_loot :
  let s' := final (V20.clone_airdrop (Some "Drop_A") heli_selected20) in
  V20.heap s' !! 5%nat = Some (OList [VRef 2; VRef 4; VRef 9]) ∧
  V20.heap s' !! 9%nat
    = Some (ODict [("Name", VStr "Drop_A"); ("Container", VStr "Military");
                   ("ItemCount", VInt 10); ("Loot", VRef 8)]) ∧
  V20.heap s' !! 8%nat = Some (OList [VRef 7]) ∧
  V20.heap s' !! 7%nat = V20.heap heli_selected20 !! 0%nat ∧
  V20.heap s' !! 2%nat = V20.heap heli_selected20 !! 2%nat.
Proof. vm_compute. repeat split. Qed.

(** The same name in v1.8: refused. *)
Lemma v18_duplicate_name_refused :
  V18.duplicate_container (Some "Drop_B") true loaded18
  = Ret tt (V18.set_notices (V18.notices loaded18 ++ [Notice Warning "Name exists"])
              loaded18).
Proof. vm_compute. reflexivity. Qed.

(** C9 on v1.8: the folder "types" added a second time. *)
Lemma add_types_folder_appends_witness :
  V18.types_folders (V18.cat (final (V18.add_types_folder (Some "types") typed18)))
  = V18.types_folders (V18.cat typed18) ++ ["types"].
Proof. apply (Handlers18.add_types_folder_appends typed18 "types"). by_eval. Defined.

(** The folder is listed twice afterwards; files, items, metadata and
    sources are as after the first time. *)
Lemma v18_folder_listed_twice :
  let c1 := V18.cat typed18 in
  let c2 := V18.cat (final (V18.add_types_folder (Some "types") typed18)) in
  V18.types_folders c1 = ["types"] ∧ V18.types_folders c2 = ["types"; "types"] ∧
  V18.types_files_loaded c2 = V18.types_files_loaded c1 ∧
  V18.all_items c2 = V18.all_items c1 ∧ V18.item_meta c2 = V18.item_meta c1 ∧
  V18.source_to_items c2 = V18.source_to_items c1.
Proof. vm_compute. repeat split. Qed.

(** In v2.0 the second time changes nothing. *)
Lemma v20_folder_known_is_skipped :
  let s1 := final (V20._load_types_folder_silent "types" true blank20) in
  V20.types_folders (V20.cat s1) = ["types"] ∧
  V20._load_types_folder_silent "types" true s1 = Ret tt s1.
Proof. vm_compute. split; reflexivity. Qed.

End Checks.

(** * Lists of names: sets, sorting, filters *)

Module NamesFacts.
Import NamesSpec DictFacts.
Local Open Scope nat_scope.

(** *** The order of strings *)

Lemma ascii_compare_trans a b c :
  Ascii.compare a b = Lt → Ascii.compare b c = Lt → Ascii.compare a c = Lt.
Proof.
  unfold Ascii.compare. rewrite !N.compare_lt_iff. lia.
Qed.

Lemma string_compare_refl s : String.compare s s = Eq.
Proof.
  induction s as [|a s IH]; [done|]. simpl.
  unfold Ascii.compare. by rewrite N.compare_refl.
Qed.

Lemma string_compare_trans s1 : ∀ s2 s3,
  String.compare s1 s2 = Lt → String.compare s2 s3 = Lt → String.compare s1 s3 = Lt.
Proof.
  induction s1 as [|a s1 IH]; intros [|b s2] [|c s3]; simpl; try done.
  destruct (Ascii.compare a b) eqn:Hab; try done;
    destruct (Ascii.compare b c) eqn:Hbc; try done; intros H12 H23.
  - apply Ascii.compare_eq_iff in Hab, Hbc. subst.
    unfold Ascii.compare. rewrite N.compare_refl. eauto.
  - apply Ascii.compare_eq_iff in Hab. subst. by rewrite Hbc.
  - apply Ascii.compare_eq_iff in Hbc. subst. by rewrite Hab.
  - by rewrite (ascii_compare_trans _ _ _ Hab Hbc).
Qed.

Lemma ltb_false_iff s t :
  String.ltb t s = false ↔ String.compare s t = Lt ∨ s = t.
Proof.
  unfold String.ltb. rewrite (String.compare_antisym t s).
  destruct (String.compare s t) eqn:E; simpl.
  - apply String.compare_eq_iff in E. split; [intros _; by right|done].
  - split; [intros _; by left|done].
  - split; [done|]. intros [?| ->]; [done|]. by rewrite string_compare_refl in E.
Qed.

Section S.
Context `{Builtins}.

Lemma lower_le_refl x : lower_le x x.
Proof. apply ltb_false_iff. by right. Qed.

Lemma lower_le_trans x y z : lower_le x y → lower_le y z → lower_le x z.
Proof.
  unfold lower_le. rewrite !ltb_false_iff. intros [Hxy|Hxy] [Hyz|Hyz].
  - left. by eapply string_compare_trans.
  - left. by rewrite <-Hyz.
  - left. by rewrite Hxy.
  - right. congruence.
Qed.

Lemma lower_le_total x y : lower_le x y ∨ lower_le y x.
Proof.
  unfold lower_le. rewrite !ltb_false_iff.
  rewrite (String.compare_antisym (str_lower y) (str_lower x)).
  destruct (String.compare (str_lower x) (str_lower y)) eqn:E; simpl; eauto.
  apply String.compare_eq_iff in E. eauto.
Qed.

(** *** Sorted lists *)

Lemma sorted_nil : sorted_by_lower [].
Proof. by intros i j x y _ ?. Qed.

Lemma sorted_cons x l :
  sorted_by_lower (x :: l) ↔ Forall (lower_le x) l ∧ sorted_by_lower l.
Proof.
  split.
  - intros Hs. split.
    + apply Forall_lookup. intros i y Hy. apply (Hs 0 (S i)); [lia|done..].
    + intros i j a b Hij Ha Hb. apply (Hs (S i) (S j)); [lia|done..].
  - intros [Hx Hs] i j a b Hij Ha Hb. destruct i as [|i], j as [|j]; try lia.
    + simpl in Ha. injection Ha as <-. by eapply (proj1 (Forall_lookup _ _) Hx).
    + apply (Hs i j); [lia|done..].
Qed.

Lemma insert_by_lower_perm x l : insert_by_lower x l ≡ₚ x :: l.
Proof.
  induction l as [|y l IH]; simpl; [done|].
  destruct (String.ltb _ _); [done|]. rewrite IH. apply Permutation_swap.
Qed.

Lemma insert_by_lower_sorted x l :
  sorted_by_lower l → sorted_by_lower (insert_by_lower x l).
Proof.
  induction l as [|y l IH]; simpl; intros Hs.
  - apply sorted_cons. split; [done|apply sorted_nil].
  - destruct (String.ltb (str_lower x) (str_lower y)) eqn:E.
    + apply sorted_cons. split; [|done].
      assert (lower_le x y) as Hxy.
      { destruct (lower_le_total x y) as [|Hyx]; [done|].
        unfold lower_le in Hyx. congruence. }
      apply sorted_cons in Hs as [Hy _].
      constructor; [done|]. eapply Forall_impl; [done|].
      intros z Hz. by eapply lower_le_trans.
    + apply sorted_cons in Hs as [Hy Hs]. apply sorted_cons. split; [|by apply IH].
      rewrite insert_by_lower_perm. by constructor.
Qed.

Lemma sorted_lower_acc xs : ∀ acc,
  foldl (λ acc x, insert_by_lower x acc) acc xs ≡ₚ acc ++ xs ∧
  (sorted_by_lower acc → sorted_by_lower (foldl (λ acc x, insert_by_lower x acc) acc xs)).
Proof.
  induction xs as [|x xs IH]; intros acc; simpl.
  - by rewrite app_nil_r.
  - destruct (IH (insert_by_lower x acc)) as [Hp Hs]. split.
    + rewrite Hp, insert_by_lower_perm. simpl. apply Permutation_middle.
    + intros Ha. by apply Hs, insert_by_lower_sorted.
Qed.

Lemma sorted_lower_perm xs : sorted_lower xs ≡ₚ xs.
Proof. apply (sorted_lower_acc xs []). Qed.

Lemma sorted_lower_sorted xs : sorted_by_lower (sorted_lower xs).
Proof. apply (sorted_lower_acc xs []), sorted_nil. Qed.

Lemma sorted_lower_elem x xs : x ∈ sorted_lower xs ↔ x ∈ xs.
Proof. by rewrite sorted_lower_perm. Qed.

Lemma sorted_lower_NoDup xs : NoDup xs → NoDup (sorted_lower xs).
Proof. by rewrite sorted_lower_perm. Qed.

(** *** Sets in insertion order *)

Lemma set_add_elem xs x y : y ∈ set_add xs x ↔ y ∈ xs ∨ y = x.
Proof.
  unfold set_add. case_bool_decide; [naive_solver|].
  rewrite elem_of_app, list_elem_of_singleton. naive_solver.
Qed.

Lemma set_add_NoDup xs x : NoDup xs → NoDup (set_add xs x).
Proof.
  unfold set_add. case_bool_decide; [done|]. intros Hn.
  apply NoDup_app. split_and!; [done| |apply NoDup_singleton].
  intros y Hy ->%list_elem_of_singleton. done.
Qed.

Lemma set_adds_elem ys : ∀ xs y, y ∈ foldl set_add xs ys ↔ y ∈ xs ∨ y ∈ ys.
Proof.
  induction ys as [|a ys IH]; intros xs y; simpl.
  - rewrite elem_of_nil. naive_solver.
  - rewrite IH, set_add_elem, elem_of_cons. naive_solver.
Qed.

Lemma set_adds_NoDup ys : ∀ xs, NoDup xs → NoDup (foldl set_add xs ys).
Proof.
  induction ys as [|a ys IH]; intros xs Hn; simpl; [done|].
  by apply IH, set_add_NoDup.
Qed.

Lemma set_of_elem xs y : y ∈ set_of xs ↔ y ∈ xs.
Proof. unfold set_of. rewrite set_adds_elem, elem_of_nil. naive_solver. Qed.

Lemma set_of_NoDup xs : NoDup (set_of xs).
Proof. apply set_adds_NoDup, NoDup_nil_2. Qed.

End S.
End NamesFacts.

(** * The types catalog *)

Module Types18.
Import NamesSpec DictFacts NamesFacts.
Import V18.
Local Open Scope nat_scope.

Section S.
Context `{Builtins} `{Host}.

(** The loop of [load_types_xml], from any accumulator. *)
Lemma types_loop src els : ∀ cn (meta : list (string * ItemMeta)),
  ∃ meta',
    foldl (λ '(classnames, meta) t,
             match te_name t with
             | Some name =>
                 if bool_decide (name = "") then (classnames, meta)
                 else
                   let tags := omap (λ x, match x with
                                          | Some tx =>
                                              if bool_decide (tx ≠ "") &&
                                                 bool_decide (str_strip tx ≠ "")
                                              then Some (str_strip tx) else None
                                          | None => None
                                          end) (te_tags t) in
                   (classnames ++ [name],
                    dict_set meta name
                      {| meta_category := text_of (te_category t);
                         meta_nominal := text_of (te_nominal t);
                         meta_min := text_of (te_min t);
                         meta_tags := tags;
                         meta_source := src |})
             | None => (classnames, meta)
             end)
          (cn, meta) els
    = (cn ++ named_types els, meta') ∧
    (∀ x, is_Some (dict_get meta' x) ↔ is_Some (dict_get meta x) ∨ x ∈ named_types els) ∧
    (Forall (λ kv, meta_source kv.2 = src) meta →
     Forall (λ kv, meta_source kv.2 = src) meta').
Proof.
  induction els as [|t els IH]; intros cn meta; simpl.
  - exists meta. rewrite app_nil_r. split_and!; [done| |done].
    intros x. rewrite elem_of_nil. tauto.
  - unfold named_types. simpl. fold (named_types els).
    destruct (te_name t) as [name|]; [|by apply IH].
    case_bool_decide; [by apply IH|]. simpl.
    edestruct IH as (meta' & -> & Hk & Hs). exists meta'. split_and!.
    + by rewrite <-app_assoc.
    + intros x. rewrite Hk, elem_of_cons.
      destruct (decide (name = x)) as [->|Hne].
      * rewrite dict_get_set_eq. split; [by right; left|by left].
      * rewrite dict_get_set_ne by done. split; [tauto|].
        intros [?|[?|?]]; [tauto|congruence|tauto].
    + intros Hm. apply Hs. clear -Hm.
      induction meta as [|[k v] meta IHm]; simpl.
      * by repeat constructor.
      * apply Forall_cons in Hm as [Hv Hm]. case_decide; constructor; eauto.
Qed.

(** The result of [load_types_xml] on a file that parses. *)
Lemma load_types_xml_result d path els :
  xml_types d path = Some els →
  ∃ items meta,
    load_types_xml d path = Some (items, meta) ∧
    NoDup items ∧ sorted_by_lower items ∧
    (∀ x, x ∈ items ↔ x ∈ named_types els) ∧
    (∀ x, is_Some (dict_get meta x) ↔ x ∈ items) ∧
    Forall (λ kv, meta_source kv.2 = basename path) meta.
Proof.
  intros Hx. unfold load_types_xml. rewrite Hx. cbn [mbind option_bind].
  destruct (types_loop (basename path) els [] []) as (meta & Hfold & Hk & Hs).
  cbv zeta in Hfold. rewrite Hfold. simpl. eexists _, meta. split_and!; [done|..].
  - apply sorted_lower_NoDup, set_of_NoDup.
  - apply sorted_lower_sorted.
  - intros x. by rewrite sorted_lower_elem, set_of_elem.
  - intros x. rewrite Hk, sorted_lower_elem, set_of_elem. simpl.
    split; [|by right]. intros [[? [=]]|?]; done.
  - by apply Hs.
Qed.

(** X1.  [load_types_xml] of v1.8, on a file that parses, returns the
    classnames of the named [<type>] elements once each and sorted
    without regard to case; the metadata has exactly these names as
    keys, and each record carries the file's base name as its source. *)
Theorem load_types_xml_names d path els :
  xml_types d path = Some els →
  ∃ items meta,
    load_types_xml d path = Some (items, meta) ∧
    NoDup items ∧ sorted_by_lower items ∧
    (∀ x, x ∈ items ↔ x ∈ named_types els) ∧
    (∀ x, is_Some (dict_get meta x) ↔ x ∈ items) ∧
    Forall (λ kv, meta_source kv.2 = basename path) meta.
Proof. apply load_types_xml_result. Qed.

(** What [load_types_xml] returns has metadata for each of its names. *)
Lemma load_types_xml_meta d p items meta x :
  load_types_xml d p = Some (items, meta) → x ∈ items → is_Some (dict_get meta x).
Proof.
  intros Hl Hx. destruct (xml_types d p) as [els|] eqn:E.
  - destruct (load_types_xml_result d p els E) as (i' & m' & Hl' & _ & _ & _ & Hk & _).
    rewrite Hl in Hl'. injection Hl' as <- <-. by apply Hk.
  - unfold load_types_xml in Hl. by rewrite E in Hl.
Qed.

(** The inner loop of the merge over one file's metadata: a name that
    is known keeps its record, a new one gets the file's. *)
Lemma meta_loop (meta : list (string * ItemMeta)) : ∀ m,
  let m' := foldl (λ m '(k, v), if dict_mem m k then m else dict_set m k v) m meta in
  (∀ k v, dict_get m k = Some v → dict_get m' k = Some v) ∧
  (∀ k, is_Some (dict_get meta k) → is_Some (dict_get m' k)) ∧
  (∀ k, is_Some (dict_get m' k) → is_Some (dict_get m k) ∨ is_Some (dict_get meta k)).
Proof.
  induction meta as [|[k0 v0] meta IH]; intros m; simpl.
  - split_and!; [done|by intros k [? [=]]|by left].
  - set (m1 := if dict_mem m k0 then m else dict_set m k0 v0).
    destruct (IH m1) as (Hkeep & Hnew & Hold).
    assert (∀ k v, dict_get m k = Some v → dict_get m1 k = Some v) as H1.
    { intros k v Hk. unfold m1, dict_mem. case_bool_decide as Hm; [done|].
      rewrite dict_get_set_ne; [done|]. intros ->. apply Hm. by rewrite Hk. }
    assert (is_Some (dict_get m1 k0)) as H2.
    { unfold m1, dict_mem. case_bool_decide; [done|]. by rewrite dict_get_set_eq. }
    split_and!.
    + eauto.
    + intros k Hk. simpl in Hk. destruct (decide (k0 = k)) as [->|Hne]; [|by apply Hnew].
      destruct H2 as [v Hv]. rewrite (Hkeep _ _ Hv). eauto.
    + intros k [Hk|Hk]%Hold; simpl.
      * unfold m1, dict_mem in Hk. case_bool_decide; [by left|].
        destruct (decide (k0 = k)) as [->|Hne]; [right; eauto|].
        rewrite dict_get_set_ne in Hk by done. by left.
      * destruct (decide (k0 = k)); right; eauto.
Qed.

(** The state of the merge loop after [paths], from any accumulator. *)
Lemma merge_loop d paths : ∀ c merged errors,
  let '(c1, merged1, errors1) := foldl (merge_one d) (c, merged, errors) paths in
  (∀ x, x ∈ merged1 ↔
        x ∈ merged ∨ ∃ p items meta, p ∈ paths ∧ load_types_xml d p = Some (items, meta) ∧
                                     x ∈ items) ∧
  (NoDup merged → NoDup merged1) ∧
  (∀ k v, dict_get (item_meta c) k = Some v → dict_get (item_meta c1) k = Some v) ∧
  (∀ p items meta x, p ∈ paths → load_types_xml d p = Some (items, meta) → x ∈ items →
                     is_Some (dict_get (item_meta c1) x)) ∧
  (NoDup (types_files_loaded c) → NoDup (types_files_loaded c1)) ∧
  (∀ p, p ∈ types_files_loaded c1 ↔
        p ∈ types_files_loaded c ∨ (p ∈ paths ∧ is_Some (load_types_xml d p))) ∧
  (errors1 = [] ↔ errors = [] ∧ Forall (λ p, is_Some (load_types_xml d p)) paths).
Proof.
  induction paths as [|p paths IH]; intros c merged errors; simpl.
  - split_and!; try done.
    + intros x. split; [by left|]. intros [?|(? & ? & ? & Hp & _)]; [done|].
      by apply elem_of_nil in Hp.
    + intros q i m x Hp. by apply elem_of_nil in Hp.
    + intros q. split; [by left|]. intros [?|[Hp _]]; [done|].
      by apply elem_of_nil in Hp.
    + split; [done|]. by intros [? _].
  - destruct (load_types_xml d p) as [[items meta]|] eqn:Hl; simpl.
    + match goal with |- context [foldl (merge_one d) (?c', ?m', ?e') paths] =>
        specialize (IH c' m' e') end.
      destruct (foldl (merge_one d) _ paths) as [[c1 merged1] errors1].
      destruct IH as (Hm & Hn & Hk & Hi & Hf & Hfe & He). simpl in *.
      destruct (meta_loop meta (item_meta c)) as (Mkeep & Mnew & _).
      split_and!.
      * intros x. rewrite Hm, set_adds_elem. split.
        -- intros [[?|?]|(q & i & m & Hq & Hql & Hx)]; [by left|right..].
           ++ exists p, items, meta. split_and!; [apply elem_of_cons; by left|done..].
           ++ exists q, i, m. split_and!; [apply elem_of_cons; by right|done..].
        -- intros [?|(q & i & m & [->|Hq]%elem_of_cons & Hql & Hx)]; [by left; left| |].
           ++ rewrite Hl in Hql. injection Hql as <- <-. by left; right.
           ++ right. by exists q, i, m.
      * intros ?. by apply Hn, set_adds_NoDup.
      * intros k v Hv. by apply Hk, Mkeep.
      * intros q i m x [->|Hq]%elem_of_cons Hql Hx; [|by eapply Hi].
        rewrite Hl in Hql. injection Hql as <- <-.
        destruct (Mnew x) as [v Hv]; [by eapply load_types_xml_meta|].
        rewrite (Hk _ _ Hv). eauto.
      * intros Hc. apply Hf. case_bool_decide; [done|].
        apply NoDup_app. split_and!; [done| |apply NoDup_singleton].
        by intros y Hy ->%list_elem_of_singleton.
      * intros q. rewrite Hfe. rewrite elem_of_cons.
        assert (q ∈ (if bool_decide (p ∈ types_files_loaded c) then types_files_loaded c
                     else types_files_loaded c ++ [p])
                ↔ q ∈ types_files_loaded c ∨ q = p) as ->.
        { case_bool_decide.
          - split; [by left|]. by intros [?| ->].
          - by rewrite elem_of_app, list_elem_of_singleton. }
        split.
        -- intros [[?| ->]|[? ?]]; [by left|right|right]; [by rewrite Hl; eauto|eauto].
        -- intros [?|[[->|?] ?]]; [by left; left|by left; right|by right].
      * rewrite He, Forall_cons, Hl. split; [intros [? ?]|intros [? [_ ?]]]; eauto.
    + match goal with |- context [foldl (merge_one d) (?c', ?m', ?e') paths] =>
        specialize (IH c' m' e') end.
      destruct (foldl (merge_one d) _ paths) as [[c1 merged1] errors1].
      destruct IH as (Hm & Hn & Hk & Hi & Hf & Hfe & He). simpl in *.
      split_and!; try done.
      * intros x. rewrite Hm. split.
        -- intros [?|(q & i & m & Hq & Hql & Hx)]; [by left|right].
           exists q, i, m. split_and!; [apply elem_of_cons; by right|done..].
        -- intros [?|(q & i & m & [->|Hq]%elem_of_cons & Hql & Hx)]; [by left|congruence|].
           right. by exists q, i, m.
      * intros q i m x [->|Hq]%elem_of_cons Hql Hx; [congruence|by eapply Hi].
      * intros q. rewrite Hfe, elem_of_cons. split.
        -- intros [?|[? ?]]; [by left|right; eauto].
        -- intros [?|[[->|?] Hs]]; [by left| |by right].
           rewrite Hl in Hs. by destruct Hs.
      * rewrite He. split; [by intros [[]%app_eq_nil _]|].
        intros [_ [Hs _]%Forall_cons]. rewrite Hl in Hs. by destruct Hs.
Qed.

(** X2.  [_merge_types_files] of v1.8 leaves [all_items] without
    duplicates and sorted without regard to case; it holds the names
    there were and the names of every file that parsed, and no other. *)
Theorem merge_all_items (s : app) paths :
  let s' := final (_merge_types_files paths s) in
  NoDup (all_items (cat s')) ∧ sorted_by_lower (all_items (cat s')) ∧
  ∀ x, x ∈ all_items (cat s') ↔
       x ∈ all_items (cat s) ∨
       ∃ p items meta, p ∈ paths ∧ load_types_xml (files s) p = Some (items, meta) ∧
                       x ∈ items.
Proof.
  unfold _merge_types_files, bind, gets, modify.
  pose proof (merge_loop (files s) paths (cat s) (set_of (all_items (cat s))) []) as Hloop.
  destruct (foldl (merge_one (files s)) _ paths) as [[c1 merged] errors].
  destruct Hloop as (Hm & Hn & _).
  assert (∀ x : app, all_items (cat (final (match errors with
                                            | [] => ret tt
                                            | _ :: _ => notify Warning "Some files failed to load"
                                            end x))) = all_items (cat x)) as Hnote.
  { intros x. by destruct errors. }
  cbv zeta. rewrite Hnote. simpl. split_and!.
  - apply sorted_lower_NoDup, Hn, set_of_NoDup.
  - apply sorted_lower_sorted.
  - intros x. by rewrite sorted_lower_elem, Hm, set_of_elem.
Qed.

End S.
End Types18.

Module Types20.
Import NamesSpec DictFacts NamesFacts.
Import V20.
Local Open Scope nat_scope.

Section S.
Context `{Builtins} `{Host}.

(** The loop of [load_types_xml], from any accumulator. *)
Lemma items_loop src els : ∀ items (meta : list (string * item_info)),
  ∃ meta',
    foldl (λ '(items, meta) t,
             match te_name t with
             | Some name =>
                 if bool_decide (name = "") then (items, meta)
                 else
                   let cat :=
                     match te_category t with
                     | Some tx => if bool_decide (tx = "") then "" else str_strip tx
                     | None => ""
                     end in
                   (items ++ [name],
                    dict_set meta name {| info_source := src; info_category := cat |})
             | None => (items, meta)
             end)
          (items, meta) els
    = (items ++ named_types els, meta') ∧
    (∀ x, is_Some (dict_get meta' x) ↔ is_Some (dict_get meta x) ∨ x ∈ named_types els).
Proof.
  induction els as [|t els IH]; intros items meta; simpl.
  - exists meta. rewrite app_nil_r. split; [done|].
    intros x. rewrite elem_of_nil. tauto.
  - unfold named_types. simpl. fold (named_types els).
    destruct (te_name t) as [name|]; [|by apply IH].
    case_bool_decide; [by apply IH|]. simpl.
    edestruct IH as (meta' & -> & Hk). exists meta'. split.
    + by rewrite <-app_assoc.
    + intros x. rewrite Hk, elem_of_cons.
      destruct (decide (name = x)) as [->|Hne].
      * rewrite dict_get_set_eq. split; [by right; left|by left].
      * rewrite dict_get_set_ne by done. split; [tauto|].
        intros [?|[?|?]]; [tauto|congruence|tauto].
Qed.

(** [load_types_xml] of v2.0 lists the named types in document order
    and has metadata for exactly these names. *)
Lemma load_types_xml_items d path els :
  xml_types d path = Some els →
  ∃ meta, load_types_xml d path = Some (named_types els, meta) ∧
          ∀ x, is_Some (dict_get meta x) ↔ x ∈ named_types els.
Proof.
  intros Hx. unfold load_types_xml. rewrite Hx. cbn [mbind option_bind].
  destruct (items_loop (basename path) els [] []) as (meta & Hfold & Hk).
  cbv zeta in Hfold. rewrite Hfold. simpl. exists meta. split; [done|].
  intros x. rewrite Hk. simpl. split; [|by right]. intros [[? [=]]|?]; done.
Qed.

Lemma load_types_xml_info d p items meta x :
  load_types_xml d p = Some (items, meta) → x ∈ items → is_Some (dict_get meta x).
Proof.
  intros Hl Hx. destruct (xml_types d p) as [els|] eqn:E.
  - destruct (load_types_xml_items d p els E) as (m' & Hl' & Hk).
    rewrite Hl in Hl'. injection Hl' as -> <-. by apply Hk.
  - unfold load_types_xml in Hl. by rewrite E in Hl.
Qed.

Lemma info_loop (meta : list (string * item_info)) : ∀ m,
  let m' := foldl (λ m '(k, v), if dict_mem m k then m else dict_set m k v) m meta in
  (∀ k v, dict_get m k = Some v → dict_get m' k = Some v) ∧
  (∀ k, is_Some (dict_get meta k) → is_Some (dict_get m' k)).
Proof.
  induction meta as [|[k0 v0] meta IH]; intros m; simpl.
  - split; [done|by intros k [? [=]]].
  - set (m1 := if dict_mem m k0 then m else dict_set m k0 v0).
    destruct (IH m1) as (Hkeep & Hnew).
    assert (∀ k v, dict_get m k = Some v → dict_get m1 k = Some v) as H1.
    { intros k v Hk. unfold m1, dict_mem. case_bool_decide as Hm; [done|].
      rewrite dict_get_set_ne; [done|]. intros ->. apply Hm. by rewrite Hk. }
    assert (is_Some (dict_get m1 k0)) as H2.
    { unfold m1, dict_mem. case_bool_decide; [done|]. by rewrite dict_get_set_eq. }
    split.
    + eauto.
    + intros k Hk. simpl in Hk. destruct (decide (k0 = k)) as [->|Hne]; [|by apply Hnew].
      destruct H2 as [v Hv]. rewrite (Hkeep _ _ Hv). eauto.
Qed.

Lemma merge_files_loop d paths : ∀ c merged errors,
  let '(c1, merged1, errors1) := foldl (merge_one d) (c, merged, errors) paths in
  (∀ k v, dict_get (item_meta c) k = Some v → dict_get (item_meta c1) k = Some v) ∧
  (∀ p items meta x, p ∈ paths → load_types_xml d p = Some (items, meta) → x ∈ items →
                     is_Some (dict_get (item_meta c1) x)) ∧
  (NoDup (types_files_loaded c) → NoDup (types_files_loaded c1)) ∧
  (∀ p, p ∈ types_files_loaded c1 ↔
        p ∈ types_files_loaded c ∨ (p ∈ paths ∧ is_Some (load_types_xml d p))) ∧
  (errors1 = [] ↔ errors = [] ∧ Forall (λ p, is_Some (load_types_xml d p)) paths) ∧
  types_folders c1 = types_folders c.
Proof.
  induction paths as [|p paths IH]; intros c merged errors; simpl.
  - split_and!; try done.
    + intros q i m x Hp. by apply elem_of_nil in Hp.
    + intros q. split; [by left|]. intros [?|[Hp _]]; [done|].
      by apply elem_of_nil in Hp.
    + split; [done|]. by intros [? _].
  - destruct (load_types_xml d p) as [[items meta]|] eqn:Hl; simpl.
    + match goal with |- context [foldl (merge_one d) (?c', ?m', ?e') paths] =>
        specialize (IH c' m' e') end.
      destruct (foldl (merge_one d) _ paths) as [[c1 merged1] errors1].
      destruct IH as (Hk & Hi & Hf & Hfe & He & Hfo). simpl in *.
      destruct (info_loop meta (item_meta c)) as (Mkeep & Mnew).
      split_and!; [| | | | |done].
      * intros k v Hv. by apply Hk, Mkeep.
      * intros q i m x [->|Hq]%elem_of_cons Hql Hx; [|by eapply Hi].
        rewrite Hl in Hql. injection Hql as <- <-.
        destruct (Mnew x) as [v Hv]; [by eapply load_types_xml_info|].
        rewrite (Hk _ _ Hv). eauto.
      * intros Hc. apply Hf. case_bool_decide; [done|].
        apply NoDup_app. split_and!; [done| |apply NoDup_singleton].
        by intros y Hy ->%list_elem_of_singleton.
      * intros q. rewrite Hfe. rewrite elem_of_cons.
        assert (q ∈ (if bool_decide (p ∈ types_files_loaded c) then types_files_loaded c
                     else types_files_loaded c ++ [p])
                ↔ q ∈ types_files_loaded c ∨ q = p) as ->.
        { case_bool_decide.
          - split; [by left|]. by intros [?| ->].
          - by rewrite elem_of_app, list_elem_of_singleton. }
        split.
        -- intros [[?| ->]|[? ?]]; [by left|right|right]; [by rewrite Hl; eauto|eauto].
        -- intros [?|[[->|?] ?]]; [by left; left|by left; right|by right].
      * rewrite He, Forall_cons, Hl. split; [intros [? ?]|intros [? [_ ?]]]; eauto.
    + match goal with |- context [foldl (merge_one d) (?c', ?m', ?e') paths] =>
        specialize (IH c' m' e') end.
      destruct (foldl (merge_one d) _ paths) as [[c1 merged1] errors1].
      destruct IH as (Hk & Hi & Hf & Hfe & He & Hfo). simpl in *.
      split_and!; try done.
      * intros q i m x [->|Hq]%elem_of_cons Hql Hx; [congruence|by eapply Hi].
      * intros q. rewrite Hfe, elem_of_cons. split.
        -- intros [?|[? ?]]; [by left|right; eauto].
        -- intros [?|[[->|?] Hs]]; [by left| |by right].
           rewrite Hl in Hs. by destruct Hs.
      * rewrite He. split; [by intros [[]%app_eq_nil _]|].
        intros [_ [Hs _]%Forall_cons]. rewrite Hl in Hs. by destruct Hs.
Qed.

(** A name the records lack gets the record the file has for it, and
    none if the file has none. *)
Lemma info_loop_new (meta : list (string * item_info)) x : ∀ m,
  dict_get m x = None →
  dict_get (foldl (λ m '(k, v), if dict_mem m k then m else dict_set m k v) m meta) x
  = dict_get meta x.
Proof.
  induction meta as [|[k0 v0] meta IH]; intros m Hm; simpl; [done|].
  destruct (decide (k0 = x)) as [->|Hne].
  - assert (dict_mem m x = false) as ->.
    { unfold dict_mem. apply bool_decide_eq_false. rewrite Hm. by intros [? [=]]. }
    destruct (info_loop meta (dict_set m x v0)) as (Hkeep & _).
    apply Hkeep, dict_get_set_eq.
  - apply IH. destruct (dict_mem m k0); [done|]. by rewrite dict_get_set_ne.
Qed.

(** Among the files of one call the first that has a record for a
    name gives the record. *)
Lemma merge_first_file d paths : ∀ c merged errors i p items meta x v,
  paths !! i = Some p → load_types_xml d p = Some (items, meta) →
  dict_get meta x = Some v → dict_get (item_meta c) x = None →
  (∀ j q items' meta', j < i → paths !! j = Some q →
     load_types_xml d q = Some (items', meta') → dict_get meta' x = None) →
  dict_get (item_meta (foldl (merge_one d) (c, merged, errors) paths).1.1) x = Some v.
Proof.
  induction paths as [|p0 paths IH]; intros c merged errors i p items meta x v Hi Hl Hx Hc Hfirst;
    [done|].
  destruct i as [|i]; simpl in Hi.
  - injection Hi as ->. cbn [foldl]. unfold merge_one at 2. rewrite Hl.
    match goal with |- context [foldl (merge_one d) (?c', ?m', ?e') paths] =>
      pose proof (merge_files_loop d paths c' m' e') as Hloop end.
    destruct (foldl (merge_one d) _ paths) as [[c1 merged1] errors1].
    destruct Hloop as (Hk & _). simpl in *. apply Hk.
    by rewrite info_loop_new.
  - cbn [foldl]. unfold merge_one at 2.
    destruct (load_types_xml d p0) as [[items0 meta0]|] eqn:Hl0.
    + eapply IH; try done.
      * simpl. rewrite info_loop_new by done. by eapply (Hfirst 0); [lia|..].
      * intros j q items' meta' Hj Hq. eapply (Hfirst (S j)); [lia|done].
    + eapply IH; try done.
      intros j q items' meta' Hj Hq. eapply (Hfirst (S j)); [lia|done].
Qed.

(** X3.  [_merge_types_files] of v2.0 keeps the record of every name
    it knew and has a record for every name of a file that parsed;
    for a name it did not know, the record is that of the first file
    of the call, in the order given, that has one (the file loaded
    first wins); a path enters [types_files_loaded] once, when its file
    parses; and the warning is shown exactly when it is asked for and
    some file did not parse. *)
Theorem merge_first_source_wins (s : app) paths show_warnings :
  let s' := final (_merge_types_files paths show_warnings s) in
  (∀ k v, dict_get (item_meta (cat s)) k = Some v →
          dict_get (item_meta (cat s')) k = Some v) ∧
  (∀ p items meta x, p ∈ paths → load_types_xml (files s) p = Some (items, meta) →
                     x ∈ items → is_Some (dict_get (item_meta (cat s')) x)) ∧
  (∀ i p items meta x v,
     paths !! i = Some p → load_types_xml (files s) p = Some (items, meta) →
     dict_get meta x = Some v → dict_get (item_meta (cat s)) x = None →
     (∀ j q items' meta', j < i → paths !! j = Some q →
        load_types_xml (files s) q = Some (items', meta') → dict_get meta' x = None) →
     dict_get (item_meta (cat s')) x = Some v) ∧
  (NoDup (types_files_loaded (cat s)) → NoDup (types_files_loaded (cat s'))) ∧
  (∀ p, p ∈ types_files_loaded (cat s') ↔
        p ∈ types_files_loaded (cat s) ∨
        (p ∈ paths ∧ is_Some (load_types_xml (files s) p))) ∧
  notices s' =
    notices s ++
    (if show_warnings && negb (bool_decide (Forall (λ p, is_Some (load_types_xml (files s) p)) paths))
     then [Notice Warning "Some files failed to load"] else []).
Proof.
  unfold _merge_types_files, bind, gets, modify.
  pose proof (merge_files_loop (files s) paths (cat s) (set_of (all_items (cat s))) []) as Hloop.
  pose proof (merge_first_file (files s) paths (cat s) (set_of (all_items (cat s))) [])
    as Hfirst.
  destruct (foldl (merge_one (files s)) _ paths) as [[c1 merged] errors].
  destruct Hloop as (Hk & Hi & Hf & Hfe & He & _). simpl in Hfirst.
  assert (errors = [] ↔ Forall (λ p, is_Some (load_types_xml (files s) p)) paths) as He'.
  { rewrite He. tauto. }
  cbv zeta. destruct errors as [|e errors].
  - simpl. rewrite bool_decide_eq_true_2 by by apply He'.
    rewrite andb_false_r, app_nil_r. by split_and!.
  - rewrite bool_decide_eq_false_2 by (intros ?%He'; done).
    destruct show_warnings; simpl; rewrite ?app_nil_r; by split_and!.
Qed.

End S.
End Types20.

(** * Folder listings and the item browser *)

Module Browse.
Import NamesSpec DictFacts NamesFacts.
Local Open Scope nat_scope.

(** *** Substrings *)

Lemma append_cons c q b : (String c q ++ b)%string = String c (q ++ b)%string.
Proof. done. Qed.

Lemma prefix_app q : ∀ x, String.prefix q x = true ↔ ∃ b, x = (q ++ b)%string.
Proof.
  induction q as [|c q IH]; intros x.
  - split; [intros _; by exists x|by destruct x].
  - destruct x as [|c' x].
    + split; [done|]. intros [b Hb]. by rewrite append_cons in Hb.
    + simpl. destruct (ascii_dec c c') as [->|Hne].
      * rewrite IH. split; intros [b Hb]; exists b.
        -- by rewrite Hb.
        -- rewrite append_cons in Hb. by injection Hb.
      * split; [done|]. intros [b Hb]. rewrite append_cons in Hb. by injection Hb.
Qed.

Lemma str_contains_spec q : ∀ x,
  str_contains q x = true ↔ ∃ a b, x = (a ++ q ++ b)%string.
Proof.
  induction x as [|c x IH]; cbn [str_contains].
  - rewrite orb_false_r, prefix_app. split.
    + intros [b ->]. by exists "", b.
    + intros ([|??] & b & Hb); [by exists b|by rewrite append_cons in Hb].
  - rewrite orb_true_iff, prefix_app, IH. split.
    + intros [[b ->]|(a & b & ->)]; [by exists "", b|by exists (String c a), b].
    + intros ([|c' a] & b & Hb); [left; by exists b|right].
      rewrite append_cons in Hb. injection Hb as -> ->. by exists a, b.
Qed.

Section S.
Context `{Builtins} `{Host}.

(** The files kept from a walk, in walk order. *)
Lemma xml_walk (l : list (string * string)) :
  omap (λ '(root, fn), if is_xml_name fn then Some (path_join root fn) else None) l
  = (λ rf, path_join rf.1 rf.2) <$> filter (λ rf, is_xml_name rf.2 = true) l.
Proof.
  induction l as [|[root fn] l IH]; [done|].
  destruct (is_xml_name fn) eqn:E.
  - rewrite filter_cons_True by done. rewrite fmap_cons, <-IH. simpl. by rewrite E.
  - rewrite filter_cons_False by (simpl; congruence). rewrite <-IH. simpl. by rewrite E.
Qed.

(** X4.  Both variants find the same files in a folder: every file
    under it whose name ends in ".xml" in any case, by its joined path.
    v2.0 returns them in walk order: its result is the walk with the
    other files left out, each entry joined.  v1.8 returns the same
    paths sorted without regard to case. *)
Theorem xml_files_listing (d : disk) folder :
  V20.find_xml_files_in_folder d folder
  = (λ rf, path_join rf.1 rf.2) <$>
      filter (λ rf, is_xml_name rf.2 = true) (fs_walk d folder) ∧
  V18.find_xml_files_in_folder d folder ≡ₚ V20.find_xml_files_in_folder d folder ∧
  sorted_by_lower (V18.find_xml_files_in_folder d folder) ∧
  ∀ p, p ∈ V20.find_xml_files_in_folder d folder ↔
       ∃ root fn, (root, fn) ∈ fs_walk d folder ∧ is_xml_name fn = true ∧
                  p = path_join root fn.
Proof.
  unfold V18.find_xml_files_in_folder, V20.find_xml_files_in_folder. split_and!.
  - apply xml_walk.
  - apply sorted_lower_perm.
  - apply sorted_lower_sorted.
  - intros p. rewrite list_elem_of_omap. split.
    + intros ([root fn] & Hin & Hp). destruct (is_xml_name fn) eqn:E; [|done].
      injection Hp as <-. by exists root, fn.
    + intros (root & fn & Hin & Hx & ->). exists (root, fn). by rewrite Hx.
Qed.

(** The de-duplicating loop of [_remember_types_folders]. *)
Lemma remember_loop folders : ∀ out,
  let out' := foldl (λ out p, if bool_decide (p ≠ "") && negb (bool_decide (p ∈ out))
                              then out ++ [p] else out) out folders in
  (NoDup out → NoDup out') ∧
  (∀ p, p ∈ out' ↔ p ∈ out ∨ (p ∈ folders ∧ p ≠ "")) ∧
  ∃ r, out' = out ++ r ∧ r `sublist_of` folders.
Proof.
  induction folders as [|f folders IH]; intros out; simpl.
  - split_and!; [done| |exists []; by rewrite app_nil_r].
    intros p. split; [by left|]. intros [?|[Hp _]]; [done|]. by apply elem_of_nil in Hp.
  - match goal with |- context [foldl _ ?o folders] => destruct (IH o) as (Hn & Hm & r & Hr & Hs) end.
    rewrite Hr. rewrite Hr in Hn, Hm. clear Hr.
    destruct (bool_decide (f ≠ "") && negb (bool_decide (f ∈ out))) eqn:E.
    + apply andb_true_iff in E as [Hf%bool_decide_eq_true Hnew%negb_true_iff].
      apply bool_decide_eq_false in Hnew. split_and!.
      * intros Ho. apply Hn, NoDup_app. split_and!; [done| |apply NoDup_singleton].
        by intros y Hy ->%list_elem_of_singleton.
      * intros p. rewrite Hm, elem_of_app, list_elem_of_singleton, elem_of_cons.
        split; [intros [[?| ->]|[? ?]]|intros [?|[[->|?] ?]]]; eauto.
      * exists (f :: r). split; [by rewrite <-app_assoc|by constructor].
    + split_and!; [done| |exists r; split; [done|by constructor]].
      intros p. rewrite Hm, elem_of_cons.
      split; [intros [?|[? ?]]; eauto|].
      intros [?|[[->|?] Hp]]; eauto. left.
      apply andb_false_iff in E as [E|E].
      * by apply bool_decide_eq_false in E.
      * apply negb_false_iff, bool_decide_eq_true in E. done.
Qed.

(** The order the loop leaves: of two folders it adds, the one added
    first occurs in the list before every occurrence of the other. *)
Lemma remember_order folders : ∀ out,
  ∃ r, foldl (λ out p, if bool_decide (p ≠ "") && negb (bool_decide (p ∈ out))
                       then out ++ [p] else out) out folders = out ++ r ∧
       (∀ p, p ∈ r → p ≠ "" ∧ p ∉ out) ∧
       ∀ i j p q, i < j → r !! i = Some p → r !! j = Some q →
         ∃ a, folders !! a = Some p ∧ ∀ b, folders !! b = Some q → a < b.
Proof.
  induction folders as [|f folders IH]; intros out; simpl.
  { exists []. rewrite app_nil_r. split_and!; [done|by intros p ?%elem_of_nil|].
    by intros i j p q _ ?. }
  destruct (bool_decide (f ≠ "") && negb (bool_decide (f ∈ out))) eqn:E.
  - apply andb_true_iff in E as [Hf%bool_decide_eq_true Hnew%negb_true_iff].
    apply bool_decide_eq_false in Hnew.
    destruct (IH (out ++ [f])) as (r & Hr & Hin & Hord).
    exists (f :: r). split_and!.
    + by rewrite Hr, <-app_assoc.
    + intros p [->|Hp]%elem_of_cons; [done|].
      destruct (Hin p Hp) as [? Hn]. split; [done|]. intros ?. apply Hn.
      apply elem_of_app. by left.
    + intros i j p q Hij Hi Hj. destruct j as [|j]; [lia|]. simpl in Hj.
      assert (q ≠ f) as Hqf.
      { intros ->. destruct (Hin f (list_elem_of_lookup_2 _ _ _ Hj)) as [_ Hn].
        apply Hn, elem_of_app. right. by left. }
      destruct i as [|i]; simpl in Hi.
      * injection Hi as <-. exists 0. split; [done|].
        intros [|b] Hb; [|lia]. simpl in Hb. congruence.
      * destruct (Hord i j p q) as (a & Ha & Hab); [lia|done|done|].
        exists (S a). split; [done|]. intros [|b] Hb; simpl in Hb; [congruence|].
        specialize (Hab b Hb). lia.
  - destruct (IH out) as (r & Hr & Hin & Hord). exists r. split_and!; [done..|].
    intros i j p q Hij Hi Hj.
    destruct (Hord i j p q) as (a & Ha & Hab); [done..|].
    exists (S a). split; [done|]. intros [|b] Hb; simpl in Hb.
    + injection Hb as ->. destruct (Hin q (list_elem_of_lookup_2 _ _ _ Hj)) as [Hq1 Hq2].
      apply andb_false_iff in E as [E|E].
      * by apply bool_decide_eq_false in E.
      * apply negb_false_iff, bool_decide_eq_true in E. done.
    + specialize (Hab b Hb). lia.
Qed.

(** X5.  [_remember_types_folders] of v2.0 keeps each folder once, in
    the order of its first occurrence, and drops empty names: of two
    folders it keeps, the one kept first occurs in the list given before
    every occurrence of the other. *)
Theorem remember_types_folders_dedups (s : V20.app) folders :
  let out := V20.cfg_types_folders (final (V20._remember_types_folders folders s)) in
  NoDup out ∧ (∀ p, p ∈ out ↔ p ∈ folders ∧ p ≠ "") ∧ out `sublist_of` folders ∧
  ∀ i j p q, i < j → out !! i = Some p → out !! j = Some q →
    ∃ a, folders !! a = Some p ∧ ∀ b, folders !! b = Some q → a < b.
Proof.
  unfold V20._remember_types_folders, modify. simpl.
  destruct (remember_loop folders []) as (Hn & Hm & r & Hr & Hs).
  destruct (remember_order folders []) as (r' & Hr' & _ & Hord). split_and!.
  - apply Hn, NoDup_nil_2.
  - intros p. rewrite Hm. split; [|by right]. intros [Hp|?]; [|done].
    by apply elem_of_nil in Hp.
  - by rewrite Hr.
  - rewrite Hr'. exact Hord.
Qed.

(** X6.  The item browser of v1.8, once a catalog is loaded: it shows
    at most 900 children and at least one; every row with a "+" button
    carries a name of the chosen source that contains the search text
    (both without case), is not written in parentheses, and shows the
    source the catalog records for it; and when no name passes the
    filter the only child is the label "No matches.". *)
Theorem item_browser_rows (search source : string) (c : V18.catalog) :
  V18.all_items c ≠ [] →
  let q := str_lower (str_strip search) in
  let base := if bool_decide (source = "All Types Files") then V18.all_items c
              else dict_get_or (V18.source_to_items c) source [] in
  let rows := V18.refresh_item_filter search source c in
  0 < length rows ≤ 900 ∧
  (∀ name src, V18.ItemRow name src ∈ rows →
     name ∈ base ∧ (∃ a b, str_lower name = (a ++ q ++ b)%string) ∧
     V18.in_parens name = false ∧
     src = from_option V18.meta_source "" (dict_get (V18.item_meta c) name)) ∧
  ((∀ x, x ∈ base → ¬ ∃ a b, str_lower x = (a ++ q ++ b)%string) →
   rows = [V18.ItemLabel "No matches."]).
Proof.
  intros Hne. cbv zeta. unfold V18.refresh_item_filter, V18.filtered_items.
  destruct (V18.all_items c) as [|i0 items] eqn:Hall; [done|]. rewrite <-Hall. clear Hne.
  set (q := str_lower (str_strip search)).
  set (base := if bool_decide (source = "All Types Files") then V18.all_items c
               else dict_get_or (V18.source_to_items c) source []).
  set (filtered := if bool_decide (q = "") then base
                   else filter (λ x, str_contains q (str_lower x) = true) base).
  assert (∀ x, x ∈ filtered ↔ x ∈ base ∧ ∃ a b, str_lower x = (a ++ q ++ b)%string) as Hf.
  { intros x. unfold filtered. case_bool_decide as Hq.
    - rewrite Hq. split; [|by intros [? _]]. intros Hx. split; [done|].
      by exists "", (str_lower x).
    - by rewrite list_elem_of_filter, str_contains_spec, (comm and). }
  assert (∀ x, x ∈ take 900 filtered → x ∈ filtered) as Ht.
  { intros x Hx. by eapply elem_of_sublist; [|apply sublist_take]. }
  unfold V18._render_items. split_and!.
  - destruct (take 900 filtered); simpl; lia.
  - destruct (take 900 filtered) as [|y ys] eqn:E; [simpl; lia|].
    rewrite length_fmap, <-E, length_take. lia.
  - intros name src Hrow. destruct (take 900 filtered) as [|y ys] eqn:E.
    { apply list_elem_of_singleton in Hrow. done. }
    apply list_elem_of_fmap in Hrow as (x & Hx & Hin).
    destruct (V18.in_parens x) eqn:Hp; [done|]. injection Hx as -> ->.
    apply Ht, Hf in Hin as [? ?]. split_and!; [done..|].
    by destruct (dict_get (V18.item_meta c) x).
  - intros Hnone. destruct (take 900 filtered) as [|y ys] eqn:E; [done|].
    assert (y ∈ y :: ys) as Hy by (apply elem_of_cons; by left).
    apply Ht, Hf in Hy as [Hy1 Hy2]. by destruct (Hnone y Hy1).
Qed.

(** X7.  The item table of v2.0, once a catalog is loaded: the
    filtered list holds exactly the names of the chosen source that
    contain the search text (both without case), in their order; the
    table shows the first 600 of them, or the first 1200 when a search
    text is given, each with the source the catalog records for it. *)
Theorem item_table_rows (search source : string) (c : V20.catalog) :
  V20.all_items c ≠ [] →
  let q := str_lower (str_strip search) in
  let src := if bool_decide (source = "") then "All Types Files" else source in
  let base := if bool_decide (src = "All Types Files") then V20.all_items c
              else dict_get_or (V20.source_to_items c) src [] in
  let items := V20._get_filtered_items search source c in
  let rows := V20._item_insert_step search source c in
  items `sublist_of` base ∧
  (∀ x, x ∈ items ↔ x ∈ base ∧ ∃ a b, str_lower x = (a ++ q ++ b)%string) ∧
  rows.*1 = take (if bool_decide (str_strip search = "") then 600 else 1200) items ∧
  ∀ name s, (name, s) ∈ rows →
            s = from_option V20.info_source "" (dict_get (V20.item_meta c) name).
Proof.
  intros Hne. cbv zeta. unfold V20._item_insert_step, V20._get_filtered_items.
  destruct (V20.all_items c) as [|i0 its] eqn:Hall; [done|]. rewrite <-Hall. clear Hne.
  set (q := str_lower (str_strip search)).
  set (src := if bool_decide (source = "") then "All Types Files" else source).
  set (base := if bool_decide (src = "All Types Files") then V20.all_items c
               else dict_get_or (V20.source_to_items c) src []).
  split_and!.
  - case_bool_decide; [done|apply sublist_filter].
  - intros x. case_bool_decide as Hq.
    + rewrite Hq. split; [|by intros [? _]]. intros Hx. split; [done|].
      by exists "", (str_lower x).
    + by rewrite list_elem_of_filter, str_contains_spec, (comm and).
  - rewrite <-list_fmap_compose. by rewrite list_fmap_id.
  - intros name s (x & [= -> ->] & _)%list_elem_of_fmap.
    by destruct (dict_get (V20.item_meta c) x).
Qed.

End S.
End Browse.

(** * v2.0: the rows of the loot table *)

Module LootRows20.
Import DictFacts ExecFacts Steps FrameSpec Frame JsonSpec JsonFacts MarketLookup.
Import V20 Spec20 Loot20 Handlers20.

Section S.
Context `{Builtins} `{Host}.

Ltac norm :=
  cbn [get_heap put_heap app_store heap files cfg_types_folders airdrop_path airdrop_data
       market_path market_data market_dirty cat container_names container_index
       current_container_key selected_loot_index var_container settings editor mvars notices
       set_heap set_files set_cfg_types_folders set_market_dirty set_cat set_index
       set_current_container_key set_selected_loot_index set_var_container set_settings
       set_editor set_notices].

Lemma dict_set_same {K V} `{EqDecision K} (d : list (K * V)) k v :
  dict_get d k = Some v → dict_set d k v = d.
Proof.
  induction d as [|[k' v'] d IH]; simpl; [done|].
  case_decide; [by intros [= ->]; subst|]. intros ?. by rewrite IH.
Qed.

(** X8.  [move_loot] of v2.0 on a selected row: when the neighbour in
    the given direction exists the two rows change places, and the
    handler ends with no row selected and the editor cleared; when it
    does not exist nothing changes. *)
Theorem move_loot_swaps (s : app) c d ll loot i a direction :
  selected s c d → dict_get d "Loot" = Some (VRef ll) →
  heap s !! ll = Some (OList loot) →
  selected_loot_index s = Some i → (0 ≤ i)%Z → loot !! Z.to_nat i = Some a →
  let j := (i + direction)%Z in
  ((j < 0 ∨ j >= Z.of_nat (length loot))%Z → move_loot direction s = Ret tt s) ∧
  ∀ b, (0 ≤ j)%Z → loot !! Z.to_nat j = Some b →
    ∃ s', move_loot direction s = Ret tt s' ∧
          heap s' = <[ll := OList (<[Z.to_nat j := a]> (<[Z.to_nat i := b]> loot))]> (heap s) ∧
          selected_loot_index s' = None ∧ editor s' = cleared_editor.
Proof.
  intros Hsel Hl Hll Hi Hi0 Ha j.
  pose proof Hsel as (key & info & Hk & Hkne & Hix & Hr & Hc & Hd).
  pose proof (lookup_lt_Some _ _ _ Hc). pose proof (lookup_lt_Some _ _ _ Hll).
  pose proof (lookup_lt_Some _ _ _ Ha).
  assert (c ≠ ll) by (intros ->; congruence).
  assert (move_loot direction s
          = (let! n := py_len (VRef ll) in
             if bool_decide (j < 0 ∨ j >= n)%Z then ret tt
             else
               let! at_j := py_index (VRef ll) j in
               let! at_i := py_index (VRef ll) i in
               py_setindex (VRef ll) i at_j ;;
               py_setindex (VRef ll) j at_i ;;
               py_setitem (VRef c) "Loot" (VRef ll) ;;
               modify (set_selected_loot_index (Some j)) ;;
               _load_loot_tree (VRef c)) s) as ->.
  { unfold move_loot.
    erewrite bind_step by (by eapply current_container_selected).
    unfold py_truthy at 1. rewrite !bind_gets, Hi. norm.
    rewrite (selected_truthy _ _ _ Hsel). cbn [negb].
    erewrite bind_step by (by eapply loot_list_spec). done. }
  split.
  - intros Hout.
    erewrite bind_step by (by eapply py_len_list).
    by rewrite bool_decide_true.
  - intros b Hj0 Hb. pose proof (lookup_lt_Some _ _ _ Hb).
    erewrite bind_step by (by eapply py_len_list).
    rewrite bool_decide_false by lia.
    erewrite bind_step by (eapply py_index_ok; [done|by apply Dropdown.getitem_nat]).
    erewrite bind_step by (eapply py_index_ok; [done|by apply Dropdown.getitem_nat]).
    erewrite bind_step by (eapply py_setindex_ok; [done|lia]).
    erewrite bind_step by (eapply py_setindex_ok; norm;
                           [lookup_tac|rewrite length_insert; lia]).
    norm. rewrite list_insert_insert_eq.
    erewrite bind_step by (eapply py_setitem_ok; norm; lookup_tac).
    norm. rewrite (dict_set_same d) by done.
    rewrite (list_insert_id _ c) by lookup_tac.
    rewrite bind_modify.
    erewrite load_loot_tree_spec; norm; [|lookup_tac..].
    eexists. split; [reflexivity|]. by norm.
Qed.

(** X9.  [remove_loot] of v2.0 deletes the selected row when the
    selection is a position of the list and deletes nothing otherwise;
    either way no row is selected afterwards and the editor is cleared. *)
Theorem remove_loot_deletes (s : app) c d ll loot i :
  selected s c d → dict_get d "Loot" = Some (VRef ll) →
  heap s !! ll = Some (OList loot) →
  selected_loot_index s = Some i →
  ∃ s', remove_loot s = Ret tt s' ∧
        heap s' = <[ll := OList (if bool_decide (0 ≤ i < Z.of_nat (length loot))%Z
                                 then delete (Z.to_nat i) loot else loot)]> (heap s) ∧
        selected_loot_index s' = None ∧ editor s' = cleared_editor.
Proof.
  intros Hsel Hl Hll Hi.
  pose proof Hsel as (key & info & Hk & Hkne & Hix & Hr & Hc & Hd).
  pose proof (lookup_lt_Some _ _ _ Hc). pose proof (lookup_lt_Some _ _ _ Hll).
  assert (c ≠ ll) by (intros ->; congruence).
  unfold remove_loot.
  erewrite bind_step by (by eapply current_container_selected).
  unfold py_truthy at 1. rewrite bind_gets. norm.
  rewrite (selected_truthy _ _ _ Hsel). cbn [negb].
  rewrite bind_gets, Hi.
  erewrite bind_step by (by eapply loot_list_spec). cbv beta iota.
  erewrite bind_step by (by eapply py_len_list).
  case_bool_decide as Hin.
  - erewrite bind_step.
    2: { eapply py_delitem_ok; [done|]. unfold delitem. by rewrite bool_decide_true. }
    norm.
    erewrite bind_step by (eapply py_setitem_ok; norm; lookup_tac).
    norm. rewrite (dict_set_same d) by done.
    rewrite (list_insert_id _ c) by lookup_tac.
    rewrite bind_modify. unfold _clear_loot_editor at 1. rewrite bind_modify.
    erewrite load_loot_tree_spec; norm; [|lookup_tac..].
    eexists. split; [reflexivity|]. by norm.
  - rewrite bind_ret.
    erewrite bind_step by (by eapply py_setitem_ok).
    norm. rewrite (dict_set_same d) by done.
    rewrite (list_insert_id _ c) by done.
    rewrite bind_modify. unfold _clear_loot_editor at 1. rewrite bind_modify.
    erewrite load_loot_tree_spec; norm; [|done..].
    eexists. split; [reflexivity|]. norm. by rewrite list_insert_id.
Qed.


End S.
End LootRows20.

(** * v2.0: the market category *)

Module Market20.
Import DictFacts ExecFacts Steps FrameSpec Frame JsonSpec JsonFacts MarketLookup.
Import V20 Spec20 MarketSpec Loot20 Handlers20 MarketEdit.
Local Open Scope nat_scope.

Section S.
Context `{Builtins} `{Host}.

Ltac norm :=
  cbn [get_heap put_heap app_store heap files cfg_types_folders airdrop_path airdrop_data
       market_path market_data market_dirty cat container_names container_index
       current_container_key selected_loot_index var_container settings editor mvars notices
       set_heap set_files set_cfg_types_folders set_market_dirty set_cat set_index
       set_current_container_key set_selected_loot_index set_var_container set_settings
       set_editor set_notices set_market].

(** A row reads the same in a store that keeps the old objects, the
    [Items] list apart. *)
Lemma row_matches_frame (h h' : list object) il xs xs' target row :
  h !! il = Some (OList xs) → h' !! il = Some (OList xs') →
  (∀ l, l < length h → l ≠ il → h' !! l = h !! l) →
  match row with
  | VRef l =>
      match h !! l with
      | Some (ODict rd) => ∃ c, dict_get_or rd "ClassName" (VStr "") = VStr c
      | Some (OList _) => True
      | None => False
      end
  | _ => True
  end →
  market_row_matches h' target row = market_row_matches h target row.
Proof.
  intros Hil Hil' Hold Hrow. unfold market_row_matches.
  destruct row as [| | | | |l]; try done. simpl.
  destruct (decide (l = il)) as [->|Hne]; [by rewrite Hil, Hil'|].
  destruct (h !! l) as [o|] eqn:Hl; [|done].
  rewrite Hold, Hl by (by apply lookup_lt_Some in Hl).
  destruct o as [rd|]; [|done]. destruct Hrow as [c ->]. done.
Qed.

(** X11.  Adding a classname that no row carries appends the row built
    from the form and marks the category as changed; the lookup then
    finds the classname at the last position, and removing it gives the
    list of rows there was. *)
Theorem market_add_then_remove (s : app) il items n :
  market_doc (heap s) (market_data s) il items →
  named_rows (heap s) items →
  find_index_by_class (heap s) (market_data s) n = None →
  let a := length (heap s) in
  ∃ s1, market_add_selected_from_types (Some n) s = Ret tt s1 ∧
        heap s1 !! il = Some (OList (items ++ [VRef (a + 2)])) ∧
        heap s1 !! (a + 2) = Some (ODict (market_entry n (mvars s) a (a + 1))) ∧
        market_dirty s1 = true ∧
        find_index_by_class (heap s1) (market_data s1) n = Some (length items) ∧
        ∃ s2, market_remove_selected (Some n) s1 = Ret tt s2 ∧
              heap s2 !! il = Some (OList items).
Proof.
  intros Hdoc Hrows Hnone a. pose proof Hdoc as (md & Hd & Hi & Hl).
  pose proof (lookup_lt_Some _ _ _ Hl) as Hillt.
  destruct (market_data s) as [| | | | |dl] eqn:Hmd; try done.
  simpl in Hd. destruct (heap s !! dl) as [[d0|]|] eqn:Hdl; try done.
  injection Hd as ->. pose proof (lookup_lt_Some _ _ _ Hdl) as Hdllt.
  assert (dl ≠ il) as Hne by (intros ->; congruence).
  unfold market_add_selected_from_types.
  rewrite bind_gets, Hmd. unfold py_is_dict at 1. rewrite bind_gets.
  unfold is_dict, as_dict. norm. rewrite Hdl. rewrite bool_decide_true by eauto.
  cbn [negb]. unfold _market_find_index_by_class. rewrite bind_gets, Hmd, Hnone.
  rewrite bind_gets.
  erewrite bind_step by apply py_new_ok. norm.
  erewrite bind_step by apply py_new_ok. norm.
  erewrite bind_step by apply py_new_ok. norm.
  erewrite bind_step by (eapply py_item_ok; norm; [lookup_tac|done]).
  erewrite bind_step by (eapply py_append_ok; norm; lookup_tac).
  unfold modify. norm.
  rewrite !length_app. cbn [length]. fold a.
  replace (a + 1 + 1) with (a + 2) by lia.
  set (h1 := <[il := _]> _).
  assert (length h1 = a + 3) as Hlen1.
  { unfold h1. rewrite length_insert, !length_app. simpl. fold a. lia. }
  assert (h1 !! il = Some (OList (items ++ [VRef (a + 2)]))) as Hil1.
  { unfold h1. rewrite list_lookup_insert_eq; [done|]. rewrite !length_app. simpl. lia. }
  assert (h1 !! dl = Some (ODict md)) as Hdl1.
  { unfold h1. rewrite list_lookup_insert_ne by done.
    by rewrite !lookup_app_l by (rewrite ?length_app; simpl; lia). }
  assert (h1 !! (a + 2) = Some (ODict (market_entry n (mvars s) a (a + 1)))) as He1.
  { unfold h1. rewrite list_lookup_insert_ne by (fold a; lia).
    replace (a + 2) with (length ((heap s ++ [OList []]) ++ [OList []]))
      by (rewrite !length_app; simpl; fold a; lia).
    by rewrite list_lookup_middle. }
  assert (∀ l, l < length (heap s) → l ≠ il → h1 !! l = heap s !! l) as Hold.
  { intros l Hlt Hlne. unfold h1. rewrite list_lookup_insert_ne by done.
    by rewrite !lookup_app_l by (rewrite ?length_app; simpl; lia). }
  set (s1 := set_market_dirty true (set_heap h1 s)).
  assert (market_doc (heap s1) (market_data s1) il (items ++ [VRef (a + 2)])) as Hdoc1.
  { exists md. unfold s1. norm. rewrite Hmd. simpl. rewrite Hdl1. by split_and!. }
  assert (find_index_by_class (heap s1) (market_data s1) n = Some (length items)) as Hfind.
  { apply (find_index_first _ _ _ _ _ _ Hdoc1). split.
    - exists (VRef (a + 2)). split; [by rewrite list_lookup_middle|].
      unfold market_row_matches, s1. norm. simpl. rewrite He1.
      apply bool_decide_eq_true. done.
    - intros j row Hj Hlt. rewrite lookup_app_l in Hj by done.
      unfold s1. norm.
      erewrite row_matches_frame; [|exact Hl|exact Hil1|exact Hold|].
      + rewrite (find_index_unfold _ _ _ _ _ Hdoc) in Hnone.
        destruct (list_find _ items) as [[? ?]|] eqn:Hlf; [done|].
        apply list_find_None in Hlf. eapply Forall_lookup_1 in Hlf; [|done].
        by destruct (market_row_matches (heap s) (str_lower n) row).
      + eapply Forall_lookup_1 in Hrows; [|done]. done. }
  exists s1. split_and!; [done..|].
  erewrite remove_first_match by done. eexists. split; [reflexivity|].
  unfold s1. norm. rewrite list_lookup_insert_eq by lia.
  rewrite delete_middle. by rewrite app_nil_r.
Qed.

(** X12.  A category whose [Items] is no list (a file with
    ["Items": null] loads) has no row for any classname, and adding to
    it raises: the handler ends without a message, the category is not
    marked as changed and no object there was is touched. *)
Theorem market_add_needs_items_list (s : app) dl md v n :
  market_data s = VRef dl → heap s !! dl = Some (ODict md) →
  dict_get md "Items" = Some v → is_list (heap s) v = false →
  (∀ l, v = VRef l → l < length (heap s)) →
  let out := market_add_selected_from_types (Some n) s in
  find_index_by_class (heap s) (market_data s) n = None ∧
  returned out = false ∧
  market_dirty (final out) = market_dirty s ∧ notices (final out) = notices s ∧
  market_data (final out) = market_data s ∧
  ∀ l, l < length (heap s) → heap (final out) !! l = heap s !! l.
Proof.
  intros Hmd Hdl Hi Hv Hold.
  assert (find_index_by_class (heap s) (market_data s) n = None) as Hnone.
  { unfold find_index_by_class. rewrite Hmd. simpl. rewrite Hdl. simpl.
    unfold market_items, dict_get_or. rewrite Hi. simpl.
    destruct (truthy (heap s) v); [|done].
    unfold is_list in Hv. apply bool_decide_eq_false in Hv.
    destruct (as_list (heap s) v) eqn:E; [|done]. destruct Hv. eauto. }
  cbv zeta. split; [done|].
  pose proof (lookup_lt_Some _ _ _ Hdl) as Hdllt.
  assert (∃ ext, market_add_selected_from_types (Some n) s
                 = Exn (set_heap (heap s ++ ext) s)) as [ext ->].
  { eexists. unfold market_add_selected_from_types.
    rewrite bind_gets, Hmd. unfold py_is_dict at 1. rewrite bind_gets.
    unfold is_dict, as_dict. norm. rewrite Hdl. rewrite bool_decide_true by eauto.
    cbn [negb]. unfold _market_find_index_by_class. rewrite bind_gets.
    rewrite Hnone. rewrite bind_gets.
    erewrite bind_step by apply py_new_ok. norm.
    erewrite bind_step by apply py_new_ok. norm.
    erewrite bind_step by apply py_new_ok. norm.
    erewrite bind_step by (eapply py_item_ok; norm; [lookup_tac|done]).
    match goal with |- bind (py_append v ?e) ?k ?x = _ =>
      assert (py_append v e x = Exn x) as Happ end.
    { unfold py_append. destruct v as [| | | | |l]; try done.
      unfold bind, py_list_of, as_list. norm.
      pose proof (Hold l eq_refl).
      rewrite !lookup_app_l by (rewrite ?length_app; simpl; lia).
      unfold is_list, as_list in Hv. apply bool_decide_eq_false in Hv.
      destruct (heap s !! l) as [[?|?]|] eqn:E; try done. destruct Hv. eauto. }
    unfold bind at 1. rewrite Happ. rewrite <-!app_assoc. reflexivity. }
  simpl. split_and!; try done.
  intros l Hl. by rewrite lookup_app_l.
Qed.

End S.
End Market20.

(** * What a loaded document looks like in the store *)

Module Loaded.
Import DictFacts ExecFacts Steps JsonSpec JsonFacts.
Local Open Scope nat_scope.

(** The members of a loaded object carry the keys of the tree. *)
Lemma loads_members_keys kvs : ∀ h : list object, (loads_members kvs h).2.*1 = kvs.*1.
Proof.
  induction kvs as [|kv kvs IH]; intros h; [done|]. simpl.
  destruct (loads kv.2 h) as [h1 v]. specialize (IH h1).
  destruct (loads_members kvs h1) as [h2 d]. simpl in *. f_equal. exact IH.
Qed.

Lemma dict_get_is_Some {V} (d : list (string * V)) k : is_Some (dict_get d k) ↔ k ∈ d.*1.
Proof.
  destruct (dict_get d k) eqn:E.
  - split; [|eauto]. intros _. destruct (decide (k ∈ d.*1)) as [|Hn]; [done|].
    apply dict_get_None in Hn. congruence.
  - apply dict_get_None in E. split; [by intros [? [=]]|done].
Qed.

Lemma loads_members_mem kvs (h : list object) k :
  is_Some (dict_get (loads_members kvs h).2 k) ↔ is_Some (dict_get kvs k).
Proof. by rewrite !dict_get_is_Some, loads_members_keys. Qed.

(** The value of a member is what [loads] makes of the member's tree,
    in a store between the one before and the one after. *)
Lemma loads_members_get kvs : ∀ (h : list object) k j,
  dict_get kvs k = Some j →
  ∃ h0 e0 e1, dict_get (loads_members kvs h).2 k = Some (loads j h0).2 ∧
              h0 = h ++ e0 ∧ (loads_members kvs h).1 = (loads j h0).1 ++ e1.
Proof.
  induction kvs as [|[k0 j0] kvs IH]; intros h k j; [done|]. simpl.
  destruct (decide (k0 = k)) as [->|Hne].
  - intros [= ->]. exists h, []. destruct (loads j h) as [h1 v] eqn:E1.
    destruct (loads_members_extends kvs h1) as [e He].
    destruct (loads_members kvs h1) as [h2 d]. simpl in *. subst h2.
    exists e. rewrite decide_True by done. by rewrite app_nil_r.
  - intros Hk. destruct (loads_extends j0 h) as [e1 He1].
    destruct (loads j0 h) as [h1 v] eqn:E1. simpl in He1. subst h1.
    destruct (IH (h ++ e1) k j Hk) as (h0 & e0 & e2 & Hg & -> & He).
    destruct (loads_members kvs (h ++ e1)) as [h2 d]. simpl in *.
    exists ((h ++ e1) ++ e0), (e1 ++ e0), e2. rewrite decide_False by done.
    split_and!; [done|by rewrite app_assoc|done].
Qed.

(** A loaded array has an element for each element of the tree. *)
Lemma loads_list_length xs : ∀ h : list object, length (loads_list xs h).2 = length xs.
Proof.
  induction xs as [|x xs IH]; intros h; [done|]. simpl.
  destruct (loads x h) as [h1 v]. specialize (IH h1).
  destruct (loads_list xs h1) as [h2 vs]. simpl in *. by f_equal.
Qed.

(** Only an object loads to a dict. *)
Lemma loads_as_dict j (h : list object) :
  as_dict (loads j h).1 (loads j h).2
  = match j with
    | JObj kvs => Some (loads_members kvs h).2
    | _ => None
    end.
Proof.
  destruct j; try done.
  - rewrite loads_arr. destruct (loads_list xs h) as [h1 vs]. simpl.
    by rewrite list_lookup_middle.
  - rewrite loads_obj. destruct (loads_members kvs h) as [h1 d]. simpl.
    by rewrite list_lookup_middle.
Qed.

(** Where the list of a loaded array is. *)
Lemma loads_arr_at xs (h : list object) :
  ∃ l, (loads (JArr xs) h).2 = VRef l ∧
       (loads (JArr xs) h).1 !! l = Some (OList (loads_list xs h).2).
Proof.
  rewrite loads_arr. destruct (loads_list xs h) as [h1 vs]. simpl.
  exists (length h1). by rewrite list_lookup_middle.
Qed.

End Loaded.

(** * v2.0: loading files *)

Module Load20.
Import DictFacts ExecFacts Steps FrameSpec Frame JsonSpec JsonFacts MarketLookup Loaded.
Import V20 Spec20 MarketSpec Loot20 Handlers20.
Local Open Scope nat_scope.

Section S.
Context `{Builtins} `{Host}.

Ltac norm :=
  cbn [get_heap put_heap app_store heap files cfg_types_folders airdrop_path airdrop_data
       market_path market_data market_dirty cat container_names container_index
       current_container_key selected_loot_index var_container settings editor mvars notices
       set_heap set_files set_cfg_types_folders set_market_dirty set_cat set_index
       set_current_container_key set_selected_loot_index set_var_container set_settings
       set_editor set_notices set_market].

Lemma set_heap_same (s : app) : set_heap (heap s) s = s.
Proof. by destruct s. Qed.

(** X13.  [_load_market_path] on a file that holds an object with an
    [Items] member: the category in the store reads back as the file's
    tree, the path is recorded and the category counts as unchanged; no
    object there was is touched; and when [Items] is an array, its rows
    are the list the market handlers work on. *)
Theorem load_market_reads (s : app) path silent j :
  fs_read_json (files s) path = Some j → market_file_ok j →
  ∃ s', _load_market_path path silent s = Ret tt s' ∧
        market_path s' = path ∧ market_dirty s' = false ∧
        json_dumps (heap s') (market_data s') = Some j ∧
        (∃ ext, heap s' = heap s ++ ext) ∧
        notices s' = notices s ++ (if silent then [] else [Notice Info "Market Loaded"]) ∧
        ∀ kvs rows, j = JObj kvs → dict_get kvs "Items" = Some (JArr rows) →
          ∃ il items, market_doc (heap s') (market_data s') il items ∧
                      length items = length rows.
Proof.
  intros Hread (kvs & -> & Hitems).
  pose proof (loads_as_dict (JObj kvs) (heap s)) as Hdict.
  pose proof (dumps_loads (JObj kvs) (heap s)) as Hdumps.
  pose proof (loads_extends (JObj kvs) (heap s)) as [ext Hext].
  destruct (loads (JObj kvs) (heap s)) as [h' v] eqn:Hloads. simpl in Hdict, Hdumps, Hext.
  assert (∃ r, v = VRef r ∧ h' !! r = Some (ODict (loads_members kvs (heap s)).2))
    as (r & -> & Hr).
  { destruct v as [| | | | |r]; try done. exists r. split; [done|].
    simpl in Hdict. by destruct (h' !! r) as [[?|?]|]; simplify_eq. }
  assert (_load_market_path path silent s
          = Ret tt (set_notices (notices s ++ (if silent then []
                                               else [Notice Info "Market Loaded"]))
                      (set_market (VRef r) path false (set_heap h' s)))) as ->.
  { unfold _load_market_path, try_except.
    rewrite bind_gets, Hread. unfold lift at 1. rewrite bind_ret.
    unfold bind at 1. rewrite Hloads.
    unfold py_is_dict at 1. rewrite bind_gets. unfold is_dict. norm. rewrite Hdict.
    rewrite bool_decide_true by eauto. cbn [negb].
    rewrite bind_bind.
    erewrite bind_step by (eapply py_has_ok; norm; eauto).
    unfold dict_mem. rewrite bool_decide_true by (by apply loads_members_mem).
    rewrite bind_ret, bind_modify.
    destruct silent; [|done]. unfold ret, set_market, set_notices. norm.
    by rewrite app_nil_r. }
  eexists. split; [reflexivity|]. norm. split_and!; [done..|eauto|done|].
  intros kvs' rows [= <-] Hrows.
  destruct (loads_members_get kvs (heap s) "Items" (JArr rows) Hrows)
    as (h0 & e0 & e1 & Hget & -> & Hh1).
  destruct (loads_arr_at rows (heap s ++ e0)) as (il & Hil & Hlist).
  rewrite loads_obj in Hloads.
  destruct (loads_members kvs (heap s)) as [h1 d] eqn:Hm. simpl in *.
  injection Hloads as <- <-.
  exists il, (loads_list rows (heap s ++ e0)).2. split; [|apply loads_list_length].
  exists d. split_and!.
  - simpl. by rewrite list_lookup_middle.
  - by rewrite Hget, Hil.
  - rewrite Hh1. rewrite <-app_assoc. by apply lookup_app_l_Some.
Qed.

(** X14.  [_load_market_path] on a file that cannot be read, or that
    holds anything but an object with an [Items] member, keeps the
    category, its path and its changed mark as they were, and shows
    "Market Load Error" unless it was told to be silent. *)
Theorem load_market_rejects (s : app) path silent :
  (∀ j, fs_read_json (files s) path = Some j → ¬ market_file_ok j) →
  ∃ s', _load_market_path path silent s = Ret tt s' ∧
        market_data s' = market_data s ∧ market_path s' = market_path s ∧
        market_dirty s' = market_dirty s ∧
        (∃ ext, heap s' = heap s ++ ext) ∧
        notices s' = notices s ++ (if silent then []
                                   else [Notice Error "Market Load Error"]).
Proof.
  intros Hbad.
  assert (∀ x : app,
            (if silent then ret tt else notify Error "Market Load Error") x
            = Ret tt (set_notices (notices x ++ (if silent then []
                                                 else [Notice Error "Market Load Error"])) x))
    as Hhandler.
  { intros x. destruct silent; [|done]. unfold ret. f_equal. destruct x; simpl.
    by rewrite app_nil_r. }
  assert (∃ ext, _load_market_path path silent s
                 = Ret tt (set_notices (notices s ++ (if silent then []
                                              else [Notice Error "Market Load Error"]))
                             (set_heap (heap s ++ ext) s))) as [ext ->].
  { unfold _load_market_path, try_except.
    rewrite bind_gets. destruct (fs_read_json (files s) path) as [j|] eqn:Hread.
    - specialize (Hbad j eq_refl). unfold lift at 1. rewrite bind_ret.
      pose proof (loads_as_dict j (heap s)) as Hdict.
      pose proof (loads_extends j (heap s)) as [ext Hext].
      destruct (loads j (heap s)) as [h' v] eqn:Hloads. simpl in Hdict, Hext. subst h'.
      exists ext. unfold bind at 1. rewrite Hloads.
      unfold py_is_dict at 1. rewrite bind_gets. unfold is_dict. norm. rewrite Hdict.
      destruct j as [| | | | | |kvs];
        try (rewrite bool_decide_false by (by intros [? [=]]); cbn [negb];
             unfold bind at 1, raise; by rewrite Hhandler).
      rewrite bool_decide_true by eauto. cbn [negb].
      assert (∃ r, v = VRef r ∧
                   (heap s ++ ext) !! r = Some (ODict (loads_members kvs (heap s)).2))
        as (r & -> & Hr).
      { destruct v as [| | | | |r]; try done. exists r. split; [done|].
        simpl in Hdict. by destruct ((heap s ++ ext) !! r) as [[?|?]|]; simplify_eq. }
      rewrite bind_bind.
      erewrite bind_step by (eapply py_has_ok; norm; eauto).
      unfold dict_mem. rewrite bool_decide_false.
      + unfold bind at 1, raise. by rewrite Hhandler.
      + intros Hmem%loads_members_mem. apply Hbad. by exists kvs.
    - exists []. unfold lift at 1. unfold bind at 1, raise. rewrite Hhandler.
      by rewrite app_nil_r, (set_heap_same s). }
  eexists. split; [reflexivity|]. norm. split_and!; eauto.
Qed.

End S.
End Load20.

(** * v2.0: saving the market category *)

Module MarketFiles20.
Import DictFacts ExecFacts Steps FrameSpec Frame JsonSpec JsonFacts MarketLookup Loaded.
Import V20 Spec20 MarketSpec Loot20 Handlers20 Load20.
Local Open Scope nat_scope.

Section S.
Context `{Builtins} `{Host}.

Ltac norm :=
  cbn [get_heap put_heap app_store heap files cfg_types_folders airdrop_path airdrop_data
       market_path market_data market_dirty cat container_names container_index
       current_container_key selected_loot_index var_container settings editor mvars notices
       set_heap set_files set_cfg_types_folders set_market_dirty set_cat set_index
       set_current_container_key set_selected_loot_index set_var_container set_settings
       set_editor set_notices set_market].

(** [save_market] on a category with a path goes to the write. *)
Lemma save_market_with_path (s : app) save_as isfile ts :
  is_dict (heap s) (market_data s) = true → market_path s ≠ "" →
  save_market_with save_as isfile ts s = write_market isfile ts s.
Proof.
  intros Hd Hp. unfold save_market_with.
  rewrite bind_gets. unfold py_is_dict at 1. rewrite bind_gets. norm. rewrite Hd. cbn [negb].
  rewrite bind_gets. by rewrite bool_decide_false.
Qed.

(** The write, when the file can be opened and written. *)
Lemma write_market_ok (s : app) (isfile : bool) ts j d2 d3 :
  let path := market_path s in
  let d1 := if isfile then (fs_copy2 (files s) path (path ++ ".bak_" ++ ts)).1
            else files s in
  fs_open_w d1 path = Some d2 →
  json_dumps (heap s) (market_data s) = Some j →
  fs_write d2 path (json_text j) = (d3, true) →
  write_market isfile ts s
  = Ret tt (set_notices (notices s ++ [Notice Info "Market Saved"])
              (set_market_dirty false (set_files d3 s))).
Proof.
  intros path d1 Hopen Hdump Hwrite. unfold write_market.
  rewrite !bind_gets. fold path.
  assert ((if isfile
           then let! _ := copy_file path (path ++ ".bak_" ++ ts) in ret tt
           else ret tt) s = Ret tt (set_files d1 s)) as Hbak.
  { unfold d1. destruct isfile.
    - unfold bind, copy_file. by destruct (fs_copy2 _ _ _).
    - unfold ret. by destruct s. }
  erewrite bind_step by exact Hbak.
  unfold bind at 1, write_json. norm. rewrite Hopen, Hdump, Hwrite.
  by unfold notify, modify.
Qed.

(** The write, when the file cannot be opened. *)
Lemma write_market_locked (s : app) ts :
  fs_open_w (files s) (market_path s) = None →
  write_market false ts s
  = Ret tt (set_notices (notices s ++ [Notice Error "Market Save Error"]) s).
Proof.
  intros Hopen. unfold write_market. rewrite !bind_gets, bind_ret.
  unfold bind at 1, write_json. by rewrite Hopen.
Qed.

(** X15.  [save_market] on a category that has a path writes it there
    without asking for a name.  A backup is attempted only when the
    file exists, and whether it succeeds does not matter: when the file
    can be opened and written it holds the category's text afterwards,
    the category counts as unchanged and "Market Saved" is shown. *)
Theorem save_market_writes (s : app) dialog (isfile : bool) ts j d2 d3 :
  is_dict (heap s) (market_data s) = true → market_path s ≠ "" →
  let path := market_path s in
  let d1 := if isfile then (fs_copy2 (files s) path (path ++ ".bak_" ++ ts)).1
            else files s in
  fs_open_w d1 path = Some d2 →
  json_dumps (heap s) (market_data s) = Some j →
  fs_write d2 path (json_text j) = (d3, true) →
  save_market dialog isfile ts s
  = Ret tt (set_notices (notices s ++ [Notice Info "Market Saved"])
              (set_market_dirty false (set_files d3 s))).
Proof.
  intros Hd Hp path d1 Hopen Hdump Hwrite. unfold save_market.
  rewrite save_market_with_path by done. by eapply write_market_ok.
Qed.

(** X16.  A category made by [new_market] is the empty category with
    the display name given, has no path and counts as changed.  Saving
    it asks for a name: when the dialog is cancelled nothing happens;
    when a name is given it becomes the path before the write is tried,
    so that it stays the path when the file cannot be opened, the
    category still counting as changed; and when the file is written
    it holds the category's text and the category counts as unchanged. *)
Theorem new_market_save_as (s : app) display hint p ts :
  p ≠ "" →
  let s1 := final (new_market (Some display) (Some hint) s) in
  market_path s1 = "" ∧ market_dirty s1 = true ∧
  json_dumps (heap s1) (market_data s1) = Some (new_category display) ∧
  save_market None false ts s1 = Ret tt s1 ∧
  (fs_open_w (files s) p = None →
   ∃ s2, save_market (Some p) false ts s1 = Ret tt s2 ∧
         market_path s2 = p ∧ market_dirty s2 = true ∧ files s2 = files s ∧
         notices s2 = notices s ++ [Notice Error "Market Save Error"]) ∧
  (∀ d2 d3, fs_open_w (files s) p = Some d2 →
            fs_write d2 p (json_text (new_category display)) = (d3, true) →
            ∃ s2, save_market (Some p) false ts s1 = Ret tt s2 ∧
                  market_path s2 = p ∧ market_dirty s2 = false ∧ files s2 = d3 ∧
                  notices s2 = notices s ++ [Notice Info "Market Saved"]).
Proof.
  intros Hp s1.
  set (n := length (heap s)).
  assert (s1 = set_market (VRef (n + 1)) "" true
                 (set_heap (heap s ++ [OList []; ODict [
                     ("m_Version", VInt 3); ("DisplayName", VStr display);
                     ("Icon", VStr "Deliver"); ("Color", VStr "FBFCFEFF");
                     ("IsExchange", VBool false); ("InitStockPercent", VFloat 75%float);
                     ("Items", VRef n)]]) s)) as Hs1.
  { unfold s1, new_market.
    erewrite bind_step by apply py_new_ok. norm.
    erewrite bind_step by apply py_new_ok. norm.
    unfold modify. simpl. rewrite length_app. simpl. fold n.
    by rewrite <-app_assoc. }
  clearbody s1.
  assert (heap s1 !! n = Some (OList [])) as Hn.
  { rewrite Hs1. norm. by rewrite list_lookup_middle. }
  assert (heap s1 !! (n + 1) = Some (ODict [
            ("m_Version", VInt 3); ("DisplayName", VStr display);
            ("Icon", VStr "Deliver"); ("Color", VStr "FBFCFEFF");
            ("IsExchange", VBool false); ("InitStockPercent", VFloat 75%float);
            ("Items", VRef n)])) as Hd.
  { rewrite Hs1. norm. rewrite lookup_app_r by (fold n; lia). fold n.
    by replace (n + 1 - n) with 1 by lia. }
  assert (market_data s1 = VRef (n + 1)) as Hdata by by rewrite Hs1.
  assert (market_path s1 = "") as Hpath by by rewrite Hs1.
  assert (market_dirty s1 = true) as Hdirty by by rewrite Hs1.
  assert (is_dict (heap s1) (market_data s1) = true) as Hisd.
  { unfold is_dict. rewrite Hdata. simpl. rewrite Hd. by apply bool_decide_eq_true. }
  assert (json_dumps (heap s1) (market_data s1) = Some (new_category display)) as Hdump.
  { unfold json_dumps. rewrite Hdata.
    assert (length (heap s1) = S (S n)) as -> by (rewrite Hs1; norm; rewrite length_app; simpl; fold n; lia).
    cbn [dumps_fuel]. rewrite Hd. cbn [mapM fmap option_fmap option_map dumps_fuel fst snd mbind option_bind mret option_ret].
    rewrite Hn. done. }
  assert (∀ path : option string,
            save_market path false ts s1
            = match path with
              | Some q => if bool_decide (q = "") then Ret tt s1
                          else write_market false ts (set_market (market_data s1) q true s1)
              | None => Ret tt s1
              end) as Hsave.
  { intros path. unfold save_market, save_market_with at 1.
    rewrite bind_gets. unfold py_is_dict at 1. rewrite bind_gets. norm. rewrite Hisd. cbn [negb].
    rewrite bind_gets, Hpath. rewrite bool_decide_true by done.
    unfold save_market_as.
    rewrite bind_gets. unfold py_is_dict at 1. rewrite bind_gets. norm. rewrite Hisd. cbn [negb].
    destruct path as [q|]; [|done]. case_bool_decide; [done|].
    rewrite bind_modify, Hdirty. by apply save_market_with_path. }
  split_and!; [done..|by rewrite Hsave| |].
  - intros Hopen. rewrite Hsave, bool_decide_false by done.
    rewrite write_market_locked by (norm; by rewrite Hs1).
    eexists. split; [reflexivity|]. norm. by rewrite Hs1.
  - intros d2 d3 Hopen Hwrite. rewrite Hsave, bool_decide_false by done.
    erewrite write_market_ok; norm.
    + eexists. split; [reflexivity|]. norm. by rewrite Hs1.
    + by rewrite Hs1.
    + by rewrite Hs1 in Hdump |- *.
    + done.
Qed.

End S.
End MarketFiles20.

(** * Serialising from a store that has grown *)

Module JsonGrow.
Import JsonSpec JsonFacts JsonFrame.
Local Open Scope nat_scope.

(** What serialises in a store serialises to the same tree once
    objects have been added. *)
Lemma dumps_fuel_extend fuel : ∀ (h ext : list object) v j,
  dumps_fuel fuel h v = Some j → dumps_fuel fuel (h ++ ext) v = Some j.
Proof.
  induction fuel as [|k IH]; intros h ext v j Hd.
  - destruct v; done.
  - destruct v as [| | | | |l]; try done.
    rewrite dumps_ref in Hd |- *.
    destruct (h !! l) as [o|] eqn:Hl; [|done].
    rewrite (lookup_app_l_Some _ _ _ _ Hl).
    destruct o as [d|xs].
    + destruct (mapM _ d) as [kvs|] eqn:E; [|done]. simpl in Hd.
      injection Hd as <-. apply mapM_Some in E.
      erewrite (proj2 (mapM_Some _ _ _)); [done|].
      eapply Forall2_impl; [exact E|]. intros [k1 v1] kj. simpl.
      destruct (dumps_fuel k h v1) as [j1|] eqn:E1; [|done].
      by rewrite (IH h ext v1 j1).
    + destruct (mapM _ xs) as [ys|] eqn:E; [|done]. simpl in Hd.
      injection Hd as <-. apply mapM_Some in E.
      erewrite (proj2 (mapM_Some _ _ _)); [done|].
      eapply Forall2_impl; [exact E|]. intros v1 j1 E1. by apply IH.
Qed.

Lemma json_dumps_extend (h ext : list object) v j :
  json_dumps h v = Some j → json_dumps (h ++ ext) v = Some j.
Proof.
  unfold json_dumps. intros Hd. apply dumps_fuel_extend.
  eapply dumps_fuel_mono; [|done]. rewrite length_app. lia.
Qed.

End JsonGrow.

(** * v1.8: the loot of the selected container *)

Module LootOps18.
Import DictFacts ExecFacts Steps FrameSpec Frame JsonSpec JsonFacts JsonFrame JsonGrow Loaded.
Import V18 Spec18 EntrySpec Pending Removal Dropdown Handlers18 Loot18.
Local Open Scope nat_scope.

Section S.
Context `{Builtins} `{Host}.

Ltac norm :=
  cbn [get_heap put_heap app_store heap files airdrop_path airdrop_data cat
       container_names current_container_index selected_loot_index
       pending_container_settings var_container settings editor notices
       set_heap set_files set_cat set_container_names set_current_container_index
       set_selected_loot_index set_pending_container_settings set_var_container
       set_settings set_editor set_notices].

(** The start every loot handler shares: the selected container is
    looked up and its [Loot] list measured. *)
Lemma loot_head (s : app) r cl locs idx l d ll loot {A} (K : value → Z → M app A) :
  doc (heap s) (airdrop_data s) r cl locs →
  current_loot s locs idx l d ll loot →
  (let! dflt := py_new (OList []) in
   let! loot := py_get (VRef l) "Loot" dflt in
   let! n := py_len loot in K loot n) s
  = K (VRef ll) (Z.of_nat (length loot)) (set_heap (heap s ++ [OList []]) s).
Proof.
  intros Hdoc (Hcur & Hidx & Hl & Hd & Hloot & Hll).
  pose proof (lookup_lt_Some _ _ _ Hd). pose proof (lookup_lt_Some _ _ _ Hll).
  erewrite bind_step by apply py_new_ok. norm.
  erewrite bind_step by (eapply py_get_ok; norm; by rewrite lookup_app_l).
  unfold dict_get_or. rewrite Hloot. cbn [default from_option id].
  by erewrite bind_step by (eapply py_len_list; norm; by rewrite lookup_app_l).
Qed.

Lemma current_loot_extend (s : app) locs idx l d ll loot ext :
  current_loot s locs idx l d ll loot →
  current_loot (set_heap (heap s ++ ext) s) locs idx l d ll loot.
Proof.
  intros (Hcur & Hidx & Hl & Hd & Hloot & Hll). split_and!; try done; norm;
    by apply lookup_app_l_Some.
Qed.

(** Writing onto a container keeps the shape of the document. *)
Lemma doc_dict_write h data r cl locs l d d' :
  doc h data r cl locs → l ∈ locs → h !! l = Some (ODict d) →
  doc (<[l := ODict d']> h) data r cl locs.
Proof.
  intros (Hdata & Hroot & Hcl & Hd & Hr) Hin Hl. subst data. simpl in Hroot.
  destruct (h !! r) as [[dr|]|] eqn:Hhr; try done.
  assert (l ≠ r) by (by intros ->).
  assert (l ≠ cl) by (intros ->; congruence).
  split_and!; [done| | | |done].
  - simpl. by rewrite list_lookup_insert_ne, Hhr.
  - by rewrite list_lookup_insert_ne.
  - eapply Forall_impl; [exact Hd|]. intros l' Hl'. unfold is_dict in *.
    apply bool_decide_eq_true in Hl' as [d'' Hl']. apply bool_decide_eq_true.
    simpl in *. destruct (h !! l') as [[d0|]|] eqn:Hhl; try done.
    destruct (decide (l = l')) as [->|?].
    + rewrite list_lookup_insert_eq by (by eapply lookup_lt_Some). eauto.
    + rewrite list_lookup_insert_ne by done. rewrite Hhl. eauto.
Qed.

(** X17.  [remove_selected_loot] of v1.8 deletes the selected entry
    from the container's [Loot] and clears the selection and the
    editor; a selection that is no position of the list makes it
    return at once.  Nothing else that was in the store changes. *)
Theorem remove_selected_loot_deletes (s : app) r cl locs idx l d ll loot i :
  doc (heap s) (airdrop_data s) r cl locs →
  current_loot s locs idx l d ll loot → ll ≠ cl →
  selected_loot_index s = Some i →
  ∃ s', remove_selected_loot s = Ret tt s' ∧
        (∀ j, j < length (heap s) → j ≠ ll → heap s' !! j = heap s !! j) ∧
        if bool_decide (0 ≤ i < Z.of_nat (length loot))%Z
        then heap s' !! ll = Some (OList (delete (Z.to_nat i) loot)) ∧
             selected_loot_index s' = None ∧ editor s' = cleared_editor
        else heap s' !! ll = Some (OList loot) ∧
             selected_loot_index s' = Some i ∧ editor s' = editor s.
Proof.
  intros Hdoc Hcl Hne Hsel. pose proof Hcl as (Hcur & Hidx & Hl & Hd & Hloot & Hll).
  pose proof (lookup_lt_Some _ _ _ Hd). pose proof (lookup_lt_Some _ _ _ Hll).
  assert (l ≠ ll) by (intros ->; congruence).
  unfold remove_selected_loot.
  erewrite bind_step by (by eapply current_container_spec).
  unfold py_truthy at 1. rewrite !bind_gets, Hsel. norm.
  rewrite (dict_truthy _ _ _ _ _ Hd Hloot). cbn [negb].
  erewrite loot_head by done.
  case_bool_decide as Hout.
  - rewrite bool_decide_false by lia.
    eexists. split; [reflexivity|]. norm. split_and!; [|by apply lookup_app_l_Some|done..].
    intros j Hj _. by rewrite lookup_app_l.
  - rewrite bool_decide_true by lia.
    erewrite bind_step.
    2: { eapply py_delitem_ok; [norm; by rewrite lookup_app_l|].
         unfold delitem. rewrite bool_decide_true by lia. done. }
    norm. rewrite bind_modify. unfold _clear_editor at 1. rewrite bind_modify.
    erewrite refresh_spec; norm.
    + eexists. split; [reflexivity|]. norm. split_and!; [|lookup_tac|done..].
      intros j Hj Hjl. lookup_tac.
    + eapply doc_list_write; [by apply doc_extend|done|by apply lookup_app_l_Some].
    + done.
    + done.
    + done.
    + lookup_tac.
    + done.
    + lookup_tac.
Qed.

(** X18.  [clear_current_loot] of v1.8: when the question is answered
    no, nothing changes.  When it is answered yes, the container gets a
    new empty list for its [Loot]; the list it had, and every other
    object, is left as it was. *)
Theorem clear_current_loot_replaces (s : app) r cl locs idx l d ll loot :
  doc (heap s) (airdrop_data s) r cl locs →
  current_loot s locs idx l d ll loot →
  clear_current_loot false s = Ret tt s ∧
  ∃ s' e, clear_current_loot true s = Ret tt s' ∧ length (heap s) ≤ e ∧
          heap s' !! l = Some (ODict (dict_set d "Loot" (VRef e))) ∧
          heap s' !! e = Some (OList []) ∧
          (∀ j, j < length (heap s) → j ≠ l → heap s' !! j = heap s !! j) ∧
          selected_loot_index s' = None ∧ editor s' = cleared_editor.
Proof.
  intros Hdoc Hcl. pose proof Hcl as (Hcur & Hidx & Hl & Hd & Hloot & Hll).
  pose proof (lookup_lt_Some _ _ _ Hd). pose proof (lookup_lt_Some _ _ _ Hll).
  pose proof Hdoc as (Hdata & Hroot & Hcl' & Hds & Hr).
  assert (l ≠ cl) by (intros ->; congruence).
  assert (l ≠ r) by (intros ->; apply Hr; by eapply list_elem_of_lookup_2).
  unfold clear_current_loot. split.
  - erewrite bind_step by (by eapply current_container_spec).
    unfold py_truthy at 1. rewrite !bind_gets. norm.
    by rewrite (dict_truthy _ _ _ _ _ Hd Hloot).
  - erewrite bind_step by (by eapply current_container_spec).
    unfold py_truthy at 1. rewrite !bind_gets. norm.
    rewrite (dict_truthy _ _ _ _ _ Hd Hloot). cbn [negb].
    erewrite bind_step by apply py_new_ok. norm.
    erewrite bind_step by (eapply py_setitem_ok; norm; by rewrite lookup_app_l).
    norm. rewrite bind_modify. unfold _clear_editor at 1. rewrite bind_modify.
    erewrite refresh_spec; norm.
    + eexists _, (length (heap s)). split; [reflexivity|]. norm.
      split_and!; [done|lookup_tac| |intros j Hj Hjl; lookup_tac|done..].
      rewrite lookup_app_l by len_tac.
      rewrite list_lookup_insert_ne by (pose proof (lookup_lt_Some _ _ _ Hd); lia).
      by rewrite list_lookup_middle.
    + eapply doc_dict_write; [by apply doc_extend|by eapply list_elem_of_lookup_2|].
      by apply lookup_app_l_Some.
    + done.
    + done.
    + done.
    + lookup_tac.
    + apply dict_get_set_eq.
    + rewrite list_lookup_insert_ne by lia. by rewrite list_lookup_middle.
Qed.

(** X19.  [apply_editor_to_selected] of v1.8 writes nothing when the
    name is blank, which it reports as "Invalid Name", and nothing
    when the name is not among the loaded classnames and "Save
    anyway?" is answered no. *)
Theorem apply_editor_refuses (s : app) r cl locs idx l d ll loot i confirm :
  doc (heap s) (airdrop_data s) r cl locs →
  current_loot s locs idx l d ll loot →
  selected_loot_index s = Some i → (0 ≤ i < Z.of_nat (length loot))%Z →
  let name := str_strip (var_name (editor s)) in
  (name = "" →
   apply_editor_to_selected confirm s
   = Ret tt (set_notices (notices s ++ [Notice Warning "Invalid Name"])
               (set_heap (heap s ++ [OList []]) s))) ∧
  (name ≠ "" → item_meta (cat s) ≠ [] → dict_get (item_meta (cat s)) name = None →
   apply_editor_to_selected false s = Ret tt (set_heap (heap s ++ [OList []]) s)).
Proof.
  intros Hdoc Hcl Hsel Hi name. pose proof Hcl as (Hcur & Hidx & Hl & Hd & Hloot & Hll).
  split.
  - intros Hname. unfold apply_editor_to_selected.
    erewrite bind_step by (by eapply current_container_spec).
    unfold py_truthy at 1. rewrite !bind_gets, Hsel. norm.
    rewrite (dict_truthy _ _ _ _ _ Hd Hloot). cbn [negb].
    erewrite loot_head by done.
    rewrite bool_decide_false by lia.
    rewrite bind_gets. norm. fold name. by rewrite bool_decide_true.
  - intros Hname Hmeta Hunknown. unfold apply_editor_to_selected.
    erewrite bind_step by (by eapply current_container_spec).
    unfold py_truthy at 1. rewrite !bind_gets, Hsel. norm.
    rewrite (dict_truthy _ _ _ _ _ Hd Hloot). cbn [negb].
    erewrite loot_head by done.
    rewrite bool_decide_false by lia.
    rewrite bind_gets. norm. fold name. rewrite bool_decide_false by done.
    rewrite bind_gets. norm.
    destruct (item_meta (cat s)) as [|m ms] eqn:Hm; [done|].
    unfold dict_mem. rewrite Hunknown.
    by rewrite bool_decide_false by (by intros [? [=]]).
Qed.

(** A loaded object whose member [k] is absent or an array holds a
    list under [k], or nothing, in every store that kept the objects
    made for it. *)
Lemma loads_list_or_absent kvs k (h0 h' : list object) :
  arr_or_absent kvs k →
  (∀ a o, length h0 ≤ a → (loads_members kvs h0).1 !! a = Some o → h' !! a = Some o) →
  list_or_absent h' (loads_members kvs h0).2 k.
Proof.
  unfold arr_or_absent, list_or_absent. intros Hk Hkeep.
  destruct (dict_get kvs k) as [j|] eqn:Hget.
  - destruct j as [| | | | |xs|]; try done.
    destruct (loads_members_get kvs h0 k (JArr xs) Hget) as (hx & e0 & e1 & Hg & -> & He).
    rewrite Hg. destruct (loads_arr_at xs (h0 ++ e0)) as (a & Hv & Ha).
    pose proof (loads_fresh (JArr xs) (h0 ++ e0)) as Hf. rewrite Hv in Hf |- *.
    simpl in Hf. rewrite length_app in Hf.
    exists (loads_list xs (h0 ++ e0)).2. apply Hkeep; [lia|].
    rewrite He. by apply lookup_app_l_Some.
  - pose proof (loads_members_mem kvs h0 k) as Hmem. rewrite Hget in Hmem.
    destruct (dict_get (loads_members kvs h0).2 k) eqn:E; [|done].
    destruct (proj1 Hmem) as [? [=]]. eauto.
Qed.

(** X20.  [duplicate_selected_loot] of v1.8, on an entry that
    serialises to an object whose [Attachments] and [Variants], where
    present, are arrays, appends a copy of the entry to the container's
    [Loot] and selects it.  The copy is an object of its own that
    serialises to the same tree as the entry; the list apart, nothing
    that was in the store changes. *)
Theorem duplicate_selected_loot_copies (s : app) r cl locs idx l d ll loot i e kvs :
  doc (heap s) (airdrop_data s) r cl locs →
  current_loot s locs idx l d ll loot → ll ≠ cl →
  selected_loot_index s = Some i → (0 ≤ i)%Z → loot !! Z.to_nat i = Some (VRef e) →
  json_dumps (heap s) (VRef e) = Some (JObj kvs) →
  arr_or_absent kvs "Attachments" → arr_or_absent kvs "Variants" →
  ∃ s' c, duplicate_selected_loot s = Ret tt s' ∧ length (heap s) ≤ c ∧
          heap s' !! ll = Some (OList (loot ++ [VRef c])) ∧
          json_dumps (heap s') (VRef c) = Some (JObj kvs) ∧
          selected_loot_index s' = Some (Z.of_nat (length loot)) ∧
          ∀ j, j < length (heap s) → j ≠ ll → heap s' !! j = heap s !! j.
Proof.
  intros Hdoc Hcl Hne Hsel Hi He Hdump Hatt Hvar.
  pose proof Hcl as (Hcur & Hidx & Hl & Hd & Hloot & Hll).
  pose proof (lookup_lt_Some _ _ _ Hd). pose proof (lookup_lt_Some _ _ _ Hll).
  pose proof (lookup_lt_Some _ _ _ He) as Hilt.
  assert (l ≠ ll) by (intros ->; congruence).
  set (h0 := heap s ++ [OList []]).
  pose proof (json_dumps_extend _ [OList []] _ _ Hdump) as Hdump0. fold h0 in Hdump0.
  pose proof (loads_list_or_absent kvs "Attachments" h0) as Hatt'.
  pose proof (loads_list_or_absent kvs "Variants" h0) as Hvar'.
  pose proof (loads_members_extends kvs h0) as [ext Hext].
  pose proof (loads_reads_back (JObj kvs) h0) as Hback. rewrite loads_obj in Hback.
  pose proof (loads_depth (JObj kvs) h0) as Hdepth. rewrite loads_obj in Hdepth.
  destruct (loads_members kvs h0) as [hm cd] eqn:Hlm.
  simpl in Hext, Hback, Hdepth, Hatt', Hvar'.
  unfold duplicate_selected_loot.
  erewrite bind_step by (by eapply current_container_spec).
  unfold py_truthy at 1. rewrite !bind_gets, Hsel. norm.
  rewrite (dict_truthy _ _ _ _ _ Hd Hloot). cbn [negb].
  erewrite loot_head by done. fold h0.
  rewrite bool_decide_false by lia.
  erewrite bind_step.
  2: { eapply py_index_ok; [norm; unfold h0; by rewrite lookup_app_l|]. by apply getitem_nat. }
  erewrite bind_step by (eapply py_deep_copy_dict; norm; exact Hdump0).
  norm. rewrite Hlm. cbn [fst snd].
  set (c := length hm). set (h1 := hm ++ [ODict cd]).
  assert (length h0 ≤ c) as Hc0 by (unfold c; subst hm; rewrite length_app; lia).
  assert (length (heap s) < length h0) as Hh0 by (unfold h0; rewrite length_app; simpl; lia).
  assert (h1 !! ll = Some (OList loot)) as Hll1.
  { unfold h1. subst hm. rewrite <-app_assoc. unfold h0. rewrite <-app_assoc.
    by apply lookup_app_l_Some. }
  erewrite bind_step by (eapply py_append_ok; norm; exact Hll1).
  norm. set (h2 := <[ll := _]> h1).
  assert (length h2 = S c) as Hlen2.
  { unfold h2, h1. rewrite length_insert, length_app. simpl. unfold c. lia. }
  assert (h2 !! ll = Some (OList (loot ++ [VRef c]))) as Hll2.
  { unfold h2. rewrite list_lookup_insert_eq; [done|]. by eapply lookup_lt_Some. }
  assert (h2 !! c = Some (ODict cd)) as Hc2.
  { unfold h2. rewrite list_lookup_insert_ne by lia. unfold h1, c.
    by rewrite list_lookup_middle. }
  assert (∀ j, j < length (heap s) → j ≠ ll → h2 !! j = heap s !! j) as Hold.
  { intros j Hj Hjl. unfold h2. rewrite list_lookup_insert_ne by done.
    unfold h1. subst hm. rewrite <-app_assoc. unfold h0. rewrite <-app_assoc.
    by rewrite lookup_app_l. }
  assert (∀ x a o, length h0 ≤ a → hm !! a = Some o → (h2 ++ x) !! a = Some o) as Hmade.
  { intros x a o Ha Hao. apply lookup_app_l_Some. unfold h2.
    rewrite list_lookup_insert_ne by lia. unfold h1. by apply lookup_app_l_Some. }
  erewrite bind_step by (eapply py_len_list; norm; exact Hll2).
  rewrite length_app. cbn [length].
  match goal with |- context [bind (py_new (OList [])) _ ?st] =>
    destruct (len_or_empty st c cd "Attachments") as [ext1 Hlen1] end.
  { norm. exact Hc2. }
  { norm. apply Hatt'; [done|]. intros a o Ha Hao.
    specialize (Hmade [] a o Ha Hao). by rewrite app_nil_r in Hmade. }
  rewrite Hlen1. norm.
  match goal with |- context [bind (py_new (OList [])) _ ?st] =>
    destruct (len_or_empty st c cd "Variants") as [ext2 Hlen2'] end.
  { norm. by apply lookup_app_l_Some. }
  { norm. apply Hvar'; [done|]. intros a o Ha Hao. by apply Hmade. }
  rewrite Hlen2'. norm.
  rewrite bind_modify. norm.
  replace (Z.of_nat (length loot + 1) - 1)%Z with (Z.of_nat (length loot)) by lia.
  match goal with |- context [populate_editor_from_selected ?st] =>
    edestruct (populate_spec st r cl locs idx l d ll (loot ++ [VRef c])
                 (Z.of_nat (length loot)) c cd) as [vars Hpop] end; norm.
  - do 2 apply doc_extend. unfold h2. eapply doc_list_write; [|done|exact Hll1].
    unfold h1. subst hm. rewrite <-app_assoc. unfold h0. rewrite <-app_assoc.
    by apply doc_extend.
  - split_and!; norm; try done.
    + do 2 apply lookup_app_l_Some. by rewrite Hold.
    + by do 2 apply lookup_app_l_Some.
  - done.
  - lia.
  - rewrite Nat2Z.id. by rewrite list_lookup_middle.
  - by do 2 apply lookup_app_l_Some.
  - rewrite Hpop. eexists _, c.
    split; [reflexivity|]. norm. split_and!.
    + lia.
    + by do 3 apply lookup_app_l_Some.
    + unfold json_dumps.
      replace (VRef c) with (hm ++ [ODict cd], VRef (length hm)).2 by done.
      apply Hback.
      * simpl. intros j [Hj1 Hj2]. rewrite length_app in Hj2. simpl in Hj2.
        fold c in Hj2.
        rewrite !lookup_app_l by (rewrite ?length_app, Hlen2; simpl; lia).
        unfold h2. rewrite list_lookup_insert_ne by lia. done.
      * rewrite !length_app, Hlen2. simpl. rewrite length_app in Hdepth. simpl in Hdepth.
        fold c in Hdepth. lia.
    + done.
    + intros j Hj Hjl.
      rewrite !lookup_app_l by (rewrite ?length_app, Hlen2; simpl; lia). by apply Hold.
Qed.

End S.
End LootOps18.

(** * v1.8: saving the document *)

Module Save18.
Import DictFacts ExecFacts Steps FrameSpec Frame JsonSpec JsonFacts.
Import V18 Spec18 SaveSpec Pending Removal Dropdown Handlers18.
Local Open Scope nat_scope.

Section S.
Context `{Builtins} `{Host}.

Ltac norm :=
  cbn [get_heap put_heap app_store heap files airdrop_path airdrop_data cat
       container_names current_container_index selected_loot_index
       pending_container_settings var_container settings editor notices
       set_heap set_files set_cat set_container_names set_current_container_index
       set_selected_loot_index set_pending_container_settings set_var_container
       set_settings set_editor set_notices].

(** Staging the form and committing, as [save_airdrop] starts. *)
Lemma stash_commit (s : app) r cl locs (k : M app unit) :
  doc (heap s) (airdrop_data s) r cl locs →
  bind _stash_pending_container_settings
       (λ _, bind _commit_pending_container_settings_to_json (λ _, k)) s
  = k (set_pending_container_settings []
         (set_heap (commit_heap locs (staged_with_form s) (heap s)) s)).
Proof.
  intros Hdoc. unfold staged_with_form.
  destruct (current_container_index s) as [idx|] eqn:Hcur.
  - erewrite bind_step by (apply stash_spec; [by eapply doc_not_none | done]).
    erewrite bind_step by (eapply commit_spec; norm; done). by norm.
  - assert (_stash_pending_container_settings s = Ret tt s) as Hst.
    { unfold _stash_pending_container_settings. by rewrite !bind_gets, Hcur. }
    erewrite bind_step by exact Hst.
    erewrite bind_step by (eapply commit_spec; norm; done). done.
Qed.

(** X21.  A save of v1.8 that succeeds: the backup is copied from the
    file as it was, then the file receives the text of the document
    into which every staged setting, those of the form shown included,
    has been written; the staging is left empty. *)
Theorem save_airdrop_writes (s : app) r cl locs stamp d1 d2 d3 j :
  doc (heap s) (airdrop_data s) r cl locs → airdrop_path s ≠ "" →
  let h' := commit_heap locs (staged_with_form s) (heap s) in
  fs_copy2 (files s) (airdrop_path s) (ts_backup_name (airdrop_path s) stamp) = (d1, true) →
  fs_open_w d1 (airdrop_path s) = Some d2 →
  json_dumps h' (airdrop_data s) = Some j →
  fs_write d2 (airdrop_path s) (json_text j) = (d3, true) →
  ∃ s', save_airdrop stamp s = Ret tt s' ∧ files s' = d3 ∧ heap s' = h' ∧
        pending_container_settings s' = [] ∧
        notices s' = notices s ++ [Notice Info "Saved"].
Proof.
  intros Hdoc Hpath h' Hcopy Hopen Hdump Hwrite. unfold save_airdrop.
  rewrite bind_gets. unfold py_truthy at 1. rewrite !bind_gets. norm.
  rewrite (doc_truthy _ _ _ _ _ Hdoc). rewrite bool_decide_false by done. cbn [negb orb].
  rewrite (stash_commit s r cl locs) by done. fold h'.
  unfold bind, copy_file, write_json. norm. rewrite Hcopy. cbn [negb]. norm.
  rewrite Hopen, Hdump, Hwrite. cbn [negb]. norm.
  eexists. split; [reflexivity|]. by norm.
Qed.

(** X22.  A save of v1.8 that fails at the backup has all the same
    written the staged settings into the document in memory and
    emptied the staging; the disk is as the failed copy left it. *)
Theorem save_airdrop_failed_backup_commits (s : app) r cl locs stamp d1 :
  doc (heap s) (airdrop_data s) r cl locs → airdrop_path s ≠ "" →
  fs_copy2 (files s) (airdrop_path s) (ts_backup_name (airdrop_path s) stamp) = (d1, false) →
  ∃ s', save_airdrop stamp s = Ret tt s' ∧ files s' = d1 ∧
        heap s' = commit_heap locs (staged_with_form s) (heap s) ∧
        pending_container_settings s' = [] ∧
        notices s' = notices s ++ [Notice Error "Backup Error"].
Proof.
  intros Hdoc Hpath Hcopy. unfold save_airdrop.
  rewrite bind_gets. unfold py_truthy at 1. rewrite !bind_gets. norm.
  rewrite (doc_truthy _ _ _ _ _ Hdoc). rewrite bool_decide_false by done. cbn [negb orb].
  rewrite (stash_commit s r cl locs) by done.
  unfold bind, copy_file. norm. rewrite Hcopy. cbn [negb]. norm.
  eexists. split; [reflexivity|]. by norm.
Qed.

End S.
End Save18.

(** * v1.8: loading a document *)

Module Load18.
Import DictFacts ExecFacts Steps FrameSpec Frame JsonSpec JsonFacts JsonGrow Loaded.
Import V18 Spec18 LoadSpec Pending Removal Dropdown Handlers18 Clone18.
Local Open Scope nat_scope.

(** ** The loaded containers *)

Lemma accepts_extend (h e : list object) v :
  fresh_in 0 (length h) v → accepts (h ++ e) v = accepts h v.
Proof.
  destruct v as [| | | | |l]; try done. simpl. intros [_ Hl].
  unfold accepts. simpl. by rewrite lookup_app_l.
Qed.

Lemma loot_in_place_extend (h e : list object) v :
  loot_in_place h v → loot_in_place (h ++ e) v.
Proof.
  intros (d & Hd & Hl). exists d. destruct v as [| | | | |l]; try done. simpl in Hd.
  destruct (h !! l) as [[d0|]|] eqn:E; try done. simplify_eq. split.
  - simpl. by rewrite (lookup_app_l_Some _ _ _ _ E).
  - unfold is_list in *. apply bool_decide_eq_true in Hl as [xs Hxs].
    apply bool_decide_eq_true. exists xs.
    destruct (dict_get_or d "Loot" VNone) as [| | | | |ll]; try done. simpl in *.
    destruct (h !! ll) as [[|ys]|] eqn:E2; try done.
    by rewrite (lookup_app_l_Some _ _ _ _ E2).
Qed.

Lemma fresh_in_weaken lo hi v : fresh_in lo hi v → fresh_in 0 hi v.
Proof. destruct v; try done. simpl. lia. Qed.

(** What [loads] makes of one entry of the array. *)
Lemma loads_container c (h : list object) :
  accepts (loads c h).1 (loads c h).2 = container_ok c ∧
  (loot_ready c = true → loot_in_place (loads c h).1 (loads c h).2).
Proof.
  split.
  - unfold accepts. rewrite loads_as_dict. destruct c as [| | | | | |m]; try done.
    simpl. unfold dict_mem. apply bool_decide_ext, loads_members_mem.
  - destruct c as [| | | | | |m]; try done. cbn [loot_ready].
    destruct (dict_get m "Loot") as [[| | | | |xs|]|] eqn:Hloot; try done. intros _.
    exists (loads_members m h).2. split; [by rewrite loads_as_dict|].
    destruct (loads_members_get m h "Loot" (JArr xs) Hloot) as (h0 & e0 & e1 & Hg & -> & He).
    unfold dict_get_or. rewrite Hg. cbn [default from_option id].
    destruct (loads_arr_at xs (h ++ e0)) as (l & Hv & Hl).
    rewrite Hv. rewrite loads_obj. destruct (loads_members m h) as [hm d]. simpl in *.
    subst hm. unfold is_list. apply bool_decide_eq_true. simpl.
    rewrite <-app_assoc. rewrite (lookup_app_l_Some _ _ _ _ Hl). eauto.
Qed.

Lemma loads_list_containers cs : ∀ h : list object,
  Forall2 (λ c v, accepts (loads_list cs h).1 v = container_ok c ∧
                  (loot_ready c = true → loot_in_place (loads_list cs h).1 v) ∧
                  fresh_in (length h) (length (loads_list cs h).1) v)
          cs (loads_list cs h).2.
Proof.
  induction cs as [|c cs IH]; intros h; [constructor|]. simpl.
  pose proof (loads_container c h) as [Ha Hl]. pose proof (loads_fresh c h) as Hf.
  pose proof (loads_length_le c h) as Hle.
  destruct (loads c h) as [h1 v]. simpl in *.
  specialize (IH h1). destruct (loads_list_extends cs h1) as [e He].
  destruct (loads_list cs h1) as [h2 vs]. simpl in *. subst h2. constructor.
  - split_and!.
    + rewrite accepts_extend; [done|]. by eapply fresh_in_weaken.
    + intros Hr. by apply loot_in_place_extend, Hl.
    + destruct v; try done. simpl in *. rewrite length_app. lia.
  - eapply Forall2_impl; [exact IH|]. intros c' v' (? & ? & Hf'). split_and!; [done..|].
    destruct v'; try done. simpl in *. lia.
Qed.

Lemma loads_list_locs cs : ∀ h : list object,
  NoDup (ref_locs (loads_list cs h).2) ∧
  Forall (λ l, length h ≤ l) (ref_locs (loads_list cs h).2).
Proof.
  induction cs as [|c cs IH]; intros h; [split; constructor|]. simpl.
  pose proof (loads_fresh c h) as Hf. pose proof (loads_length_le c h) as Hle.
  destruct (loads c h) as [h1 v]. simpl in *.
  destruct (IH h1) as [Hnd Hge]. destruct (loads_list cs h1) as [h2 vs]. simpl in *.
  assert (Forall (λ l, length h ≤ l) (ref_locs vs)) as Hge'.
  { eapply Forall_impl; [exact Hge|]. simpl. lia. }
  unfold ref_locs in *. destruct v as [| | | | |l]; simpl; try done.
  split; [|constructor; [simpl in Hf; lia|done]].
  apply NoDup_cons. split; [|done]. intros Hin.
  rewrite Forall_forall in Hge. specialize (Hge _ Hin). simpl in Hf. lia.
Qed.

(** Where the document of a file with a [Containers] array is. *)
Lemma loads_document kvs cs (h0 : list object) :
  dict_get kvs "Containers" = Some (JArr cs) →
  ∃ r cl d vs,
    (loads (JObj kvs) h0).2 = VRef r ∧
    (loads (JObj kvs) h0).1 !! r = Some (ODict d) ∧
    dict_get d "Containers" = Some (VRef cl) ∧
    (loads (JObj kvs) h0).1 !! cl = Some (OList vs) ∧
    Forall2 (λ c v, accepts (loads (JObj kvs) h0).1 v = container_ok c ∧
                    (loot_ready c = true → loot_in_place (loads (JObj kvs) h0).1 v) ∧
                    fresh_in (length h0) cl v) cs vs ∧
    NoDup (ref_locs vs) ∧ cl < r.
Proof.
  intros Hcs.
  destruct (loads_members_get kvs h0 _ _ Hcs) as (hx & e0 & e1 & Hg & -> & He).
  rewrite loads_obj. rewrite loads_arr in Hg, He.
  pose proof (loads_list_containers cs (h0 ++ e0)) as Hall.
  pose proof (loads_list_locs cs (h0 ++ e0)) as [Hnd _].
  destruct (loads_list cs (h0 ++ e0)) as [hl vs]. simpl in *.
  destruct (loads_members kvs h0) as [hm d]. simpl in *. subst hm.
  exists (length ((hl ++ [OList vs]) ++ e1)), (length hl), d, vs.
  split_and!; [done|by rewrite list_lookup_middle|done| | |done|].
  - do 2 apply lookup_app_l_Some. by rewrite list_lookup_middle.
  - eapply Forall2_impl; [exact Hall|]. intros c v (Ha & Hl & Hf).
    rewrite <-!app_assoc. split_and!.
    + rewrite accepts_extend; [done|]. by eapply fresh_in_weaken.
    + intros Hr. by apply loot_in_place_extend, Hl.
    + destruct v; try done. simpl in *. rewrite length_app in Hf. lia.
  - rewrite !length_app. simpl. lia.
Qed.

(** ** The check of the containers *)

Lemma grown_refl W (h : list object) : grown W h h.
Proof. by split_and!. Qed.

Lemma grown_trans v W (h h1 h2 : list object) :
  grown [v] h h1 → grown W h1 h2 → grown (v :: W) h h2.
Proof.
  intros (Ha & Hl & Hq & Hf) (Ha' & Hl' & Hq' & Hf'). split_and!.
  - intros x. by rewrite Ha', Ha.
  - intros l xs Hx. by apply Hl', Hl.
  - intros l Hx. by apply Hq', Hq.
  - intros l o Hx Hn. apply not_elem_of_cons in Hn as [Hn1 Hn2].
    apply Hf'; [|done]. apply Hf; [done|].
    apply not_elem_of_cons. split; [done|apply not_elem_of_nil].
Qed.

(** Giving the dict at [l] a new empty [Loot]. *)
Lemma grown_new_loot (h : list object) l d :
  h !! l = Some (ODict d) →
  let h' := <[l := ODict (dict_set d "Loot" (VRef (length h)))]> (h ++ [OList []]) in
  grown [VRef l] h h' ∧ has_loot_list h' l.
Proof.
  intros Hl h'. pose proof (lookup_lt_Some _ _ _ Hl) as Hlt.
  assert (h' !! l = Some (ODict (dict_set d "Loot" (VRef (length h))))) as Hl'.
  { unfold h'. apply list_lookup_insert_eq. rewrite length_app. lia. }
  assert (h' !! length h = Some (OList [])) as Hn.
  { unfold h'. rewrite list_lookup_insert_ne by lia. by rewrite list_lookup_middle. }
  assert (∀ l' o, h !! l' = Some o → l' ≠ l → h' !! l' = Some o) as Hframe.
  { intros l' o Ho Hne. unfold h'. rewrite list_lookup_insert_ne by done.
    by apply lookup_app_l_Some. }
  assert (has_loot_list h' l) as Hq.
  { exists (dict_set d "Loot" (VRef (length h))), (length h), [].
    by rewrite dict_get_set_eq. }
  split; [|done]. split_and!.
  - intros [| | | | |l']; try done. unfold accepts. simpl.
    destruct (decide (l' = l)) as [->|Hne].
    { rewrite Hl', Hl. unfold dict_mem. by rewrite dict_get_set_ne. }
    destruct (h !! l') as [o|] eqn:Ho; [by rewrite (Hframe _ _ Ho Hne)|].
    unfold h'. rewrite list_lookup_insert_ne by done.
    apply lookup_ge_None in Ho.
    destruct (decide (l' = length h)) as [->|Hne'].
    + by rewrite list_lookup_middle.
    + rewrite lookup_ge_None_2; [done|]. rewrite length_app. simpl. lia.
  - intros l' xs Hx. apply Hframe; [done|]. intros ->. congruence.
  - intros l0 (d0 & ll & loot & Hd0 & Hg & Hll).
    destruct (decide (l0 = l)) as [->|Hne]; [done|].
    exists d0, ll, loot. split_and!; [by apply Hframe|done|].
    apply Hframe; [done|]. intros ->. congruence.
  - intros l' o Ho Hn'. apply Hframe; [done|]. intros ->. apply Hn'. by left.
Qed.

Section S.
Context `{Builtins} `{Host}.

Ltac norm :=
  cbn [get_heap put_heap app_store heap files airdrop_path airdrop_data cat
       container_names current_container_index selected_loot_index
       pending_container_settings var_container settings editor notices
       set_heap set_files set_cat set_container_names set_current_container_index
       set_selected_loot_index set_pending_container_settings set_var_container
       set_settings set_editor set_notices].

(** The body of the loop of [load_airdrop_json]. *)
Local Notation check := (λ c : value,
    let! named := py_has c "Container" in
    if negb named then raise
    else
      let! has_loot := py_has c "Loot" in
      (if has_loot then ret tt
       else let! empty := py_new (OList []) in py_setitem c "Loot" empty) ;;
      let! loot := py_get c "Loot" VNone in
      let! ok := py_is_list loot in
      if ok then ret tt
      else let! empty := py_new (OList []) in py_setitem c "Loot" empty).

Lemma check_step (x : app) v : ∃ h',
  check v x = (if accepts (heap x) v then Ret tt (set_heap h' x) else Exn (set_heap h' x)) ∧
  grown [v] (heap x) h' ∧
  (accepts (heap x) v = true → ∃ l, v = VRef l ∧ has_loot_list h' l) ∧
  (loot_in_place (heap x) v → h' = heap x).
Proof.
  unfold accepts. destruct (as_dict (heap x) v) as [d|] eqn:Hd.
  2: { exists (heap x). rewrite set_heap_id. split_and!; [|apply grown_refl|done..].
       unfold bind, py_has, bind, py_dict_of. norm. by rewrite Hd. }
  destruct v as [| | | | |l]; try done. simpl in Hd.
  destruct (heap x !! l) as [[d0|]|] eqn:Hl; try done. simplify_eq.
  pose proof (lookup_lt_Some _ _ _ Hl) as Hlt.
  erewrite bind_step by (by eapply py_has_ok).
  destruct (dict_mem d "Container") eqn:Hc; cbn [negb].
  2: { exists (heap x). rewrite set_heap_id. split_and!; [done|apply grown_refl|done..]. }
  erewrite bind_step by (by eapply py_has_ok).
  destruct (grown_new_loot (heap x) l d Hl) as [Hg Hq]. cbv zeta in Hg, Hq.
  destruct (dict_mem d "Loot") eqn:Hm.
  - rewrite bind_ret. erewrite bind_step by (by eapply py_get_ok).
    unfold py_is_list at 1. rewrite bind_gets. norm.
    destruct (is_list (heap x) (dict_get_or d "Loot" VNone)) eqn:Hil.
    + exists (heap x). rewrite set_heap_id. split_and!; [done|apply grown_refl| |done].
      intros _. exists l. split; [done|].
      unfold is_list in Hil. apply bool_decide_eq_true in Hil as [xs Hxs].
      unfold dict_get_or in Hxs. destruct (dict_get d "Loot") as [vl|] eqn:Hgl; [|done].
      simpl in Hxs. destruct vl as [| | | | |ll]; try done. simpl in Hxs.
      destruct (heap x !! ll) as [[|ys]|] eqn:Hll; try done. by exists d, ll, ys.
    + erewrite bind_step by apply py_new_ok. norm.
      erewrite py_setitem_ok by (norm; by apply lookup_app_l_Some). norm.
      eexists. split; [reflexivity|]. split_and!; [done|by eauto|].
      intros (d' & Hd' & Hil'). simpl in Hd'. rewrite Hl in Hd'. simplify_eq. congruence.
  - rewrite bind_bind. erewrite bind_step by apply py_new_ok. norm.
    erewrite bind_step by (eapply py_setitem_ok; norm; by apply lookup_app_l_Some). norm.
    erewrite bind_step.
    2: { eapply py_get_ok. norm. apply list_lookup_insert_eq. rewrite length_app. lia. }
    unfold dict_get_or. rewrite dict_get_set_eq. cbn [default from_option id].
    unfold py_is_list at 1. rewrite bind_gets. norm.
    assert (is_list (<[l:=ODict (dict_set d "Loot" (VRef (length (heap x))))]>
                       (heap x ++ [OList []])) (VRef (length (heap x))) = true) as ->.
    { unfold is_list. apply bool_decide_eq_true. simpl.
      rewrite list_lookup_insert_ne by lia. rewrite list_lookup_middle by done. eauto. }
    unfold ret. rewrite set_heap_twice.
    eexists. split; [reflexivity|]. split_and!; [done|by eauto|].
    intros (d' & Hd' & Hil'). simpl in Hd'. rewrite Hl in Hd'. simplify_eq.
    unfold dict_mem in Hm. apply bool_decide_eq_false in Hm.
    unfold is_list in Hil'. apply bool_decide_eq_true in Hil' as [xs Hxs].
    unfold dict_get_or in Hxs. destruct (dict_get d' "Loot"); [|done].
    exfalso. apply Hm. eauto.
Qed.

Lemma forallb_same {A} (f g : A → bool) xs :
  (∀ x, f x = g x) → forallb f xs = forallb g xs.
Proof. intros Hfg. induction xs as [|x xs IH]; simpl; [done|]. by rewrite Hfg, IH. Qed.

Lemma check_loop vs : ∀ x : app, ∃ h',
  for_each vs check x
  = (if forallb (accepts (heap x)) vs then Ret tt (set_heap h' x) else Exn (set_heap h' x)) ∧
  grown vs (heap x) h' ∧
  (forallb (accepts (heap x)) vs = true →
   Forall (λ v, ∃ l, v = VRef l ∧ has_loot_list h' l) vs) ∧
  (Forall (loot_in_place (heap x)) vs → h' = heap x).
Proof.
  induction vs as [|v vs IH]; intros x.
  { exists (heap x). rewrite set_heap_id. simpl.
    split_and!; [done|apply grown_refl|constructor|done]. }
  destruct (check_step x v) as (h1 & Hs & Hg & Hq & Hu). cbn [for_each forallb].
  destruct (accepts (heap x) v) eqn:Ha; cbn [andb].
  - erewrite bind_step by exact Hs.
    destruct (IH (set_heap h1 x)) as (h2 & Hs2 & Hg2 & Hq2 & Hu2). cbn [heap set_heap] in Hs2, Hg2, Hq2, Hu2.
    rewrite set_heap_twice in Hs2.
    assert (forallb (accepts h1) vs = forallb (accepts (heap x)) vs) as Heq.
    { apply forallb_same. apply Hg. }
    rewrite Heq in Hs2, Hq2. exists h2. split_and!.
    + done.
    + by eapply grown_trans.
    + intros Hall. constructor; [|by apply Hq2].
      destruct (Hq eq_refl) as (l & -> & Hl). exists l. split; [done|].
      by apply Hg2.
    + intros [Hv Hvs]%Forall_cons. specialize (Hu Hv). subst h1. by apply Hu2.
  - exists h1. unfold bind at 1. cbv beta in Hs |- *. rewrite Hs. split_and!; [done| |done|].
    + eapply grown_trans; [exact Hg|apply grown_refl].
    + intros [Hv _]%Forall_cons. by apply Hu.
Qed.

Lemma refs_fmap vs :
  Forall (λ v, ∃ l : nat, v = VRef l) vs → vs = VRef <$> ref_locs vs.
Proof.
  induction 1 as [|v vs [l ->] _ IH]; [done|]. unfold ref_locs in *. simpl. by f_equal.
Qed.

Lemma loads_not_list jc (h e : list object) :
  (∀ xs, jc ≠ JArr xs) → as_list ((loads jc h).1 ++ e) (loads jc h).2 = None.
Proof.
  intros Hn. destruct jc as [| | | | |xs|m]; try done; [by destruct (Hn xs)|].
  rewrite loads_obj. destruct (loads_members m h) as [hm d]. simpl.
  rewrite (lookup_app_l_Some _ e _ (ODict d)); [done|]. by rewrite list_lookup_middle.
Qed.

(** A file that is not accepted: [load_airdrop_json] raises, with
    nothing but new objects made. *)
Lemma load_json_rejects (s : app) j :
  airdrop_file_ok j = false →
  ∃ h', load_airdrop_json j s = Exn (set_heap h' s) ∧
        ∀ l o, heap s !! l = Some o → h' !! l = Some o.
Proof.
  unfold airdrop_file_ok, file_containers. intros Hbad. unfold load_airdrop_json.
  unfold bind at 1.
  pose proof (loads_as_dict j (heap s)) as Hdict.
  pose proof (loads_extends j (heap s)) as [ext Hext].
  destruct j as [| | | | | |kvs];
    try (destruct (loads _ (heap s)) as [h1 v]; simpl in *; subst h1;
         exists (heap s ++ ext); split; [|intros l o; apply lookup_app_l_Some];
         unfold bind, py_item, bind, py_dict_of; norm; by rewrite Hdict).
  destruct (dict_get kvs "Containers") as [jc|] eqn:Hc.
  2: { pose proof (loads_members_mem kvs (heap s) "Containers") as Hmem.
       destruct (loads (JObj kvs) (heap s)) as [h1 v]. simpl in *. subst h1.
       exists (heap s ++ ext). split; [|intros l o; apply lookup_app_l_Some].
       unfold bind, py_item, bind, py_dict_of. norm. rewrite Hdict. simpl.
       destruct (dict_get (loads_members kvs (heap s)).2 "Containers") eqn:E; [|done].
       rewrite Hc in Hmem. destruct (proj1 Hmem) as [? [=]]. eauto. }
  assert ((∃ cs, jc = JArr cs) ∨ ¬ ∃ cs, jc = JArr cs) as [[cs ->]|Hnot].
  { destruct jc; try (right; by intros [? [=]]). left. eauto. }
  - destruct (loads_document kvs cs (heap s) Hc)
      as (r & cl & d & vs & Hv & Hr & Hcl & Hvs & Hall & _ & Hlt).
    destruct (loads (JObj kvs) (heap s)) as [h1 v]. simpl in *. subst v h1.
    erewrite bind_step by (eapply py_item_ok; norm; done).
    erewrite bind_step by (eapply py_list_of_ok; norm; done).
    destruct (check_loop vs (set_heap (heap s ++ ext) s)) as (h2 & Hs2 & Hg2 & _).
    cbn [heap set_heap] in Hs2, Hg2. rewrite set_heap_twice in Hs2.
    assert (forallb (accepts (heap s ++ ext)) vs = forallb container_ok cs) as Heq.
    { clear -Hall. induction Hall as [|c v cs vs (Ha & _) _ IH]; [done|].
      simpl. by rewrite Ha, IH. }
    rewrite Heq, Hbad in Hs2. unfold bind at 1. rewrite Hs2.
    exists h2. split; [done|]. intros l o Ho.
    destruct Hg2 as (_ & _ & _ & Hf). apply Hf; [by apply lookup_app_l_Some|].
    intros Hin.
    apply list_elem_of_lookup in Hin as [i Hi].
    destruct (Forall2_lookup_r _ _ _ _ _ Hall Hi) as (c & _ & _ & _ & Hfr).
    simpl in Hfr. apply lookup_lt_Some in Ho. lia.
  - destruct (loads_members_get kvs (heap s) _ _ Hc) as (hx & e0 & e1 & Hg & -> & He).
    rewrite loads_obj in Hdict, Hext |- *.
    destruct (loads_members kvs (heap s)) as [hm d]. simpl in *.
    exists (hm ++ [ODict d]). rewrite Hext. split; [|intros l o; apply lookup_app_l_Some].
    rewrite <-Hext.
    erewrite bind_step by (eapply py_item_ok; norm; [by rewrite list_lookup_middle|done]).
    unfold bind, py_list_of. norm. rewrite He.
    rewrite <-app_assoc, loads_not_list; [done|]. intros xs ->. apply Hnot. eauto.
Qed.

Lemma current_none (x : app) :
  current_container_index x = None → get_current_container x = Ret VNone x.
Proof. intros Hc. unfold get_current_container. by rewrite !bind_gets, Hc. Qed.

(** X24.  A file that cannot be read, or whose tree is not an object
    with a [Containers] array of objects that each have a [Container]
    member, is refused by [load_airdrop] of v1.8 with a "Load Error"
    notice: the document, its path, the staged settings and the
    selection are those from before, and no object of the store has
    changed. *)
Theorem load_airdrop_rejects (s : app) path :
  path ≠ "" →
  match fs_read_json (files s) path with
  | Some j => airdrop_file_ok j = false
  | None => True
  end →
  ∃ h', load_airdrop (Some path) s
        = Ret tt (set_notices (notices s ++ [Notice Error "Load Error"]) (set_heap h' s)) ∧
        ∀ l o, heap s !! l = Some o → h' !! l = Some o.
Proof.
  intros Hpath Hbad. unfold load_airdrop. rewrite bool_decide_false by done.
  rewrite bind_gets. unfold bind at 1, try_except.
  destruct (fs_read_json (files s) path) as [j|].
  - destruct (load_json_rejects s j Hbad) as (h' & Hrej & Hframe).
    cbn [lift]. rewrite bind_ret. unfold bind at 1. rewrite Hrej.
    exists h'. split; [done|done].
  - exists (heap s). rewrite set_heap_id. split; [done|done].
Qed.

(** The handler on a file that is accepted. *)
Lemma load_airdrop_loaded (s : app) path j cs :
  path ≠ "" → fs_read_json (files s) path = Some j →
  file_containers j = Some cs → forallb container_ok cs = true →
  ∃ s' r cl locs h' ext,
    load_airdrop (Some path) s = Ret tt s' ∧
    heap s' = h' ++ ext ∧ airdrop_data s' = (loads j (heap s)).2 ∧
    (forallb loot_ready cs = true → h' = (loads j (heap s)).1) ∧
    airdrop_path s' = path ∧ pending_container_settings s' = [] ∧
    doc (heap s') (airdrop_data s') r cl locs ∧ NoDup locs ∧ length locs = length cs ∧
    Forall (has_loot_list (heap s')) locs ∧
    current_container_index s' = (if decide (locs = []) then None else Some 0%Z) ∧
    (∀ l o, heap s !! l = Some o → heap s' !! l = Some o) ∧
    notices s' = notices s.
Proof.
  intros Hpath Hread Hfile Hok. unfold file_containers in Hfile.
  destruct j as [| | | | | |kvs]; try done.
  destruct (dict_get kvs "Containers") as [[| | | | |cs'|]|] eqn:Hc; try done.
  simplify_eq.
  destruct (loads_document kvs cs (heap s) Hc)
    as (r & cl & d & vs & Hv & Hr & Hcl & Hvs & Hall & Hnd & Hlt).
  pose proof (loads_extends (JObj kvs) (heap s)) as [ext0 Hext].
  destruct (loads (JObj kvs) (heap s)) as [h1 v] eqn:Hloads. cbn [fst snd] in *. subst v.
  destruct (check_loop vs (set_heap h1 s)) as (h2 & Hs2 & Hg2 & Hq2 & Hu2).
  cbn [heap set_heap] in Hs2, Hg2, Hq2, Hu2. rewrite set_heap_twice in Hs2.
  assert (forallb (accepts h1) vs = forallb container_ok cs) as Heq.
  { clear -Hall. induction Hall as [|c v cs vs (Ha & _) _ IH]; [done|].
    simpl. by rewrite Ha, IH. }
  rewrite Heq, Hok in Hs2, Hq2. specialize (Hq2 eq_refl).
  destruct Hg2 as (Hacc & Hlists & Hkeep & Hframe).
  set (locs := ref_locs vs).
  assert (vs = VRef <$> locs) as Hvs_locs.
  { apply refs_fmap. eapply Forall_impl; [exact Hq2|]. intros v (l & -> & _). eauto. }
  assert (Forall (λ l, length (heap s) ≤ l < cl ∧ has_loot_list h2 l) locs) as Hlocs.
  { apply Forall_forall. intros l Hl.
    assert (VRef l ∈ vs) as Hin by (rewrite Hvs_locs; by apply list_elem_of_fmap_2).
    split.
    - apply list_elem_of_lookup in Hin as [i Hi].
      by destruct (Forall2_lookup_r _ _ _ _ _ Hall Hi) as (c & _ & _ & _ & Hfr).
    - rewrite Forall_forall in Hq2. destruct (Hq2 _ Hin) as (l' & [= <-] & Hl'). done. }
  assert (h2 !! r = Some (ODict d)) as Hr2.
  { apply Hframe; [done|]. intros Hin. apply list_elem_of_lookup in Hin as [i Hi].
    destruct (Forall2_lookup_r _ _ _ _ _ Hall Hi) as (c & _ & _ & _ & Hfr).
    simpl in Hfr. lia. }
  assert (h2 !! cl = Some (OList (VRef <$> locs))) as Hcl2.
  { rewrite <-Hvs_locs. by apply Hlists. }
  assert (∀ e, doc (h2 ++ e) (VRef r) r cl locs) as Hdoc.
  { intros e. split_and!; [done| | | |].
    - simpl. by rewrite (lookup_app_l_Some _ _ _ _ Hr2).
    - by apply lookup_app_l_Some.
    - eapply Forall_impl; [exact Hlocs|]. intros l (_ & d' & ll & loot & Hd' & _).
      unfold is_dict. apply bool_decide_eq_true. simpl.
      rewrite (lookup_app_l_Some _ _ _ _ Hd'). eauto.
    - intros Hin. rewrite Forall_forall in Hlocs. destruct (Hlocs _ Hin) as [? _]. lia. }
  assert (∀ e, Forall (has_loot_list (h2 ++ e)) locs) as Hloot.
  { intros e. eapply Forall_impl; [exact Hlocs|].
    intros l (_ & d' & ll & loot & Hd' & Hg & Hll). exists d', ll, loot.
    split_and!; [by apply lookup_app_l_Some|done|by apply lookup_app_l_Some]. }
  assert (∀ e l o, heap s !! l = Some o → (h2 ++ e) !! l = Some o) as Hold.
  { intros e l o Ho. apply lookup_app_l_Some. apply Hframe.
    - subst h1. by apply lookup_app_l_Some.
    - intros Hin. apply list_elem_of_lookup in Hin as [i Hi].
      destruct (Forall2_lookup_r _ _ _ _ _ Hall Hi) as (c & _ & _ & _ & Hfr).
      simpl in Hfr. apply lookup_lt_Some in Ho. lia. }
  assert (forallb loot_ready cs = true → h2 = h1) as Hsame.
  { intros Hready. apply Hu2. clear -Hall Hready.
    induction Hall as [|c v cs vs (_ & Hl & _) _ IH]; [constructor|].
    simpl in Hready. apply andb_true_iff in Hready as [Hc Hcs].
    constructor; [by apply Hl|by apply IH]. }
  assert (length locs = length cs) as Hlen.
  { apply Forall2_length in Hall. rewrite Hall, Hvs_locs. by rewrite length_fmap. }
  assert (load_airdrop_json (JObj kvs) s = Ret (VRef r) (set_heap h2 s)) as Hjson.
  { unfold load_airdrop_json. unfold bind at 1. rewrite Hloads.
    erewrite bind_step by (eapply py_item_ok; norm; done).
    erewrite bind_step by (eapply py_list_of_ok; norm; done).
    unfold bind at 1. by rewrite Hs2. }
  unfold load_airdrop. rewrite bool_decide_false by done.
  rewrite bind_gets. unfold bind at 1, try_except.
  rewrite Hread. cbn [lift]. rewrite bind_ret. unfold bind at 1. rewrite Hjson.
  unfold ret at 1. cbv beta iota.
  rewrite bind_modify. norm.
  match goal with |- context [bind (_rebuild_container_dropdown _) _ ?st] => set (s2 := st) end.
  assert (doc (heap s2) (airdrop_data s2) r cl locs) as Hdoc2.
  { unfold s2. norm. specialize (Hdoc []). by rewrite app_nil_r in Hdoc. }
  destruct locs as [|l0 locs'] eqn:Hlocs_eq.
  - exists (set_settings {| var_item_count := ""; var_infected_count := "";
                            var_infected_enabled := true |}
             (set_current_container_index None
                (set_var_container "(No containers)" (set_container_names [] s2)))),
           r, cl, [], h2, [].
    split_and!; try done.
    + erewrite bind_step.
      2: { unfold _rebuild_container_dropdown.
           rewrite bind_gets. unfold py_truthy at 1. rewrite bind_gets. norm.
           rewrite (doc_truthy _ _ _ _ _ Hdoc2). cbn [negb].
           erewrite bind_step by (by eapply doc_containers).
           erewrite bind_step by (eapply py_list_of_ok; unfold s2; norm; exact Hcl2).
           simpl. rewrite !bind_ret, !bind_modify. reflexivity. }
      erewrite bind_step.
      2: { unfold _load_container_settings_into_ui.
           erewrite bind_step by (by apply current_none).
           unfold py_truthy at 1. rewrite bind_gets. cbn [truthy negb]. reflexivity. }
      unfold refresh_loot_table_chunked.
      erewrite bind_step by (by apply current_none).
      unfold py_truthy at 1. rewrite bind_gets. by cbn [truthy negb].
    + unfold s2. norm. by rewrite app_nil_r.
    + constructor.
    + unfold s2. norm. intros l o Ho. specialize (Hold [] l o Ho).
      by rewrite app_nil_r in Hold.
  - rewrite <-Hlocs_eq in *.
    destruct (rebuild_spec s2 r cl locs 0%Z Hdoc2) as (s3 & Hs3 & Hsd & Hcur & _ & _ & _ & Hnot).
    { rewrite Hlocs_eq. simpl. lia. }
    destruct Hsd as (Hh3 & Hd3 & Hp3 & _ & _ & Hpath3).
    assert (doc (heap s3) (airdrop_data s3) r cl locs) as Hdoc3 by (by rewrite Hh3, Hd3).
    assert (locs !! Z.to_nat 0 = Some l0) as Hl0 by (by rewrite Hlocs_eq).
    destruct (load_settings_spec s3 r cl locs 0%Z l0 Hdoc3 Hcur) as [vars Hset]; [lia|done|].
    assert (has_loot_list (heap s3) l0) as (d0 & ll & loot & Hd0 & Hg0 & Hll0).
    { rewrite Hh3. unfold s2. norm. specialize (Hloot []). rewrite app_nil_r in Hloot.
      rewrite Forall_forall in Hloot. apply Hloot. rewrite Hlocs_eq. by left. }
    erewrite bind_step by exact Hs3. erewrite bind_step by exact Hset.
    erewrite (refresh_spec _ r cl locs 0%Z l0 d0 ll loot); norm; try done.
    exists (set_heap (heap s3 ++ [OList []]) (set_settings vars s3)), r, cl, locs, h2, [OList []].
    assert (heap s3 = h2) as Hh3' by (rewrite Hh3; done).
    assert (airdrop_data s3 = VRef r) as Hd3' by (rewrite Hd3; done).
    norm. rewrite Hh3', Hd3'. split_and!; try done.
    + rewrite Hcur. by rewrite decide_False by (by rewrite Hlocs_eq).
    + by apply Hold.
Qed.

(** X23.  A file whose tree is an object with a [Containers] array of
    objects that each have a [Container] member is loaded by
    [load_airdrop] of v1.8 as a document of the expected shape: the
    containers are distinct dicts, one per entry of the array, each
    with a [Loot] list; the path is recorded, the staging is empty,
    the first container, if any, is shown, and no object that was in
    the store has changed. *)
Theorem load_airdrop_accepts (s : app) path j cs :
  path ≠ "" → fs_read_json (files s) path = Some j →
  file_containers j = Some cs → forallb container_ok cs = true →
  ∃ s' r cl locs,
    load_airdrop (Some path) s = Ret tt s' ∧
    airdrop_path s' = path ∧ pending_container_settings s' = [] ∧
    doc (heap s') (airdrop_data s') r cl locs ∧ NoDup locs ∧ length locs = length cs ∧
    Forall (has_loot_list (heap s')) locs ∧
    current_container_index s' = (if decide (locs = []) then None else Some 0%Z) ∧
    (∀ l o, heap s !! l = Some o → heap s' !! l = Some o) ∧
    notices s' = notices s.
Proof.
  intros Hpath Hread Hfile Hok.
  destruct (load_airdrop_loaded s path j cs Hpath Hread Hfile Hok)
    as (s' & r & cl & locs & h' & ext & Hrun & _ & _ & _ & Hrest).
  by exists s', r, cl, locs.
Qed.

(** X25.  Round trip: when every container of an accepted file already
    has a [Loot] array, the document [load_airdrop] of v1.8 builds
    serialises back to the tree of the file. *)
Theorem load_airdrop_round_trip (s : app) path j cs :
  path ≠ "" → fs_read_json (files s) path = Some j →
  file_containers j = Some cs → forallb container_ok cs = true →
  forallb loot_ready cs = true →
  ∃ s', load_airdrop (Some path) s = Ret tt s' ∧
        json_dumps (heap s') (airdrop_data s') = Some j.
Proof.
  intros Hpath Hread Hfile Hok Hready.
  destruct (load_airdrop_loaded s path j cs Hpath Hread Hfile Hok)
    as (s' & r & cl & locs & h' & ext & Hrun & Hheap & Hdata & Hsame & _).
  exists s'. split; [done|]. rewrite Hheap, Hdata, (Hsame Hready).
  apply json_dumps_extend, dumps_loads.
Qed.

End S.
End Load18.

(** * v2.0: the dropdown and its index *)

Module Index20.
Import DictFacts ExecFacts Steps FrameSpec Frame JsonSpec JsonFacts Loaded.
Import V20 Spec20 IndexSpec NamesSpec NamesFacts Loot20.
Local Open Scope nat_scope.

Section S.
Context `{Builtins} `{Host}.

Ltac norm :=
  cbn [get_heap put_heap app_store heap files cfg_types_folders airdrop_path airdrop_data
       market_path market_data market_dirty cat container_names container_index
       current_container_key selected_loot_index var_container settings editor mvars notices
       set_heap set_files set_cfg_types_folders set_market_dirty set_cat set_index
       set_current_container_key set_selected_loot_index set_var_container set_settings
       set_editor set_notices].

Lemma labels_snoc (h : list object) xs x :
  labels h (xs ++ [x])
  = labels h xs ++ match as_dict h x with
                   | Some cd => [container_label h (length xs) cd]
                   | None => []
                   end.
Proof.
  unfold labels. rewrite imap_app, omap_app. f_equal. simpl. rewrite Nat.add_0_r.
  by destruct (as_dict h x).
Qed.

(** The loop of [_index_containers]. *)
Lemma index_fold (h : list object) (cv : value) (xs : list value) :
  let '(names, index) :=
    foldl (λ '(names, index) '(idx, c),
             match as_dict h c with
             | None => (names, index)
             | Some cd =>
                 let label := container_label h idx cd in
                 (names ++ [label],
                  dict_set index label {| ci_ref := c; ci_idx := idx; ci_list_ref := cv |})
             end)
          ([], []) (imap (λ i c, (i, c)) xs) in
  names = labels h xs ∧
  (∀ label info, dict_get index label = Some info →
     ci_list_ref info = cv ∧ xs !! ci_idx info = Some (ci_ref info) ∧
     (∃ cd, as_dict h (ci_ref info) = Some cd ∧ container_label h (ci_idx info) cd = label) ∧
     ∀ k c cd, ci_idx info < k → xs !! k = Some c → as_dict h c = Some cd →
               container_label h k cd ≠ label) ∧
  (∀ i c cd, xs !! i = Some c → as_dict h c = Some cd →
     is_Some (dict_get index (container_label h i cd))).
Proof.
  induction xs as [|x xs IH] using rev_ind.
  { simpl. split_and!; [done|by intros ?? [=]|by intros ??? [=]]. }
  rewrite imap_app, foldl_app. simpl. rewrite Nat.add_0_r.
  destruct (foldl _ _ (imap _ xs)) as [names index]. destruct IH as (Hn & H1 & H2).
  rewrite labels_snoc. destruct (as_dict h x) as [cdx|] eqn:Hx.
  - split_and!.
    + by rewrite Hn.
    + intros label info Hg.
      destruct (decide (container_label h (length xs) cdx = label)) as [<-|Hne].
      * rewrite dict_get_set_eq in Hg. injection Hg as <-. simpl.
        split_and!; [done|by rewrite list_lookup_middle|by eauto|].
        intros k c cd Hlt Hk. apply lookup_lt_Some in Hk. rewrite length_app in Hk.
        simpl in Hk. lia.
      * rewrite dict_get_set_ne in Hg by done.
        destruct (H1 _ _ Hg) as (Hcv & Hidx & Hlab & Hlast).
        split_and!; [done|by apply lookup_app_l_Some|done|].
        intros k c cd Hlt Hk Hd.
        apply lookup_app_Some in Hk as [Hk|[Hge Hk]]; [by eapply Hlast|].
        apply list_lookup_singleton_Some in Hk as [Hk0 <-].
        assert (k = length xs) as -> by lia. by simplify_eq.
    + intros i c cd Hi Hd.
      destruct (decide (container_label h (length xs) cdx = container_label h i cd))
        as [<-|Hne]; [by rewrite dict_get_set_eq|].
      rewrite dict_get_set_ne by done.
      apply lookup_app_Some in Hi as [Hi|[Hge Hi]]; [by eapply H2|].
      apply list_lookup_singleton_Some in Hi as [Hk0 <-].
      assert (i = length xs) as -> by lia. by simplify_eq.
  - split_and!.
    + by rewrite Hn, app_nil_r.
    + intros label info Hg. destruct (H1 _ _ Hg) as (Hcv & Hidx & Hlab & Hlast).
      split_and!; [done|by apply lookup_app_l_Some|done|].
      intros k c cd Hlt Hk Hd.
      apply lookup_app_Some in Hk as [Hk|[Hge Hk]]; [by eapply Hlast|].
      apply list_lookup_singleton_Some in Hk as [Hk0 <-]. congruence.
    + intros i c cd Hi Hd.
      apply lookup_app_Some in Hi as [Hi|[Hge Hi]]; [by eapply H2|].
      apply list_lookup_singleton_Some in Hi as [Hk0 <-]. congruence.
Qed.

(** X26.  [_index_containers] of v2.0 on a document with a list of
    containers: the dropdown gets the labels of the containers that
    are dicts, sorted without regard to case, and the index maps the
    label of every such container to a container of that label, the
    last one in the list when several share it. *)
Theorem index_containers_last_label_wins (s : app) d cv elems :
  as_dict (heap s) (airdrop_data s) = Some d →
  found_containers (heap s) d = Some cv → as_list (heap s) cv = Some elems →
  ∃ s', _index_containers s = Ret tt s' ∧ heap s' = heap s ∧
        container_names s' ≡ₚ labels (heap s) elems ∧
        sorted_by_lower (container_names s') ∧
        ∀ i c cd, elems !! i = Some c → as_dict (heap s) c = Some cd →
          ∃ j c' cd', dict_get (container_index s') (container_label (heap s) i cd)
                      = Some {| ci_ref := c'; ci_idx := j; ci_list_ref := cv |} ∧
                      i ≤ j ∧ elems !! j = Some c' ∧ as_dict (heap s) c' = Some cd' ∧
                      container_label (heap s) j cd' = container_label (heap s) i cd ∧
                      ∀ k c'' cd'', j < k → elems !! k = Some c'' →
                        as_dict (heap s) c'' = Some cd'' →
                        container_label (heap s) k cd'' ≠ container_label (heap s) i cd.
Proof.
  intros Hd Hfound Hlist. unfold found_containers in Hfound.
  pose proof (index_fold (heap s) cv elems) as Hfold.
  unfold _index_containers. rewrite bind_modify, !bind_gets. norm. rewrite Hd.
  rewrite Hfound.
  assert (∃ l, cv = VRef l ∧ heap s !! l = Some (OList elems)) as (l & -> & Hl).
  { destruct cv as [| | | | |l]; try done. exists l. split; [done|]. simpl in Hlist.
    by destruct (heap s !! l) as [[|]|]; simplify_eq. }
  erewrite bind_step by (eapply py_list_of_ok; norm; done).
  destruct (foldl _ _ (imap _ elems)) as [names index]. destruct Hfold as (Hn & H1 & H2).
  eexists. split; [reflexivity|]. norm. split_and!.
  - done.
  - rewrite sorted_lower_perm. by rewrite Hn.
  - apply sorted_lower_sorted.
  - intros i c cd Hi Hc. destruct (H2 i c cd Hi Hc) as [[c' j cv'] Hg].
    destruct (H1 _ _ Hg) as (Hcv & Hidx & (cd' & Hcd' & Hlab) & Hlast). simpl in *. subst cv'.
    exists j, c', cd'. split_and!; try done.
    destruct (decide (i ≤ j)) as [|Hgt]; [done|].
    exfalso. by apply (Hlast i c cd); [lia|..].
Qed.

End S.
End Index20.

(** * v2.0: choosing a container, loading a document *)

Module Select20.
Import DictFacts ExecFacts Steps FrameSpec Frame JsonSpec JsonFacts Loaded.
Import V20 Spec20 IndexSpec Loot20 Handlers20.
Local Open Scope nat_scope.

Section S.
Context `{Builtins} `{Host}.

Ltac norm :=
  cbn [get_heap put_heap app_store heap files cfg_types_folders airdrop_path airdrop_data
       market_path market_data market_dirty cat container_names container_index
       current_container_key selected_loot_index var_container settings editor mvars notices
       set_heap set_files set_cfg_types_folders set_market_dirty set_cat set_index
       set_current_container_key set_selected_loot_index set_var_container set_settings
       set_editor set_notices].

(** X27.  Choosing a label of the index in v2.0 makes its container
    the selected one, shows its settings and clears the row selection
    and the editor.  A container with no list under [Loot] or [m_Loot]
    is given a new empty [Loot] by this alone; otherwise the store is
    left as it is. *)
Theorem on_container_change_selects (s : app) key info c d :
  key ≠ "" → dict_get (container_index s) key = Some info →
  ci_ref info = VRef c → heap s !! c = Some (ODict d) →
  ∃ s' d', on_container_change key s = Ret tt s' ∧
           selected s' c d' ∧ current_container_key s' = Some key ∧
           settings s' = shown_settings (heap s) d ∧
           selected_loot_index s' = None ∧ editor s' = cleared_editor ∧
           heap s' = match loot_list_key (heap s) d with
                     | Some _ => heap s
                     | None => <[c := ODict (dict_set d "Loot" (VRef (length (heap s))))]>
                                 (heap s ++ [OList []])
                     end.
Proof.
  intros Hkey Hinfo Href Hc. pose proof (lookup_lt_Some _ _ _ Hc) as Hlt.
  unfold on_container_change. rewrite bind_gets, Hinfo.
  rewrite bool_decide_false by done. rewrite bind_modify. rewrite Href.
  do 6 (erewrite bind_step by (eapply py_get_ok; norm; exact Hc)).
  rewrite bind_gets, bind_modify. norm.
  unfold _load_loot_tree, _clear_loot_tree, _clear_loot_editor.
  rewrite bind_bind, bind_modify, bind_modify.
  unfold _get_container_loot_list.
  rewrite bind_bind. erewrite bind_step by (eapply py_dict_of_ok; norm; exact Hc).
  rewrite bind_bind, bind_gets. norm. unfold loot_list_key.
  destruct (list_find _ ["Loot"; "m_Loot"]) as [[n k]|] eqn:Hfind.
  - rewrite bind_ret. cbn [fmap option_fmap option_map snd].
    eexists _, d. split; [reflexivity|]. norm. split_and!; try done.
    exists key, info. norm. split_and!; try done.
    apply list_find_Some in Hfind as (_ & [Hmem _] & _). intros ->. done.
  - cbn [fmap option_fmap option_map].
    rewrite bind_bind. erewrite bind_step by apply py_new_ok. norm.
    rewrite bind_bind.
    erewrite bind_step by (eapply py_setitem_ok; norm; by apply lookup_app_l_Some). norm.
    rewrite bind_bind. erewrite bind_step.
    2: { eapply py_item_ok; norm.
         - apply list_lookup_insert_eq. rewrite length_app. lia.
         - apply dict_get_set_eq. }
    rewrite !bind_ret.
    eexists _, (dict_set d "Loot" (VRef (length (heap s)))). split; [reflexivity|].
    norm. split_and!; try done.
    exists key, info. norm. split_and!; try done.
    + apply list_lookup_insert_eq. rewrite length_app. lia.
    + apply Pending.dict_set_not_nil.
Qed.

Lemma index_no_dict (x : app) :
  as_dict (heap x) (airdrop_data x) = None →
  _index_containers x = Ret tt (set_index [] [] x).
Proof.
  intros Hn. unfold _index_containers. rewrite bind_modify, !bind_gets. norm.
  by rewrite Hn.
Qed.

Lemma refresh_no_names (x : app) :
  container_names x = [] →
  _refresh_container_dropdown x
  = Ret tt (set_editor cleared_editor
              (set_selected_loot_index None
                 (set_current_container_key None
                    (set_var_container "Load airdrop file first" x)))).
Proof.
  intros Hn. unfold _refresh_container_dropdown. rewrite bind_gets, Hn.
  rewrite !bind_modify. unfold _clear_loot_tree, _clear_loot_editor.
  by rewrite bind_modify.
Qed.

(** X28.  [load_airdrop] of v2.0 takes any file that parses: a tree
    that is not an object becomes the document all the same (it reads
    back as the file's tree), with an empty dropdown, no container
    selected and the "Loaded" notice. *)
Theorem load_airdrop_takes_any_tree (s : app) path j :
  path ≠ "" → fs_read_json (files s) path = Some j → (∀ kvs, j ≠ JObj kvs) →
  ∃ s', load_airdrop (Some path) s = Ret tt s' ∧
        airdrop_path s' = path ∧
        json_dumps (heap s') (airdrop_data s') = Some j ∧
        container_names s' = [] ∧ container_index s' = [] ∧
        current_container_key s' = None ∧
        var_container s' = "Load airdrop file first" ∧
        notices s' = notices s ++ [Notice Info "Loaded"].
Proof.
  intros Hpath Hread Hnot. unfold load_airdrop. rewrite bool_decide_false by done.
  pose proof (loads_as_dict j (heap s)) as Hdict.
  pose proof (dumps_loads j (heap s)) as Hdumps.
  destruct (loads j (heap s)) as [h1 v] eqn:Hloads. cbn [fst snd] in *.
  assert (as_dict h1 v = None) as Hnone.
  { rewrite Hdict. destruct j; try done. by destruct (Hnot kvs). }
  assert (∃ s', _load_airdrop_path path false s = Ret tt s' ∧
                airdrop_path s' = path ∧ heap s' = h1 ∧ airdrop_data s' = v ∧
                container_names s' = [] ∧ container_index s' = [] ∧
                current_container_key s' = None ∧
                var_container s' = "Load airdrop file first" ∧
                notices s' = notices s ++ [Notice Info "Loaded"]) as (s' & Hrun & Hrest).
  { unfold _load_airdrop_path, try_except.
    rewrite bind_gets, Hread. cbn [lift]. rewrite bind_ret.
    unfold bind at 1. rewrite Hloads. rewrite bind_modify. norm.
    erewrite bind_step by (apply index_no_dict; norm; exact Hnone).
    erewrite bind_step by (by apply refresh_no_names).
    unfold notify, modify.
    eexists. split; [reflexivity|]. by norm. }
  exists s'. destruct Hrest as (? & Hh & Hd & ? & ? & ? & ? & ?).
  split_and!; try done. by rewrite Hh, Hd.
Qed.

End S.
End Select20.

(** * v1.8: choosing a container *)

Module Select18.
Import DictFacts ExecFacts Steps FrameSpec Frame JsonSpec JsonFacts.
Import V18 Spec18 SaveSpec LoadSpec Pending Removal Dropdown Handlers18.
Local Open Scope nat_scope.

Section S.
Context `{Builtins} `{Host}.

Ltac norm :=
  cbn [get_heap put_heap app_store heap files airdrop_path airdrop_data cat
       container_names current_container_index selected_loot_index
       pending_container_settings var_container settings editor notices
       set_heap set_files set_cat set_container_names set_current_container_index
       set_selected_loot_index set_pending_container_settings set_var_container
       set_settings set_editor set_notices].

Lemma set_pending_id (x : app) :
  set_pending_container_settings (pending_container_settings x) x = x.
Proof. by destruct x. Qed.

Lemma stash_staged (x : app) :
  is_none (airdrop_data x) = false →
  _stash_pending_container_settings x
  = Ret tt (set_pending_container_settings (staged_with_form x) x).
Proof.
  intros Hd. unfold staged_with_form.
  destruct (current_container_index x) as [idx|] eqn:Hcur; [by apply stash_spec|].
  rewrite set_pending_id. unfold _stash_pending_container_settings.
  by rewrite !bind_gets, Hcur.
Qed.

(** X29.  Choosing a name in the dropdown of v1.8 shows the first
    container of that name, so that a later container of the same name
    cannot be reached this way.  What the form held is staged for the
    container that was shown before, the row selection and the editor
    are cleared, and no object of the document changes. *)
Theorem on_container_change_first_of_name (s : app) r cl locs choice i tv l :
  doc (heap s) (airdrop_data s) r cl locs →
  list_find (λ v, value_is_str v choice = true) (container_names s) = Some (i, tv) →
  locs !! i = Some l → has_loot_list (heap s) l →
  ∃ s', on_container_change choice s = Ret tt s' ∧
        current_container_index s' = Some (Z.of_nat i) ∧
        pending_container_settings s' = staged_with_form s ∧
        selected_loot_index s' = None ∧ editor s' = cleared_editor ∧
        airdrop_data s' = airdrop_data s ∧ heap s' = heap s ++ [OList []].
Proof.
  intros Hdoc Hfind Hl (d & ll & loot & Hd & Hg & Hll).
  unfold on_container_change. rewrite bind_modify, bind_gets.
  unfold py_truthy at 1. rewrite bind_gets. norm.
  rewrite (doc_truthy _ _ _ _ _ Hdoc). cbn [negb].
  erewrite bind_step by (apply stash_staged; norm; by eapply doc_not_none).
  rewrite !bind_gets. norm. rewrite Hfind. rewrite bind_modify.
  unfold show_selected_container, _clear_editor. rewrite !bind_modify.
  match goal with |- context [bind _load_container_settings_into_ui _ ?st] => set (s1 := st) end.
  assert (doc (heap s1) (airdrop_data s1) r cl locs) as Hdoc1 by done.
  assert (current_container_index s1 = Some (Z.of_nat i)) as Hcur1 by done.
  assert (locs !! Z.to_nat (Z.of_nat i) = Some l) as Hl1 by (by rewrite Nat2Z.id).
  destruct (load_settings_spec s1 r cl locs (Z.of_nat i) l Hdoc1 Hcur1) as [vars Hset];
    [lia|done|].
  erewrite bind_step by exact Hset.
  erewrite (refresh_spec _ r cl locs (Z.of_nat i) l d ll loot); norm; try done; [|lia].
  eexists. split; [reflexivity|]. by norm.
Qed.

End S.
End Select18.

(** * v2.0: editing a market row *)

Module MarketRows20.
Import DictFacts ExecFacts Steps MarketLookup.
Import V20 Spec20.
Local Open Scope nat_scope.

Lemma dict_get_setdefault_ne {V} (d : list (string * V)) k k' v :
  k ≠ k' → dict_get (dict_setdefault d k v) k' = dict_get d k'.
Proof.
  intros Hne. unfold dict_setdefault. destruct (dict_get d k); [done|].
  by apply dict_get_set_ne.
Qed.

Lemma dict_get_setdefault_eq {V} (d : list (string * V)) k v :
  dict_get (dict_setdefault d k v) k = Some (default v (dict_get d k)).
Proof.
  unfold dict_setdefault. destruct (dict_get d k) eqn:E; [done|].
  by apply dict_get_set_eq.
Qed.

Section S.
Context `{Builtins} `{Host}.

Ltac norm :=
  cbn [get_heap put_heap app_store heap files cfg_types_folders airdrop_path airdrop_data
       market_path market_data market_dirty cat container_names container_index
       current_container_key selected_loot_index var_container settings editor mvars notices
       set_heap set_files set_cfg_types_folders set_market_dirty set_cat set_index
       set_current_container_key set_selected_loot_index set_var_container set_settings
       set_editor set_notices].

(** X30.  [market_apply_edit] of v2.0 on the row found for the typed
    classname: the row takes the typed spelling and the four thresholds
    of the form (5, 10, 0 and 100 where the text is no integer); a
    value the row had for [SellPricePercent], [QuantityPercent],
    [SpawnAttachments] or [Variants] stays, every other key of the row
    is as it was, the list of rows is unchanged and the category counts
    as modified. *)
Theorem market_apply_edit_fields (s : app) il items n i r rd :
  market_doc (heap s) (market_data s) il items →
  str_strip (var_m_class (mvars s)) = n → n ≠ "" →
  find_index_by_class (heap s) (market_data s) n = Some i →
  items !! i = Some (VRef r) → heap s !! r = Some (ODict rd) →
  ∃ s' rd',
    market_apply_edit s = Ret tt s' ∧ market_dirty s' = true ∧
    heap s' !! il = Some (OList items) ∧ heap s' !! r = Some (ODict rd') ∧
    dict_get rd' "ClassName" = Some (VStr n) ∧
    dict_get rd' "MinPriceThreshold" = Some (VInt (safe_int (var_m_minp (mvars s)) 5)) ∧
    dict_get rd' "MaxPriceThreshold" = Some (VInt (safe_int (var_m_maxp (mvars s)) 10)) ∧
    dict_get rd' "MinStockThreshold" = Some (VInt (safe_int (var_m_minst (mvars s)) 0)) ∧
    dict_get rd' "MaxStockThreshold" = Some (VInt (safe_int (var_m_maxst (mvars s)) 100)) ∧
    (∀ k v, dict_get rd k = Some v →
            k ∉ ["ClassName"; "MinPriceThreshold"; "MaxPriceThreshold";
                 "MinStockThreshold"; "MaxStockThreshold"] →
            dict_get rd' k = Some v) ∧
    (∀ k, k ∉ ["ClassName"; "MinPriceThreshold"; "MaxPriceThreshold";
               "MinStockThreshold"; "MaxStockThreshold"; "SellPricePercent";
               "QuantityPercent"; "SpawnAttachments"; "Variants"] →
          dict_get rd' k = dict_get rd k).
Proof.
  intros (md & Hd & Hi & Hl) Hn Hne Hf Hrow Hr.
  pose proof (lookup_lt_Some _ _ _ Hr) as Hrlt.
  pose proof (lookup_lt_Some _ _ _ Hl) as Hillt.
  assert (r ≠ il) as Hril by (intros ->; congruence).
  destruct (market_data s) as [| | | | |dl] eqn:Hmd; try done.
  simpl in Hd. destruct (heap s !! dl) as [[d0|]|] eqn:Hdl; try done.
  injection Hd as ->.
  unfold market_apply_edit.
  rewrite bind_gets, Hmd. unfold py_is_dict at 1. rewrite bind_gets.
  unfold is_dict, as_dict. norm. rewrite Hdl. rewrite bool_decide_true by eauto.
  cbn [negb]. rewrite bind_gets, Hn. rewrite bool_decide_false by done.
  unfold _market_find_index_by_class. rewrite bind_gets, Hmd, Hf.
  erewrite bind_step by (eapply py_item_ok; norm; eauto).
  erewrite bind_step by (eapply py_index_ok; norm; eauto using getitem_of_nat).
  erewrite bind_step by (eapply py_setitem_ok; norm; lookup_tac).
  erewrite bind_step by (eapply py_setitem_ok; norm; lookup_tac).
  erewrite bind_step by (eapply py_setitem_ok; norm; lookup_tac).
  erewrite bind_step by (eapply py_setitem_ok; norm; lookup_tac).
  erewrite bind_step by (eapply py_setitem_ok; norm; lookup_tac).
  erewrite bind_step by (eapply py_setdefault_ok; norm; lookup_tac).
  erewrite bind_step by (eapply py_setdefault_ok; norm; lookup_tac).
  erewrite bind_step by (apply py_new_ok).
  erewrite bind_step by (eapply py_setdefault_ok; norm; lookup_tac).
  erewrite bind_step by (apply py_new_ok).
  erewrite bind_step by (eapply py_setdefault_ok; norm; lookup_tac).
  unfold modify. norm.
  eexists _, _. split; [reflexivity|]. norm.
  split; [done|]. split; [lookup_tac|]. split; [lookup_tac|].
  split_and!.
  - rewrite !dict_get_setdefault_ne, !dict_get_set_ne by done. apply dict_get_set_eq.
  - rewrite !dict_get_setdefault_ne, !dict_get_set_ne by done. apply dict_get_set_eq.
  - rewrite !dict_get_setdefault_ne, !dict_get_set_ne by done. apply dict_get_set_eq.
  - rewrite !dict_get_setdefault_ne, !dict_get_set_ne by done. apply dict_get_set_eq.
  - rewrite !dict_get_setdefault_ne by done. apply dict_get_set_eq.
  - intros k v Hk Hnin.
    repeat (apply not_elem_of_cons in Hnin as [? Hnin]).
    repeat match goal with
    | |- dict_get (dict_setdefault _ ?k' _) k = _ =>
        destruct (decide (k' = k)) as [<-|];
          [rewrite dict_get_setdefault_eq; rewrite ?dict_get_setdefault_ne by done;
           rewrite !dict_get_set_ne by done; by rewrite Hk
          |rewrite dict_get_setdefault_ne by done]
    end.
    by rewrite !dict_get_set_ne by done.
  - intros k Hnin.
    repeat (apply not_elem_of_cons in Hnin as [? Hnin]).
    by rewrite !dict_get_setdefault_ne, !dict_get_set_ne by done.
Qed.

End S.
End MarketRows20.

(** * The theorems above on the examples *)

Module MoreChecks18.
Import Sample Cases MoreCases.
Import V18 Spec18 EntrySpec SaveSpec LoadSpec NamesSpec JsonSpec.
Local Open Scope nat_scope.

Ltac by_eval :=
  solve [ vm_compute; reflexivity
        | compute_done
        | vm_compute; done
        | vm_compute; lia
        | vm_compute; congruence ].

Ltac inline := repeat match goal with x := _ |- _ => subst x end.

Ltac doc_eval :=
  inline; unfold Spec18.doc; split_and!;
  [ by_eval | by_eval | by_eval
  | repeat (apply Forall_cons_2; [by_eval|]); apply Forall_nil_2
  | by_eval ].

(** X1 on the types file of the examples. *)
Lemma load_types_xml_names_witness :
  let d : disk := disk0 in
  let path : string := "types/types.xml" in
  let els : list type_elem := types_elems in
  ∃ items meta,
    load_types_xml d path = Some (items, meta) ∧
    NoDup items ∧ sorted_by_lower items ∧
    (∀ x, x ∈ items ↔ x ∈ named_types els) ∧
    (∀ x, is_Some (dict_get meta x) ↔ x ∈ items) ∧
    Forall (λ kv, meta_source kv.2 = basename path) meta.
Proof.
  intros d path els.
  apply (Types18.load_types_xml_names d path els).
  - by_eval.
Defined.

(** X6 on the catalog of [typed18], searched for "ak". *)
Lemma item_browser_rows_witness :
  let search : string := "ak" in
  let source : string := "All Types Files" in
  let c : V18.catalog := V18.cat typed18 in
  let q := str_lower (str_strip search) in
  let base := if bool_decide (source = "All Types Files") then V18.all_items c
              else dict_get_or (V18.source_to_items c) source [] in
  let rows := V18.refresh_item_filter search source c in
  0 < length rows ≤ 900 ∧
  (∀ name src, V18.ItemRow name src ∈ rows →
     name ∈ base ∧ (∃ a b, str_lower name = (a ++ q ++ b)%string) ∧
     V18.in_parens name = false ∧
     src = from_option V18.meta_source "" (dict_get (V18.item_meta c) name)) ∧
  ((∀ x, x ∈ base → ¬ ∃ a b, str_lower x = (a ++ q ++ b)%string) →
   rows = [V18.ItemLabel "No matches."]).
Proof.
  intros search source c.
  apply (Browse.item_browser_rows search source c).
  - by_eval.
Defined.

(** X17 on the first row of "Heli_Crash" removed. *)
Lemma remove_selected_loot_deletes_witness :
  let s : app := edit18 in
  let r : nat := 9 in
  let cl : nat := 8 in
  let locs : list nat := [5; 7] in
  let idx : Z := 0%Z in
  let l : nat := 5 in
  let d : list (string * value) := [("Container", VStr "Heli_Crash"); ("ItemCount", VInt 10); ("Loot", VRef 4)] in
  let ll : nat := 4 in
  let loot : list value := [VRef 2; VRef 3] in
  let i : Z := 0%Z in
  ∃ s', remove_selected_loot s = Ret tt s' ∧
        (∀ j, j < length (heap s) → j ≠ ll → heap s' !! j = heap s !! j) ∧
        if bool_decide (0 ≤ i < Z.of_nat (length loot))%Z
        then heap s' !! ll = Some (OList (delete (Z.to_nat i) loot)) ∧
             selected_loot_index s' = None ∧ editor s' = cleared_editor
        else heap s' !! ll = Some (OList loot) ∧
             selected_loot_index s' = Some i ∧ editor s' = editor s.
Proof.
  intros s r cl locs idx l d ll loot i.
  apply (LootOps18.remove_selected_loot_deletes s r cl locs idx l d ll loot i).
  - doc_eval.
  - split_and!; by_eval.
  - by_eval.
  - by_eval.
Defined.

(** X18 on the loot of "Heli_Crash" cleared. *)
Lemma clear_current_loot_replaces_witness :
  let s : app := loaded18 in
  let r : nat := 9 in
  let cl : nat := 8 in
  let locs : list nat := [5; 7] in
  let idx : Z := 0%Z in
  let l : nat := 5 in
  let d : list (string * value) := [("Container", VStr "Heli_Crash"); ("ItemCount", VInt 10); ("Loot", VRef 4)] in
  let ll : nat := 4 in
  let loot : list value := [VRef 2; VRef 3] in
  clear_current_loot false s = Ret tt s ∧
  ∃ s' e, clear_current_loot true s = Ret tt s' ∧ length (heap s) ≤ e ∧
          heap s' !! l = Some (ODict (dict_set d "Loot" (VRef e))) ∧
          heap s' !! e = Some (OList []) ∧
          (∀ j, j < length (heap s) → j ≠ l → heap s' !! j = heap s !! j) ∧
          selected_loot_index s' = None ∧ editor s' = cleared_editor.
Proof.
  intros s r cl locs idx l d ll loot.
  apply (LootOps18.clear_current_loot_replaces s r cl locs idx l d ll loot).
  - doc_eval.
  - split_and!; by_eval.
Defined.

(** X19 on [blank_name18], where the name is blank, and on
    [unknown_name18], where "Mosin" is not in the catalog and the
    question is answered no. *)
Lemma apply_editor_refuses_witness :
  apply_editor_to_selected true blank_name18
  = Ret tt (set_notices (notices blank_name18 ++ [Notice Warning "Invalid Name"])
              (set_heap (heap blank_name18 ++ [OList []]) blank_name18)) ∧
  apply_editor_to_selected false unknown_name18
  = Ret tt (set_heap (heap unknown_name18 ++ [OList []]) unknown_name18).
Proof.
  split.
  - destruct (LootOps18.apply_editor_refuses blank_name18 9 8 [5; 7] 0%Z 5
                [("Container", VStr "Heli_Crash"); ("ItemCount", VInt 10); ("Loot", VRef 4)] 4 [VRef 2; VRef 3] 0%Z true) as [Hblank _].
    + doc_eval.
    + split_and!; by_eval.
    + by_eval.
    + by_eval.
    + apply Hblank. by_eval.
  - destruct (LootOps18.apply_editor_refuses unknown_name18 9 8 [5; 7] 0%Z 5
                [("Container", VStr "Heli_Crash"); ("ItemCount", VInt 10); ("Loot", VRef 4)] 4 [VRef 2; VRef 3] 0%Z false) as [_ Hunknown].
    + doc_eval.
    + split_and!; by_eval.
    + by_eval.
    + by_eval.
    + apply Hunknown; by_eval.
Defined.

(** X20 on the row of "AKM" duplicated. *)
Lemma duplicate_selected_loot_copies_witness :
  let s : app := edit18 in
  let r : nat := 9 in
  let cl : nat := 8 in
  let locs : list nat := [5; 7] in
  let idx : Z := 0%Z in
  let l : nat := 5 in
  let d : list (string * value) := [("Container", VStr "Heli_Crash"); ("ItemCount", VInt 10); ("Loot", VRef 4)] in
  let ll : nat := 4 in
  let loot : list value := [VRef 2; VRef 3] in
  let i : Z := 0%Z in
  let e : nat := 2 in
  let kvs : list (string * json) := [("Name", JStr "AKM"); ("Chance", JFloat 0.5%float); ("Min", JInt 5); ("Max", JInt (-1)); ("QuantityPercent", JFloat (-1)%float); ("Attachments", JArr []); ("Variants", JArr [])] in
  ∃ s' c, duplicate_selected_loot s = Ret tt s' ∧ length (heap s) ≤ c ∧
          heap s' !! ll = Some (OList (loot ++ [VRef c])) ∧
          json_dumps (heap s') (VRef c) = Some (JObj kvs) ∧
          selected_loot_index s' = Some (Z.of_nat (length loot)) ∧
          ∀ j, j < length (heap s) → j ≠ ll → heap s' !! j = heap s !! j.
Proof.
  intros s r cl locs idx l d ll loot i e kvs.
  apply (LootOps18.duplicate_selected_loot_copies s r cl locs idx l d ll loot i e kvs).
  - doc_eval.
  - split_and!; by_eval.
  - by_eval.
  - by_eval.
  - by_eval.
  - by_eval.
  - by_eval.
  - by_eval.
  - by_eval.
Defined.

(** X21 on the document of [loaded18] saved. *)
Lemma save_airdrop_writes_witness :
  let s : app := loaded18 in
  let r : nat := 9 in
  let cl : nat := 8 in
  let locs : list nat := [5; 7] in
  let stamp : string := "2026-01-02_120000" in
  let d1 : disk := (copy2 disk0 settings_path "missions/AirdropSettings.json.bak_2026-01-02_120000").1 in
  let d2 : disk := put_file settings_path {| f_text := ""; f_json := None; f_types := None |} d1 in
  let d3 : disk := (write d2 settings_path (text_of_json heli_saved)).1 in
  let j : json := heli_saved in
  let h' := commit_heap locs (staged_with_form s) (heap s) in
  ∃ s', save_airdrop stamp s = Ret tt s' ∧ files s' = d3 ∧ heap s' = h' ∧
        pending_container_settings s' = [] ∧
        notices s' = notices s ++ [Notice Info "Saved"].
Proof.
  intros s r cl locs stamp d1 d2 d3 j.
  refine (Save18.save_airdrop_writes s r cl locs stamp d1 d2 d3 j _ _ _ _ _ _).
  - doc_eval.
  - by_eval.
  - by_eval.
  - by_eval.
  - by_eval.
  - by_eval.
Defined.

(** X22 on the backup name that cannot be created. *)
Lemma save_airdrop_failed_backup_commits_witness :
  let s : app := loaded18 in
  let r : nat := 9 in
  let cl : nat := 8 in
  let locs : list nat := [5; 7] in
  let stamp : string := "2026-01-01_120000" in
  let d1 : disk := disk0 in
  ∃ s', save_airdrop stamp s = Ret tt s' ∧ files s' = d1 ∧
        heap s' = commit_heap locs (staged_with_form s) (heap s) ∧
        pending_container_settings s' = [] ∧
        notices s' = notices s ++ [Notice Error "Backup Error"].
Proof.
  intros s r cl locs stamp d1.
  apply (Save18.save_airdrop_failed_backup_commits s r cl locs stamp d1).
  - doc_eval.
  - by_eval.
  - by_eval.
Defined.

(** X23 on the settings file of the examples. *)
Lemma load_airdrop_accepts_witness :
  let s : app := blank18 in
  let path : string := settings_path in
  let j : json := heli in
  let cs : list json := heli_containers in
  ∃ s' r cl locs,
    load_airdrop (Some path) s = Ret tt s' ∧
    airdrop_path s' = path ∧ pending_container_settings s' = [] ∧
    doc (heap s') (airdrop_data s') r cl locs ∧ NoDup locs ∧ length locs = length cs ∧
    Forall (has_loot_list (heap s')) locs ∧
    current_container_index s' = (if decide (locs = []) then None else Some 0%Z) ∧
    (∀ l o, heap s !! l = Some o → heap s' !! l = Some o) ∧
    notices s' = notices s.
Proof.
  intros s path j cs.
  apply (Load18.load_airdrop_accepts s path j cs).
  - by_eval.
  - by_eval.
  - by_eval.
  - by_eval.
Defined.

(** X24 on the market file opened as a settings file. *)
Lemma load_airdrop_rejects_witness :
  let s : app := loaded18 in
  let path : string := market_file in
  ∃ h', load_airdrop (Some path) s
        = Ret tt (set_notices (notices s ++ [Notice Error "Load Error"]) (set_heap h' s)) ∧
        ∀ l o, heap s !! l = Some o → h' !! l = Some o.
Proof.
  intros s path.
  apply (Load18.load_airdrop_rejects s path).
  - by_eval.
  - by_eval.
Defined.

(** X25 on the settings file of the examples. *)
Lemma load_airdrop_round_trip_witness :
  let s : app := blank18 in
  let path : string := settings_path in
  let j : json := heli in
  let cs : list json := heli_containers in
  ∃ s', load_airdrop (Some path) s = Ret tt s' ∧
        json_dumps (heap s') (airdrop_data s') = Some j.
Proof.
  intros s path j cs.
  apply (Load18.load_airdrop_round_trip s path j cs).
  - by_eval.
  - by_eval.
  - by_eval.
  - by_eval.
  - by_eval.
Defined.

(** X29 on "Drop_B" chosen in the dropdown. *)
Lemma on_container_change_first_of_name_witness :
  let s : app := loaded18 in
  let r : nat := 9 in
  let cl : nat := 8 in
  let locs : list nat := [5; 7] in
  let choice : string := "Drop_B" in
  let i : nat := 1 in
  let tv : value := VStr "Drop_B" in
  let l : nat := 7 in
  ∃ s', on_container_change choice s = Ret tt s' ∧
        current_container_index s' = Some (Z.of_nat i) ∧
        pending_container_settings s' = staged_with_form s ∧
        selected_loot_index s' = None ∧ editor s' = cleared_editor ∧
        airdrop_data s' = airdrop_data s ∧ heap s' = heap s ++ [OList []].
Proof.
  intros s r cl locs choice i tv l.
  apply (Select18.on_container_change_first_of_name s r cl locs choice i tv l).
  - doc_eval.
  - by_eval.
  - by_eval.
  - exists [("Container", VStr "Drop_B"); ("Loot", VRef 6)], 6, []; split_and!; by_eval.
Defined.

End MoreChecks18.

Module MoreChecks20.
Import Sample Cases MoreCases.
Import V20 Spec20 MarketSpec IndexSpec NamesSpec JsonSpec.
Local Open Scope nat_scope.

Ltac inline := repeat match goal with x := _ |- _ => subst x end.

Ltac by_eval :=
  solve [ vm_compute; reflexivity
        | compute_done
        | vm_compute; done
        | vm_compute; lia
        | vm_compute; congruence ].

(** X7 on the catalog of [typed20], searched for "ak". *)
Lemma item_table_rows_witness :
  let search : string := "ak" in
  let source : string := "" in
  let c : V20.catalog := V20.cat typed20 in
  let q := str_lower (str_strip search) in
  let src := if bool_decide (source = "") then "All Types Files" else source in
  let base := if bool_decide (src = "All Types Files") then V20.all_items c
              else dict_get_or (V20.source_to_items c) src [] in
  let items := V20._get_filtered_items search source c in
  let rows := V20._item_insert_step search source c in
  items `sublist_of` base ∧
  (∀ x, x ∈ items ↔ x ∈ base ∧ ∃ a b, str_lower x = (a ++ q ++ b)%string) ∧
  rows.*1 = take (if bool_decide (str_strip search = "") then 600 else 1200) items ∧
  ∀ name s, (name, s) ∈ rows →
            s = from_option V20.info_source "" (dict_get (V20.item_meta c) name).
Proof.
  intros search source c.
  apply (Browse.item_table_rows search source c).
  - by_eval.
Defined.

(** X8 on the only row of "Heli_Crash" moved down. *)
Lemma move_loot_swaps_witness :
  let s : app := edit20 in
  let c : nat := 2 in
  let d : list (string * value) := [("Name", VStr "Heli_Crash"); ("Container", VStr "Military"); ("ItemCount", VInt 10); ("Loot", VRef 1)] in
  let ll : nat := 1 in
  let loot : list value := [VRef 0] in
  let i : Z := 0%Z in
  let a : value := VRef 0 in
  let direction : Z := 1%Z in
  let j := (i + direction)%Z in
  ((j < 0 ∨ j >= Z.of_nat (length loot))%Z → move_loot direction s = Ret tt s) ∧
  ∀ b, (0 ≤ j)%Z → loot !! Z.to_nat j = Some b →
    ∃ s', move_loot direction s = Ret tt s' ∧
          heap s' = <[ll := OList (<[Z.to_nat j := a]> (<[Z.to_nat i := b]> loot))]> (heap s) ∧
          selected_loot_index s' = None ∧ editor s' = cleared_editor.
Proof.
  intros s c d ll loot i a direction.
  apply (LootRows20.move_loot_swaps s c d ll loot i a direction).
  - exists "Heli_Crash  (Military)", {| ci_ref := VRef 2; ci_idx := 0; ci_list_ref := VRef 5 |}; split_and!; by_eval.
  - by_eval.
  - by_eval.
  - by_eval.
  - by_eval.
  - by_eval.
Defined.

(** X9 on the row of "Heli_Crash" removed. *)
Lemma remove_loot_deletes_witness :
  let s : app := edit20 in
  let c : nat := 2 in
  let d : list (string * value) := [("Name", VStr "Heli_Crash"); ("Container", VStr "Military"); ("ItemCount", VInt 10); ("Loot", VRef 1)] in
  let ll : nat := 1 in
  let loot : list value := [VRef 0] in
  let i : Z := 0%Z in
  ∃ s', remove_loot s = Ret tt s' ∧
        heap s' = <[ll := OList (if bool_decide (0 ≤ i < Z.of_nat (length loot))%Z
                                 then delete (Z.to_nat i) loot else loot)]> (heap s) ∧
        selected_loot_index s' = None ∧ editor s' = cleared_editor.
Proof.
  intros s c d ll loot i.
  apply (LootRows20.remove_loot_deletes s c d ll loot i).
  - exists "Heli_Crash  (Military)", {| ci_ref := VRef 2; ci_idx := 0; ci_list_ref := VRef 5 |}; split_and!; by_eval.
  - by_eval.
  - by_eval.
  - by_eval.
Defined.


(** X11 on "Mosin" added to the category of the examples and removed again. *)
Lemma market_add_then_remove_witness :
  let s : app := market20 in
  let il : nat := 10 in
  let items : list value := [VRef 7; VRef 8; VRef 9] in
  let n : string := "Mosin" in
  let a := length (heap s) in
  ∃ s1, market_add_selected_from_types (Some n) s = Ret tt s1 ∧
        heap s1 !! il = Some (OList (items ++ [VRef (a + 2)])) ∧
        heap s1 !! (a + 2) = Some (ODict (market_entry n (mvars s) a (a + 1))) ∧
        market_dirty s1 = true ∧
        find_index_by_class (heap s1) (market_data s1) n = Some (length items) ∧
        ∃ s2, market_remove_selected (Some n) s1 = Ret tt s2 ∧
              heap s2 !! il = Some (OList items).
Proof.
  intros s il items n.
  apply (Market20.market_add_then_remove s il items n).
  - exists [("m_Version", VInt 3); ("DisplayName", VStr "Ammo"); ("Items", VRef 10)]; split_and!; by_eval.
  - inline; repeat (apply Forall_cons_2; [vm_compute; eexists; reflexivity|]); apply Forall_nil_2.
  - by_eval.
Defined.

(** X12 on the category whose [Items] is [null]. *)
Lemma market_add_needs_items_list_witness :
  let s : app := bare20 in
  let dl : nat := 0 in
  let md : list (string * value) := [("Items", VNone)] in
  let v : value := VNone in
  let n : string := "AKM" in
  let out := market_add_selected_from_types (Some n) s in
  find_index_by_class (heap s) (market_data s) n = None ∧
  returned out = false ∧
  market_dirty (final out) = market_dirty s ∧ notices (final out) = notices s ∧
  market_data (final out) = market_data s ∧
  ∀ l, l < length (heap s) → heap (final out) !! l = heap s !! l.
Proof.
  intros s dl md v n.
  apply (Market20.market_add_needs_items_list s dl md v n).
  - by_eval.
  - by_eval.
  - by_eval.
  - by_eval.
  - by (intros l Hl).
Defined.

(** X13 on the market file of the examples. *)
Lemma load_market_reads_witness :
  let s : app := loaded20 in
  let path : string := market_file in
  let silent : bool := true in
  let j : json := ammo in
  ∃ s', _load_market_path path silent s = Ret tt s' ∧
        market_path s' = path ∧ market_dirty s' = false ∧
        json_dumps (heap s') (market_data s') = Some j ∧
        (∃ ext, heap s' = heap s ++ ext) ∧
        notices s' = notices s ++ (if silent then [] else [Notice Info "Market Loaded"]) ∧
        ∀ kvs rows, j = JObj kvs → dict_get kvs "Items" = Some (JArr rows) →
          ∃ il items, market_doc (heap s') (market_data s') il items ∧
                      length items = length rows.
Proof.
  intros s path silent j.
  apply (Load20.load_market_reads s path silent j).
  - by_eval.
  - eexists; split; [reflexivity|vm_compute; eauto].
Defined.

(** X14 on a path with no file. *)
Lemma load_market_rejects_witness :
  let s : app := loaded20 in
  let path : string := "market/None.json" in
  let silent : bool := false in
  ∃ s', _load_market_path path silent s = Ret tt s' ∧
        market_data s' = market_data s ∧ market_path s' = market_path s ∧
        market_dirty s' = market_dirty s ∧
        (∃ ext, heap s' = heap s ++ ext) ∧
        notices s' = notices s ++ (if silent then []
                                   else [Notice Error "Market Load Error"]).
Proof.
  intros s path silent.
  apply (Load20.load_market_rejects s path silent).
  - intros j Hj; vm_compute in Hj; discriminate.
Defined.

(** X15 on the category of the examples saved. *)
Lemma save_market_writes_witness :
  let s : app := market20 in
  let dialog : option string := None in
  let isfile : bool := true in
  let ts : string := "20260101_130000" in
  let j : json := ammo in
  let d2 : disk := put_file market_file {| f_text := ""; f_json := None; f_types := None |} (copy2 disk0 market_file "market/Ammo.json.bak_20260101_130000").1 in
  let d3 : disk := (write d2 market_file (text_of_json ammo)).1 in
  let path := market_path s in
  let d1 := if isfile then (fs_copy2 (files s) path (path ++ ".bak_" ++ ts)).1
            else files s in
  save_market dialog isfile ts s
  = Ret tt (set_notices (notices s ++ [Notice Info "Market Saved"])
              (set_market_dirty false (set_files d3 s))).
Proof.
  intros s dialog isfile ts j d2 d3.
  refine (MarketFiles20.save_market_writes s dialog isfile ts j d2 d3 _ _ _ _ _).
  - by_eval.
  - by_eval.
  - by_eval.
  - by_eval.
  - by_eval.
Defined.

(** X16 on a new category saved as "market/New.json". *)
Lemma new_market_save_as_witness :
  let s : app := loaded20 in
  let display : string := "Ammo" in
  let hint : string := "Ammo.json" in
  let p : string := "market/New.json" in
  let ts : string := "20260101_130000" in
  let s1 := final (new_market (Some display) (Some hint) s) in
  market_path s1 = "" ∧ market_dirty s1 = true ∧
  json_dumps (heap s1) (market_data s1) = Some (new_category display) ∧
  save_market None false ts s1 = Ret tt s1 ∧
  (fs_open_w (files s) p = None →
   ∃ s2, save_market (Some p) false ts s1 = Ret tt s2 ∧
         market_path s2 = p ∧ market_dirty s2 = true ∧ files s2 = files s ∧
         notices s2 = notices s ++ [Notice Error "Market Save Error"]) ∧
  (∀ d2 d3, fs_open_w (files s) p = Some d2 →
            fs_write d2 p (json_text (new_category display)) = (d3, true) →
            ∃ s2, save_market (Some p) false ts s1 = Ret tt s2 ∧
                  market_path s2 = p ∧ market_dirty s2 = false ∧ files s2 = d3 ∧
                  notices s2 = notices s ++ [Notice Info "Market Saved"]).
Proof.
  intros s display hint p ts.
  apply (MarketFiles20.new_market_save_as s display hint p ts).
  - by_eval.
Defined.

(** X26 on the document of [loaded20]. *)
Lemma index_containers_last_label_wins_witness :
  let s : app := loaded20 in
  let d : list (string * value) := [("Containers", VRef 5)] in
  let cv : value := VRef 5 in
  let elems : list value := [VRef 2; VRef 4] in
  ∃ s', _index_containers s = Ret tt s' ∧ heap s' = heap s ∧
        container_names s' ≡ₚ labels (heap s) elems ∧
        sorted_by_lower (container_names s') ∧
        ∀ i c cd, elems !! i = Some c → as_dict (heap s) c = Some cd →
          ∃ j c' cd', dict_get (container_index s') (container_label (heap s) i cd)
                      = Some {| ci_ref := c'; ci_idx := j; ci_list_ref := cv |} ∧
                      i ≤ j ∧ elems !! j = Some c' ∧ as_dict (heap s) c' = Some cd' ∧
                      container_label (heap s) j cd' = container_label (heap s) i cd ∧
                      ∀ k c'' cd'', j < k → elems !! k = Some c'' →
                        as_dict (heap s) c'' = Some cd'' →
                        container_label (heap s) k cd'' ≠ container_label (heap s) i cd.
Proof.
  intros s d cv elems.
  apply (Index20.index_containers_last_label_wins s d cv elems).
  - by_eval.
  - by_eval.
  - by_eval.
Defined.

(** X27 on "Heli_Crash" chosen in the dropdown. *)
Lemma on_container_change_selects_witness :
  let s : app := loaded20 in
  let key : string := "Heli_Crash  (Military)" in
  let info : cinfo := {| ci_ref := VRef 2; ci_idx := 0; ci_list_ref := VRef 5 |} in
  let c : nat := 2 in
  let d : list (string * value) := [("Name", VStr "Heli_Crash"); ("Container", VStr "Military"); ("ItemCount", VInt 10); ("Loot", VRef 1)] in
  ∃ s' d', on_container_change key s = Ret tt s' ∧
           selected s' c d' ∧ current_container_key s' = Some key ∧
           settings s' = shown_settings (heap s) d ∧
           selected_loot_index s' = None ∧ editor s' = cleared_editor ∧
           heap s' = match loot_list_key (heap s) d with
                     | Some _ => heap s
                     | None => <[c := ODict (dict_set d "Loot" (VRef (length (heap s))))]>
                                 (heap s ++ [OList []])
                     end.
Proof.
  intros s key info c d.
  apply (Select20.on_container_change_selects s key info c d).
  - by_eval.
  - by_eval.
  - by_eval.
  - by_eval.
Defined.

(** X28 on a file that holds an array. *)
Lemma load_airdrop_takes_any_tree_witness :
  let s : app := set_files disk1 blank20 in
  let path : string := "missions/Array.json" in
  let j : json := array_file in
  ∃ s', load_airdrop (Some path) s = Ret tt s' ∧
        airdrop_path s' = path ∧
        json_dumps (heap s') (airdrop_data s') = Some j ∧
        container_names s' = [] ∧ container_index s' = [] ∧
        current_container_key s' = None ∧
        var_container s' = "Load airdrop file first" ∧
        notices s' = notices s ++ [Notice Info "Loaded"].
Proof.
  intros s path j.
  apply (Select20.load_airdrop_takes_any_tree s path j).
  - by_eval.
  - by_eval.
  - by (intros kvs).
Defined.

(** X30 on the form of [market_edit20]. *)
Lemma market_apply_edit_fields_witness :
  let s : app := market_edit20 in
  let il : nat := 10 in
  let items : list value := [VRef 7; VRef 8; VRef 9] in
  let n : string := "Akm" in
  let i : nat := 1 in
  let r : nat := 8 in
  let rd : list (string * value) := [("ClassName", VStr "AKM"); ("MaxPriceThreshold", VInt 900)] in
  ∃ s' rd',
    market_apply_edit s = Ret tt s' ∧ market_dirty s' = true ∧
    heap s' !! il = Some (OList items) ∧ heap s' !! r = Some (ODict rd') ∧
    dict_get rd' "ClassName" = Some (VStr n) ∧
    dict_get rd' "MinPriceThreshold" = Some (VInt (safe_int (var_m_minp (mvars s)) 5)) ∧
    dict_get rd' "MaxPriceThreshold" = Some (VInt (safe_int (var_m_maxp (mvars s)) 10)) ∧
    dict_get rd' "MinStockThreshold" = Some (VInt (safe_int (var_m_minst (mvars s)) 0)) ∧
    dict_get rd' "MaxStockThreshold" = Some (VInt (safe_int (var_m_maxst (mvars s)) 100)) ∧
    (∀ k v, dict_get rd k = Some v →
            k ∉ ["ClassName"; "MinPriceThreshold"; "MaxPriceThreshold";
                 "MinStockThreshold"; "MaxStockThreshold"] →
            dict_get rd' k = Some v) ∧
    (∀ k, k ∉ ["ClassName"; "MinPriceThreshold"; "MaxPriceThreshold";
               "MinStockThreshold"; "MaxStockThreshold"; "SellPricePercent";
               "QuantityPercent"; "SpawnAttachments"; "Variants"] →
          dict_get rd' k = dict_get rd k).
Proof.
  intros s il items n i r rd.
  apply (MarketRows20.market_apply_edit_fields s il items n i r rd).
  - exists [("m_Version", VInt 3); ("DisplayName", VStr "Ammo"); ("Items", VRef 10)]; split_and!; by_eval.
  - by_eval.
  - by_eval.
  - by_eval.
  - by_eval.
  - by_eval.
Defined.

End MoreChecks20.
